(** * Mesa debug-output core (src/mesalib/src/mesa/main/errors.c)

    A shallow embedding of the GL_KHR_debug / GL_ARB_debug_output state
    machine of Mesa: filter namespaces, copy-on-write debug groups, the
    ring-buffer message log and the dispatch entry points, followed by
    the properties established about them. *)

From Stdlib Require Import ZArith Lia Bool Ascii String.
From stdpp Require Import base option list gmap strings.

Local Open Scope Z_scope.

(** ** Enumerations

    mtypes.h, which declares [enum mesa_debug_source], [enum
    mesa_debug_type] and [enum mesa_debug_severity], is not part of the
    sources at hand.  errors.c indexes its tables [debug_source_enums],
    [debug_type_enums] and [debug_severity_enums] with these enums and
    uses the table sizes as the [_COUNT] wild cards
    ([gl_enum_to_debug_source] returns [Elements(debug_source_enums)] for
    GL_DONT_CARE and [debug_set_message_enable_all] compares it with
    [MESA_DEBUG_SOURCE_COUNT]), so the table positions fix the values.
    As in C, an enum is an integer. *)

Definition MESA_DEBUG_SOURCE_API : Z := 0.
Definition MESA_DEBUG_SOURCE_WINDOW_SYSTEM : Z := 1.
Definition MESA_DEBUG_SOURCE_SHADER_COMPILER : Z := 2.
Definition MESA_DEBUG_SOURCE_THIRD_PARTY : Z := 3.
Definition MESA_DEBUG_SOURCE_APPLICATION : Z := 4.
Definition MESA_DEBUG_SOURCE_OTHER : Z := 5.
Definition MESA_DEBUG_SOURCE_COUNT : Z := 6.

Definition MESA_DEBUG_TYPE_ERROR : Z := 0.
Definition MESA_DEBUG_TYPE_DEPRECATED : Z := 1.
Definition MESA_DEBUG_TYPE_UNDEFINED : Z := 2.
Definition MESA_DEBUG_TYPE_PORTABILITY : Z := 3.
Definition MESA_DEBUG_TYPE_PERFORMANCE : Z := 4.
Definition MESA_DEBUG_TYPE_OTHER : Z := 5.
Definition MESA_DEBUG_TYPE_MARKER : Z := 6.
Definition MESA_DEBUG_TYPE_PUSH_GROUP : Z := 7.
Definition MESA_DEBUG_TYPE_COUNT : Z := 9.

Definition MESA_DEBUG_SEVERITY_LOW : Z := 0.
Definition MESA_DEBUG_SEVERITY_MEDIUM : Z := 1.
Definition MESA_DEBUG_SEVERITY_HIGH : Z := 2.
Definition MESA_DEBUG_SEVERITY_NOTIFICATION : Z := 3.
Definition MESA_DEBUG_SEVERITY_COUNT : Z := 4.

(** The GL enumerants the file switches on, by name; any other value of
    the 32-bit [GLenum] is [GL_enum_other]. *)
Inductive GLenum : Type :=
  | GL_NO_ERROR | GL_INVALID_ENUM | GL_INVALID_VALUE | GL_INVALID_OPERATION
  | GL_STACK_OVERFLOW | GL_STACK_UNDERFLOW | GL_OUT_OF_MEMORY
  | GL_DONT_CARE
  | GL_DEBUG_SOURCE_API | GL_DEBUG_SOURCE_WINDOW_SYSTEM
  | GL_DEBUG_SOURCE_SHADER_COMPILER | GL_DEBUG_SOURCE_THIRD_PARTY
  | GL_DEBUG_SOURCE_APPLICATION | GL_DEBUG_SOURCE_OTHER
  | GL_DEBUG_TYPE_ERROR | GL_DEBUG_TYPE_DEPRECATED_BEHAVIOR
  | GL_DEBUG_TYPE_UNDEFINED_BEHAVIOR | GL_DEBUG_TYPE_PORTABILITY
  | GL_DEBUG_TYPE_PERFORMANCE | GL_DEBUG_TYPE_OTHER | GL_DEBUG_TYPE_MARKER
  | GL_DEBUG_TYPE_PUSH_GROUP | GL_DEBUG_TYPE_POP_GROUP
  | GL_DEBUG_SEVERITY_LOW | GL_DEBUG_SEVERITY_MEDIUM
  | GL_DEBUG_SEVERITY_HIGH | GL_DEBUG_SEVERITY_NOTIFICATION
  | GL_DEBUG_OUTPUT | GL_DEBUG_OUTPUT_SYNCHRONOUS_ARB
  | GL_enum_other (n : Z).

#[global] Instance GLenum_eq_dec : EqDecision GLenum.
Proof. solve_decision. Defined.

(** ** Data model *)

(** A namespace element: one node of the list [Elements].  [ID] is a
    [GLuint], [State] a [GLbitfield] over the severities. *)
Record gl_debug_element : Type := mk_element {
  ID : Z;
  State : Z
}.

(** [Elements] is the [simple_node] list in list order (head first,
    [insert_at_tail] appends). *)
Record gl_debug_namespace : Type := mk_namespace {
  Elements : list gl_debug_element;
  DefaultState : Z
}.

(** [Namespaces[MESA_DEBUG_SOURCE_COUNT][MESA_DEBUG_TYPE_COUNT]]: a list
    of rows, one per source, each a list with one entry per type. *)
Record gl_debug_group : Type := mk_group {
  Namespaces : list (list gl_debug_namespace)
}.

#[global] Instance gl_debug_element_eq_dec : EqDecision gl_debug_element.
Proof. solve_decision. Defined.
#[global] Instance gl_debug_namespace_eq_dec : EqDecision gl_debug_namespace.
Proof. solve_decision. Defined.
#[global] Instance gl_debug_group_eq_dec : EqDecision gl_debug_group.
Proof. solve_decision. Defined.

(** A [char *]: null, the static array [out_of_memory], or a block
    obtained from [malloc] holding [bytes].  A malloc'ed text has a
    single owner throughout errors.c, so the block is kept in the
    pointer. *)
Inductive charptr : Type :=
  | NULL
  | out_of_memory
  | malloced (bytes : list ascii).

#[global] Instance charptr_eq_dec : EqDecision charptr.
Proof. solve_decision. Defined.

(** [struct gl_debug_message]; the fields carry the prefix [msg_]
    because [length], [id] and [type] are taken. *)
Record gl_debug_message : Type := mk_message {
  msg_source : Z;
  msg_type : Z;
  msg_id : Z;
  msg_severity : Z;
  msg_length : Z;
  msg_message : charptr
}.

#[global] Instance gl_debug_message_eq_dec : EqDecision gl_debug_message.
Proof. solve_decision. Defined.

(** [struct gl_debug_log]: [Messages] has MAX_DEBUG_LOGGED_MESSAGES
    slots. *)
Record gl_debug_log : Type := mk_log {
  Messages : list gl_debug_message;
  NextMessage : Z;
  NumMessages : Z
}.

(** [struct gl_debug_state].  [Callback] is a function pointer ([None]
    is NULL, [Some f] names the function), [Groups] holds pointers into
    the heap of groups ([None] is NULL). *)
Record gl_debug_state : Type := mk_state {
  Callback : option Z;
  CallbackData : Z;
  SyncOutput : bool;
  DebugOutput : bool;
  Groups : list (option positive);
  GroupMessages : list gl_debug_message;
  GroupStackDepth : Z;
  Log : gl_debug_log
}.

(** One invocation of the application's [GLDEBUGPROC]: the arguments of
    [debug->Callback(source, type, id, severity, len, buf, userParam)];
    [call_buf] is the memory [buf] points to. *)
Record callback_call : Type := mk_call {
  call_proc : Z;
  call_source : GLenum;
  call_type : GLenum;
  call_id : Z;
  call_severity : GLenum;
  call_len : Z;
  call_buf : list ascii;
  call_data : Z
}.

(** The part of the C process errors.c acts on: its statics, the
    allocator, the malloc'ed debug groups, and the traces of the calls it
    makes to [free] on texts and to the application callback.
    [malloc_results] lists the outcomes of the coming [malloc] calls in
    order ([true]: memory returned); past its end every call succeeds. *)
Record process : Type := mk_process {
  NextDynamicID : Z;
  oom_msg_id : Z;
  error_msg_id : Z;
  malloc_results : list bool;
  group_heap : gmap positive gl_debug_group;
  freed : list charptr;
  callback_calls : list callback_call
}.

(** ** The state monad of the process *)

Definition M (A : Type) : Type := process -> A * process.

Definition ret {A} (a : A) : M A := fun p => (a, p).

Definition bind {A B} (m : M A) (k : A -> M B) : M B :=
  fun p => let r := m p in k (fst r) (snd r).

Notation "x <- m ;; k" := (bind m (fun x => k))
  (at level 100, m at next level, right associativity,
   format "'[v' x  <-  m  ;; '/' k ']'").
Notation "m ;;; k" := (bind m (fun _ => k))
  (at level 100, right associativity).

Definition gets {A} (f : process -> A) : M A := fun p => (f p, p).
Definition modify (f : process -> process) : M unit := fun p => (tt, f p).

Definition set_malloc_results (l : list bool) (p : process) : process :=
  mk_process (NextDynamicID p) (oom_msg_id p) (error_msg_id p) l
             (group_heap p) (freed p) (callback_calls p).
Definition set_group_heap (h : gmap positive gl_debug_group) (p : process)
  : process :=
  mk_process (NextDynamicID p) (oom_msg_id p) (error_msg_id p)
             (malloc_results p) h (freed p) (callback_calls p).
Definition set_freed (l : list charptr) (p : process) : process :=
  mk_process (NextDynamicID p) (oom_msg_id p) (error_msg_id p)
             (malloc_results p) (group_heap p) l (callback_calls p).
Definition set_callback_calls (l : list callback_call) (p : process)
  : process :=
  mk_process (NextDynamicID p) (oom_msg_id p) (error_msg_id p)
             (malloc_results p) (group_heap p) (freed p) l.
Definition set_NextDynamicID (n : Z) (p : process) : process :=
  mk_process n (oom_msg_id p) (error_msg_id p)
             (malloc_results p) (group_heap p) (freed p) (callback_calls p).
Definition set_oom_msg_id (n : Z) (p : process) : process :=
  mk_process (NextDynamicID p) n (error_msg_id p)
             (malloc_results p) (group_heap p) (freed p) (callback_calls p).
Definition set_error_msg_id (n : Z) (p : process) : process :=
  mk_process (NextDynamicID p) (oom_msg_id p) n
             (malloc_results p) (group_heap p) (freed p) (callback_calls p).

(** [malloc]: the next outcome of the allocator. *)
Definition malloc : M bool := fun p =>
  match malloc_results p with
  | [] => (true, p)
  | b :: rest => (b, set_malloc_results rest p)
  end.

(** ** Filter namespaces *)

(** [~x] on a [uint32_t]. *)
Definition not32 (x : Z) : Z := Z.land (Z.lnot x) (Z.ones 32).

(** [(1 << MESA_DEBUG_SEVERITY_COUNT) - 1]. *)
Definition all_severities : Z := Z.shiftl 1 MESA_DEBUG_SEVERITY_COUNT - 1.

Definition debug_namespace_init : gl_debug_namespace :=
  mk_namespace []
    (Z.lor (Z.shiftl 1 MESA_DEBUG_SEVERITY_HIGH)
           (Z.shiftl 1 MESA_DEBUG_SEVERITY_MEDIUM)).

(** The [foreach] search of [debug_namespace_set] and
    [debug_namespace_get]: the position of the first node whose [ID] is
    [id]. *)
Fixpoint find_element (id : Z) (l : list gl_debug_element) : option nat :=
  match l with
  | [] => None
  | e :: l' => if ID e =? id then Some 0%nat else S <$> find_element id l'
  end.

(** [debug_namespace_copy]: [None] when a node allocation fails (the
    nodes copied so far are freed by [debug_namespace_clear]). *)
Fixpoint copy_elements (l : list gl_debug_element)
  : M (option (list gl_debug_element)) :=
  match l with
  | [] => ret (Some [])
  | elem :: l' =>
      copy <- malloc ;;
      if copy then
        r <- copy_elements l' ;;
        ret (cons (mk_element (ID elem) (State elem)) <$> r)
      else ret None
  end.

Definition debug_namespace_copy (src : gl_debug_namespace)
  : M (option gl_debug_namespace) :=
  r <- copy_elements (Elements src) ;;
  ret ((fun l => mk_namespace l (DefaultState src)) <$> r).

(** [debug_namespace_set]: the result flag and the namespace after the
    call. *)
Definition debug_namespace_set (ns : gl_debug_namespace) (id : Z)
    (enabled : bool) : M (bool * gl_debug_namespace) :=
  let state := if enabled then all_severities else 0 in
  let elem := find_element id (Elements ns) in
  if DefaultState ns =? state then
    match elem with
    | Some i => ret (true, mk_namespace (delete i (Elements ns)) (DefaultState ns))
    | None => ret (true, ns)
    end
  else
    match elem with
    | None =>
        e <- malloc ;;
        if e then
          ret (true, mk_namespace (Elements ns ++ [mk_element id state])
                                  (DefaultState ns))
        else ret (false, ns)
    | Some i =>
        ret (true, mk_namespace
                     (alter (fun e => mk_element (ID e) state) i (Elements ns))
                     (DefaultState ns))
    end.

(** The [foreach_s] loop of [debug_namespace_set_all]; [dflt] is the
    already updated [ns->DefaultState]. *)
Fixpoint set_all_elements (mask val dflt : Z) (l : list gl_debug_element)
  : list gl_debug_element :=
  match l with
  | [] => []
  | elem :: l' =>
      let st := Z.lor (Z.land (State elem) (not32 mask)) val in
      if st =? dflt then set_all_elements mask val dflt l'
      else mk_element (ID elem) st :: set_all_elements mask val dflt l'
  end.

Definition debug_namespace_set_all (ns : gl_debug_namespace) (severity : Z)
    (enabled : bool) : gl_debug_namespace :=
  if severity =? MESA_DEBUG_SEVERITY_COUNT then
    mk_namespace [] (if enabled then Z.shiftl 1 severity - 1 else 0)
  else
    let mask := Z.shiftl 1 severity in
    let val := if enabled then mask else 0 in
    let dflt := Z.lor (Z.land (DefaultState ns) (not32 mask)) val in
    mk_namespace (set_all_elements mask val dflt (Elements ns)) dflt.

(** [debug_namespace_get]: the C function returns [state & (1 <<
    severity)] converted to [bool]. *)
Definition debug_namespace_get (ns : gl_debug_namespace) (id : Z)
    (severity : Z) : bool :=
  let state :=
    match find_element id (Elements ns) ≫= (fun i => Elements ns !! i) with
    | Some elem => State elem
    | None => DefaultState ns
    end in
  negb (Z.land state (Z.shiftl 1 severity) =? 0).

(** ** Texts *)

Definition NUL : ascii := Ascii.zero.

(** The memory a [const char *] argument points to is given as the list
    of its bytes; a read past the end of the list reads the terminator. *)
Fixpoint strlen (s : list ascii) : Z :=
  match s with
  | [] => 0
  | c :: s' => if decide (c = NUL) then 0 else 1 + strlen s'
  end.

(** [strncpy(dst, src, n)]: the [n] bytes written to [dst] (the bytes of
    [src] up to its terminator, then padding with null bytes). *)
Fixpoint strncpy (n : nat) (src : list ascii) : list ascii :=
  match n with
  | O => []
  | S n' =>
      match src with
      | [] => replicate n NUL
      | c :: src' =>
          if decide (c = NUL) then replicate n NUL else c :: strncpy n' src'
      end
  end.

(** [static char out_of_memory[] = "Debugging error: out of memory"]. *)
Definition out_of_memory_text : list ascii :=
  list_ascii_of_string "Debugging error: out of memory".

(** The bytes behind a text pointer. *)
Definition text_of (p : charptr) : list ascii :=
  match p with
  | NULL => []
  | out_of_memory => out_of_memory_text ++ [NUL]
  | malloced bytes => bytes
  end.

(** ** Dynamic ids and messages *)

(** [debug_get_id(GLuint *id)]: the argument is the value of [*id], the
    result its value after the call.  [NextDynamicID] is a [GLuint]. *)
Definition debug_get_id (id : Z) : M Z :=
  if id =? 0 then
    n <- gets NextDynamicID ;;
    modify (set_NextDynamicID ((n + 1) mod 2 ^ 32)) ;;;
    ret n
  else ret id.

(** [free] of a text pointer: the call is recorded. *)
Definition free_text (p : charptr) : M unit :=
  modify (fun pr => set_freed (freed pr ++ [p]) pr).

Definition debug_message_clear (msg : gl_debug_message) : M gl_debug_message :=
  (if decide (msg_message msg = out_of_memory) then ret tt
   else free_text (msg_message msg)) ;;;
  ret (mk_message (msg_source msg) (msg_type msg) (msg_id msg)
                  (msg_severity msg) 0 NULL).

(** [debug_message_store]: every field of [*msg] is overwritten, so the
    slot after the call does not depend on the slot before it (which the
    function asserts to be empty). *)
Definition debug_message_store (source type id severity len : Z)
    (buf : list ascii) : M gl_debug_message :=
  m <- malloc ;;
  if m then
    ret (mk_message source type id severity (len + 1)
           (malloced (strncpy (Z.to_nat len) buf ++ [NUL])))
  else
    cur <- gets oom_msg_id ;;
    oom <- debug_get_id cur ;;
    modify (set_oom_msg_id oom) ;;;
    ret (mk_message MESA_DEBUG_SOURCE_OTHER MESA_DEBUG_TYPE_ERROR oom
           MESA_DEBUG_SEVERITY_HIGH (strlen out_of_memory_text + 1)
           out_of_memory).

(** ** Debug groups and the debug state *)

Section Debug.

(** config.h, which defines these limits, is not part of the sources at
    hand; they are parameters of the development. *)
Variable MAX_DEBUG_LOGGED_MESSAGES : Z.
Variable MAX_DEBUG_GROUP_STACK_DEPTH : Z.
Variable MAX_DEBUG_MESSAGE_LENGTH : Z.

(** A [struct gl_debug_message] of zero bytes. *)
Definition zero_message : gl_debug_message := mk_message 0 0 0 0 0 NULL.

(** The malloc'ed block of a group: a pointer not in use is chosen and
    the block holds [grp]. *)
Definition new_group (grp : gl_debug_group) : M positive := fun p =>
  let a := fresh (dom (group_heap p)) in
  (a, set_group_heap (<[a := grp]> (group_heap p)) p).

(** [free] of a group block. *)
Definition free_group (a : positive) : M unit :=
  modify (fun p => set_group_heap (delete a (group_heap p)) p).

(** [grp->Namespaces[s][t]], read and written.  The source keeps [s] and
    [t] inside the array; outside it the read finds nothing and the write
    changes nothing. *)
Definition namespace_at (grp : gl_debug_group) (s t : Z)
  : option gl_debug_namespace :=
  Namespaces grp !! Z.to_nat s ≫= (fun row => row !! Z.to_nat t).

Definition set_namespace_at (grp : gl_debug_group) (s t : Z)
    (ns : gl_debug_namespace) : gl_debug_group :=
  mk_group (alter (fun row => <[Z.to_nat t := ns]> row) (Z.to_nat s)
                  (Namespaces grp)).

(** [debug->Groups[gstack]], dereferenced. *)
Definition group_at (p : process) (debug : gl_debug_state) (gstack : Z)
  : option gl_debug_group :=
  a ← mjoin (Groups debug !! Z.to_nat gstack); group_heap p !! a.

Definition set_Groups (debug : gl_debug_state) (l : list (option positive))
  : gl_debug_state :=
  mk_state (Callback debug) (CallbackData debug) (SyncOutput debug)
           (DebugOutput debug) l (GroupMessages debug)
           (GroupStackDepth debug) (Log debug).
Definition set_GroupMessages (debug : gl_debug_state)
    (l : list gl_debug_message) : gl_debug_state :=
  mk_state (Callback debug) (CallbackData debug) (SyncOutput debug)
           (DebugOutput debug) (Groups debug) l
           (GroupStackDepth debug) (Log debug).
Definition set_GroupStackDepth (debug : gl_debug_state) (d : Z)
  : gl_debug_state :=
  mk_state (Callback debug) (CallbackData debug) (SyncOutput debug)
           (DebugOutput debug) (Groups debug) (GroupMessages debug)
           d (Log debug).
Definition set_Log (debug : gl_debug_state) (l : gl_debug_log)
  : gl_debug_state :=
  mk_state (Callback debug) (CallbackData debug) (SyncOutput debug)
           (DebugOutput debug) (Groups debug) (GroupMessages debug)
           (GroupStackDepth debug) l.

(** [debug_create]: [CALLOC_STRUCT] zeroes the state, then the base group
    is allocated and every namespace initialised. *)
Definition debug_create : M (option gl_debug_state) :=
  debug <- malloc ;;
  if debug then
    grp0 <- malloc ;;
    if grp0 then
      a <- new_group
             (mk_group
                (replicate (Z.to_nat MESA_DEBUG_SOURCE_COUNT)
                   (replicate (Z.to_nat MESA_DEBUG_TYPE_COUNT)
                      debug_namespace_init))) ;;
      ret (Some
             (mk_state None 0 false false
                (<[0%nat := Some a]>
                   (replicate (Z.to_nat MAX_DEBUG_GROUP_STACK_DEPTH) None))
                (replicate (Z.to_nat MAX_DEBUG_GROUP_STACK_DEPTH) zero_message)
                0
                (mk_log (replicate (Z.to_nat MAX_DEBUG_LOGGED_MESSAGES)
                           zero_message) 0 0)))
    else ret None
  else ret None.

(** [debug_is_group_read_only]: pointer comparison of the two top
    slots. *)
Definition debug_is_group_read_only (debug : gl_debug_state) : bool :=
  let gstack := GroupStackDepth debug in
  (0 <? gstack) &&
  bool_decide (Groups debug !! Z.to_nat gstack
               = Groups debug !! Z.to_nat (gstack - 1)).

(** The copy loops of [debug_make_group_writable]: rows and columns in
    index order, stopping at the first namespace whose copy fails (the
    error path then clears what was copied). *)
Fixpoint copy_row (row : list gl_debug_namespace)
  : M (option (list gl_debug_namespace)) :=
  match row with
  | [] => ret (Some [])
  | ns :: row' =>
      c <- debug_namespace_copy ns ;;
      match c with
      | Some ns' => r <- copy_row row' ;; ret (cons ns' <$> r)
      | None => ret None
      end
  end.

Fixpoint copy_rows (rows : list (list gl_debug_namespace))
  : M (option (list (list gl_debug_namespace))) :=
  match rows with
  | [] => ret (Some [])
  | row :: rows' =>
      c <- copy_row row ;;
      match c with
      | Some row' => r <- copy_rows rows' ;; ret (cons row' <$> r)
      | None => ret None
      end
  end.

(** [debug_make_group_writable]: the result flag and the state after the
    call. *)
Definition debug_make_group_writable (debug : gl_debug_state)
  : M (bool * gl_debug_state) :=
  let gstack := GroupStackDepth debug in
  if negb (debug_is_group_read_only debug) then ret (true, debug)
  else
    dst <- malloc ;;
    if dst then
      src <- gets (fun p => group_at p debug gstack) ;;
      c <- copy_rows (from_option Namespaces [] src) ;;
      match c with
      | Some rows =>
          a <- new_group (mk_group rows) ;;
          ret (true, set_Groups debug
                       (<[Z.to_nat gstack := Some a]> (Groups debug)))
      | None => ret (false, debug)
      end
    else ret (false, debug).

(** [debug_clear_group]: the top group is freed unless it is the group of
    the slot below; the slot is set to NULL. *)
Definition debug_clear_group (debug : gl_debug_state) : M gl_debug_state :=
  let gstack := GroupStackDepth debug in
  (if negb (debug_is_group_read_only debug) then
     match mjoin (Groups debug !! Z.to_nat gstack) with
     | Some grp => free_group grp
     | None => ret tt
     end
   else ret tt) ;;;
  ret (set_Groups debug (<[Z.to_nat gstack := None]> (Groups debug))).

(** An update in place of [debug->Groups[gstack]->Namespaces[s][t]]. *)
Definition store_namespace (debug : gl_debug_state) (gstack s t : Z)
    (ns : gl_debug_namespace) : M unit :=
  modify (fun p =>
    match mjoin (Groups debug !! Z.to_nat gstack) with
    | Some a =>
        set_group_heap
          (alter (fun grp => set_namespace_at grp s t ns) a (group_heap p)) p
    | None => p
    end).

Definition load_namespace (debug : gl_debug_state) (gstack s t : Z)
  : M (option gl_debug_namespace) :=
  gets (fun p => grp ← group_at p debug gstack; namespace_at grp s t).

(** [debug_set_message_enable]: the results of
    [debug_make_group_writable] and [debug_namespace_set] are not looked
    at. *)
Definition debug_set_message_enable (debug : gl_debug_state)
    (source type id : Z) (enabled : bool) : M gl_debug_state :=
  let gstack := GroupStackDepth debug in
  w <- debug_make_group_writable debug ;;
  let debug := snd w in
  ns <- load_namespace debug gstack source type ;;
  match ns with
  | Some ns =>
      r <- debug_namespace_set ns id enabled ;;
      store_namespace debug gstack source type (snd r) ;;;
      ret debug
  | None => ret debug
  end.

(** Running a loop body over a list of indices. *)
Fixpoint for_each {A} (l : list A) (body : A -> M unit) : M unit :=
  match l with
  | [] => ret tt
  | x :: l' => body x ;;; for_each l' body
  end.

Definition debug_set_message_enable_all (debug : gl_debug_state)
    (source type severity : Z) (enabled : bool) : M gl_debug_state :=
  let gstack := GroupStackDepth debug in
  let '(source, smax) :=
    if source =? MESA_DEBUG_SOURCE_COUNT then (0, MESA_DEBUG_SOURCE_COUNT)
    else (source, source + 1) in
  let '(type, tmax) :=
    if type =? MESA_DEBUG_TYPE_COUNT then (0, MESA_DEBUG_TYPE_COUNT)
    else (type, type + 1) in
  w <- debug_make_group_writable debug ;;
  let debug := snd w in
  for_each (seqZ source (smax - source)) (fun s =>
    for_each (seqZ type (tmax - type)) (fun t =>
      nspace <- load_namespace debug gstack s t ;;
      match nspace with
      | Some nspace =>
          store_namespace debug gstack s t
            (debug_namespace_set_all nspace severity enabled)
      | None => ret tt
      end)) ;;;
  ret debug.

(** [debug_is_message_enabled]; [p] is the process whose heap holds the
    groups. *)
Definition debug_is_message_enabled (p : process) (debug : gl_debug_state)
    (source type id severity : Z) : bool :=
  let gstack := GroupStackDepth debug in
  if negb (DebugOutput debug) then false
  else
    match grp ← group_at p debug gstack; namespace_at grp source type with
    | Some nspace => debug_namespace_get nspace id severity
    | None => false
    end.

(** ** The message log *)

Definition set_Messages (log : gl_debug_log) (l : list gl_debug_message)
  : gl_debug_log := mk_log l (NextMessage log) (NumMessages log).

(** [debug_log_message]; the source asserts [0 <= len <
    MAX_DEBUG_MESSAGE_LENGTH].  [%] is the C remainder. *)
Definition debug_log_message (debug : gl_debug_state)
    (source type id severity len : Z) (buf : list ascii)
  : M gl_debug_state :=
  let log := Log debug in
  if NumMessages log =? MAX_DEBUG_LOGGED_MESSAGES then ret debug
  else
    let nextEmpty :=
      Z.rem (NextMessage log + NumMessages log) MAX_DEBUG_LOGGED_MESSAGES in
    emptySlot <- debug_message_store source type id severity len buf ;;
    ret (set_Log debug
           (mk_log (<[Z.to_nat nextEmpty := emptySlot]> (Messages log))
                   (NextMessage log) (NumMessages log + 1))).

(** [debug_fetch_message]: [None] is the NULL result. *)
Definition debug_fetch_message (debug : gl_debug_state)
  : option gl_debug_message :=
  let log := Log debug in
  if NumMessages log =? 0 then None
  else Messages log !! Z.to_nat (NextMessage log).

(** The [while (count--)] loop of [debug_delete_messages]. *)
Fixpoint delete_loop (count : nat) (log : gl_debug_log) : M gl_debug_log :=
  match count with
  | O => ret log
  | S count' =>
      let i := Z.to_nat (NextMessage log) in
      match Messages log !! i with
      | Some msg =>
          msg' <- debug_message_clear msg ;;
          delete_loop count'
            (mk_log (<[i := msg']> (Messages log))
                    (Z.rem (NextMessage log + 1) MAX_DEBUG_LOGGED_MESSAGES)
                    (NumMessages log - 1))
      | None => ret log
      end
  end.

(** [debug_delete_messages]; [count] is unsigned. *)
Definition debug_delete_messages (debug : gl_debug_state) (count : Z)
  : M gl_debug_state :=
  let log := Log debug in
  let count := if NumMessages log <? count then NumMessages log else count in
  log' <- delete_loop (Z.to_nat count) log ;;
  ret (set_Log debug log').

(** ** The group stack *)

(** [debug_get_group_message] returns [&debug->GroupMessages[depth]];
    here the slot is read. *)
Definition debug_get_group_message (debug : gl_debug_state)
  : gl_debug_message :=
  default zero_message
    (GroupMessages debug !! Z.to_nat (GroupStackDepth debug)).

Definition debug_push_group (debug : gl_debug_state) : gl_debug_state :=
  let gstack := GroupStackDepth debug in
  set_GroupStackDepth
    (set_Groups debug
       (<[Z.to_nat (gstack + 1) :=
            mjoin (Groups debug !! Z.to_nat gstack)]> (Groups debug)))
    (gstack + 1).

Definition debug_pop_group (debug : gl_debug_state) : M gl_debug_state :=
  debug' <- debug_clear_group debug ;;
  ret (set_GroupStackDepth debug' (GroupStackDepth debug' - 1)).

(** ** The context and the error channel *)

(** The fields of [struct gl_context] (mtypes.h) that errors.c reads and
    writes. *)
Record gl_context : Type := mk_context {
  Debug : option gl_debug_state;
  ErrorValue : GLenum;
  ErrorDebugFmtString : option string;
  ErrorDebugCount : Z
}.

Definition set_Debug (ctx : gl_context) (d : option gl_debug_state)
  : gl_context :=
  mk_context d (ErrorValue ctx) (ErrorDebugFmtString ctx)
             (ErrorDebugCount ctx).

(** An argument of a printf-style call. *)
Inductive fmt_arg : Type :=
  | arg_str (s : string)
  | arg_int (n : Z)
  | arg_enum (e : GLenum).

(** Helpers of other files, taken as parameters: [_mesa_record_error]
    (context.c), the text [_mesa_vsnprintf] formats (imports.c; the
    buffer holds it whenever it is shorter than the buffer), the enum
    names of [_mesa_lookup_enum_by_nr] (enums.c), and the value the
    static [debug] of [should_output] takes from the environment. *)
Variable _mesa_record_error : gl_context -> GLenum -> gl_context.
Variable _mesa_vsnprintf : string -> list fmt_arg -> list ascii.
Variable _mesa_lookup_enum_by_nr : GLenum -> list ascii.
Variable should_output_debug : bool.

Definition debug_source_enums : list GLenum :=
  [GL_DEBUG_SOURCE_API; GL_DEBUG_SOURCE_WINDOW_SYSTEM;
   GL_DEBUG_SOURCE_SHADER_COMPILER; GL_DEBUG_SOURCE_THIRD_PARTY;
   GL_DEBUG_SOURCE_APPLICATION; GL_DEBUG_SOURCE_OTHER].

Definition debug_type_enums : list GLenum :=
  [GL_DEBUG_TYPE_ERROR; GL_DEBUG_TYPE_DEPRECATED_BEHAVIOR;
   GL_DEBUG_TYPE_UNDEFINED_BEHAVIOR; GL_DEBUG_TYPE_PORTABILITY;
   GL_DEBUG_TYPE_PERFORMANCE; GL_DEBUG_TYPE_OTHER; GL_DEBUG_TYPE_MARKER;
   GL_DEBUG_TYPE_PUSH_GROUP; GL_DEBUG_TYPE_POP_GROUP].

Definition debug_severity_enums : list GLenum :=
  [GL_DEBUG_SEVERITY_LOW; GL_DEBUG_SEVERITY_MEDIUM;
   GL_DEBUG_SEVERITY_HIGH; GL_DEBUG_SEVERITY_NOTIFICATION].

(** [table[i]]; the source reads inside the table only. *)
Definition table_at (table : list GLenum) (i : Z) : GLenum :=
  default (GL_enum_other 0) (table !! Z.to_nat i).

(** The search loop shared by [gl_enum_to_debug_source],
    [gl_enum_to_debug_type] and [gl_enum_to_debug_severity]: the first
    position holding [e], or the table size. *)
Fixpoint enum_index (e : GLenum) (table : list GLenum) : Z :=
  match table with
  | [] => 0
  | x :: table' => if decide (x = e) then 0 else 1 + enum_index e table'
  end.

Definition gl_enum_to_debug_source (e : GLenum) : Z :=
  enum_index e debug_source_enums.
Definition gl_enum_to_debug_type (e : GLenum) : Z :=
  enum_index e debug_type_enums.
Definition gl_enum_to_debug_severity (e : GLenum) : Z :=
  enum_index e debug_severity_enums.

(** [should_output]; writing to stderr ([flush_delayed_errors],
    [output_if_debug]) is not modelled, the counters are. *)
Definition should_output (ctx : gl_context) (error : GLenum)
    (fmtString : string) : bool * gl_context :=
  if should_output_debug then
    if negb (bool_decide (ErrorValue ctx = error)) ||
       negb (bool_decide (ErrorDebugFmtString ctx = Some fmtString))
    then (true, mk_context (Debug ctx) (ErrorValue ctx) (Some fmtString) 0)
    else (false, mk_context (Debug ctx) (ErrorValue ctx)
                            (ErrorDebugFmtString ctx)
                            (ErrorDebugCount ctx + 1))
  else (false, ctx).

(** The application callback is invoked: the call is recorded.  (What
    the callback does is the application's business.) *)
Definition invoke_callback (c : callback_call) : M unit :=
  modify (fun p => set_callback_calls (callback_calls p ++ [c]) p).

(** [log_msg] from the point where the debug state is at hand. *)
Definition log_msg_debug (debug : gl_debug_state)
    (source type id severity len : Z) (buf : list ascii)
  : M gl_debug_state :=
  enabled <- gets (fun p =>
               debug_is_message_enabled p debug source type id severity) ;;
  if negb enabled then ret debug
  else
    match Callback debug with
    | Some callback =>
        let gl_type := table_at debug_type_enums type in
        let gl_severity := table_at debug_severity_enums severity in
        invoke_callback
          (mk_call callback (table_at debug_source_enums source) gl_type id
                   gl_severity len buf (CallbackData debug)) ;;;
        ret debug
    | None => debug_log_message debug source type id severity len buf
    end.

(** [_mesa_error].  Its call of [log_msg] happens only when [ctx->Debug]
    is set, where [_mesa_get_debug_state] returns that state at once. *)
Definition _mesa_error (ctx : gl_context) (error : GLenum)
    (fmtString : string) (args : list fmt_arg) : M gl_context :=
  cur <- gets error_msg_id ;;
  id <- debug_get_id cur ;;
  modify (set_error_msg_id id) ;;;
  let so := should_output ctx error fmtString in
  let do_output := fst so in
  let ctx := snd so in
  do_log <- match Debug ctx with
            | Some debug =>
                gets (fun p =>
                  debug_is_message_enabled p debug MESA_DEBUG_SOURCE_API
                    MESA_DEBUG_TYPE_ERROR id MESA_DEBUG_SEVERITY_HIGH)
            | None => ret false
            end ;;
  if do_output || do_log then
    let s := _mesa_vsnprintf fmtString args in
    if MAX_DEBUG_MESSAGE_LENGTH <=? Z.of_nat (length s) then ret ctx
    else
      let s2 := _mesa_lookup_enum_by_nr error
                ++ list_ascii_of_string " in " ++ s in
      let len := Z.of_nat (length s2) in
      if MAX_DEBUG_MESSAGE_LENGTH <=? len then ret ctx
      else
        ctx <- match Debug ctx with
               | Some debug =>
                   if do_log then
                     debug' <- log_msg_debug debug MESA_DEBUG_SOURCE_API
                                 MESA_DEBUG_TYPE_ERROR id
                                 MESA_DEBUG_SEVERITY_HIGH len s2 ;;
                     ret (set_Debug ctx (Some debug'))
                   else ret ctx
               | None => ret ctx
               end ;;
        ret (_mesa_record_error ctx error)
  else ret (_mesa_record_error ctx error).

(** [_mesa_get_debug_state]: the state, created on first use, and the
    context after the call. *)
Definition _mesa_get_debug_state (ctx : gl_context)
  : M (option gl_debug_state * gl_context) :=
  match Debug ctx with
  | Some debug => ret (Some debug, ctx)
  | None =>
      d <- debug_create ;;
      match d with
      | Some debug => ret (Some debug, set_Debug ctx (Some debug))
      | None =>
          ctx' <- _mesa_error ctx GL_OUT_OF_MEMORY
                    "allocating debug state" [] ;;
          ret (None, ctx')
      end
  end.

Definition log_msg (ctx : gl_context) (source type id severity len : Z)
    (buf : list ascii) : M gl_context :=
  r <- _mesa_get_debug_state ctx ;;
  let ctx := snd r in
  match fst r with
  | None => ret ctx
  | Some debug =>
      debug' <- log_msg_debug debug source type id severity len buf ;;
      ret (set_Debug ctx (Some debug'))
  end.

Definition validate_length (ctx : gl_context) (callerstr : string)
    (len : Z) : M (bool * gl_context) :=
  if MAX_DEBUG_MESSAGE_LENGTH <=? len then
    ctx' <- _mesa_error ctx GL_INVALID_VALUE
              "%s(length=%d, which is not less than GL_MAX_DEBUG_MESSAGE_LENGTH=%d)"
              [arg_str callerstr; arg_int len;
               arg_int MAX_DEBUG_MESSAGE_LENGTH] ;;
    ret (false, ctx')
  else ret (true, ctx).

(** ** Entry points *)

(** The output arrays of [glGetDebugMessageLog]: [None] is a NULL
    pointer, [Some l] an array into which [l] has been written. *)
Record log_arrays : Type := mk_arrays {
  sources : option (list GLenum);
  types : option (list GLenum);
  ids : option (list Z);
  severities : option (list GLenum);
  lengths : option (list Z);
  messageLog : option (list ascii)
}.

(** [*p++ = x] when [p] is not NULL. *)
Definition write {A} (p : option (list A)) (x : A) : option (list A) :=
  (fun l => l ++ [x]) <$> p.

(** The [for (ret = 0; ret < count; ret++)] loop of
    [_mesa_GetDebugMessageLog]; [n] counts the iterations left. *)
Fixpoint get_log_loop (n : nat) (retv logSize : Z) (out : log_arrays)
    (debug : gl_debug_state) : M (Z * log_arrays * gl_debug_state) :=
  match n with
  | O => ret (retv, out, debug)
  | S n' =>
      match debug_fetch_message debug with
      | None => ret (retv, out, debug)
      | Some msg =>
          if (logSize <? msg_length msg) && bool_decide (messageLog out ≠ None)
          then ret (retv, out, debug)
          else
            let '(log', logSize') :=
              match messageLog out with
              | Some l =>
                  (Some (l ++ strncpy (Z.to_nat (msg_length msg))
                                      (text_of (msg_message msg))),
                   logSize - msg_length msg)
              | None => (None, logSize)
              end in
            let out' :=
              mk_arrays
                (write (sources out)
                       (table_at debug_source_enums (msg_source msg)))
                (write (types out)
                       (table_at debug_type_enums (msg_type msg)))
                (write (ids out) (msg_id msg))
                (write (severities out)
                       (table_at debug_severity_enums (msg_severity msg)))
                (write (lengths out) (msg_length msg))
                log' in
            debug' <- debug_delete_messages debug 1 ;;
            get_log_loop n' (retv + 1) logSize' out' debug'
      end
  end.

(** [_mesa_GetDebugMessageLog]: the return value, the arrays and the
    context after the call.  [count] is a [GLuint]. *)
Definition _mesa_GetDebugMessageLog (ctx : gl_context) (count logSize : Z)
    (out : log_arrays) : M (Z * log_arrays * gl_context) :=
  let logSize := if bool_decide (messageLog out = None) then 0 else logSize in
  if logSize <? 0 then
    ctx' <- _mesa_error ctx GL_INVALID_VALUE
              "glGetDebugMessageLog(logSize=%d : logSize must not be negative)"
              [arg_int logSize] ;;
    ret (0, out, ctx')
  else
    r <- _mesa_get_debug_state ctx ;;
    let ctx := snd r in
    match fst r with
    | None => ret (0, out, ctx)
    | Some debug =>
        l <- get_log_loop (Z.to_nat count) 0 logSize out debug ;;
        let '(retv, out', debug') := l in
        ret (retv, out', set_Debug ctx (Some debug'))
    end.

(** [_mesa_set_debug_state_int]: the result flag and the context after
    the call. *)
Definition _mesa_set_debug_state_int (ctx : gl_context) (pname : GLenum)
    (val : Z) : M (bool * gl_context) :=
  r <- _mesa_get_debug_state ctx ;;
  let ctx := snd r in
  match fst r with
  | None => ret (false, ctx)
  | Some debug =>
      let debug' :=
        match pname with
        | GL_DEBUG_OUTPUT =>
            mk_state (Callback debug) (CallbackData debug) (SyncOutput debug)
                     (negb (val =? 0)) (Groups debug) (GroupMessages debug)
                     (GroupStackDepth debug) (Log debug)
        | GL_DEBUG_OUTPUT_SYNCHRONOUS_ARB =>
            mk_state (Callback debug) (CallbackData debug) (negb (val =? 0))
                     (DebugOutput debug) (Groups debug) (GroupMessages debug)
                     (GroupStackDepth debug) (Log debug)
        | _ => debug
        end in
      ret (true, set_Debug ctx (Some debug'))
  end.

Definition _mesa_DebugMessageCallback (ctx : gl_context)
    (callback : option Z) (userParam : Z) : M gl_context :=
  r <- _mesa_get_debug_state ctx ;;
  let ctx := snd r in
  match fst r with
  | Some debug =>
      ret (set_Debug ctx
             (Some (mk_state callback userParam (SyncOutput debug)
                      (DebugOutput debug) (Groups debug)
                      (GroupMessages debug) (GroupStackDepth debug)
                      (Log debug))))
  | None => ret ctx
  end.

(** [_mesa_PushDebugGroup].  [debug] points to [ctx->Debug], so after
    [log_msg] the state is read from the context again. *)
Definition _mesa_PushDebugGroup (ctx : gl_context) (source : GLenum)
    (id length : Z) (message : list ascii) : M gl_context :=
  let callerstr := "glPushDebugGroup"%string in
  r <- _mesa_get_debug_state ctx ;;
  let ctx := snd r in
  match fst r with
  | None => ret ctx
  | Some debug =>
      if MAX_DEBUG_GROUP_STACK_DEPTH - 1 <=? GroupStackDepth debug then
        _mesa_error ctx GL_STACK_OVERFLOW "%s" [arg_str callerstr]
      else
        match source with
        | GL_DEBUG_SOURCE_APPLICATION | GL_DEBUG_SOURCE_THIRD_PARTY =>
            let length := if length <? 0 then strlen message else length in
            v <- validate_length ctx callerstr length ;;
            let ctx := snd v in
            if negb (fst v) then ret ctx
            else
              ctx <- log_msg ctx (gl_enum_to_debug_source source)
                       MESA_DEBUG_TYPE_PUSH_GROUP id
                       MESA_DEBUG_SEVERITY_NOTIFICATION length message ;;
              match Debug ctx with
              | None => ret ctx
              | Some debug =>
                  emptySlot <- debug_message_store
                                 (gl_enum_to_debug_source source)
                                 (gl_enum_to_debug_type GL_DEBUG_TYPE_PUSH_GROUP)
                                 id
                                 (gl_enum_to_debug_severity
                                    GL_DEBUG_SEVERITY_NOTIFICATION)
                                 length message ;;
                  let debug :=
                    set_GroupMessages debug
                      (<[Z.to_nat (GroupStackDepth debug) := emptySlot]>
                         (GroupMessages debug)) in
                  ret (set_Debug ctx (Some (debug_push_group debug)))
              end
        | _ =>
            _mesa_error ctx GL_INVALID_ENUM
              "bad value passed to %s(source=0x%x)"
              [arg_str callerstr; arg_enum source]
        end
  end.

(** [_mesa_PopDebugGroup]. *)
Definition _mesa_PopDebugGroup (ctx : gl_context) : M gl_context :=
  let callerstr := "glPopDebugGroup"%string in
  r <- _mesa_get_debug_state ctx ;;
  let ctx := snd r in
  match fst r with
  | None => ret ctx
  | Some debug =>
      if GroupStackDepth debug <=? 0 then
        _mesa_error ctx GL_STACK_UNDERFLOW "%s" [arg_str callerstr]
      else
        debug <- debug_pop_group debug ;;
        let ctx := set_Debug ctx (Some debug) in
        let gdmessage := debug_get_group_message debug in
        ctx <- log_msg ctx (msg_source gdmessage)
                 (gl_enum_to_debug_type GL_DEBUG_TYPE_POP_GROUP)
                 (msg_id gdmessage)
                 (gl_enum_to_debug_severity GL_DEBUG_SEVERITY_NOTIFICATION)
                 (msg_length gdmessage) (text_of (msg_message gdmessage)) ;;
        match Debug ctx with
        | None => ret ctx
        | Some debug =>
            cleared <- debug_message_clear (debug_get_group_message debug) ;;
            ret (set_Debug ctx
                   (Some (set_GroupMessages debug
                            (<[Z.to_nat (GroupStackDepth debug) := cleared]>
                               (GroupMessages debug)))))
        end
  end.

(** ** Histories of a filter namespace *)

(** The operations a namespace goes through. *)
Inductive ns_op : Type :=
  | op_set (id : Z) (enabled : bool)
  | op_set_all (severity : Z) (enabled : bool)
  | op_copy.

(** One operation.  A failed [debug_namespace_set] leaves the namespace
    as it was; [op_copy] continues with the copy when there is one. *)
Definition apply_op (op : ns_op) (ns : gl_debug_namespace)
  : M gl_debug_namespace :=
  match op with
  | op_set id enabled => r <- debug_namespace_set ns id enabled ;; ret (snd r)
  | op_set_all severity enabled =>
      ret (debug_namespace_set_all ns severity enabled)
  | op_copy => c <- debug_namespace_copy ns ;; ret (default ns c)
  end.

Fixpoint run_ops (ops : list ns_op) (ns : gl_debug_namespace)
  : M gl_debug_namespace :=
  match ops with
  | [] => ret ns
  | op :: ops' => ns' <- apply_op op ns ;; run_ops ops' ns'
  end.

(** No override equals the default mask. *)
Definition no_default_override (ns : gl_debug_namespace) : Prop :=
  Forall (fun e => State e ≠ DefaultState ns) (Elements ns).

(** The ids of the overrides are pairwise different and each was handed
    to [debug_namespace_set] at some point. *)
Definition ids_from (ops : list ns_op) (ns : gl_debug_namespace) : Prop :=
  NoDup (ID <$> Elements ns) /\
  forall id, id ∈ (ID <$> Elements ns) -> exists enabled, op_set id enabled ∈ ops.

(** ** The log as a queue *)

(** The shape [struct gl_debug_log] keeps: all slots present, the head
    inside the array, the count between 0 and the capacity. *)
Definition log_wf (log : gl_debug_log) : Prop :=
  0 < MAX_DEBUG_LOGGED_MESSAGES /\
  Z.of_nat (length (Messages log)) = MAX_DEBUG_LOGGED_MESSAGES /\
  0 <= NextMessage log < MAX_DEBUG_LOGGED_MESSAGES /\
  0 <= NumMessages log <= MAX_DEBUG_LOGGED_MESSAGES.

(** The [i]-th oldest message of the log. *)
Definition queued_at (log : gl_debug_log) (i : Z) : gl_debug_message :=
  default zero_message
    (Messages log
       !! Z.to_nat ((NextMessage log + i) mod MAX_DEBUG_LOGGED_MESSAGES)).

(** The buffered messages, oldest first. *)
Definition log_contents (log : gl_debug_log) : list gl_debug_message :=
  queued_at log <$> seqZ 0 (NumMessages log).

(** A message handed to [log_msg]. *)
Record submission : Type := mk_submission {
  sub_source : Z;
  sub_type : Z;
  sub_id : Z;
  sub_severity : Z;
  sub_len : Z;
  sub_buf : list ascii
}.

(** A producer submitting messages one after the other. *)
Fixpoint log_all (subs : list submission) (ctx : gl_context) : M gl_context :=
  match subs with
  | [] => ret ctx
  | s :: subs' =>
      ctx' <- log_msg ctx (sub_source s) (sub_type s) (sub_id s)
                (sub_severity s) (sub_len s) (sub_buf s) ;;
      log_all subs' ctx'
  end.

(** A consumer taking up to [n] messages: [debug_fetch_message], then
    [debug_delete_messages] of one message, until the log is empty. *)
Fixpoint drain (n : nat) (debug : gl_debug_state)
  : M (list gl_debug_message * gl_debug_state) :=
  match n with
  | O => ret ([], debug)
  | S n' =>
      match debug_fetch_message debug with
      | None => ret ([], debug)
      | Some msg =>
          debug' <- debug_delete_messages debug 1 ;;
          r <- drain n' debug' ;;
          ret (msg :: fst r, snd r)
      end
  end.

(** The message the log holds for a submission: its private copy, or
    the out-of-memory message. *)
Definition stored_as (s : submission) (msg : gl_debug_message) : Prop :=
  msg = mk_message (sub_source s) (sub_type s) (sub_id s) (sub_severity s)
          (sub_len s + 1)
          (malloced (strncpy (Z.to_nat (sub_len s)) (sub_buf s) ++ [NUL]))
  \/ exists oom,
       msg = mk_message MESA_DEBUG_SOURCE_OTHER MESA_DEBUG_TYPE_ERROR oom
               MESA_DEBUG_SEVERITY_HIGH 31 out_of_memory.

Definition sub_enabled (p : process) (debug : gl_debug_state)
    (s : submission) : Prop :=
  debug_is_message_enabled p debug (sub_source s) (sub_type s) (sub_id s)
    (sub_severity s) = true.

(** ** What a call of glGetDebugMessageLog takes *)

(** The longest run of oldest messages a call may take: at most [n],
    and, when a text buffer is given ([text]), each fitting into what is
    left of [logSize] after its predecessors. *)
Fixpoint fitting (n : nat) (text : bool) (logSize : Z)
    (msgs : list gl_debug_message) : list gl_debug_message :=
  match n, msgs with
  | S n', msg :: msgs' =>
      if (logSize <? msg_length msg) && text then []
      else msg :: fitting n' text
                    (if text then logSize - msg_length msg else logSize) msgs'
  | _, _ => []
  end.

Definition sum_lengths (msgs : list gl_debug_message) : Z :=
  foldr (fun msg acc => msg_length msg + acc) 0 msgs.

(** The bytes copied to [messageLog] for one message. *)
Definition copied_text (msg : gl_debug_message) : list ascii :=
  strncpy (Z.to_nat (msg_length msg)) (text_of (msg_message msg)).

Definition append {A} (p : option (list A)) (xs : list A) : option (list A) :=
  (fun l => l ++ xs) <$> p.

(** The output arrays once the messages [taken] have been written to
    them, one after the other. *)
Definition written (out : log_arrays) (taken : list gl_debug_message)
  : log_arrays :=
  mk_arrays
    (append (sources out)
       ((fun m => table_at debug_source_enums (msg_source m)) <$> taken))
    (append (types out)
       ((fun m => table_at debug_type_enums (msg_type m)) <$> taken))
    (append (ids out) (msg_id <$> taken))
    (append (severities out)
       ((fun m => table_at debug_severity_enums (msg_severity m)) <$> taken))
    (append (lengths out) (msg_length <$> taken))
    (append (messageLog out) (taken ≫= copied_text)).

(** The process [q'] differs from [q] in the record of [free] calls
    only. *)
Definition only_freed (q q' : process) : Prop := q' = set_freed (freed q') q.

(** ** A sample context

    The limits as Mesa's config.h has them (10 logged messages, 64
    stack slots, texts below 4096 bytes) are used for the runs on
    concrete inputs.  [sample_debug] is the state [debug_create] builds
    for these limits, with GL_DEBUG_OUTPUT enabled; its base group is the
    block at address 1. *)
Definition sample_group : gl_debug_group :=
  mk_group (replicate 6 (replicate 9 debug_namespace_init)).

Definition sample_debug : gl_debug_state :=
  mk_state None 0 false true
    (<[0%nat := Some 1%positive]> (replicate 64 None))
    (replicate 64 zero_message) 0
    (mk_log (replicate 10 zero_message) 0 0).

Definition sample_process : process :=
  mk_process 1 0 0 [] {[1%positive := sample_group]} [] [].

Definition sample_ctx : gl_context :=
  mk_context (Some sample_debug) GL_NO_ERROR None 0.

(** Stand-ins for the helpers of other files: the first error is kept
    (as [glGetError] reports it), the text is the format string. *)
Definition sample_record_error (ctx : gl_context) (error : GLenum)
  : gl_context :=
  mk_context (Debug ctx)
    (if decide (ErrorValue ctx = GL_NO_ERROR) then error else ErrorValue ctx)
    (ErrorDebugFmtString ctx) (ErrorDebugCount ctx).

Definition sample_vsnprintf (fmtString : string) (args : list fmt_arg)
  : list ascii := list_ascii_of_string fmtString.

Definition sample_lookup_enum (e : GLenum) : list ascii :=
  list_ascii_of_string "GL_ERROR".

(** The namespace of [(source, type)] in the group the stack slot
    [depth] points to. *)
Definition namespace_of (p : process) (debug : gl_debug_state)
    (depth source type : Z) : option gl_debug_namespace :=
  grp ← group_at p debug depth; namespace_at grp source type.

(** ** Push and pop of a debug group *)

(** The sources glPushDebugGroup accepts. *)
Definition scoping_source (source : GLenum) : Prop :=
  source = GL_DEBUG_SOURCE_APPLICATION \/ source = GL_DEBUG_SOURCE_THIRD_PARTY.

(** The text of a C string: the bytes before the first null byte. *)
Fixpoint c_string (s : list ascii) : list ascii :=
  match s with
  | [] => []
  | c :: s' => if decide (c = NUL) then [] else c :: c_string s'
  end.


(** Eleven enabled messages (source API, type ERROR, severity HIGH),
    numbered 1 to 11 by their ids. *)
Definition sample_submission (i : Z) : submission :=
  mk_submission MESA_DEBUG_SOURCE_API MESA_DEBUG_TYPE_ERROR i
    MESA_DEBUG_SEVERITY_HIGH 2 (list_ascii_of_string "hi").

Definition sample_submissions : list submission :=
  sample_submission <$> seqZ 1 11.

(** Output arrays: all given and empty, and the same without a text
    buffer. *)
Definition empty_arrays : log_arrays :=
  mk_arrays (Some []) (Some []) (Some []) (Some []) (Some []) (Some []).

Definition arrays_without_text : log_arrays :=
  mk_arrays (Some []) (Some []) (Some []) (Some []) (Some []) None.

(** An enabled message with id [i] whose text has [len] bytes. *)
Definition sized_submission (i len : Z) : submission :=
  mk_submission MESA_DEBUG_SOURCE_API MESA_DEBUG_TYPE_ERROR i
    MESA_DEBUG_SEVERITY_HIGH len (replicate (Z.to_nat len) "x"%char).

(** The text of the scope used in the runs of push and pop. *)
Definition scope_A : list ascii := list_ascii_of_string "scope-A".

(** ** More entry points *)

(** The [caller] values of [validate_params]. *)
Definition INSERT : Z := 1.
Definition CONTROL : Z := 2.

(** The three [switch] statements of [validate_params]: whether the
    value passes for [caller].  The [_ARB] enumerants of the switches
    have the values of the enumerants without the suffix (the file maps
    what it validates here through the tables of the unsuffixed names),
    so they are the same constructors. *)
Definition source_ok (caller : Z) (source : GLenum) : bool :=
  match source with
  | GL_DEBUG_SOURCE_APPLICATION | GL_DEBUG_SOURCE_THIRD_PARTY => true
  | GL_DEBUG_SOURCE_API | GL_DEBUG_SOURCE_SHADER_COMPILER
  | GL_DEBUG_SOURCE_WINDOW_SYSTEM | GL_DEBUG_SOURCE_OTHER =>
      negb (caller =? INSERT)
  | GL_DONT_CARE => caller =? CONTROL
  | _ => false
  end.

Definition type_ok (caller : Z) (type : GLenum) : bool :=
  match type with
  | GL_DEBUG_TYPE_ERROR | GL_DEBUG_TYPE_DEPRECATED_BEHAVIOR
  | GL_DEBUG_TYPE_UNDEFINED_BEHAVIOR | GL_DEBUG_TYPE_PERFORMANCE
  | GL_DEBUG_TYPE_PORTABILITY | GL_DEBUG_TYPE_OTHER
  | GL_DEBUG_TYPE_MARKER => true
  | GL_DEBUG_TYPE_PUSH_GROUP | GL_DEBUG_TYPE_POP_GROUP | GL_DONT_CARE =>
      caller =? CONTROL
  | _ => false
  end.

Definition severity_ok (caller : Z) (severity : GLenum) : bool :=
  match severity with
  | GL_DEBUG_SEVERITY_HIGH | GL_DEBUG_SEVERITY_MEDIUM
  | GL_DEBUG_SEVERITY_LOW | GL_DEBUG_SEVERITY_NOTIFICATION => true
  | GL_DONT_CARE => caller =? CONTROL
  | _ => false
  end.

(** [validate_params]: the first value that does not pass leads to the
    [error] label. *)
Definition validate_params (ctx : gl_context) (caller : Z)
    (callerstr : string) (source type severity : GLenum)
  : M (bool * gl_context) :=
  if source_ok caller source && type_ok caller type
     && severity_ok caller severity
  then ret (true, ctx)
  else
    ctx' <- _mesa_error ctx GL_INVALID_ENUM
              "bad values passed to %s(source=0x%x, type=0x%x, severity=0x%x)"
              [arg_str callerstr; arg_enum source; arg_enum type;
               arg_enum severity] ;;
    ret (false, ctx').

(** [_mesa_DebugMessageInsert]. *)
Definition _mesa_DebugMessageInsert (ctx : gl_context)
    (source type : GLenum) (id : Z) (severity : GLenum) (length : Z)
    (buf : list ascii) : M gl_context :=
  let callerstr := "glDebugMessageInsert"%string in
  v <- validate_params ctx INSERT callerstr source type severity ;;
  let ctx := snd v in
  if negb (fst v) then ret ctx
  else
    let length := if length <? 0 then strlen buf else length in
    l <- validate_length ctx callerstr length ;;
    let ctx := snd l in
    if negb (fst l) then ret ctx
    else
      log_msg ctx (gl_enum_to_debug_source source)
        (gl_enum_to_debug_type type) id
        (gl_enum_to_debug_severity severity) length buf.

(** The [for (i = 0; i < count; i++)] loop of
    [_mesa_DebugMessageControl] over the ids it reads. *)
Fixpoint enable_ids (debug : gl_debug_state) (source type : Z)
    (ids : list Z) (enabled : bool) : M gl_debug_state :=
  match ids with
  | [] => ret debug
  | id :: ids' =>
      debug' <- debug_set_message_enable debug source type id enabled ;;
      enable_ids debug' source type ids' enabled
  end.

(** [_mesa_DebugMessageControl]; [ids] is the array, of which the first
    [count] entries are read. *)
Definition _mesa_DebugMessageControl (ctx : gl_context)
    (gl_source gl_type gl_severity : GLenum) (count : Z) (ids : list Z)
    (enabled : bool) : M gl_context :=
  let source := gl_enum_to_debug_source gl_source in
  let type := gl_enum_to_debug_type gl_type in
  let severity := gl_enum_to_debug_severity gl_severity in
  let callerstr := "glDebugMessageControl"%string in
  if count <? 0 then
    _mesa_error ctx GL_INVALID_VALUE
      "%s(count=%d : count must not be negative)"
      [arg_str callerstr; arg_int count]
  else
    v <- validate_params ctx CONTROL callerstr gl_source gl_type gl_severity ;;
    let ctx := snd v in
    if negb (fst v) then ret ctx
    else if negb (count =? 0) &&
            (negb (bool_decide (gl_severity = GL_DONT_CARE)) ||
             bool_decide (gl_type = GL_DONT_CARE) ||
             bool_decide (gl_source = GL_DONT_CARE))
    then
      _mesa_error ctx GL_INVALID_OPERATION
        "%s(When passing an array of ids, severity must be GL_DONT_CARE, and source and type must not be GL_DONT_CARE."
        [arg_str callerstr]
    else
      r <- _mesa_get_debug_state ctx ;;
      let ctx := snd r in
      match fst r with
      | None => ret ctx
      | Some debug =>
          debug' <- (if negb (count =? 0) then
                       enable_ids debug source type
                         (take (Z.to_nat count) ids) enabled
                     else
                       debug_set_message_enable_all debug source type
                         severity enabled) ;;
          ret (set_Debug ctx (Some debug'))
      end.

(** The [while (debug->GroupStackDepth > 0)] loop of [debug_destroy];
    [n] bounds the iterations. *)
Fixpoint destroy_loop (n : nat) (debug : gl_debug_state) : M gl_debug_state :=
  match n with
  | O => ret debug
  | S n' =>
      if 0 <? GroupStackDepth debug then
        debug' <- debug_clear_group debug ;;
        destroy_loop n'
          (set_GroupStackDepth debug' (GroupStackDepth debug' - 1))
      else ret debug
  end.

(** [debug_destroy]: the groups are torn down from the top; the state
    itself is freed last and is gone after the call. *)
Definition debug_destroy (debug : gl_debug_state) : M unit :=
  debug' <- destroy_loop (Z.to_nat (GroupStackDepth debug)) debug ;;
  debug_clear_group debug' ;;;
  ret tt.

Definition _mesa_free_errors_data (ctx : gl_context) : M gl_context :=
  match Debug ctx with
  | Some debug => debug_destroy debug ;;; ret (set_Debug ctx None)
  | None => ret ctx
  end.

(** The [pname] values of the queries that have no constructor of their
    own, with their values in the OpenGL registry. *)
Definition GL_DEBUG_NEXT_LOGGED_MESSAGE_LENGTH : GLenum := GL_enum_other 0x8243.
Definition GL_DEBUG_GROUP_STACK_DEPTH : GLenum := GL_enum_other 0x826D.
Definition GL_DEBUG_LOGGED_MESSAGES : GLenum := GL_enum_other 0x9145.

(** [_mesa_get_debug_state_int]. *)
Definition _mesa_get_debug_state_int (ctx : gl_context) (pname : GLenum) : Z :=
  match Debug ctx with
  | None => 0
  | Some debug =>
      if decide (pname = GL_DEBUG_OUTPUT) then
        if DebugOutput debug then 1 else 0
      else if decide (pname = GL_DEBUG_OUTPUT_SYNCHRONOUS_ARB) then
        if SyncOutput debug then 1 else 0
      else if decide (pname = GL_DEBUG_LOGGED_MESSAGES) then
        NumMessages (Log debug)
      else if decide (pname = GL_DEBUG_NEXT_LOGGED_MESSAGE_LENGTH) then
        if NumMessages (Log debug) =? 0 then 0
        else msg_length
               (default zero_message
                  (Messages (Log debug) !! Z.to_nat (NextMessage (Log debug))))
      else if decide (pname = GL_DEBUG_GROUP_STACK_DEPTH) then
        GroupStackDepth debug
      else 0
  end.


(** [_mesa_shader_debug]: the value of [*id] after the call and the
    context.  [type] goes to [log_msg] as it is. *)
Definition _mesa_shader_debug (ctx : gl_context) (type id : Z)
    (msg : list ascii) (len : Z) : M (Z * gl_context) :=
  let source := MESA_DEBUG_SOURCE_SHADER_COMPILER in
  let severity := MESA_DEBUG_SEVERITY_HIGH in
  id' <- debug_get_id id ;;
  let len := if len <? 0 then strlen msg else len in
  let len := if MAX_DEBUG_MESSAGE_LENGTH <=? len
             then MAX_DEBUG_MESSAGE_LENGTH - 1 else len in
  ctx' <- log_msg ctx source type id' severity len msg ;;
  ret (id', ctx').

(** [_mesa_gl_debug]: the value of [*id] after the call and the
    context.  The buffer [s] holds the formatted text cut to its size;
    [len] is what [_mesa_vsnprintf] returns, the length of the whole
    text. *)
Definition _mesa_gl_debug (ctx : gl_context) (id type severity : Z)
    (fmtString : string) (args : list fmt_arg) : M (Z * gl_context) :=
  id' <- debug_get_id id ;;
  let text := _mesa_vsnprintf fmtString args in
  let s := take (Z.to_nat (MAX_DEBUG_MESSAGE_LENGTH - 1)) text in
  let len := Z.of_nat (length text) in
  ctx' <- log_msg ctx MESA_DEBUG_SOURCE_API type id' severity len s ;;
  ret (id', ctx').

(** The element the search of [debug_namespace_set] and
    [debug_namespace_get] stops at. *)
Definition found (id : Z) (l : list gl_debug_element)
  : option gl_debug_element :=
  find_element id l ≫= (fun i => l !! i).

(** ** The shape of a reachable state *)

(** A group has one row per source and one namespace per type. *)
Definition group_shape (grp : gl_debug_group) : Prop :=
  Z.of_nat (length (Namespaces grp)) = MESA_DEBUG_SOURCE_COUNT /\
  Forall (fun row => Z.of_nat (length row) = MESA_DEBUG_TYPE_COUNT)
         (Namespaces grp).

(** The group stack over the heap [h]: the depth lies within the
    stack; every slot up to the depth points to an allocated group of
    the right shape; the slots above the depth are NULL; and slots that
    share a group are neighbours (a group is shared by a run of
    consecutive slots only). *)
Definition stack_ok (h : gmap positive gl_debug_group)
    (groups : list (option positive)) (depth : Z) : Prop :=
  0 <= depth < Z.of_nat (length groups) /\
  (forall i, (i <= Z.to_nat depth)%nat ->
     exists a grp, groups !! i = Some (Some a) /\ h !! a = Some grp /\
                   group_shape grp) /\
  (forall i, (Z.to_nat depth < i)%nat -> (i < length groups)%nat ->
     groups !! i = Some None) /\
  (forall i j k, (i <= k)%nat -> (k <= j)%nat -> (j <= Z.to_nat depth)%nat ->
     groups !! i = groups !! j -> groups !! k = groups !! i).

(** A message slot as [debug_message_clear] leaves it and as
    [debug_message_store] asserts to find it. *)
Definition empty_slot (msg : gl_debug_message) : Prop :=
  msg_message msg = NULL /\ msg_length msg = 0.

(** The slots of the log outside the queue are empty. *)
Definition free_slots_empty (log : gl_debug_log) : Prop :=
  forall k, NumMessages log <= k < MAX_DEBUG_LOGGED_MESSAGES ->
    empty_slot (queued_at log k).

Definition log_ok (log : gl_debug_log) : Prop :=
  log_wf log /\ free_slots_empty log.

(** The pending group messages from the depth upward are empty. *)
Definition pending_empty (debug : gl_debug_state) : Prop :=
  forall i msg, (Z.to_nat (GroupStackDepth debug) <= i)%nat ->
    GroupMessages debug !! i = Some msg -> empty_slot msg.

(** The debug state in the process [p], as it is between the steps of
    an entry point. *)
Definition debug_ok (p : process) (debug : gl_debug_state) : Prop :=
  log_ok (Log debug) /\
  Z.of_nat (length (Groups debug)) = MAX_DEBUG_GROUP_STACK_DEPTH /\
  Z.of_nat (length (GroupMessages debug)) = MAX_DEBUG_GROUP_STACK_DEPTH /\
  stack_ok (group_heap p) (Groups debug) (GroupStackDepth debug).

(** The debug state between two calls. *)
Definition debug_inv (p : process) (debug : gl_debug_state) : Prop :=
  debug_ok p debug /\ pending_empty debug.

Definition ctx_ok (p : process) (ctx : gl_context) : Prop :=
  match Debug ctx with
  | Some debug => debug_inv p debug
  | None => True
  end.

(** What errors.c relies on of [_mesa_record_error] (context.c): it
    leaves [ctx->Debug] alone. *)
Definition record_error_keeps_debug : Prop :=
  forall ctx error, Debug (_mesa_record_error ctx error) = Debug ctx.

(** The calls an application and the driver make. *)
Inductive api_call : Type :=
  | call_DebugMessageInsert (source type : GLenum) (id : Z)
      (severity : GLenum) (length : Z) (buf : list ascii)
  | call_GetDebugMessageLog (count logSize : Z) (out : log_arrays)
  | call_DebugMessageControl (gl_source gl_type gl_severity : GLenum)
      (count : Z) (ids : list Z) (enabled : bool)
  | call_DebugMessageCallback (callback : option Z) (userParam : Z)
  | call_PushDebugGroup (source : GLenum) (id length : Z)
      (message : list ascii)
  | call_PopDebugGroup
  | call_set_debug_state_int (pname : GLenum) (val : Z)
  | call_error (error : GLenum) (fmtString : string) (args : list fmt_arg)
  | call_shader_debug (type id : Z) (msg : list ascii) (len : Z)
  | call_gl_debug (id type severity : Z) (fmtString : string)
      (args : list fmt_arg).

(** One call on the context; what the call returns is dropped. *)
Definition run_call (c : api_call) (ctx : gl_context) : M gl_context :=
  match c with
  | call_DebugMessageInsert source type id severity length buf =>
      _mesa_DebugMessageInsert ctx source type id severity length buf
  | call_GetDebugMessageLog count logSize out =>
      r <- _mesa_GetDebugMessageLog ctx count logSize out ;; ret (snd r)
  | call_DebugMessageControl gl_source gl_type gl_severity count ids enabled =>
      _mesa_DebugMessageControl ctx gl_source gl_type gl_severity count ids
        enabled
  | call_DebugMessageCallback callback userParam =>
      _mesa_DebugMessageCallback ctx callback userParam
  | call_PushDebugGroup source id length message =>
      _mesa_PushDebugGroup ctx source id length message
  | call_PopDebugGroup => _mesa_PopDebugGroup ctx
  | call_set_debug_state_int pname val =>
      r <- _mesa_set_debug_state_int ctx pname val ;; ret (snd r)
  | call_error error fmtString args => _mesa_error ctx error fmtString args
  | call_shader_debug type id msg len =>
      r <- _mesa_shader_debug ctx type id msg len ;; ret (snd r)
  | call_gl_debug id type severity fmtString args =>
      r <- _mesa_gl_debug ctx id type severity fmtString args ;; ret (snd r)
  end.

Fixpoint run_calls (cs : list api_call) (ctx : gl_context) : M gl_context :=
  match cs with
  | [] => ret ctx
  | c :: cs' => ctx' <- run_call c ctx ;; run_calls cs' ctx'
  end.


(** The groups of the enclosing levels, the slots below the depth of
    [debug]: in [debug'] every such slot holds the pointer it holds in
    [debug], and the block it points to is in [p'] as it is in [p]. *)
Definition enclosing_kept (debug : gl_debug_state) (p : process)
    (debug' : gl_debug_state) (p' : process) : Prop :=
  forall i, (i < Z.to_nat (GroupStackDepth debug))%nat ->
    Groups debug' !! i = Groups debug !! i /\
    forall a, Groups debug !! i = Some (Some a) ->
      group_heap p' !! a = group_heap p !! a.

Definition is_control (c : api_call) : bool :=
  match c with
  | call_DebugMessageControl _ _ _ _ _ _ => true
  | _ => false
  end.

(** * Properties *)

(** ** Bit arithmetic *)

Lemma testbit_mask (x s : Z) :
  0 <= s -> negb (Z.land x (Z.shiftl 1 s) =? 0) = Z.testbit x s.
Proof.
  intros Hs. rewrite Z.shiftl_1_l.
  destruct (Z.testbit x s) eqn:E.
  - apply negb_true_iff, Z.eqb_neq. intros H0.
    assert (Hb : Z.testbit (Z.land x (2 ^ s)) s = false)
      by (rewrite H0; apply Z.bits_0).
    rewrite Z.land_spec, E, Z.pow2_bits_true in Hb by lia. discriminate.
  - apply negb_false_iff, Z.eqb_eq, Z.bits_inj'. intros n Hn.
    rewrite Z.land_spec, Z.bits_0, Z.pow2_bits_eqb by lia.
    destruct (Z.eqb_spec s n) as [->|]; [by rewrite E | apply andb_false_r].
Qed.

(** Clearing and setting the bit of one severity in a 32-bit mask. *)
Lemma update_bit_spec (st sev : Z) (enabled : bool) (i : Z) :
  0 <= sev < 32 -> 0 <= i < 32 ->
  Z.testbit
    (Z.lor (Z.land st (not32 (Z.shiftl 1 sev)))
           (if enabled then Z.shiftl 1 sev else 0)) i
  = if i =? sev then enabled else Z.testbit st i.
Proof.
  intros Hs Hi. unfold not32.
  rewrite Z.lor_spec, !Z.land_spec, Z.lnot_spec, Z.testbit_ones_nonneg by lia.
  assert (Hlt : (i <? 32) = true) by lia. rewrite Hlt.
  rewrite Z.shiftl_1_l, Z.pow2_bits_eqb by lia.
  rewrite (Z.eqb_sym sev i).
  destruct (Z.eqb_spec i sev) as [->|Hne].
  - destruct enabled.
    + rewrite Z.pow2_bits_true by lia. apply orb_true_r.
    + rewrite Z.bits_0. cbn. by destruct (Z.testbit st sev).
  - assert (Hz : Z.testbit (if enabled then 2 ^ sev else 0) i = false).
    { destruct enabled; [|apply Z.bits_0].
      rewrite Z.pow2_bits_eqb by lia. by apply Z.eqb_neq. }
    rewrite Hz. cbn. by destruct (Z.testbit st i).
Qed.

Lemma all_severities_bits (sev : Z) :
  0 <= sev < MESA_DEBUG_SEVERITY_COUNT -> Z.testbit all_severities sev = true.
Proof.
  unfold MESA_DEBUG_SEVERITY_COUNT. intros H.
  assert (sev = 0 \/ sev = 1 \/ sev = 2 \/ sev = 3) as [->|[->|[->| ->]]] by lia;
    reflexivity.
Qed.

(** ** Filter namespaces *)

Lemma set_all_elements_filter (mask val dflt : Z) (l : list gl_debug_element) :
  set_all_elements mask val dflt l
  = filter (fun e => State e ≠ dflt)
      ((fun e => mk_element (ID e) (Z.lor (Z.land (State e) (not32 mask)) val))
         <$> l).
Proof.
  induction l as [|e l IH]; [done|].
  cbn [set_all_elements fmap list_fmap]. rewrite filter_cons. cbn [State].
  destruct (Z.eqb_spec (Z.lor (Z.land (State e) (not32 mask)) val) dflt) as [Heq|Hne].
  - rewrite decide_False by (intros H; by apply H). exact IH.
  - rewrite decide_True by done. by rewrite IH.
Qed.

(** C6. [debug_namespace_set_all] with the wild card
    [MESA_DEBUG_SEVERITY_COUNT] replaces the default mask by all four
    severity bits (enable) or by no bit (disable) and leaves no override.
    With one severity it gives the bit of that severity the value
    [enabled], in the default mask and in every override, leaves the
    other bits of the 32-bit masks as they were, and keeps, in order,
    exactly the overrides whose new mask differs from the new default. *)
Theorem set_all_wildcard_and_single (ns : gl_debug_namespace) (enabled : bool) :
  (let ns' := debug_namespace_set_all ns MESA_DEBUG_SEVERITY_COUNT enabled in
   Elements ns' = [] /\
   DefaultState ns' = (if enabled then 15 else 0) /\
   forall sev, 0 <= sev < MESA_DEBUG_SEVERITY_COUNT ->
               Z.testbit (DefaultState ns') sev = enabled) /\
  (forall severity, 0 <= severity < MESA_DEBUG_SEVERITY_COUNT ->
   let ns' := debug_namespace_set_all ns severity enabled in
   (forall i, 0 <= i < 32 ->
      Z.testbit (DefaultState ns') i
      = if i =? severity then enabled else Z.testbit (DefaultState ns) i) /\
   exists upd : gl_debug_element -> gl_debug_element,
     (forall e, ID (upd e) = ID e /\
        forall i, 0 <= i < 32 ->
          Z.testbit (State (upd e)) i
          = if i =? severity then enabled else Z.testbit (State e) i) /\
     Elements ns'
     = filter (fun e => State e ≠ DefaultState ns') (upd <$> Elements ns)).
Proof.
  split.
  - cbn. split; [done|]. split; [by destruct enabled|].
    intros sev Hsev. destruct enabled.
    + by apply all_severities_bits.
    + apply Z.bits_0.
  - intros severity Hsev ns'. subst ns'.
    unfold MESA_DEBUG_SEVERITY_COUNT in Hsev.
    unfold debug_namespace_set_all.
    destruct (Z.eqb_spec severity MESA_DEBUG_SEVERITY_COUNT) as [E|_];
      [unfold MESA_DEBUG_SEVERITY_COUNT in E; lia|].
    cbn [DefaultState Elements]. split.
    + intros i Hi. apply update_bit_spec; lia.
    + exists (fun e => mk_element (ID e)
                (Z.lor (Z.land (State e) (not32 (Z.shiftl 1 severity)))
                       (if enabled then Z.shiftl 1 severity else 0))).
      split.
      * intros e. split; [done|]. intros i Hi. cbn. apply update_bit_spec; lia.
      * apply set_all_elements_filter.
Qed.

Lemma find_element_Some (id : Z) (l : list gl_debug_element) (i : nat) :
  find_element id l = Some i ->
  exists e, l !! i = Some e /\ ID e = id /\
            id ∉ (ID <$> take i l).
Proof.
  revert i. induction l as [|e l IH]; intros i; [done|]. cbn.
  destruct (Z.eqb_spec (ID e) id) as [E|N].
  - intros [= <-]. exists e. cbn. split; [done|]. split; [done|]. apply not_elem_of_nil.
  - destruct (find_element id l) as [j|] eqn:F; [|done].
    intros [= <-]. destruct (IH j eq_refl) as (e' & H1 & H2 & H3).
    exists e'. cbn. split; [done|]. split; [done|].
    rewrite not_elem_of_cons. split; [congruence | done].
Qed.

Lemma find_element_None (id : Z) (l : list gl_debug_element) :
  find_element id l = None <-> id ∉ (ID <$> l).
Proof.
  induction l as [|e l IH]; cbn.
  - split; [intros _; apply not_elem_of_nil | done].
  - rewrite not_elem_of_cons. destruct (Z.eqb_spec (ID e) id) as [E|N].
    + split; [done | intros [H _]; congruence].
    + destruct (find_element id l); cbn.
      * split; [done | intros [_ H]; by apply IH in H].
      * split; [intros _; split; [congruence | by apply IH] | done].
Qed.

Lemma find_element_app_new (id st : Z) (l : list gl_debug_element) :
  find_element id l = None ->
  find_element id (l ++ [mk_element id st]) = Some (length l).
Proof.
  induction l as [|e l IH]; cbn.
  - intros _. by rewrite Z.eqb_refl.
  - destruct (Z.eqb_spec (ID e) id); [done|].
    destruct (find_element id l); [done|]. intros _. by rewrite IH.
Qed.

Lemma find_element_alter (id : Z) (f : gl_debug_element -> gl_debug_element)
    (l : list gl_debug_element) (i : nat) :
  (forall e, ID (f e) = ID e) ->
  forall id', find_element id' (alter f i l) = find_element id' l.
Proof.
  intros Hf id'. revert i. induction l as [|e l IH]; intros i; [done|].
  destruct i as [|i]; cbn.
  - by rewrite Hf.
  - by rewrite IH.
Qed.

Lemma find_element_delete_NoDup (id : Z) (l : list gl_debug_element) (i : nat) :
  NoDup (ID <$> l) -> find_element id l = Some i ->
  find_element id (delete i l) = None.
Proof.
  revert i. induction l as [|e l IH]; intros i; [done|]. cbn.
  rewrite NoDup_cons. intros [Hnotin Hnd].
  destruct (Z.eqb_spec (ID e) id) as [E|N].
  - intros [= <-]. cbn. apply find_element_None. by rewrite <- E.
  - destruct (find_element id l) as [j|] eqn:F; [|done].
    intros [= <-]. change (delete (S j) (e :: l)) with (e :: delete j l).
    cbn [find_element]. destruct (Z.eqb_spec (ID e) id); [done|].
    by rewrite (IH j Hnd eq_refl).
Qed.

Lemma copy_elements_Some (l l' : list gl_debug_element) (p : process) :
  fst (copy_elements l p) = Some l' -> l' = l.
Proof.
  revert l' p. induction l as [|e l IH]; intros l' p; cbn.
  - by intros [= <-].
  - unfold bind, malloc. destruct (malloc_results p) as [|[] rest]; cbn.
    + destruct (copy_elements l p) as [[r|] p'] eqn:E; cbn; [|done].
      intros [= <-]. f_equal; [by destruct e|]. apply (IH r p). by rewrite E.
    + destruct (copy_elements l (set_malloc_results rest p)) as [[r|] p'] eqn:E;
        cbn; [|done].
      intros [= <-]. f_equal; [by destruct e|].
      apply (IH r (set_malloc_results rest p)). by rewrite E.
    + done.
Qed.

Lemma debug_namespace_copy_Some (ns ns' : gl_debug_namespace) (p : process) :
  fst (debug_namespace_copy ns p) = Some ns' -> ns' = ns.
Proof.
  unfold debug_namespace_copy, bind, ret. cbn.
  destruct (copy_elements (Elements ns) p) as [[r|] p'] eqn:E; cbn; [|done].
  intros [= <-]. pose proof (copy_elements_Some (Elements ns) r p) as H.
  rewrite E in H. rewrite (H eq_refl). by destruct ns.
Qed.

(** What [debug_namespace_set] returns, case by case. *)
Lemma debug_namespace_set_cases (ns : gl_debug_namespace) (id : Z)
    (enabled : bool) (p : process) :
  let state := if enabled then all_severities else 0 in
  let r := fst (debug_namespace_set ns id enabled p) in
  DefaultState (snd r) = DefaultState ns /\
  ((fst r = false /\ snd r = ns) \/
   (fst r = true /\ DefaultState ns = state /\
      find_element id (Elements ns) = None /\ snd r = ns) \/
   (fst r = true /\ DefaultState ns = state /\
      exists i, find_element id (Elements ns) = Some i /\
                Elements (snd r) = delete i (Elements ns)) \/
   (fst r = true /\ DefaultState ns ≠ state /\
      find_element id (Elements ns) = None /\
      Elements (snd r) = Elements ns ++ [mk_element id state]) \/
   (fst r = true /\ DefaultState ns ≠ state /\
      exists i, find_element id (Elements ns) = Some i /\
                Elements (snd r)
                = alter (fun e => mk_element (ID e) state) i (Elements ns))).
Proof.
  intros state r. subst r. unfold debug_namespace_set. fold state.
  destruct (Z.eqb_spec (DefaultState ns) state) as [E|N].
  - destruct (find_element id (Elements ns)) as [i|] eqn:F; cbn.
    + split; [done|]. right; right; left. eauto.
    + split; [done|]. right; left. eauto.
  - destruct (find_element id (Elements ns)) as [i|] eqn:F; cbn.
    + split; [done|]. do 4 right. eauto.
    + unfold bind, malloc, ret.
      destruct (malloc_results p) as [|[] rest]; cbn.
      * split; [done|]. do 3 right; left. eauto.
      * split; [done|]. do 3 right; left. eauto.
      * split; [done|]. by left.
Qed.

Lemma set_all_elements_differ (mask val dflt : Z) (l : list gl_debug_element) :
  Forall (fun e => State e ≠ dflt) (set_all_elements mask val dflt l).
Proof.
  induction l as [|e l IH]; cbn; [constructor|].
  destruct (Z.eqb_spec (Z.lor (Z.land (State e) (not32 mask)) val) dflt);
    [done | by constructor].
Qed.

Lemma set_all_elements_ids (mask val dflt : Z) (l : list gl_debug_element) :
  (ID <$> set_all_elements mask val dflt l) `sublist_of` (ID <$> l).
Proof.
  induction l as [|e l IH]; cbn; [constructor|].
  destruct (Z.eqb_spec (Z.lor (Z.land (State e) (not32 mask)) val) dflt).
  - by apply sublist_cons.
  - cbn. by apply sublist_skip.
Qed.

Lemma fmap_ID_alter (state : Z) (i : nat) (l : list gl_debug_element) :
  ID <$> alter (fun e => mk_element (ID e) state) i l = ID <$> l.
Proof.
  revert i. induction l as [|e l IH]; intros [|i]; cbn; [done..|].
  f_equal. apply IH.
Qed.

Lemma apply_op_no_default_override (op : ns_op) (ns : gl_debug_namespace)
    (p : process) :
  no_default_override ns -> no_default_override (fst (apply_op op ns p)).
Proof.
  unfold no_default_override. intros Hns. destruct op as [id en|sev en|].
  - cbn. unfold bind, ret. cbn.
    destruct (debug_namespace_set_cases ns id en p) as [Hd Hc].
    cbn zeta in Hd, Hc. rewrite Hd.
    destruct Hc as [[_ ->]|[(_ & _ & _ & ->)|[(_ & _ & i & _ & ->)|
                    [(_ & Hne & _ & ->)|(_ & Hne & i & _ & ->)]]]]; try done.
    + by apply Forall_delete.
    + apply Forall_app. split; [done|]. constructor; [|constructor].
      cbn. congruence.
    + apply Forall_alter; [done|]. intros x _ _. cbn. congruence.
  - cbn. unfold debug_namespace_set_all.
    destruct (sev =? MESA_DEBUG_SEVERITY_COUNT); cbn; [constructor|].
    apply set_all_elements_differ.
  - unfold apply_op, bind, ret. cbn [fst snd].
    destruct (fst (debug_namespace_copy ns p)) as [ns'|] eqn:E; cbn; [|done].
    by rewrite (debug_namespace_copy_Some _ _ _ E).
Qed.

(** C7. Whatever sequence of [debug_namespace_set],
    [debug_namespace_set_all] and [debug_namespace_copy] a namespace has
    gone through since [debug_namespace_init], and however the
    allocations went, no element of it holds the default mask. *)
Theorem no_override_equals_default (ops : list ns_op) (p : process) :
  no_default_override (fst (run_ops ops debug_namespace_init p)).
Proof.
  assert (G : forall ns q, no_default_override ns ->
                           no_default_override (fst (run_ops ops ns q))).
  { induction ops as [|op ops IH]; intros ns q Hns; [done|].
    cbn. unfold bind. apply IH. by apply apply_op_no_default_override. }
  apply G. constructor.
Qed.


Lemma apply_op_ids (op : ns_op) (ns : gl_debug_namespace) (p : process) :
  let ns' := fst (apply_op op ns p) in
  NoDup (ID <$> Elements ns) ->
  NoDup (ID <$> Elements ns') /\
  forall id, id ∈ (ID <$> Elements ns') ->
    id ∈ (ID <$> Elements ns) \/ exists enabled, op = op_set id enabled.
Proof.
  intros ns' Hnd. subst ns'. destruct op as [id en|sev en|].
  - cbn. unfold bind, ret. cbn.
    destruct (debug_namespace_set_cases ns id en p) as [_ Hc]. cbn zeta in Hc.
    destruct Hc as [[_ ->]|[(_ & _ & _ & ->)|[(_ & _ & i & _ & ->)|
                    [(_ & _ & Hnone & ->)|(_ & _ & i & _ & ->)]]]]; try by auto.
    + rewrite list_fmap_delete. split.
      * eapply sublist_NoDup; [exact Hnd | apply sublist_delete].
      * intros x Hx. left. eapply elem_of_sublist; [exact Hx | apply sublist_delete].
    + rewrite fmap_app. cbn. split.
      * apply NoDup_app. split; [done|]. split; [|apply NoDup_singleton].
        intros x Hx ->%list_elem_of_singleton.
        by apply find_element_None in Hnone.
      * intros x [Hx | ->%list_elem_of_singleton]%elem_of_app; eauto.
    + rewrite fmap_ID_alter. auto.
  - cbn. unfold debug_namespace_set_all.
    destruct (sev =? MESA_DEBUG_SEVERITY_COUNT); cbn.
    + split; [constructor | by intros x ?%elem_of_nil].
    + split.
      * eapply sublist_NoDup; [exact Hnd | apply set_all_elements_ids].
      * intros x Hx. left.
        eapply elem_of_sublist; [exact Hx | apply set_all_elements_ids].
  - unfold apply_op, bind, ret. cbn [fst snd].
    destruct (fst (debug_namespace_copy ns p)) as [ns'|] eqn:E; cbn; [|auto].
    rewrite (debug_namespace_copy_Some _ _ _ E). auto.
Qed.

Lemma run_ops_ids (ops done_ops : list ns_op) (ns : gl_debug_namespace)
    (p : process) :
  ids_from done_ops ns ->
  ids_from (done_ops ++ ops) (fst (run_ops ops ns p)).
Proof.
  revert done_ops ns p. induction ops as [|op ops IH]; intros done_ops ns p H.
  - by rewrite app_nil_r.
  - cbn. unfold bind.
    replace (done_ops ++ op :: ops) with ((done_ops ++ [op]) ++ ops)
      by (by rewrite <- app_assoc).
    apply IH. destruct H as [Hnd Hin].
    destruct (apply_op_ids op ns p Hnd) as [Hnd' Hin'].
    split; [done|]. intros id Hid.
    destruct (Hin' id Hid) as [Hold|[en ->]].
    + destruct (Hin id Hold) as [en Hen]. exists en.
      apply elem_of_app. by left.
    + exists en. apply elem_of_app. right. by apply list_elem_of_singleton.
Qed.

Lemma debug_namespace_get_spec (ns : gl_debug_namespace) (id severity : Z) :
  0 <= severity ->
  debug_namespace_get ns id severity
  = Z.testbit
      (match find_element id (Elements ns) ≫= (fun i => Elements ns !! i) with
       | Some elem => State elem
       | None => DefaultState ns
       end) severity.
Proof. intros H. unfold debug_namespace_get. by apply testbit_mask. Qed.

(** C8. For a namespace with any history of set, set_all and copy
    calls: right after a [debug_namespace_set ns id enabled] that
    returned true, [debug_namespace_get] of [id] is [enabled] at each of
    the four severities; and for an id that no call of
    [debug_namespace_set] in the history named, [debug_namespace_get]
    is the bit of the current [DefaultState] at the severity asked. *)
Theorem get_after_set_and_for_unset_ids (ops : list ns_op) (p : process) :
  let ns := fst (run_ops ops debug_namespace_init p) in
  (forall id enabled severity p',
     0 <= severity < MESA_DEBUG_SEVERITY_COUNT ->
     let r := fst (debug_namespace_set ns id enabled p') in
     fst r = true -> debug_namespace_get (snd r) id severity = enabled) /\
  (forall id severity,
     0 <= severity ->
     (forall enabled, op_set id enabled ∉ ops) ->
     debug_namespace_get ns id severity
     = Z.testbit (DefaultState ns) severity).
Proof.
  intros ns.
  assert (Hids : ids_from ops ns).
  { apply (run_ops_ids ops [] debug_namespace_init p).
    split; [constructor | by intros x ?%elem_of_nil]. }
  destruct Hids as [Hnd Hin]. split.
  - intros id enabled severity p' Hsev r Htrue.
    assert (Hbit : Z.testbit (if enabled then all_severities else 0) severity
                   = enabled).
    { destruct enabled; [by apply all_severities_bits | apply Z.bits_0]. }
    rewrite debug_namespace_get_spec by lia.
    destruct (debug_namespace_set_cases ns id enabled p') as [Hd Hc].
    cbn zeta in Hd, Hc. fold r in Hd, Hc.
    destruct Hc as [[Hf _]|[(_ & Hdef & Hnone & ->)|[(_ & Hdef & i & Hi & Hel)|
                    [(_ & _ & Hnone & Hel)|(_ & _ & i & Hi & Hel)]]]].
    + congruence.
    + rewrite Hnone. cbn. by rewrite Hdef.
    + rewrite Hel, (find_element_delete_NoDup id _ i Hnd Hi). cbn.
      by rewrite Hd, Hdef.
    + rewrite Hel, (find_element_app_new _ _ _ Hnone). cbn.
      by rewrite list_lookup_middle.
    + rewrite Hel, find_element_alter, Hi by done. cbn.
      rewrite list_lookup_alter_eq.
      destruct (find_element_Some _ _ _ Hi) as (e & -> & _). by cbn.
  - intros id severity Hsev Hnever.
    rewrite debug_namespace_get_spec by done.
    assert (Hnone : find_element id (Elements ns) = None).
    { apply find_element_None. intros Hid. destruct (Hin id Hid) as [en Hen].
      by apply (Hnever en). }
    by rewrite Hnone.
Qed.

(** ** Messages and the out-of-memory sentinel *)

Lemma debug_message_clear_freed (msg : gl_debug_message) (q : process) :
  freed (snd (debug_message_clear msg q))
  = if decide (msg_message msg = out_of_memory) then freed q
    else freed q ++ [msg_message msg].
Proof. unfold debug_message_clear, bind. by destruct (decide _). Qed.






(** ** The ring buffer *)

Lemma mod_wrap (x m : Z) :
  0 < m -> 0 <= x < 2 * m -> x mod m = if x <? m then x else x - m.
Proof.
  intros Hm Hx. destruct (Z.ltb_spec x m).
  - apply Z.mod_small; lia.
  - symmetry. apply (Z.mod_unique_pos x m 1); lia.
Qed.

Lemma rem_wrap (x m : Z) :
  0 < m -> 0 <= x < 2 * m -> Z.rem x m = if x <? m then x else x - m.
Proof. intros Hm Hx. rewrite Z.rem_mod_nonneg by lia. by apply mod_wrap. Qed.

Lemma log_contents_length (log : gl_debug_log) :
  0 <= NumMessages log ->
  Z.of_nat (length (log_contents log)) = NumMessages log.
Proof.
  intros H. unfold log_contents. rewrite length_fmap, length_seqZ. lia.
Qed.

Lemma log_contents_lookup (log : gl_debug_log) (i : nat) :
  (Z.of_nat i < NumMessages log) ->
  log_contents log !! i = Some (queued_at log (Z.of_nat i)).
Proof.
  intros H. unfold log_contents. rewrite list_lookup_fmap.
  rewrite lookup_seqZ_lt by lia. by rewrite Z.add_0_l.
Qed.

Lemma log_contents_empty (log : gl_debug_log) :
  NumMessages log = 0 -> log_contents log = [].
Proof. intros H. unfold log_contents. by rewrite H. Qed.

(** Writing the slot after the newest message appends to the queue. *)
Lemma log_contents_enqueue (log : gl_debug_log) (msg : gl_debug_message) :
  log_wf log -> NumMessages log < MAX_DEBUG_LOGGED_MESSAGES ->
  let log' :=
    mk_log (<[Z.to_nat (Z.rem (NextMessage log + NumMessages log)
                              MAX_DEBUG_LOGGED_MESSAGES) := msg]>
              (Messages log))
           (NextMessage log) (NumMessages log + 1) in
  log_wf log' /\ log_contents log' = log_contents log ++ [msg].
Proof.
  intros (Hm & Hlen & Hnext & Hnum) Hlt log'. split.
  - unfold log_wf. subst log'. cbn. rewrite length_insert. lia.
  - unfold log_contents. subst log'. cbn [NumMessages].
    rewrite seqZ_app by lia. rewrite fmap_app. cbn [seqZ]. f_equal.
    + apply Forall_fmap_ext_1. apply Forall_forall. intros i Hi.
      apply elem_of_seqZ in Hi. unfold queued_at. cbn [Messages NextMessage].
      rewrite list_lookup_insert_ne; [done|].
      rewrite rem_wrap, !mod_wrap by lia.
      repeat case_match; lia.
    + replace (seqZ (0 + NumMessages log) 1) with [NumMessages log]
        by (by rewrite Z.add_0_l).
      cbn. f_equal. unfold queued_at. cbn [Messages NextMessage].
      rewrite Z.rem_mod_nonneg by lia.
      rewrite list_lookup_insert_eq; [done|].
      pose proof (Z.mod_pos_bound (NextMessage log + NumMessages log)
                    MAX_DEBUG_LOGGED_MESSAGES Hm). lia.
Qed.

(** Clearing the head slot and advancing the head drops the oldest
    message. *)
Lemma log_contents_dequeue (log : gl_debug_log) (cleared : gl_debug_message) :
  log_wf log -> 0 < NumMessages log ->
  let log' :=
    mk_log (<[Z.to_nat (NextMessage log) := cleared]> (Messages log))
           (Z.rem (NextMessage log + 1) MAX_DEBUG_LOGGED_MESSAGES)
           (NumMessages log - 1) in
  log_wf log' /\ log_contents log' = drop 1 (log_contents log).
Proof.
  intros (Hm & Hlen & Hnext & Hnum) Hpos log'. split.
  - unfold log_wf. subst log'. cbn. rewrite length_insert.
    rewrite rem_wrap by lia. case_match; lia.
  - unfold log_contents. subst log'. cbn [NumMessages].
    assert (Hs : seqZ 0 (NumMessages log) = 0 :: seqZ 1 (NumMessages log - 1)).
    { rewrite seqZ_cons by lia. f_equal. }
    rewrite Hs. rewrite fmap_cons. cbn [drop].
    rewrite <- (fmap_add_seqZ 1 0). rewrite <- list_fmap_compose.
    apply Forall_fmap_ext_1. apply Forall_forall. intros i Hi.
    apply elem_of_seqZ in Hi. unfold queued_at, compose. cbn [Messages NextMessage].
    rewrite rem_wrap by lia.
    assert (Hne : Z.to_nat (NextMessage log)
                  ≠ Z.to_nat (((if NextMessage log + 1 <? MAX_DEBUG_LOGGED_MESSAGES
                                then NextMessage log + 1
                                else NextMessage log + 1 - MAX_DEBUG_LOGGED_MESSAGES)
                               + i) mod MAX_DEBUG_LOGGED_MESSAGES)).
    { rewrite mod_wrap by (repeat case_match; lia).
      repeat case_match; lia. }
    rewrite list_lookup_insert_ne by done. do 3 f_equal.
    rewrite !mod_wrap by (repeat case_match; lia).
    repeat case_match; lia.
Qed.

Lemma debug_fetch_message_head (debug : gl_debug_state) :
  log_wf (Log debug) ->
  debug_fetch_message debug = head (log_contents (Log debug)).
Proof.
  intros (Hm & Hlen & Hnext & Hnum). unfold debug_fetch_message.
  destruct (Z.eqb_spec (NumMessages (Log debug)) 0) as [E|N].
  - by rewrite log_contents_empty.
  - rewrite head_lookup, log_contents_lookup by lia.
    unfold queued_at. rewrite Z.add_0_r, Z.mod_small by lia.
    destruct (Messages (Log debug) !! Z.to_nat (NextMessage (Log debug))) eqn:E;
      [done|].
    apply lookup_ge_None in E. lia.
Qed.

Lemma set_Debug_same (ctx : gl_context) (debug : gl_debug_state) :
  Debug ctx = Some debug -> set_Debug ctx (Some debug) = ctx.
Proof. destruct ctx. cbn. by intros ->. Qed.

Lemma set_Log_same (debug : gl_debug_state) : set_Log debug (Log debug) = debug.
Proof. by destruct debug. Qed.

Lemma debug_is_message_enabled_frame (p q : process) (debug : gl_debug_state)
    (log : gl_debug_log) (source type id severity : Z) :
  group_heap q = group_heap p ->
  debug_is_message_enabled q (set_Log debug log) source type id severity
  = debug_is_message_enabled p debug source type id severity.
Proof.
  intros H. unfold debug_is_message_enabled, group_at. cbn. by rewrite H.
Qed.

Lemma debug_message_store_stored (s : submission) (q : process) :
  let r := debug_message_store (sub_source s) (sub_type s) (sub_id s)
             (sub_severity s) (sub_len s) (sub_buf s) q in
  stored_as s (fst r) /\ group_heap (snd r) = group_heap q.
Proof.
  unfold debug_message_store, bind, malloc.
  destruct (malloc_results q) as [|[] rest]; cbn.
  - split; [by left | done].
  - split; [by left | done].
  - unfold debug_get_id. destruct (oom_msg_id q =? 0); cbn;
      (split; [right; eauto | done]).
Qed.

(** [log_msg] of an enabled message without a callback: appended while
    there is room, a no-op on a full log. *)
Lemma log_msg_debug_logged (debug : gl_debug_state) (s : submission)
    (q : process) :
  Callback debug = None -> sub_enabled q debug s -> log_wf (Log debug) ->
  let r := log_msg_debug debug (sub_source s) (sub_type s) (sub_id s)
             (sub_severity s) (sub_len s) (sub_buf s) q in
  exists log', fst r = set_Log debug log' /\ log_wf log' /\
    group_heap (snd r) = group_heap q /\
    (NumMessages (Log debug) < MAX_DEBUG_LOGGED_MESSAGES ->
       NumMessages log' = NumMessages (Log debug) + 1 /\
       exists msg, stored_as s msg /\
                   log_contents log' = log_contents (Log debug) ++ [msg]) /\
    (NumMessages (Log debug) = MAX_DEBUG_LOGGED_MESSAGES ->
       log' = Log debug /\ snd r = q).
Proof.
  intros Hcb Hen Hwf r. subst r. unfold log_msg_debug, bind, gets.
  cbn [fst snd]. unfold sub_enabled in Hen. rewrite Hen, Hcb. cbn [negb].
  unfold debug_log_message.
  destruct (Z.eqb_spec (NumMessages (Log debug)) MAX_DEBUG_LOGGED_MESSAGES)
    as [E|N].
  - exists (Log debug). cbn [fst snd ret]. rewrite set_Log_same.
    split; [done|]. split; [done|]. split; [done|]. split; [intros; lia | done].
  - unfold bind, ret. cbn [fst snd].
    destruct (debug_message_store_stored s q) as [Hst Hheap].
    destruct Hwf as (Hm & Hlen & Hnext & Hnum).
    assert (Hlt : NumMessages (Log debug) < MAX_DEBUG_LOGGED_MESSAGES) by lia.
    destruct (log_contents_enqueue (Log debug)
                (fst (debug_message_store (sub_source s) (sub_type s)
                        (sub_id s) (sub_severity s) (sub_len s) (sub_buf s) q))
                (conj Hm (conj Hlen (conj Hnext Hnum))) Hlt) as [Hwf' Hc].
    eexists. split; [reflexivity|]. split; [exact Hwf'|].
    split; [exact Hheap|]. split; [|done].
    intros _. split; [done|]. eexists. split; [exact Hst | exact Hc].
Qed.

Lemma log_msg_with_state (ctx : gl_context) (debug : gl_debug_state)
    (source type id severity len : Z) (buf : list ascii) (q : process) :
  Debug ctx = Some debug ->
  log_msg ctx source type id severity len buf q
  = let r := log_msg_debug debug source type id severity len buf q in
    (set_Debug ctx (Some (fst r)), snd r).
Proof.
  intros H. unfold log_msg, _mesa_get_debug_state, bind, ret. by rewrite H.
Qed.

Lemma debug_delete_one (debug : gl_debug_state) (q : process) :
  log_wf (Log debug) -> 0 < NumMessages (Log debug) ->
  let r := debug_delete_messages debug 1 q in
  exists log', fst r = set_Log debug log' /\ log_wf log' /\
    log_contents log' = drop 1 (log_contents (Log debug)) /\
    group_heap (snd r) = group_heap q /\
    callback_calls (snd r) = callback_calls q.
Proof.
  intros Hwf Hpos r. subst r. unfold debug_delete_messages.
  assert (Hc : (if NumMessages (Log debug) <? 1 then NumMessages (Log debug)
                else 1) = 1) by (case_match; lia).
  rewrite Hc. change (Z.to_nat 1) with 1%nat. cbn [delete_loop].
  destruct Hwf as (Hm & Hlen & Hnext & Hnum).
  destruct (Messages (Log debug) !! Z.to_nat (NextMessage (Log debug)))
    as [msg|] eqn:E; [|apply lookup_ge_None in E; lia].
  unfold bind, ret. cbn [fst snd].
  destruct (log_contents_dequeue (Log debug)
              (fst (debug_message_clear msg q))
              (conj Hm (conj Hlen (conj Hnext Hnum))) Hpos) as [Hwf' Hc'].
  eexists. split; [reflexivity|]. split; [exact Hwf'|]. split; [exact Hc'|].
  unfold debug_message_clear, bind. by destruct (decide _).
Qed.

Lemma drain_spec (n : nat) (debug : gl_debug_state) (q : process) :
  log_wf (Log debug) ->
  let r := fst (drain n debug q) in
  fst r = take n (log_contents (Log debug)) /\
  log_wf (Log (snd r)) /\
  log_contents (Log (snd r)) = drop n (log_contents (Log debug)).
Proof.
  revert debug q. induction n as [|n IH]; intros debug q Hwf; [done|].
  cbn [drain]. rewrite debug_fetch_message_head by done.
  destruct (log_contents (Log debug)) as [|msg rest] eqn:Hc; [done|].
  cbn [head]. unfold bind, ret. cbn [fst snd].
  assert (Hpos : 0 < NumMessages (Log debug)).
  { destruct Hwf as (_ & _ & _ & Hnum).
    pose proof (log_contents_length (Log debug) (proj1 Hnum)) as Hl.
    rewrite Hc in Hl. cbn in Hl. lia. }
  destruct (debug_delete_one debug q Hwf Hpos) as (log' & Heq & Hwf' & Hc' & _).
  cbn zeta in Heq. rewrite Heq.
  assert (Hwf'' : log_wf (Log (set_Log debug log'))) by done.
  destruct (IH (set_Log debug log') (snd (debug_delete_messages debug 1 q)) Hwf'')
    as (H1 & H2 & H3).
  cbn zeta in H1, H2, H3. cbn [Log set_Log] in H1, H3.
  rewrite Hc' in H1, H3. rewrite Hc in H1, H3. cbn [drop] in H1, H3.
  cbn [take drop]. rewrite H1. done.
Qed.

Lemma sub_enabled_frame (p q : process) (debug : gl_debug_state)
    (log : gl_debug_log) (subs : list submission) :
  group_heap q = group_heap p ->
  Forall (sub_enabled p debug) subs ->
  Forall (sub_enabled q (set_Log debug log)) subs.
Proof.
  intros H Hf. eapply Forall_impl; [exact Hf|]. intros s Hs.
  unfold sub_enabled. by rewrite (debug_is_message_enabled_frame p q).
Qed.

(** Submitting to a log with [room] free slots: the first [room]
    submissions are appended, the others change nothing. *)
Lemma log_all_spec (subs : list submission) (ctx : gl_context)
    (debug : gl_debug_state) (q : process) :
  Debug ctx = Some debug -> Callback debug = None -> log_wf (Log debug) ->
  Forall (sub_enabled q debug) subs ->
  let room := Z.to_nat (MAX_DEBUG_LOGGED_MESSAGES - NumMessages (Log debug)) in
  let r := log_all subs ctx q in
  r = log_all (take room subs) ctx q /\
  exists log' msgs,
    fst r = set_Debug ctx (Some (set_Log debug log')) /\ log_wf log' /\
    Forall2 stored_as (take room subs) msgs /\
    log_contents log' = log_contents (Log debug) ++ msgs.
Proof.
  revert ctx debug q.
  induction subs as [|s subs IH]; intros ctx debug q Hctx Hcb Hwf Hen room r.
  - subst r. rewrite take_nil. split; [done|].
    exists (Log debug), []. cbn [log_all ret fst].
    rewrite set_Log_same, set_Debug_same, app_nil_r by done.
    split; [done|]. split; [done|]. split; [constructor | done].
  - apply Forall_cons in Hen as [Hs Hen].
    destruct (log_msg_debug_logged debug s q Hcb Hs Hwf)
      as (log1 & Heq & Hwf1 & Hheap & Hroom & Hfull).
    cbn zeta in Heq, Hheap, Hroom, Hfull.
    assert (Hnum := Hwf). destruct Hnum as (_ & _ & _ & Hnum).
    set (q1 := snd (log_msg_debug debug (sub_source s) (sub_type s) (sub_id s)
                      (sub_severity s) (sub_len s) (sub_buf s) q)) in *.
    assert (Hstep : forall l,
              log_all (s :: l) ctx q
              = log_all l (set_Debug ctx (Some (set_Log debug log1))) q1).
    { intros l. cbn [log_all]. unfold bind.
      rewrite (log_msg_with_state ctx debug) by done. cbn [fst snd].
      by rewrite Heq. }
    assert (Hen1 : Forall (sub_enabled q1 (set_Log debug log1)) subs)
      by (by apply (sub_enabled_frame q)).
    destruct (IH (set_Debug ctx (Some (set_Log debug log1)))
                (set_Log debug log1) q1 eq_refl Hcb Hwf1 Hen1)
      as (Hsame & log' & msgs & Hfst & Hwf' & Hst & Hc).
    cbn [Log set_Log] in Hsame, Hst, Hc.
    subst r. rewrite Hstep.
    destruct (Z.eq_dec (NumMessages (Log debug)) MAX_DEBUG_LOGGED_MESSAGES)
      as [Efull|Nfull].
    + destruct (Hfull Efull) as [-> Hq]. subst room.
      replace (Z.to_nat (MAX_DEBUG_LOGGED_MESSAGES - NumMessages (Log debug)))
        with 0%nat in * by lia.
      rewrite take_0 in *. rewrite Hq in *.
      rewrite set_Log_same, set_Debug_same in * by done.
      split; [exact Hsame|]. exists log', msgs. done.
    + destruct Hroom as (Hn1 & msg & Hmsg & Hc1); [lia|].
      assert (Hr : room = S (Z.to_nat (MAX_DEBUG_LOGGED_MESSAGES
                                        - NumMessages log1))) by (subst room; lia).
      rewrite Hr. cbn [take]. rewrite Hstep. split; [exact Hsame|].
      exists log', (msg :: msgs). rewrite Hfst.
      split; [by destruct debug|]. split; [done|]. split; [by constructor|].
      rewrite Hc, Hc1. by rewrite <- app_assoc.
Qed.

(** C2 (as amended). Once [MAX_DEBUG_LOGGED_MESSAGES + k] enabled
    messages, [k >= 1], have been submitted to an empty log with no
    callback registered, the log holds [MAX_DEBUG_LOGGED_MESSAGES]
    messages; the last [k] submissions changed nothing at all; and a
    consumer fetching and deleting at least that many times receives, in
    order of submission, the stored forms of the first
    [MAX_DEBUG_LOGGED_MESSAGES] submissions and then finds the log
    empty. *)
Theorem full_log_keeps_oldest (ctx : gl_context) (debug : gl_debug_state)
    (p : process) (subs : list submission) (k : Z) :
  Debug ctx = Some debug -> Callback debug = None ->
  log_wf (Log debug) -> NumMessages (Log debug) = 0 ->
  1 <= k ->
  Z.of_nat (length subs) = MAX_DEBUG_LOGGED_MESSAGES + k ->
  Forall (sub_enabled p debug) subs ->
  let kept := take (Z.to_nat MAX_DEBUG_LOGGED_MESSAGES) subs in
  let r := log_all subs ctx p in
  r = log_all kept ctx p /\
  exists debug',
    Debug (fst r) = Some debug' /\
    NumMessages (Log debug') = MAX_DEBUG_LOGGED_MESSAGES /\
    forall (n : nat) (q : process),
      (Z.to_nat MAX_DEBUG_LOGGED_MESSAGES <= n)%nat ->
      let d := fst (drain n debug' q) in
      Forall2 stored_as kept (fst d) /\
      Z.of_nat (length (fst d)) = MAX_DEBUG_LOGGED_MESSAGES /\
      NumMessages (Log (snd d)) = 0 /\
      debug_fetch_message (snd d) = None.
Proof.
  intros Hctx Hcb Hwf Hempty Hk Hlen Hen kept r.
  destruct (log_all_spec subs ctx debug p Hctx Hcb Hwf Hen)
    as (Hsame & log' & msgs & Hfst & Hwf' & Hst & Hc).
  cbn zeta in Hsame, Hfst, Hst, Hc. rewrite Hempty, Z.sub_0_r in Hsame, Hst.
  fold kept in Hsame, Hst. fold r in Hsame, Hfst.
  rewrite (log_contents_empty (Log debug)), app_nil_l in Hc by done.
  assert (Hm := Hwf). destruct Hm as (Hm & _).
  assert (Hkl : length kept = Z.to_nat MAX_DEBUG_LOGGED_MESSAGES).
  { subst kept. rewrite length_take. lia. }
  assert (Hml : length msgs = Z.to_nat MAX_DEBUG_LOGGED_MESSAGES).
  { by rewrite <- (Forall2_length _ _ _ Hst). }
  assert (Hn' : NumMessages log' = MAX_DEBUG_LOGGED_MESSAGES).
  { destruct Hwf' as (_ & _ & _ & Hnum').
    pose proof (log_contents_length log' (proj1 Hnum')) as Hl.
    rewrite Hc in Hl. lia. }
  split; [exact Hsame|].
  exists (set_Log debug log'). rewrite Hfst. split; [done|]. split; [done|].
  intros n q Hn d.
  destruct (drain_spec n (set_Log debug log') q Hwf') as (H1 & H2 & H3).
  cbn zeta in H1, H2, H3. fold d in H1, H2, H3. cbn [Log set_Log] in H1, H3.
  rewrite Hc in H1, H3.
  rewrite take_ge in H1 by lia. rewrite drop_ge in H3 by lia.
  rewrite H1. split; [done|]. split; [lia|].
  assert (Hz : NumMessages (Log (snd d)) = 0).
  { destruct H2 as (_ & _ & _ & Hnum2).
    pose proof (log_contents_length (Log (snd d)) (proj1 Hnum2)) as Hl.
    rewrite H3 in Hl. cbn in Hl. lia. }
  split; [done|]. unfold debug_fetch_message. by rewrite Hz.
Qed.

(** ** Draining through glGetDebugMessageLog *)

Lemma append_nil {A} (p : option (list A)) : append p [] = p.
Proof. destruct p; cbn; [by rewrite app_nil_r | done]. Qed.

Lemma append_write {A} (p : option (list A)) (x : A) (xs : list A) :
  append (write p x) xs = append p (x :: xs).
Proof. destruct p; cbn; [by rewrite <- app_assoc | done]. Qed.

Lemma written_nil (out : log_arrays) : written out [] = out.
Proof.
  destruct out as [a b c d e f]. unfold written, append.
  destruct a, b, c, d, e, f; cbn; by rewrite ?app_nil_r.
Qed.

Lemma only_freed_refl (q : process) : only_freed q q.
Proof. by destruct q. Qed.

Lemma only_freed_trans (q1 q2 q3 : process) :
  only_freed q1 q2 -> only_freed q2 q3 -> only_freed q1 q3.
Proof. unfold only_freed. intros -> ->. by destruct q1. Qed.

Lemma debug_message_clear_only_freed (msg : gl_debug_message) (q : process) :
  only_freed q (snd (debug_message_clear msg q)).
Proof.
  unfold debug_message_clear, bind. destruct (decide _); cbn;
    by destruct q.
Qed.

Lemma delete_loop_only_freed (n : nat) (log : gl_debug_log) (q : process) :
  only_freed q (snd (delete_loop n log q)).
Proof.
  revert log q. induction n as [|n IH]; intros log q; [apply only_freed_refl|].
  cbn [delete_loop]. destruct (Messages log !! _); [|apply only_freed_refl].
  unfold bind. eapply only_freed_trans; [|apply IH].
  apply debug_message_clear_only_freed.
Qed.

Lemma debug_delete_messages_only_freed (debug : gl_debug_state) (count : Z)
    (q : process) :
  only_freed q (snd (debug_delete_messages debug count q)).
Proof. unfold debug_delete_messages, bind. cbn. apply delete_loop_only_freed. Qed.

Lemma fitting_spec (n : nat) (text : bool) (logSize : Z)
    (msgs : list gl_debug_message) :
  let taken := fitting n text logSize msgs in
  taken = take (length taken) msgs /\
  (length taken <= n)%nat /\
  (text = false -> taken = take n msgs) /\
  (text = true -> 0 <= logSize ->
     sum_lengths taken <= logSize /\
     (length taken = n \/ length taken = length msgs \/
      exists msg, msgs !! length taken = Some msg /\
                  logSize - sum_lengths taken < msg_length msg)).
Proof.
  revert logSize msgs. induction n as [|n IH]; intros logSize msgs.
  - cbn. rewrite !take_0. repeat split; try done; try lia; by left.
  - destruct msgs as [|msg msgs].
    + cbn. repeat split; try done; try lia; right; by left.
    + cbn [fitting]. destruct text.
      * rewrite andb_true_r. destruct (Z.ltb_spec logSize (msg_length msg)).
        -- cbn. repeat split; try done; try lia.
           all: try (right; right; exists msg; split; [done | lia]).
        -- destruct (IH (logSize - msg_length msg) msgs) as (H1 & H2 & _ & H4).
           cbn zeta in H1, H2, H4. cbn [length take]. split; [by f_equal|].
           split; [lia|]. split; [done|]. intros _ Hs.
           destruct (H4 eq_refl) as [Hsum Hstop]; [lia|].
           cbn [sum_lengths foldr]. fold (sum_lengths
             (fitting n true (logSize - msg_length msg) msgs)).
           split; [lia|].
           destruct Hstop as [Hn|[Hl|(m & Hm & Hlt)]].
           ++ left. lia.
           ++ right. left. lia.
           ++ right. right. exists m. cbn. split; [done | lia].
      * rewrite andb_false_r.
        destruct (IH logSize msgs) as (H1 & H2 & H3 & _).
        cbn zeta in H1, H2, H3. cbn [length take]. split; [by f_equal|].
        split; [lia|]. split; [|done]. intros _. f_equal. by apply H3.
Qed.

Lemma written_step (out : log_arrays) (msg : gl_debug_message)
    (taken : list gl_debug_message) :
  written
    (mk_arrays
       (write (sources out) (table_at debug_source_enums (msg_source msg)))
       (write (types out) (table_at debug_type_enums (msg_type msg)))
       (write (ids out) (msg_id msg))
       (write (severities out)
              (table_at debug_severity_enums (msg_severity msg)))
       (write (lengths out) (msg_length msg))
       (append (messageLog out) (copied_text msg)))
    taken
  = written out (msg :: taken).
Proof.
  unfold written. cbn [sources types ids severities lengths messageLog].
  rewrite !append_write. f_equal.
  destruct (messageLog out); cbn; [by rewrite <- app_assoc | done].
Qed.

(** The loop of [_mesa_GetDebugMessageLog] takes the messages [fitting]
    describes, writes them to the arrays and leaves the others queued. *)
Lemma get_log_loop_spec (n : nat) (retv logSize : Z) (out : log_arrays)
    (debug : gl_debug_state) (q : process) :
  log_wf (Log debug) ->
  let taken := fitting n (bool_decide (messageLog out ≠ None)) logSize
                 (log_contents (Log debug)) in
  let r := get_log_loop n retv logSize out debug q in
  exists log',
    fst r = (retv + Z.of_nat (length taken), written out taken,
             set_Log debug log') /\
    log_wf log' /\
    log_contents log' = drop (length taken) (log_contents (Log debug)) /\
    only_freed q (snd r).
Proof.
  revert retv logSize out debug q.
  induction n as [|n IH]; intros retv logSize out debug q Hwf taken r.
  - exists (Log debug). subst taken r. cbn.
    rewrite Z.add_0_r, written_nil, set_Log_same.
    split; [done|]. split; [done|]. split; [done|]. apply only_freed_refl.
  - subst r. cbn [get_log_loop]. rewrite debug_fetch_message_head by done.
    destruct (log_contents (Log debug)) as [|msg rest] eqn:Hc.
    { exists (Log debug). subst taken. cbn.
      rewrite Z.add_0_r, written_nil, set_Log_same, Hc.
      split; [done|]. split; [done|]. split; [done|]. apply only_freed_refl. }
    cbn [head]. subst taken. cbn [fitting].
    destruct ((logSize <? msg_length msg) && bool_decide (messageLog out ≠ None))
      eqn:Hstop.
    { exists (Log debug). cbn.
      rewrite Z.add_0_r, written_nil, set_Log_same, Hc.
      split; [done|]. split; [done|]. split; [done|]. apply only_freed_refl. }
    assert (Hpos : 0 < NumMessages (Log debug)).
    { destruct Hwf as (_ & _ & _ & Hnum).
      pose proof (log_contents_length (Log debug) (proj1 Hnum)) as Hl.
      rewrite Hc in Hl. cbn in Hl. lia. }
    destruct (debug_delete_one debug q Hwf Hpos)
      as (log1 & Heq & Hwf1 & Hc1 & _).
    cbn zeta in Heq. rewrite Hc in Hc1. cbn [drop] in Hc1.
    rewrite drop_0 in Hc1.
    set (out1 := mk_arrays
       (write (sources out) (table_at debug_source_enums (msg_source msg)))
       (write (types out) (table_at debug_type_enums (msg_type msg)))
       (write (ids out) (msg_id msg))
       (write (severities out)
              (table_at debug_severity_enums (msg_severity msg)))
       (write (lengths out) (msg_length msg))
       (append (messageLog out) (copied_text msg))).
    set (size1 := if bool_decide (messageLog out ≠ None)
                  then logSize - msg_length msg else logSize).
    assert (Hflag : bool_decide (messageLog out1 ≠ None)
                    = bool_decide (messageLog out ≠ None)).
    { subst out1. cbn. by destruct (messageLog out). }
    assert (Hloop :
      get_log_loop (S n) retv logSize out debug q
      = get_log_loop n (retv + 1) size1 out1 (set_Log debug log1)
          (snd (debug_delete_messages debug 1 q))).
    { cbn [get_log_loop]. rewrite debug_fetch_message_head, Hc by done.
      cbn [head]. rewrite Hstop. subst out1 size1.
      destruct (messageLog out) as [l|] eqn:Hml; cbn [append fmap option_fmap
        option_map]; unfold bind; cbn [fst snd]; by rewrite Heq. }
    cbn [get_log_loop] in Hloop.
    rewrite debug_fetch_message_head, Hc in Hloop by done.
    cbn [head] in Hloop. rewrite Hstop in Hloop. rewrite Hloop.
    assert (Hwf1' : log_wf (Log (set_Log debug log1))) by done.
    destruct (IH (retv + 1) size1 out1 (set_Log debug log1)
                (snd (debug_delete_messages debug 1 q)) Hwf1')
      as (log' & Hfst & Hwf' & Hc' & Hfr).
    cbn zeta in Hfst, Hc', Hfr. cbn [Log set_Log] in Hfst, Hc'.
    rewrite Hflag, Hc1 in Hfst, Hc'. subst size1.
    exists log'. rewrite Hfst. subst out1. rewrite written_step.
    cbn [length drop]. split.
    + assert (E : set_Log (set_Log debug log1) log' = set_Log debug log')
        by (by destruct debug).
      rewrite E. f_equal. f_equal. lia.
    + split; [done|]. split; [done|].
      eapply only_freed_trans; [|exact Hfr].
      apply debug_delete_messages_only_freed.
Qed.

Lemma GetDebugMessageLog_with_state (ctx : gl_context) (debug : gl_debug_state)
    (count logSize : Z) (out : log_arrays) (p : process) :
  Debug ctx = Some debug -> log_wf (Log debug) ->
  (messageLog out ≠ None -> 0 <= logSize) ->
  let size := if bool_decide (messageLog out = None) then 0 else logSize in
  let taken := fitting (Z.to_nat count) (bool_decide (messageLog out ≠ None))
                 size (log_contents (Log debug)) in
  let r := _mesa_GetDebugMessageLog ctx count logSize out p in
  0 <= size /\
  exists log',
    fst r = (Z.of_nat (length taken), written out taken,
             set_Debug ctx (Some (set_Log debug log'))) /\
    log_wf log' /\
    log_contents log' = drop (length taken) (log_contents (Log debug)) /\
    only_freed p (snd r).
Proof.
  intros Hctx Hwf Hsize size taken r.
  assert (Hs : 0 <= size).
  { subst size. case_bool_decide; [done | by apply Hsize]. }
  split; [done|]. subst r.
  destruct (get_log_loop_spec (Z.to_nat count) 0 size out debug p Hwf)
    as (log' & Hfst & Hwf' & Hc & Hfr).
  cbn zeta in Hfst, Hc, Hfr. fold taken in Hfst, Hc.
  exists log'. unfold _mesa_GetDebugMessageLog. fold size.
  destruct (Z.ltb_spec size 0); [lia|].
  unfold _mesa_get_debug_state, bind, ret. rewrite Hctx. cbn [fst snd].
  destruct (get_log_loop (Z.to_nat count) 0 size out debug p) as [[[a b] c] q'].
  cbn [fst snd] in *. injection Hfst as -> -> ->. done.
Qed.

(** C4 (as amended). A call of glGetDebugMessageLog on a context with
    debug state takes a run of the oldest messages, at most [count], and
    leaves the others queued in order.  With a text buffer the texts of
    the messages taken are copied one after the other, their lengths
    (terminators included) add up to at most [logSize], and the call
    stops short of [count] only where the log is exhausted or the next
    message is longer than what is left of [logSize]; that message is
    the oldest one still queued.  Without a text buffer (NULL) no text
    is copied and the lengths play no role: the call takes [count]
    messages or all there are. *)
Theorem drain_takes_what_fits (ctx : gl_context) (debug : gl_debug_state)
    (p : process) (count logSize : Z) (out : log_arrays) :
  Debug ctx = Some debug -> log_wf (Log debug) -> 0 <= count ->
  (messageLog out ≠ None -> 0 <= logSize) ->
  let queued := log_contents (Log debug) in
  let r := fst (_mesa_GetDebugMessageLog ctx count logSize out p) in
  exists taken log',
    r = (Z.of_nat (length taken), written out taken,
         set_Debug ctx (Some (set_Log debug log'))) /\
    taken = take (length taken) queued /\
    Z.of_nat (length taken) <= count /\
    log_contents log' = drop (length taken) queued /\
    (forall l, messageLog out = Some l ->
       messageLog (written out taken) = Some (l ++ (taken ≫= copied_text)) /\
       sum_lengths taken <= logSize /\
       (Z.of_nat (length taken) = count \/
        length taken = length queued \/
        exists msg, queued !! length taken = Some msg /\
                    logSize - sum_lengths taken < msg_length msg)) /\
    (messageLog out = None ->
       messageLog (written out taken) = None /\
       taken = take (Z.to_nat count) queued).
Proof.
  intros Hctx Hwf Hcount Hsize queued r.
  destruct (GetDebugMessageLog_with_state ctx debug count logSize out p
              Hctx Hwf Hsize) as (Hs & log' & Hfst & _ & Hc & _).
  cbn zeta in Hs, Hfst, Hc. fold queued in Hfst, Hc. fold r in Hfst.
  destruct (fitting_spec (Z.to_nat count) (bool_decide (messageLog out ≠ None))
              (if bool_decide (messageLog out = None) then 0 else logSize)
              queued) as (H1 & H2 & H3 & H4).
  cbn zeta in H1, H2, H3, H4.
  set (taken := fitting (Z.to_nat count) (bool_decide (messageLog out ≠ None))
                  (if bool_decide (messageLog out = None) then 0 else logSize)
                  queued) in *.
  exists taken, log'. split; [done|]. split; [done|]. split; [lia|].
  split; [done|]. split.
  - intros l Hl. split; [by cbn; rewrite Hl|].
    rewrite Hl in *. rewrite bool_decide_true in H4 by done.
    rewrite bool_decide_false in H4, Hs by done.
    destruct (H4 eq_refl Hs) as [Hsum Hstop]. split; [done|].
    destruct Hstop as [Hn|[Hn|Hn]]; [left; lia | by right; left | by right; right].
  - intros Hnone. split; [by cbn; rewrite Hnone|].
    rewrite Hnone in H3. by apply H3.
Qed.

(** C10. When [messageLog] is NULL, [logSize] is set to 0 before it is
    tested, so the call does the same whatever [logSize] was, a negative
    one included; on a context with debug state it takes [count]
    messages or all there are, whatever their lengths, writes the
    arrays given and no text, leaves the error state of the context as
    it was, and changes the process by the [free] calls only. *)
Theorem null_buffer_skips_size_checks (ctx : gl_context) (p : process)
    (count logSize : Z) (out : log_arrays) :
  messageLog out = None ->
  _mesa_GetDebugMessageLog ctx count logSize out p
  = _mesa_GetDebugMessageLog ctx count 0 out p /\
  forall debug,
    Debug ctx = Some debug -> log_wf (Log debug) -> 0 <= count ->
    let queued := log_contents (Log debug) in
    let taken := take (Z.to_nat count) queued in
    let r := _mesa_GetDebugMessageLog ctx count logSize out p in
    exists log',
      fst r = (Z.of_nat (length taken), written out taken,
               set_Debug ctx (Some (set_Log debug log'))) /\
      Z.of_nat (length taken) = Z.min count (Z.of_nat (length queued)) /\
      messageLog (written out taken) = None /\
      log_contents log' = drop (Z.to_nat count) queued /\
      only_freed p (snd r).
Proof.
  intros Hnone. split.
  - unfold _mesa_GetDebugMessageLog. by rewrite Hnone.
  - intros debug Hctx Hwf Hcount queued taken r.
    assert (Hsize : messageLog out ≠ None -> 0 <= logSize) by done.
    destruct (GetDebugMessageLog_with_state ctx debug count logSize out p
                Hctx Hwf Hsize) as (_ & log' & Hfst & _ & Hc & Hfr).
    cbn zeta in Hfst, Hc, Hfr. fold queued in Hfst, Hc. fold r in Hfst, Hfr.
    destruct (fitting_spec (Z.to_nat count) (bool_decide (messageLog out ≠ None))
                (if bool_decide (messageLog out = None) then 0 else logSize)
                queued) as (_ & _ & H3 & _).
    cbn zeta in H3.
    assert (Hb : bool_decide (messageLog out ≠ None) = false)
      by (apply bool_decide_false; intros Hx; by apply Hx).
    rewrite (H3 Hb) in Hfst, Hc. fold taken in Hfst, Hc.
    exists log'. split; [done|]. split.
    { subst taken. rewrite length_take. lia. }
    split; [by cbn; rewrite Hnone|]. split; [|done].
    rewrite Hc. subst taken. rewrite length_take.
    destruct (Nat.le_ge_cases (Z.to_nat count) (length queued)).
    + by rewrite Nat.min_l.
    + rewrite Nat.min_r by done. by rewrite !drop_ge.
Qed.

(** ** Push and pop *)

Lemma log_msg_debug_shape (debug : gl_debug_state)
    (source type id severity len : Z) (buf : list ascii) (q : process) :
  exists log',
    fst (log_msg_debug debug source type id severity len buf q)
    = set_Log debug log'.
Proof.
  unfold log_msg_debug, bind, gets, ret, invoke_callback, modify. cbn [fst snd].
  destruct (negb _); [exists (Log debug); by rewrite set_Log_same|].
  destruct (Callback debug); cbn [fst snd];
    [exists (Log debug); by rewrite set_Log_same|].
  unfold debug_log_message.
  destruct (_ =? _); [exists (Log debug); by rewrite set_Log_same|].
  unfold bind, ret. cbn [fst snd]. by eexists.
Qed.


Lemma c_string_strncpy (n : nat) (s : list ascii) :
  c_string (strncpy n s ++ [NUL]) = c_string (take n s).
Proof.
  revert s. induction n as [|n IH]; intros s.
  - cbn. by rewrite take_0.
  - destruct s as [|c s].
    + simpl. by destruct (decide (NUL = NUL)).
    + simpl. destruct (decide (c = NUL)) as [->|Hc].
      * simpl. by destruct (decide (NUL = NUL)).
      * simpl. destruct (decide (c = NUL)); [done|]. by rewrite IH.
Qed.

Lemma debug_message_store_ok (source type id severity len : Z)
    (buf : list ascii) (q : process) :
  fst (malloc q) = true ->
  debug_message_store source type id severity len buf q
  = (mk_message source type id severity (len + 1)
       (malloced (strncpy (Z.to_nat len) buf ++ [NUL])),
     snd (malloc q)).
Proof.
  unfold debug_message_store, bind, ret. by intros ->.
Qed.

(** glPushDebugGroup on a stack with room, for a scoping source and a
    text below the limit: the event is passed to [log_msg], the message
    is stored as pending for the current depth, the group is pushed. *)
Lemma PushDebugGroup_accepted (ctx : gl_context) (debug : gl_debug_state)
    (p : process) (source : GLenum) (id len_arg : Z) (message : list ascii) :
  Debug ctx = Some debug -> scoping_source source ->
  GroupStackDepth debug < MAX_DEBUG_GROUP_STACK_DEPTH - 1 ->
  let len := if len_arg <? 0 then strlen message else len_arg in
  len < MAX_DEBUG_MESSAGE_LENGTH ->
  let src := gl_enum_to_debug_source source in
  let a := log_msg_debug debug src MESA_DEBUG_TYPE_PUSH_GROUP id
             MESA_DEBUG_SEVERITY_NOTIFICATION len message p in
  let st := debug_message_store src MESA_DEBUG_TYPE_PUSH_GROUP id
              MESA_DEBUG_SEVERITY_NOTIFICATION len message (snd a) in
  _mesa_PushDebugGroup ctx source id len_arg message p
  = (set_Debug ctx
       (Some (debug_push_group
                (set_GroupMessages (fst a)
                   (<[Z.to_nat (GroupStackDepth debug) := fst st]>
                      (GroupMessages debug))))),
     snd st).
Proof.
  intros Hctx Hsrc Hroom len Hlen src a st.
  destruct (log_msg_debug_shape debug src MESA_DEBUG_TYPE_PUSH_GROUP id
              MESA_DEBUG_SEVERITY_NOTIFICATION len message p) as [log_a Ha].
  fold a in Ha.
  unfold _mesa_PushDebugGroup, _mesa_get_debug_state. rewrite Hctx.
  unfold bind at 1. cbn [ret fst snd].
  destruct (Z.leb_spec (MAX_DEBUG_GROUP_STACK_DEPTH - 1) (GroupStackDepth debug));
    [lia|].
  assert (Hbody :
    (v <- validate_length ctx "glPushDebugGroup" len ;;
     let ctx0 := snd v in
     if negb (fst v) then ret ctx0
     else
       ctx1 <- log_msg ctx0 src MESA_DEBUG_TYPE_PUSH_GROUP id
                 MESA_DEBUG_SEVERITY_NOTIFICATION len message ;;
       match Debug ctx1 with
       | None => ret ctx1
       | Some debug0 =>
           emptySlot <- debug_message_store src
                          (gl_enum_to_debug_type GL_DEBUG_TYPE_PUSH_GROUP) id
                          (gl_enum_to_debug_severity
                             GL_DEBUG_SEVERITY_NOTIFICATION) len message ;;
           ret (set_Debug ctx1
                  (Some (debug_push_group
                           (set_GroupMessages debug0
                              (<[Z.to_nat (GroupStackDepth debug0) := emptySlot]>
                                 (GroupMessages debug0))))))
       end) p
    = (set_Debug ctx
         (Some (debug_push_group
                  (set_GroupMessages (fst a)
                     (<[Z.to_nat (GroupStackDepth debug) := fst st]>
                        (GroupMessages debug))))),
       snd st)).
  { unfold validate_length.
    destruct (Z.leb_spec MAX_DEBUG_MESSAGE_LENGTH len); [lia|].
    unfold bind at 1. cbn [ret fst snd negb].
    unfold bind at 1. rewrite (log_msg_with_state ctx debug) by done.
    cbn zeta. cbn [fst snd]. fold a. cbn [Debug set_Debug].
    unfold bind, ret. cbn [fst snd]. fold st.
    rewrite Ha. cbn [GroupStackDepth GroupMessages set_Log].
    by destruct ctx. }
  destruct Hsrc as [-> | ->]; exact Hbody.
Qed.

Lemma debug_message_clear_value (msg : gl_debug_message) (q : process) :
  fst (debug_message_clear msg q)
  = mk_message (msg_source msg) (msg_type msg) (msg_id msg)
      (msg_severity msg) 0 NULL.
Proof. unfold debug_message_clear, bind. by destruct (decide _). Qed.



(** ** Copy on write *)

Lemma malloc_group_heap (q : process) :
  group_heap (snd (malloc q)) = group_heap q.
Proof. unfold malloc. by destruct (malloc_results q). Qed.

Lemma copy_elements_group_heap (l : list gl_debug_element) (q : process) :
  group_heap (snd (copy_elements l q)) = group_heap q.
Proof.
  revert q. induction l as [|e l IH]; intros q; [done|].
  cbn [copy_elements]. unfold bind.
  destruct (fst (malloc q)); cbn [snd ret].
  - by rewrite IH, malloc_group_heap.
  - apply malloc_group_heap.
Qed.

Lemma copy_row_group_heap (row : list gl_debug_namespace) (q : process) :
  group_heap (snd (copy_row row q)) = group_heap q.
Proof.
  revert q. induction row as [|ns row IH]; intros q; [done|].
  cbn [copy_row]. unfold bind at 1.
  assert (H : group_heap (snd (debug_namespace_copy ns q)) = group_heap q).
  { unfold debug_namespace_copy, bind. cbn. apply copy_elements_group_heap. }
  destruct (fst (debug_namespace_copy ns q)); [|done].
  unfold bind. cbn [snd ret]. by rewrite IH.
Qed.

Lemma copy_rows_group_heap (rows : list (list gl_debug_namespace))
    (q : process) :
  group_heap (snd (copy_rows rows q)) = group_heap q.
Proof.
  revert q. induction rows as [|row rows IH]; intros q; [done|].
  cbn [copy_rows]. unfold bind at 1.
  pose proof (copy_row_group_heap row q) as H.
  destruct (fst (copy_row row q)); [|done].
  unfold bind. cbn [snd ret]. by rewrite IH.
Qed.

(** A successful [debug_make_group_writable] on a shared top slot puts
    a block that was not in use into that slot and leaves every block
    in use as it was. *)
Lemma debug_make_group_writable_fresh (debug : gl_debug_state) (p : process) :
  debug_is_group_read_only debug = true ->
  fst (fst (debug_make_group_writable debug p)) = true ->
  exists a,
    group_heap p !! a = None /\
    snd (fst (debug_make_group_writable debug p))
    = set_Groups debug
        (<[Z.to_nat (GroupStackDepth debug) := Some a]> (Groups debug)) /\
    forall a0, a0 ≠ a ->
      group_heap (snd (debug_make_group_writable debug p)) !! a0
      = group_heap p !! a0.
Proof.
  intros Hro. unfold debug_make_group_writable. rewrite Hro. cbn [negb].
  unfold bind, gets, ret, new_group. cbn zeta. cbn [fst snd].
  destruct (fst (malloc p)) eqn:Hm; [|done].
  set (rows := from_option Namespaces [] _).
  pose proof (copy_rows_group_heap rows (snd (malloc p))) as Hc.
  destruct (fst (copy_rows rows (snd (malloc p)))) as [rows'|]; [|done].
  intros _. cbn [fst snd]. rewrite Hc, malloc_group_heap.
  exists (fresh (dom (group_heap p))). split.
  - apply not_elem_of_dom, is_fresh.
  - split; [done|]. intros a0 Hne. cbn. by rewrite lookup_insert_ne.
Qed.

Lemma debug_namespace_set_group_heap (ns : gl_debug_namespace) (id : Z)
    (enabled : bool) (q : process) :
  group_heap (snd (debug_namespace_set ns id enabled q)) = group_heap q.
Proof.
  unfold debug_namespace_set.
  destruct (_ =? _); destruct (find_element _ _); try done.
  unfold bind, ret. cbn zeta.
  destruct (fst (malloc q)); cbn [snd]; apply malloc_group_heap.
Qed.

(** A write to a namespace of the top group touches the block of the
    top slot only. *)
Lemma store_namespace_other (debug : gl_debug_state) (gstack s t : Z)
    (ns : gl_debug_namespace) (q : process) (a0 : positive) :
  mjoin (Groups debug !! Z.to_nat gstack) ≠ Some a0 ->
  group_heap (snd (store_namespace debug gstack s t ns q)) !! a0
  = group_heap q !! a0.
Proof.
  intros H. unfold store_namespace, modify. cbn [snd].
  destruct (mjoin (Groups debug !! Z.to_nat gstack)) as [a|]; [|done].
  cbn. apply lookup_alter_ne. congruence.
Qed.

Lemma for_each_invariant {A} (P : process -> Prop) (l : list A)
    (body : A -> M unit) (q : process) :
  (forall x q', P q' -> P (snd (body x q'))) ->
  P q -> P (snd (for_each l body q)).
Proof.
  intros Hbody. revert q. induction l as [|x l IH]; intros q Hq; [done|].
  cbn [for_each]. unfold bind. apply IH. by apply Hbody.
Qed.

(** When the copy is allocated, a mutation of the top group after a
    push leaves the group of the slot below as it was. *)
Lemma mutation_leaves_lower_slot (debug : gl_debug_state) (p : process)
    (grp : gl_debug_group) :
  debug_is_group_read_only debug = true ->
  fst (fst (debug_make_group_writable debug p)) = true ->
  group_at p debug (GroupStackDepth debug - 1) = Some grp ->
  (forall source type id enabled,
     let r := debug_set_message_enable debug source type id enabled p in
     group_at (snd r) (fst r) (GroupStackDepth debug - 1) = Some grp) /\
  (forall source type severity enabled,
     let r := debug_set_message_enable_all debug source type severity
                enabled p in
     group_at (snd r) (fst r) (GroupStackDepth debug - 1) = Some grp).
Proof.
  intros Hro Hok Hgrp.
  destruct (debug_make_group_writable_fresh debug p Hro Hok)
    as (a & Hfresh & Hdebug & Hheap).
  assert (Hpos : 0 < GroupStackDepth debug).
  { unfold debug_is_group_read_only in Hro.
    apply andb_true_iff in Hro as [Hro _]. lia. }
  unfold group_at in Hgrp.
  destruct (mjoin (Groups debug !! Z.to_nat (GroupStackDepth debug - 1)))
    as [a0|] eqn:Ha0; [|done]. cbn in Hgrp.
  assert (Hne : a0 ≠ a) by congruence.
  set (debug1 := snd (fst (debug_make_group_writable debug p))) in *.
  set (p1 := snd (debug_make_group_writable debug p)) in *.
  assert (Hlow : mjoin (Groups debug1 !! Z.to_nat (GroupStackDepth debug - 1))
                 = Some a0).
  { rewrite Hdebug. cbn. by rewrite list_lookup_insert_ne by lia. }
  assert (Htop : mjoin (Groups debug1 !! Z.to_nat (GroupStackDepth debug))
                 ≠ Some a0).
  { rewrite Hdebug. cbn. destruct (Groups debug !! Z.to_nat (GroupStackDepth debug))
      eqn:E.
    - rewrite list_lookup_insert_eq by (by apply lookup_lt_Some in E).
      cbn. congruence.
    - rewrite list_insert_ge by (by apply lookup_ge_None in E).
      rewrite E. done. }
  assert (Hp1 : group_heap p1 !! a0 = Some grp) by (by rewrite Hheap).
  split.
  - intros source type id enabled r. subst r.
    unfold debug_set_message_enable, bind. fold debug1 p1.
    unfold load_namespace, gets. cbn [fst snd].
    destruct (_ ← group_at p1 debug1 (GroupStackDepth debug); _) as [ns|];
      cbn [fst snd ret]; unfold group_at.
    + rewrite Hlow. cbn [mbind option_bind]. rewrite store_namespace_other by done.
      by rewrite debug_namespace_set_group_heap.
    + rewrite Hlow. done.
  - intros source type severity enabled r. subst r.
    unfold debug_set_message_enable_all.
    destruct (source =? MESA_DEBUG_SOURCE_COUNT), (type =? MESA_DEBUG_TYPE_COUNT);
      unfold bind; fold debug1 p1; cbn [fst snd ret]; unfold group_at;
      rewrite Hlow; cbn [mbind option_bind].
    all: apply (for_each_invariant (fun q => group_heap q !! a0 = Some grp));
      [|done].
    all: intros s q' Hq'; apply for_each_invariant; [|done].
    all: intros t q'' Hq''; unfold bind, load_namespace, gets; cbn [fst snd].
    all: destruct (_ ← group_at q'' debug1 (GroupStackDepth debug); _);
      cbn [snd ret]; [by rewrite store_namespace_other | done].
Qed.

(** A pop right after a push frees nothing and leaves every group as
    it was; the stack is back at its depth with the slot above set to
    NULL. *)
Lemma pop_of_untouched_push (debug : gl_debug_state) (q : process) :
  0 <= GroupStackDepth debug ->
  (Z.to_nat (GroupStackDepth debug) + 1 < length (Groups debug))%nat ->
  debug_pop_group (debug_push_group debug) q
  = (set_Groups debug
       (<[Z.to_nat (GroupStackDepth debug + 1) := None]> (Groups debug)), q).
Proof.
  intros Hd Hlen.
  assert (Hro : debug_is_group_read_only (debug_push_group debug) = true).
  { unfold debug_is_group_read_only, debug_push_group. cbn.
    apply andb_true_intro. split; [lia|]. apply bool_decide_eq_true.
    replace (GroupStackDepth debug + 1 - 1) with (GroupStackDepth debug) by lia.
    rewrite list_lookup_insert_eq by lia.
    rewrite list_lookup_insert_ne by lia.
    destruct (Groups debug !! Z.to_nat (GroupStackDepth debug)) eqn:E; [done|].
    apply lookup_ge_None in E. lia. }
  unfold debug_pop_group, debug_clear_group, bind, ret. rewrite Hro.
  cbn [negb fst snd]. f_equal. unfold debug_push_group. cbn.
  rewrite list_insert_insert_eq.
  replace (GroupStackDepth debug + 1 - 1) with (GroupStackDepth debug) by lia.
  by destruct debug.
Qed.

(** * Further properties of the code *)

(** ** The enum tables *)

(** X1. [gl_enum_to_debug_source], [gl_enum_to_debug_type] and
    [gl_enum_to_debug_severity] invert the tables [debug_source_enums],
    [debug_type_enums] and [debug_severity_enums]: the index of the
    entry at position [i] is [i]; the index of any enumerant lies
    between 0 and the table size and the entry at an index below the
    table size is the enumerant itself; GL_DONT_CARE gets the table
    size, the [_COUNT] wild card. *)
Theorem enum_tables_round_trip :
  (forall i, 0 <= i < MESA_DEBUG_SOURCE_COUNT ->
     gl_enum_to_debug_source (table_at debug_source_enums i) = i) /\
  (forall i, 0 <= i < MESA_DEBUG_TYPE_COUNT ->
     gl_enum_to_debug_type (table_at debug_type_enums i) = i) /\
  (forall i, 0 <= i < MESA_DEBUG_SEVERITY_COUNT ->
     gl_enum_to_debug_severity (table_at debug_severity_enums i) = i) /\
  (forall e,
     0 <= gl_enum_to_debug_source e <= MESA_DEBUG_SOURCE_COUNT /\
     (gl_enum_to_debug_source e < MESA_DEBUG_SOURCE_COUNT ->
      table_at debug_source_enums (gl_enum_to_debug_source e) = e) /\
     0 <= gl_enum_to_debug_type e <= MESA_DEBUG_TYPE_COUNT /\
     (gl_enum_to_debug_type e < MESA_DEBUG_TYPE_COUNT ->
      table_at debug_type_enums (gl_enum_to_debug_type e) = e) /\
     0 <= gl_enum_to_debug_severity e <= MESA_DEBUG_SEVERITY_COUNT /\
     (gl_enum_to_debug_severity e < MESA_DEBUG_SEVERITY_COUNT ->
      table_at debug_severity_enums (gl_enum_to_debug_severity e) = e)) /\
  gl_enum_to_debug_source GL_DONT_CARE = MESA_DEBUG_SOURCE_COUNT /\
  gl_enum_to_debug_type GL_DONT_CARE = MESA_DEBUG_TYPE_COUNT /\
  gl_enum_to_debug_severity GL_DONT_CARE = MESA_DEBUG_SEVERITY_COUNT.
Proof.
  split; [|split; [|split; [|split; [|by repeat split]]]].
  - unfold MESA_DEBUG_SOURCE_COUNT. intros i Hi.
    assert (i = 0 \/ i = 1 \/ i = 2 \/ i = 3 \/ i = 4 \/ i = 5)
      as [->|[->|[->|[->|[->| ->]]]]] by lia; reflexivity.
  - unfold MESA_DEBUG_TYPE_COUNT. intros i Hi.
    assert (i = 0 \/ i = 1 \/ i = 2 \/ i = 3 \/ i = 4 \/ i = 5 \/ i = 6 \/
            i = 7 \/ i = 8)
      as [->|[->|[->|[->|[->|[->|[->|[->| ->]]]]]]]] by lia; reflexivity.
  - unfold MESA_DEBUG_SEVERITY_COUNT. intros i Hi.
    assert (i = 0 \/ i = 1 \/ i = 2 \/ i = 3) as [->|[->|[->| ->]]] by lia;
      reflexivity.
  - intros e. destruct e; vm_compute; repeat split; congruence.
Qed.

(** ** Dynamic ids *)

(** X2. [debug_get_id] gives an id to a slot once: a slot that holds a
    non-zero id keeps it and the counter stays; an empty slot takes the
    value of [NextDynamicID]; calling the function again on the result
    changes neither the slot nor the counter; and the empty slot that
    comes next gets a different id. *)
Theorem dynamic_id_is_assigned_once (id : Z) (p : process) :
  0 < NextDynamicID p < 2 ^ 32 ->
  let r := debug_get_id id p in
  (id <> 0 -> r = (id, p)) /\
  (id = 0 ->
   fst r = NextDynamicID p /\ fst (debug_get_id 0 (snd r)) <> fst r) /\
  debug_get_id (fst r) (snd r) = r.
Proof.
  intros Hn r. subst r. unfold debug_get_id.
  destruct (Z.eqb_spec id 0) as [->|Hid].
  - unfold bind, gets, modify, ret. cbn.
    split; [done|].
    destruct (Z.eqb_spec (NextDynamicID p) 0) as [E|_]; [lia|].
    split; [|done]. intros _. split; [done|].
    destruct (Z.eq_dec (NextDynamicID p + 1) (2 ^ 32)) as [E|E].
    + rewrite E, Z.mod_same by lia. lia.
    + rewrite Z.mod_small by lia. lia.
  - split; [done|]. split; [done|]. cbn [ret fst snd].
    by destruct (Z.eqb_spec id 0).
Qed.

(** ** Stored texts *)

Lemma length_strncpy (n : nat) (s : list ascii) : length (strncpy n s) = n.
Proof.
  revert s. induction n as [|n IH]; intros s; [done|].
  cbn [strncpy]. destruct s as [|c s].
  - apply length_replicate.
  - destruct (decide (c = NUL)); [apply length_replicate|].
    cbn. by rewrite IH.
Qed.

Lemma strncpy_replicate_NUL (n m : nat) :
  strncpy n (replicate m NUL) = replicate n NUL.
Proof.
  destruct n as [|n]; [done|]. cbn [strncpy].
  destruct m as [|m]; [done|]. cbn [replicate].
  by destruct (decide (NUL = NUL)).
Qed.

(** Copying a text that [strncpy] wrote gives the same bytes. *)
Lemma strncpy_strncpy_pad (n k : nat) (s : list ascii) :
  strncpy (n + k) (strncpy n s ++ replicate k NUL)
  = strncpy n s ++ replicate k NUL.
Proof.
  revert s. induction n as [|n IH]; intros s.
  - apply strncpy_replicate_NUL.
  - assert (Hpad : strncpy (S n + k) (replicate (S n) NUL ++ replicate k NUL)
                   = replicate (S n) NUL ++ replicate k NUL).
    { rewrite <- replicate_add. apply strncpy_replicate_NUL. }
    destruct s as [|c s]; [exact Hpad|].
    cbn [strncpy]. destruct (decide (c = NUL)) as [->|Hc]; [exact Hpad|].
    change (S n + k)%nat with (S (n + k)). cbn [app strncpy].
    destruct (decide (c = NUL)); [done|]. by rewrite IH.
Qed.

Lemma strncpy_strncpy (n : nat) (s : list ascii) :
  strncpy (n + 1) (strncpy n s ++ [NUL]) = strncpy n s ++ [NUL].
Proof. apply (strncpy_strncpy_pad n 1). Qed.

(** X3. The message [debug_message_store] builds, whether the text could
    be allocated or not, has [length] equal to the number of bytes of its
    text, terminator included, and the text ends with the null byte (what
    [_mesa_GetDebugMessageLog] asserts); copying [length] bytes of it
    with [strncpy] gives the text back byte for byte.  When the
    allocation succeeds the text is the C string of the first [len]
    bytes of the buffer. *)
Theorem stored_text_is_terminated (source type id severity len : Z)
    (buf : list ascii) (q : process) :
  0 <= len ->
  let msg := fst (debug_message_store source type id severity len buf q) in
  msg_length msg = Z.of_nat (length (text_of (msg_message msg))) /\
  last (text_of (msg_message msg)) = Some NUL /\
  copied_text msg = text_of (msg_message msg) /\
  (fst (malloc q) = true ->
   msg_length msg = len + 1 /\
   c_string (text_of (msg_message msg)) = c_string (take (Z.to_nat len) buf)).
Proof.
  intros Hlen msg. subst msg. unfold debug_message_store, bind.
  destruct (fst (malloc q)) eqn:Hm.
  - cbn [ret fst snd msg_length msg_message text_of]. unfold copied_text.
    cbn [msg_length msg_message text_of].
    rewrite length_app, length_strncpy, last_snoc. cbn [length].
    split; [lia|]. split; [done|]. split.
    + replace (Z.to_nat (len + 1)) with (Z.to_nat len + 1)%nat by lia.
      apply strncpy_strncpy.
    + intros _. split; [done|]. apply c_string_strncpy.
  - unfold gets, modify, ret. cbn [fst snd msg_length msg_message text_of].
    split; [reflexivity|]. split; [reflexivity|]. split; [|done].
    vm_compute. reflexivity.
Qed.

(** ** Validation of the enumerants *)

Lemma enum_index_range (e : GLenum) (table : list GLenum) :
  0 <= enum_index e table <= Z.of_nat (length table).
Proof.
  induction table as [|x table IH]; cbn [enum_index length]; [lia|].
  destruct (decide (x = e)); lia.
Qed.

Lemma table_at_enum_index (e : GLenum) (table : list GLenum) :
  enum_index e table < Z.of_nat (length table) ->
  table_at table (enum_index e table) = e.
Proof.
  unfold table_at. induction table as [|x table IH]; cbn [enum_index length].
  - lia.
  - destruct (decide (x = e)) as [->|Hne]; [done|]. intros Hlt.
    pose proof (enum_index_range e table) as Hr.
    replace (Z.to_nat (1 + enum_index e table))
      with (S (Z.to_nat (enum_index e table))) by lia.
    cbn [lookup list_lookup]. apply IH. lia.
Qed.

Lemma validate_params_eq (ctx : gl_context) (caller : Z) (callerstr : string)
    (source type severity : GLenum) (p : process) :
  validate_params ctx caller callerstr source type severity p
  = if source_ok caller source && type_ok caller type
       && severity_ok caller severity
    then (true, ctx, p)
    else
      let r := _mesa_error ctx GL_INVALID_ENUM
                 "bad values passed to %s(source=0x%x, type=0x%x, severity=0x%x)"
                 [arg_str callerstr; arg_enum source; arg_enum type;
                  arg_enum severity] p in
      (false, fst r, snd r).
Proof. unfold validate_params. by destruct (_ && _). Qed.

Lemma source_ok_spec (caller : Z) (source : GLenum) :
  caller = INSERT \/ caller = CONTROL ->
  source_ok caller source = true ->
  let s := gl_enum_to_debug_source source in
  (s = MESA_DEBUG_SOURCE_COUNT <-> source = GL_DONT_CARE) /\
  (caller = INSERT ->
   s = MESA_DEBUG_SOURCE_APPLICATION \/ s = MESA_DEBUG_SOURCE_THIRD_PARTY).
Proof.
  intros [-> | ->] H; destruct source; try discriminate H;
    (split; [split; [intros E; vm_compute in E; congruence
                    | intros E; try discriminate E; reflexivity]|]);
    intros E; try (vm_compute in E; congruence); auto.
Qed.

Lemma type_ok_spec (caller : Z) (type : GLenum) :
  caller = INSERT \/ caller = CONTROL ->
  type_ok caller type = true ->
  let t := gl_enum_to_debug_type type in
  (t = MESA_DEBUG_TYPE_COUNT <-> type = GL_DONT_CARE) /\
  (caller = INSERT -> t <= MESA_DEBUG_TYPE_MARKER).
Proof.
  intros [-> | ->] H; destruct type; try discriminate H;
    (split; [split; [intros E; vm_compute in E; congruence
                    | intros E; try discriminate E; reflexivity]|]);
    intros E; try (vm_compute in E; congruence); vm_compute; congruence.
Qed.

Lemma severity_ok_spec (caller : Z) (severity : GLenum) :
  caller = INSERT \/ caller = CONTROL ->
  severity_ok caller severity = true ->
  let s := gl_enum_to_debug_severity severity in
  (s = MESA_DEBUG_SEVERITY_COUNT <-> severity = GL_DONT_CARE) /\
  (caller = INSERT -> s < MESA_DEBUG_SEVERITY_COUNT).
Proof.
  intros [-> | ->] H; destruct severity; try discriminate H;
    (split; [split; [intros E; vm_compute in E; congruence
                    | intros E; try discriminate E; reflexivity]|]);
    intros E; try (vm_compute in E; congruence); vm_compute; congruence.
Qed.

(** X4. The values [validate_params] lets through are the ones the
    tables know.  When it returns true it has changed nothing, and the
    indices [gl_enum_to_debug_source], [gl_enum_to_debug_type] and
    [gl_enum_to_debug_severity] give for the three values lie within the
    tables or are the [_COUNT] wild card, the wild card exactly for
    GL_DONT_CARE, and every other index leads back to the value through
    its table.  For glDebugMessageInsert no wild card passes: the
    source is APPLICATION or THIRD_PARTY, the type is none of
    PUSH_GROUP and POP_GROUP, and the severity is one of the four. *)
Theorem validated_enumerants_are_in_the_tables (ctx : gl_context)
    (caller : Z) (callerstr : string) (source type severity : GLenum)
    (p : process) :
  caller = INSERT \/ caller = CONTROL ->
  fst (fst (validate_params ctx caller callerstr source type severity p))
  = true ->
  let s := gl_enum_to_debug_source source in
  let t := gl_enum_to_debug_type type in
  let v := gl_enum_to_debug_severity severity in
  validate_params ctx caller callerstr source type severity p
  = (true, ctx, p) /\
  0 <= s <= MESA_DEBUG_SOURCE_COUNT /\
  0 <= t <= MESA_DEBUG_TYPE_COUNT /\
  0 <= v <= MESA_DEBUG_SEVERITY_COUNT /\
  (s = MESA_DEBUG_SOURCE_COUNT <-> source = GL_DONT_CARE) /\
  (t = MESA_DEBUG_TYPE_COUNT <-> type = GL_DONT_CARE) /\
  (v = MESA_DEBUG_SEVERITY_COUNT <-> severity = GL_DONT_CARE) /\
  (s < MESA_DEBUG_SOURCE_COUNT -> table_at debug_source_enums s = source) /\
  (t < MESA_DEBUG_TYPE_COUNT -> table_at debug_type_enums t = type) /\
  (v < MESA_DEBUG_SEVERITY_COUNT ->
   table_at debug_severity_enums v = severity) /\
  (caller = INSERT ->
   (s = MESA_DEBUG_SOURCE_APPLICATION \/ s = MESA_DEBUG_SOURCE_THIRD_PARTY) /\
   t <= MESA_DEBUG_TYPE_MARKER /\ v < MESA_DEBUG_SEVERITY_COUNT).
Proof.
  intros Hc H s t v. rewrite validate_params_eq in H |- *.
  destruct (source_ok caller source && type_ok caller type
            && severity_ok caller severity) eqn:Hok; [|discriminate H].
  apply andb_true_iff in Hok as [[Hs Ht]%andb_true_iff Hv].
  destruct (source_ok_spec _ _ Hc Hs) as [Hs1 Hs2].
  destruct (type_ok_spec _ _ Hc Ht) as [Ht1 Ht2].
  destruct (severity_ok_spec _ _ Hc Hv) as [Hv1 Hv2].
  split; [done|].
  split; [apply (enum_index_range source debug_source_enums)|].
  split; [apply (enum_index_range type debug_type_enums)|].
  split; [apply (enum_index_range severity debug_severity_enums)|].
  split; [done|]. split; [done|]. split; [done|].
  split; [apply (table_at_enum_index source debug_source_enums)|].
  split; [apply (table_at_enum_index type debug_type_enums)|].
  split; [apply (table_at_enum_index severity debug_severity_enums)|].
  intros E. auto.
Qed.

(** ** Submitting a message *)



Lemma log_msg_debug_callback (debug : gl_debug_state) (callback : Z)
    (source type id severity len : Z) (buf : list ascii) (q : process) :
  debug_is_message_enabled q debug source type id severity = true ->
  Callback debug = Some callback ->
  log_msg_debug debug source type id severity len buf q
  = (debug,
     set_callback_calls
       (callback_calls q
        ++ [mk_call callback (table_at debug_source_enums source)
              (table_at debug_type_enums type) id
              (table_at debug_severity_enums severity) len buf
              (CallbackData debug)]) q).
Proof.
  intros H Hc. unfold log_msg_debug, bind, gets. cbn [fst snd].
  by rewrite H, Hc.
Qed.

Lemma log_msg_debug_stored (debug : gl_debug_state)
    (source type id severity len : Z) (buf : list ascii) (q : process) :
  debug_is_message_enabled q debug source type id severity = true ->
  Callback debug = None -> log_wf (Log debug) ->
  NumMessages (Log debug) < MAX_DEBUG_LOGGED_MESSAGES ->
  fst (malloc q) = true ->
  exists log',
    log_msg_debug debug source type id severity len buf q
    = (set_Log debug log', snd (malloc q)) /\
    log_wf log' /\
    log_contents log'
    = log_contents (Log debug)
      ++ [mk_message source type id severity (len + 1)
            (malloced (strncpy (Z.to_nat len) buf ++ [NUL]))].
Proof.
  intros H Hc Hwf Hroom Hm. unfold log_msg_debug, bind, gets. cbn [fst snd].
  rewrite H, Hc. cbn [negb]. unfold debug_log_message.
  destruct (Z.eqb_spec (NumMessages (Log debug)) MAX_DEBUG_LOGGED_MESSAGES)
    as [E|_]; [lia|].
  unfold bind. rewrite debug_message_store_ok by done. cbn [fst snd ret].
  eexists. split; [reflexivity|]. by apply log_contents_enqueue.
Qed.

(** glDebugMessageInsert with values that pass the validation and a
    length below the limit comes down to [log_msg]. *)
Lemma DebugMessageInsert_accepted (ctx : gl_context) (source type : GLenum)
    (id : Z) (severity : GLenum) (length : Z) (buf : list ascii)
    (p : process) :
  fst (fst (validate_params ctx INSERT "glDebugMessageInsert" source type
              severity p)) = true ->
  let len := if length <? 0 then strlen buf else length in
  len < MAX_DEBUG_MESSAGE_LENGTH ->
  _mesa_DebugMessageInsert ctx source type id severity length buf p
  = log_msg ctx (gl_enum_to_debug_source source)
      (gl_enum_to_debug_type type) id (gl_enum_to_debug_severity severity)
      len buf p.
Proof.
  intros Hv len Hlen. unfold _mesa_DebugMessageInsert, bind.
  rewrite validate_params_eq in Hv |- *.
  destruct (_ && _); [|discriminate Hv]. cbn [fst snd negb].
  unfold validate_length. fold len.
  destruct (Z.leb_spec MAX_DEBUG_MESSAGE_LENGTH len) as [E|_]; [lia|].
  reflexivity.
Qed.

(** The values glDebugMessageInsert accepts come back from the tables. *)
Lemma validated_insert_tables (ctx : gl_context) (callerstr : string)
    (source type severity : GLenum) (p : process) :
  fst (fst (validate_params ctx INSERT callerstr source type severity p))
  = true ->
  table_at debug_source_enums (gl_enum_to_debug_source source) = source /\
  table_at debug_type_enums (gl_enum_to_debug_type type) = type /\
  table_at debug_severity_enums (gl_enum_to_debug_severity severity)
  = severity.
Proof.
  intros Hv. rewrite validate_params_eq in Hv.
  destruct (source_ok INSERT source && type_ok INSERT type
            && severity_ok INSERT severity) eqn:Hok; [|discriminate Hv].
  apply andb_true_iff in Hok as [[Hs Ht]%andb_true_iff Hsv].
  destruct (source_ok_spec _ _ (or_introl eq_refl) Hs) as [_ Hs2].
  destruct (type_ok_spec _ _ (or_introl eq_refl) Ht) as [_ Ht2].
  destruct (severity_ok_spec _ _ (or_introl eq_refl) Hsv) as [_ Hv2].
  specialize (Hs2 eq_refl). specialize (Ht2 eq_refl). specialize (Hv2 eq_refl).
  unfold gl_enum_to_debug_source, gl_enum_to_debug_type,
    gl_enum_to_debug_severity in *.
  split; [|split].
  - apply table_at_enum_index.
    change (Z.of_nat (List.length debug_source_enums)) with 6.
    unfold MESA_DEBUG_SOURCE_APPLICATION, MESA_DEBUG_SOURCE_THIRD_PARTY in Hs2.
    lia.
  - apply table_at_enum_index.
    change (Z.of_nat (List.length debug_type_enums)) with 9.
    unfold MESA_DEBUG_TYPE_MARKER in Ht2. lia.
  - apply table_at_enum_index. exact Hv2.
Qed.


(** X6. With a callback installed, an enabled message of
    glDebugMessageInsert goes to the callback and nowhere else: the
    callback is called once, with the source, type, id and severity
    the application passed, the length (that of the C string when the
    argument is negative), the buffer and the user parameter; the log
    and the rest of the state stay as they are and nothing is
    allocated. *)
Theorem insert_reaches_callback (ctx : gl_context) (debug : gl_debug_state)
    (callback : Z) (source type : GLenum) (id : Z) (severity : GLenum)
    (length : Z) (buf : list ascii) (p : process) :
  Debug ctx = Some debug ->
  Callback debug = Some callback ->
  fst (fst (validate_params ctx INSERT "glDebugMessageInsert" source type
              severity p)) = true ->
  let len := if length <? 0 then strlen buf else length in
  len < MAX_DEBUG_MESSAGE_LENGTH ->
  debug_is_message_enabled p debug (gl_enum_to_debug_source source)
    (gl_enum_to_debug_type type) id (gl_enum_to_debug_severity severity)
  = true ->
  _mesa_DebugMessageInsert ctx source type id severity length buf p
  = (ctx,
     set_callback_calls
       (callback_calls p
        ++ [mk_call callback source type id severity len buf
              (CallbackData debug)]) p).
Proof.
  intros Hd Hc Hv len Hlen Hen.
  rewrite DebugMessageInsert_accepted, (log_msg_with_state _ _ _ _ _ _ _ _ _ Hd)
    by done.
  fold len. rewrite (log_msg_debug_callback _ callback) by done.
  cbn [fst snd]. rewrite set_Debug_same by done.
  destruct (validated_insert_tables _ _ _ _ _ _ Hv) as (-> & -> & ->).
  reflexivity.
Qed.

(** X7. What glDebugMessageInsert stores, glGetDebugMessageLog gives
    back.  With no callback, an empty log, the message enabled and its
    text allocated, a following glGetDebugMessageLog with room for one
    message and [len + 1] bytes returns 1, writes to the arrays the
    source, type, id and severity that were inserted and the length
    [len + 1], which counts the terminator, appends to the text buffer
    the first [len] bytes of the inserted buffer (up to its terminator,
    padded with null bytes) followed by a null byte, and leaves the log
    empty. *)
Theorem insert_then_get_log (ctx : gl_context) (debug : gl_debug_state)
    (source type : GLenum) (id : Z) (severity : GLenum) (length : Z)
    (buf : list ascii) (p : process) (count logSize : Z) (out : log_arrays)
    (text : list ascii) :
  Debug ctx = Some debug ->
  Callback debug = None ->
  log_wf (Log debug) -> NumMessages (Log debug) = 0 ->
  fst (fst (validate_params ctx INSERT "glDebugMessageInsert" source type
              severity p)) = true ->
  let len := if length <? 0 then strlen buf else length in
  len < MAX_DEBUG_MESSAGE_LENGTH ->
  debug_is_message_enabled p debug (gl_enum_to_debug_source source)
    (gl_enum_to_debug_type type) id (gl_enum_to_debug_severity severity)
  = true ->
  fst (malloc p) = true ->
  1 <= count -> messageLog out = Some text -> len + 1 <= logSize ->
  let r1 := _mesa_DebugMessageInsert ctx source type id severity length buf p in
  let r2 := _mesa_GetDebugMessageLog (fst r1) count logSize out (snd r1) in
  exists log',
    fst r2
    = (1,
       mk_arrays (write (sources out) source) (write (types out) type)
         (write (ids out) id) (write (severities out) severity)
         (write (lengths out) (len + 1))
         (Some (text ++ strncpy (Z.to_nat len) buf ++ [NUL])),
       set_Debug ctx (Some (set_Log debug log'))) /\
    log_wf log' /\ log_contents log' = [].
Proof.
  intros Hd Hc Hwf Hempty Hv len Hlen Hen Hm Hcount Hout Hsize r1 r2.
  assert (Hlen0 : 0 <= len).
  { subst len. destruct (Z.ltb_spec length 0); [|done].
    clear. induction buf as [|c b IH]; cbn; [done|].
    destruct (decide (c = NUL)); lia. }
  assert (Hr1 : exists log1,
    r1 = (set_Debug ctx (Some (set_Log debug log1)), snd (malloc p)) /\
    log_wf log1 /\
    log_contents log1
    = [mk_message (gl_enum_to_debug_source source)
         (gl_enum_to_debug_type type) id (gl_enum_to_debug_severity severity)
         (len + 1) (malloced (strncpy (Z.to_nat len) buf ++ [NUL]))]).
  { subst r1.
    rewrite DebugMessageInsert_accepted,
      (log_msg_with_state _ _ _ _ _ _ _ _ _ Hd) by done. fold len.
    destruct (log_msg_debug_stored debug (gl_enum_to_debug_source source)
                (gl_enum_to_debug_type type) id
                (gl_enum_to_debug_severity severity) len buf p)
      as (log1 & -> & Hwf1 & Hc1); try done.
    { destruct Hwf as (? & ? & ? & ?). lia. }
    exists log1. split; [done|]. split; [done|].
    by rewrite Hc1, (log_contents_empty _ Hempty). }
  destruct Hr1 as (log1 & Hr1 & Hwf1 & Hc1).
  subst r2. rewrite Hr1. cbn [fst snd].
  destruct (GetDebugMessageLog_with_state
              (set_Debug ctx (Some (set_Log debug log1))) (set_Log debug log1)
              count logSize out (snd (malloc p)))
    as (_ & log' & Hr2 & Hwf' & Hc' & _); [done|done|lia|].
  cbv zeta in Hr2, Hc'. rewrite Hout in Hr2, Hc'.
  rewrite (bool_decide_eq_false_2 (Some text = None)) in Hr2, Hc' by done.
  rewrite (bool_decide_eq_true_2 (Some text ≠ None)) in Hr2, Hc' by done.
  cbn [Log set_Log] in Hr2, Hc'. rewrite Hc1 in Hr2, Hc'.
  destruct (Z.to_nat count) as [|n] eqn:En; [lia|].
  cbn [fitting msg_length] in Hr2, Hc'.
  destruct (Z.ltb_spec logSize (len + 1)) as [E|_]; [lia|].
  cbn [andb] in Hr2, Hc'.
  replace (fitting n true (logSize - (len + 1)) []) with (@nil gl_debug_message)
    in Hr2, Hc' by (by destruct n).
  exists log'. split; [|split; [done|]].
  - rewrite Hr2. cbn [List.length]. f_equal. f_equal.
    unfold written. rewrite Hout.
      cbn [fmap list_fmap mbind list_bind app msg_source msg_type msg_id
           msg_severity msg_length sources types ids severities lengths
           messageLog append option_fmap option_map].
      unfold copied_text. cbn [msg_length msg_message text_of].
      replace (Z.to_nat (len + 1)) with (Z.to_nat len + 1)%nat by lia.
      rewrite strncpy_strncpy, app_nil_r.
      by destruct (validated_insert_tables _ _ _ _ _ _ Hv) as (-> & -> & ->).
  - by rewrite Hc'.
Qed.

(** ** A state created on first use *)

Lemma debug_create_ok (p : process) :
  fst (malloc p) = true -> fst (malloc (snd (malloc p))) = true ->
  let q := snd (malloc (snd (malloc p))) in
  let a := fresh (dom (group_heap q)) in
  debug_create p
  = (Some
       (mk_state None 0 false false
          (<[0%nat := Some a]>
             (replicate (Z.to_nat MAX_DEBUG_GROUP_STACK_DEPTH) None))
          (replicate (Z.to_nat MAX_DEBUG_GROUP_STACK_DEPTH) zero_message) 0
          (mk_log (replicate (Z.to_nat MAX_DEBUG_LOGGED_MESSAGES) zero_message)
             0 0)),
     set_group_heap
       (<[a := mk_group
                 (replicate (Z.to_nat MESA_DEBUG_SOURCE_COUNT)
                    (replicate (Z.to_nat MESA_DEBUG_TYPE_COUNT)
                       debug_namespace_init))]> (group_heap q)) q).
Proof.
  intros H1 H2 q a. unfold debug_create, bind. rewrite H1, H2.
  reflexivity.
Qed.

Lemma default_filter_bits (severity : Z) :
  0 <= severity < MESA_DEBUG_SEVERITY_COUNT ->
  Z.testbit (DefaultState debug_namespace_init) severity
  = (severity =? MESA_DEBUG_SEVERITY_HIGH)
    || (severity =? MESA_DEBUG_SEVERITY_MEDIUM).
Proof.
  unfold MESA_DEBUG_SEVERITY_COUNT. intros H.
  assert (severity = 0 \/ severity = 1 \/ severity = 2 \/ severity = 3)
    as [->|[->|[->| ->]]] by lia; reflexivity.
Qed.

(** X8. The debug state is created on first use with the default
    filter.  On a context without debug state, with memory for the state
    and its base group, enabling GL_DEBUG_OUTPUT through
    [_mesa_set_debug_state_int] succeeds and leaves a state with no
    callback, an empty log and the group stack at depth 0, in which a
    message of any source, type and id is enabled exactly when its
    severity is HIGH or MEDIUM. *)
Theorem fresh_state_has_default_filter (ctx : gl_context) (p : process) :
  0 < MAX_DEBUG_GROUP_STACK_DEPTH ->
  Debug ctx = None ->
  fst (malloc p) = true -> fst (malloc (snd (malloc p))) = true ->
  let r := _mesa_set_debug_state_int ctx GL_DEBUG_OUTPUT 1 p in
  fst (fst r) = true /\
  exists debug,
    Debug (snd (fst r)) = Some debug /\
    Callback debug = None /\ DebugOutput debug = true /\
    GroupStackDepth debug = 0 /\ NumMessages (Log debug) = 0 /\
    forall source type id severity,
      0 <= source < MESA_DEBUG_SOURCE_COUNT ->
      0 <= type < MESA_DEBUG_TYPE_COUNT ->
      0 <= severity < MESA_DEBUG_SEVERITY_COUNT ->
      debug_is_message_enabled (snd r) debug source type id severity
      = (severity =? MESA_DEBUG_SEVERITY_HIGH)
        || (severity =? MESA_DEBUG_SEVERITY_MEDIUM).
Proof.
  intros Hmax Hd H1 H2 r. subst r.
  unfold _mesa_set_debug_state_int, _mesa_get_debug_state, bind.
  rewrite Hd. unfold bind. rewrite (debug_create_ok p H1 H2).
  cbn [fst snd ret]. split; [done|].
  eexists. split; [reflexivity|]. cbn [Callback DebugOutput GroupStackDepth
    Log NumMessages]. split; [done|]. split; [done|]. split; [done|].
  split; [done|]. intros source type id severity Hs Ht Hv.
  unfold debug_is_message_enabled, group_at.
  cbn [DebugOutput negb GroupStackDepth Groups group_heap set_group_heap].
  rewrite list_lookup_insert_eq by (rewrite length_replicate; lia).
  cbn [mjoin option_join mbind option_bind]. rewrite lookup_insert_eq.
  cbn [mbind option_bind]. unfold namespace_at. cbn [Namespaces].
  rewrite lookup_replicate_2
    by (unfold MESA_DEBUG_SOURCE_COUNT in *; lia).
  cbn [mbind option_bind].
  rewrite lookup_replicate_2 by (unfold MESA_DEBUG_TYPE_COUNT in *; lia).
  rewrite debug_namespace_get_spec by lia. cbn [find_element Elements
    debug_namespace_init mbind option_bind].
  by apply default_filter_bits.
Qed.

(** ** Removing messages from the log *)

Lemma log_contents_head (log : gl_debug_log) (msg : gl_debug_message) :
  log_wf log -> 0 < NumMessages log ->
  Messages log !! Z.to_nat (NextMessage log) = Some msg ->
  log_contents log = msg :: drop 1 (log_contents log).
Proof.
  intros (Hm & Hlen & Hnext & Hnum) Hpos E.
  pose proof (log_contents_lookup log 0) as H0.
  rewrite Nat2Z.inj_0 in H0. specialize (H0 Hpos).
  unfold queued_at in H0. rewrite Z.add_0_r, Z.mod_small, E in H0 by lia.
  destruct (log_contents log) as [|m c]; [done|].
  cbn in H0. by injection H0 as ->.
Qed.

Lemma delete_loop_spec (n : nat) (log : gl_debug_log) (q : process) :
  log_wf log -> Z.of_nat n <= NumMessages log ->
  let r := delete_loop n log q in
  log_wf (fst r) /\
  log_contents (fst r) = drop n (log_contents log) /\
  freed (snd r)
  = freed q ++ filter (fun t => t <> out_of_memory)
                 (msg_message <$> take n (log_contents log)).
Proof.
  revert log q. induction n as [|n IH]; intros log q Hwf Hn r; subst r.
  - cbn [delete_loop ret fst snd]. rewrite drop_0, take_0.
    split; [done|]. split; [done|]. by rewrite app_nil_r.
  - cbn [delete_loop]. pose proof Hwf as (Hm & Hlen & Hnext & Hnum).
    destruct (Messages log !! Z.to_nat (NextMessage log)) as [msg|] eqn:E;
      [|apply lookup_ge_None in E; lia].
    unfold bind. cbn [fst snd].
    assert (Hpos : 0 < NumMessages log) by lia.
    destruct (log_contents_dequeue log (fst (debug_message_clear msg q))
                Hwf Hpos) as [Hwf' Hc'].
    cbv zeta in Hwf', Hc'.
    destruct (IH _ (snd (debug_message_clear msg q)) Hwf') as (H1 & H2 & H3).
    { cbn [NumMessages]. lia. }
    cbv zeta in H1, H2, H3. split; [exact H1|].
    rewrite H2, H3, Hc', debug_message_clear_freed.
    split; [by rewrite drop_drop|].
    rewrite (log_contents_head log msg Hwf Hpos E) at 2.
    cbn [take fmap list_fmap]. rewrite filter_cons.
    destruct (decide (msg_message msg = out_of_memory)) as [Ho|Ho].
    + by rewrite decide_False by (intros Hne; by apply Hne).
    + rewrite decide_True by done. by rewrite <- app_assoc.
Qed.

(** X9. [debug_delete_messages] removes the oldest messages, however
    many are asked for: the log that is left holds the messages after
    the first [count], in their order (nothing when [count] exceeds what
    is queued), and stays well-formed.  The text of every message
    removed is freed exactly once, in queue order, the static
    out-of-memory text never; nothing else of the process changes. *)
Theorem delete_messages_drops_oldest (debug : gl_debug_state) (count : Z)
    (q : process) :
  log_wf (Log debug) -> 0 <= count ->
  let r := debug_delete_messages debug count q in
  let queued := log_contents (Log debug) in
  exists log',
    fst r = set_Log debug log' /\ log_wf log' /\
    log_contents log' = drop (Z.to_nat count) queued /\
    snd r
    = set_freed
        (freed q ++ filter (fun t => t <> out_of_memory)
                      (msg_message <$> take (Z.to_nat count) queued)) q.
Proof.
  intros Hwf Hcount r queued. subst r queued. unfold debug_delete_messages.
  set (n := Z.to_nat (if NumMessages (Log debug) <? count
                      then NumMessages (Log debug) else count)).
  pose proof Hwf as (Hm & Hlen & Hnext & Hnum).
  pose proof (log_contents_length (Log debug) (proj1 Hnum)) as Hl.
  assert (Hn : Z.of_nat n <= NumMessages (Log debug))
    by (subst n; case_match; lia).
  destruct (delete_loop_spec n (Log debug) q Hwf Hn) as (H1 & H2 & H3).
  cbv zeta in H1, H2, H3. unfold bind. cbn [ret fst snd].
  assert (Hdrop : drop n (log_contents (Log debug))
                  = drop (Z.to_nat count) (log_contents (Log debug))).
  { subst n. destruct (Z.ltb_spec (NumMessages (Log debug)) count); [|done].
    rewrite !drop_ge by lia. done. }
  assert (Htake : take n (log_contents (Log debug))
                  = take (Z.to_nat count) (log_contents (Log debug))).
  { subst n. destruct (Z.ltb_spec (NumMessages (Log debug)) count); [|done].
    rewrite !take_ge by lia. done. }
  eexists. split; [reflexivity|]. split; [exact H1|].
  split; [by rewrite H2|].
  rewrite <- Htake, <- H3. apply delete_loop_only_freed.
Qed.

(** ** Free slots of the log *)

Lemma free_slots_enqueue (log : gl_debug_log) (msg : gl_debug_message) :
  log_wf log -> NumMessages log < MAX_DEBUG_LOGGED_MESSAGES ->
  free_slots_empty log ->
  free_slots_empty
    (mk_log (<[Z.to_nat (Z.rem (NextMessage log + NumMessages log)
                               MAX_DEBUG_LOGGED_MESSAGES) := msg]>
               (Messages log))
            (NextMessage log) (NumMessages log + 1)).
Proof.
  intros (Hm & Hlen & Hnext & Hnum) Hroom Hfree k Hk.
  cbn [NumMessages] in Hk. unfold queued_at. cbn [Messages NextMessage].
  rewrite list_lookup_insert_ne.
  - apply (Hfree k). lia.
  - rewrite rem_wrap, mod_wrap by lia. repeat case_match; lia.
Qed.

Lemma free_slots_dequeue (log : gl_debug_log) (cleared : gl_debug_message) :
  log_wf log -> 0 < NumMessages log -> empty_slot cleared ->
  free_slots_empty log ->
  free_slots_empty
    (mk_log (<[Z.to_nat (NextMessage log) := cleared]> (Messages log))
            (Z.rem (NextMessage log + 1) MAX_DEBUG_LOGGED_MESSAGES)
            (NumMessages log - 1)).
Proof.
  intros (Hm & Hlen & Hnext & Hnum) Hpos Hc Hfree k Hk.
  cbn [NumMessages] in Hk. unfold queued_at. cbn [Messages NextMessage].
  rewrite rem_wrap by lia.
  destruct (decide (k + 1 = MAX_DEBUG_LOGGED_MESSAGES)) as [E|N].
  - replace (Z.to_nat (((if NextMessage log + 1 <? MAX_DEBUG_LOGGED_MESSAGES
                         then NextMessage log + 1
                         else NextMessage log + 1 - MAX_DEBUG_LOGGED_MESSAGES)
                        + k) mod MAX_DEBUG_LOGGED_MESSAGES))
      with (Z.to_nat (NextMessage log)).
    + rewrite list_lookup_insert_eq by lia. exact Hc.
    + f_equal. rewrite mod_wrap by (repeat case_match; lia).
      repeat case_match; lia.
  - rewrite list_lookup_insert_ne.
    + specialize (Hfree (k + 1)). unfold queued_at in Hfree.
      replace (((if NextMessage log + 1 <? MAX_DEBUG_LOGGED_MESSAGES
                 then NextMessage log + 1
                 else NextMessage log + 1 - MAX_DEBUG_LOGGED_MESSAGES)
                + k) mod MAX_DEBUG_LOGGED_MESSAGES)
        with ((NextMessage log + (k + 1)) mod MAX_DEBUG_LOGGED_MESSAGES).
      * apply Hfree. lia.
      * rewrite !mod_wrap by (repeat case_match; lia).
        repeat case_match; lia.
    + rewrite mod_wrap by (repeat case_match; lia). repeat case_match; lia.
Qed.

Lemma delete_loop_log_ok (n : nat) (log : gl_debug_log) (q : process) :
  log_ok log -> Z.of_nat n <= NumMessages log ->
  log_ok (fst (delete_loop n log q)).
Proof.
  revert log q. induction n as [|n IH]; intros log q [Hwf Hfree] Hn; [done|].
  cbn [delete_loop]. pose proof Hwf as (Hm & Hlen & Hnext & Hnum).
  destruct (Messages log !! Z.to_nat (NextMessage log)) as [msg|] eqn:E;
    [|done].
  unfold bind. cbn [fst snd].
  assert (Hpos : 0 < NumMessages log) by lia.
  apply IH; [|cbn [NumMessages]; lia]. split.
  - by apply log_contents_dequeue.
  - by apply free_slots_dequeue.
Qed.

Lemma debug_delete_messages_log_ok (debug : gl_debug_state) (count : Z)
    (q : process) :
  log_ok (Log debug) ->
  log_ok (Log (fst (debug_delete_messages debug count q))).
Proof.
  intros Hok. unfold debug_delete_messages, bind. cbn [ret fst snd Log set_Log].
  apply delete_loop_log_ok; [done|].
  destruct Hok as [(_ & _ & _ & ?) _]. case_match; lia.
Qed.

(** ** The error channel *)

Lemma debug_get_id_frame (id : Z) (q : process) :
  let r := debug_get_id id q in
  malloc_results (snd r) = malloc_results q /\
  group_heap (snd r) = group_heap q /\
  freed (snd r) = freed q /\
  callback_calls (snd r) = callback_calls q.
Proof.
  unfold debug_get_id. destruct (id =? 0); [|done].
  unfold bind, gets, modify, ret. by cbn.
Qed.

Lemma debug_message_store_frame (source type id severity len : Z)
    (buf : list ascii) (q : process) :
  let r := debug_message_store source type id severity len buf q in
  group_heap (snd r) = group_heap q /\
  freed (snd r) = freed q /\
  callback_calls (snd r) = callback_calls q.
Proof.
  unfold debug_message_store, bind, malloc.
  destruct (malloc_results q) as [|[] rest]; cbn [fst snd ret]; [done|done|].
  unfold gets, modify, ret. cbn [fst snd].
  destruct (debug_get_id_frame (oom_msg_id q) (set_malloc_results rest q))
    as (_ & H1 & H2 & H3).
  cbv zeta in H1, H2, H3. by cbn.
Qed.

(** Whatever [log_msg] does with a message, the debug state changes in
    its log only, the log stays well-formed, and the groups and the
    record of freed texts are left alone. *)
Lemma log_msg_debug_effect (debug : gl_debug_state)
    (source type id severity len : Z) (buf : list ascii) (q : process) :
  let r := log_msg_debug debug source type id severity len buf q in
  exists log',
    fst r = set_Log debug log' /\
    (log_ok (Log debug) -> log_ok log') /\
    group_heap (snd r) = group_heap q /\
    freed (snd r) = freed q.
Proof.
  unfold log_msg_debug, bind, gets. cbn [fst snd].
  destruct (negb _);
    [exists (Log debug); by rewrite set_Log_same|].
  destruct (Callback debug);
    [exists (Log debug); by rewrite set_Log_same|].
  unfold debug_log_message.
  destruct (Z.eqb_spec (NumMessages (Log debug)) MAX_DEBUG_LOGGED_MESSAGES)
    as [E|N]; [exists (Log debug); by rewrite set_Log_same|].
  unfold bind, ret. cbn [fst snd].
  destruct (debug_message_store_frame source type id severity len buf q)
    as (H1 & H2 & _).
  eexists. split; [reflexivity|]. split; [|done].
  intros [Hwf Hfree].
  assert (Hroom : NumMessages (Log debug) < MAX_DEBUG_LOGGED_MESSAGES)
    by (destruct Hwf as (_ & _ & _ & ?); lia).
  split; [by apply log_contents_enqueue | by apply free_slots_enqueue].
Qed.

(** [_mesa_error], step by step. *)
Lemma mesa_error_eq (ctx : gl_context) (error : GLenum)
    (fmtString : string) (args : list fmt_arg) (p : process) :
  _mesa_error ctx error fmtString args p
  = let id := fst (debug_get_id (error_msg_id p) p) in
    let q := set_error_msg_id id (snd (debug_get_id (error_msg_id p) p)) in
    let so := should_output ctx error fmtString in
    let do_log :=
      match Debug (snd so) with
      | Some debug =>
          debug_is_message_enabled q debug MESA_DEBUG_SOURCE_API
            MESA_DEBUG_TYPE_ERROR id MESA_DEBUG_SEVERITY_HIGH
      | None => false
      end in
    let s := _mesa_vsnprintf fmtString args in
    let s2 := _mesa_lookup_enum_by_nr error ++ list_ascii_of_string " in "
              ++ s in
    if fst so || do_log then
      if MAX_DEBUG_MESSAGE_LENGTH <=? Z.of_nat (length s) then (snd so, q)
      else if MAX_DEBUG_MESSAGE_LENGTH <=? Z.of_nat (length s2)
      then (snd so, q)
      else
        match Debug (snd so) with
        | Some debug =>
            if do_log then
              let r := log_msg_debug debug MESA_DEBUG_SOURCE_API
                         MESA_DEBUG_TYPE_ERROR id MESA_DEBUG_SEVERITY_HIGH
                         (Z.of_nat (length s2)) s2 q in
              (_mesa_record_error (set_Debug (snd so) (Some (fst r))) error,
               snd r)
            else (_mesa_record_error (snd so) error, q)
        | None => (_mesa_record_error (snd so) error, q)
        end
    else (_mesa_record_error (snd so) error, q).
Proof.
  unfold _mesa_error, bind, gets, modify. cbn [fst snd]. cbv zeta.
  destruct (Debug (snd (should_output ctx error fmtString))) as [debug|];
    cbn [fst snd ret].
  - destruct (fst (should_output ctx error fmtString) || _) eqn:E1;
      [|done].
    destruct (_ <=? _); [done|]. destruct (_ <=? _); [done|].
    by destruct (debug_is_message_enabled _ _ _ _ _ _).
  - destruct (fst (should_output ctx error fmtString) || false); [|done].
    destruct (_ <=? _); [done|]. by destruct (_ <=? _).
Qed.

Lemma should_output_frame (ctx : gl_context) (error : GLenum)
    (fmtString : string) :
  Debug (snd (should_output ctx error fmtString)) = Debug ctx /\
  ErrorValue (snd (should_output ctx error fmtString)) = ErrorValue ctx.
Proof.
  unfold should_output. destruct should_output_debug; [|done].
  by destruct (_ || _).
Qed.

(** Next to [ctx], the context [_mesa_error] hands to
    [_mesa_record_error] differs in the log of its debug state and in
    the bookkeeping of repeated errors only.  (When the text does not
    fit its buffer the function returns before recording the error.) *)
Lemma mesa_error_effect (ctx : gl_context) (error : GLenum)
    (fmtString : string) (args : list fmt_arg) (p : process) :
  let r := _mesa_error ctx error fmtString args p in
  exists ctx1,
    (fst r = _mesa_record_error ctx1 error \/ fst r = ctx1) /\
    ErrorValue ctx1 = ErrorValue ctx /\
    match Debug ctx with
    | None => Debug ctx1 = None
    | Some debug =>
        exists log', Debug ctx1 = Some (set_Log debug log') /\
                     (log_ok (Log debug) -> log_ok log')
    end /\
    group_heap (snd r) = group_heap p /\
    freed (snd r) = freed p.
Proof.
  rewrite mesa_error_eq. cbv zeta.
  set (q := set_error_msg_id _ _).
  assert (Hq : group_heap q = group_heap p /\ freed q = freed p).
  { subst q. cbn.
    destruct (debug_get_id_frame (error_msg_id p) p) as (_ & H1 & H2 & _).
    done. }
  destruct Hq as [Hq1 Hq2].
  destruct (should_output_frame ctx error fmtString) as [Hso1 Hso2].
  set (so := should_output ctx error fmtString) in *.
  assert (Hbase : match Debug ctx with
                  | None => Debug (snd so) = None
                  | Some debug =>
                      exists log', Debug (snd so) = Some (set_Log debug log') /\
                                   (log_ok (Log debug) -> log_ok log')
                  end).
  { rewrite Hso1. destruct (Debug ctx) as [debug|]; [|done].
    exists (Log debug). by rewrite set_Log_same. }
  rewrite Hso1.
  destruct (fst so || _);
    [|exists (snd so); cbn [fst snd]; by auto].
  destruct (_ <=? _); [exists (snd so); cbn [fst snd]; by auto|].
  destruct (_ <=? _); [exists (snd so); cbn [fst snd]; by auto|].
  destruct (Debug ctx) as [debug1|] eqn:Hd1;
    [|exists (snd so); cbn [fst snd]; by auto].
  destruct (debug_is_message_enabled _ _ _ _ _ _);
    [|exists (snd so); cbn [fst snd]; by auto].
  match goal with
  | |- context [log_msg_debug debug1 ?s ?t ?i ?v ?l ?b q] =>
      destruct (log_msg_debug_effect debug1 s t i v l b q)
        as (log' & H1 & H2 & H3 & H4)
  end.
  cbv zeta in H1, H2, H3, H4. cbn [fst snd].
  eexists. split; [left; reflexivity|]. split; [exact Hso2|].
  rewrite H1, H3, H4. split; [|done].
  exists log'. cbn [Debug set_Debug]. split; [done|]. exact H2.
Qed.

(** When the text fits its buffer, [_mesa_error] ends with
    [_mesa_record_error]; the context it hands over differs from [ctx]
    in the log of its debug state and in the bookkeeping of repeated
    errors only. *)
Lemma mesa_error_raised (ctx : gl_context) (error : GLenum)
    (fmtString : string) (args : list fmt_arg) (p : process) :
  Z.of_nat (length (_mesa_lookup_enum_by_nr error
                    ++ list_ascii_of_string " in "
                    ++ _mesa_vsnprintf fmtString args))
  < MAX_DEBUG_MESSAGE_LENGTH ->
  let r := _mesa_error ctx error fmtString args p in
  exists ctx1,
    fst r = _mesa_record_error ctx1 error /\
    ErrorValue ctx1 = ErrorValue ctx /\
    match Debug ctx with
    | None => ctx1 = snd (should_output ctx error fmtString)
    | Some debug =>
        exists log',
          ctx1 = set_Debug (snd (should_output ctx error fmtString))
                   (Some (set_Log debug log'))
    end /\
    group_heap (snd r) = group_heap p /\
    freed (snd r) = freed p.
Proof.
  intros Hfit. rewrite mesa_error_eq. cbv zeta.
  set (q := set_error_msg_id _ _).
  assert (Hq : group_heap q = group_heap p /\ freed q = freed p).
  { subst q. cbn.
    destruct (debug_get_id_frame (error_msg_id p) p) as (_ & H1 & H2 & _).
    done. }
  destruct Hq as [Hq1 Hq2].
  destruct (should_output_frame ctx error fmtString) as [Hso1 Hso2].
  set (so := should_output ctx error fmtString) in *.
  assert (Hbase : match Debug ctx with
                  | None => snd so = snd so
                  | Some debug =>
                      exists log',
                        snd so = set_Debug (snd so) (Some (set_Log debug log'))
                  end).
  { destruct (Debug ctx) as [debug|] eqn:Hd; [|done].
    exists (Log debug). rewrite set_Log_same, <- Hso1.
    by destruct (snd so). }
  assert (Hs : Z.of_nat (length (_mesa_vsnprintf fmtString args))
               < MAX_DEBUG_MESSAGE_LENGTH).
  { rewrite !length_app in Hfit. lia. }
  destruct (Z.leb_spec MAX_DEBUG_MESSAGE_LENGTH
              (Z.of_nat (length (_mesa_vsnprintf fmtString args))));
    [lia|].
  destruct (Z.leb_spec MAX_DEBUG_MESSAGE_LENGTH
              (Z.of_nat (length (_mesa_lookup_enum_by_nr error
                                 ++ list_ascii_of_string " in "
                                 ++ _mesa_vsnprintf fmtString args))));
    [lia|].
  rewrite Hso1.
  destruct (fst so || _);
    [|exists (snd so); cbn [fst snd]; by auto].
  destruct (Debug ctx) as [debug1|] eqn:Hd1;
    [|exists (snd so); cbn [fst snd]; by auto].
  destruct (debug_is_message_enabled _ _ _ _ _ _);
    [|exists (snd so); cbn [fst snd]; by auto].
  match goal with
  | |- context [log_msg_debug debug1 ?s ?t ?i ?v ?l ?b q] =>
      destruct (log_msg_debug_effect debug1 s t i v l b q)
        as (log' & H1 & H2 & H3 & H4)
  end.
  cbv zeta in H1, H2, H3, H4. cbn [fst snd].
  eexists. split; [reflexivity|]. split; [exact Hso2|].
  rewrite H1, H3, H4. split; [|done]. by exists log'.
Qed.

(** X10. glPushDebugGroup on a full stack raises GL_STACK_OVERFLOW
    and changes no group.  When the depth has reached
    [MAX_DEBUG_GROUP_STACK_DEPTH - 1], the call is the call of
    [_mesa_error] with GL_STACK_OVERFLOW, whatever its arguments are;
    with an error text that fits the buffer it ends with
    [_mesa_record_error] for GL_STACK_OVERFLOW, on a context whose
    debug state differs in its log only (where the error itself may be
    logged): the stack slots, the pending group messages, the depth,
    the groups in memory and the freed texts are as before. *)
Theorem push_on_full_stack_overflows (ctx : gl_context)
    (debug : gl_debug_state) (source : GLenum) (id length : Z)
    (message : list ascii) (p : process) :
  Debug ctx = Some debug ->
  MAX_DEBUG_GROUP_STACK_DEPTH - 1 <= GroupStackDepth debug ->
  Z.of_nat (List.length
              (_mesa_lookup_enum_by_nr GL_STACK_OVERFLOW
               ++ list_ascii_of_string " in "
               ++ _mesa_vsnprintf "%s" [arg_str "glPushDebugGroup"]))
  < MAX_DEBUG_MESSAGE_LENGTH ->
  let r := _mesa_PushDebugGroup ctx source id length message p in
  r = _mesa_error ctx GL_STACK_OVERFLOW "%s" [arg_str "glPushDebugGroup"] p /\
  exists log',
    fst r = _mesa_record_error
              (set_Debug (snd (should_output ctx GL_STACK_OVERFLOW "%s"))
                 (Some (set_Log debug log')))
              GL_STACK_OVERFLOW /\
    group_heap (snd r) = group_heap p /\
    freed (snd r) = freed p.
Proof.
  intros Hd Hfull Hfit r.
  assert (Hr : r = _mesa_error ctx GL_STACK_OVERFLOW "%s"
                     [arg_str "glPushDebugGroup"] p).
  { subst r. unfold _mesa_PushDebugGroup, bind.
    unfold _mesa_get_debug_state. rewrite Hd. cbn [ret fst snd].
    by destruct (Z.leb_spec (MAX_DEBUG_GROUP_STACK_DEPTH - 1)
                   (GroupStackDepth debug)) as [_|E]; [|lia]. }
  split; [exact Hr|]. rewrite Hr.
  destruct (mesa_error_raised ctx GL_STACK_OVERFLOW "%s"
              [arg_str "glPushDebugGroup"] p Hfit)
    as (ctx1 & H1 & _ & H3 & H4 & H5).
  cbv zeta in H1, H4, H5. rewrite Hd in H3. destruct H3 as (log' & ->).
  by exists log'.
Qed.

(** X11. glPopDebugGroup on the base group raises GL_STACK_UNDERFLOW
    and changes no group.  At depth 0 the call is the call of
    [_mesa_error] with GL_STACK_UNDERFLOW; with an error text that fits
    the buffer it ends with [_mesa_record_error] for
    GL_STACK_UNDERFLOW, on a context whose debug state differs in its
    log only: nothing is popped, cleared or freed. *)
Theorem pop_on_base_group_underflows (ctx : gl_context)
    (debug : gl_debug_state) (p : process) :
  Debug ctx = Some debug ->
  GroupStackDepth debug <= 0 ->
  Z.of_nat (List.length
              (_mesa_lookup_enum_by_nr GL_STACK_UNDERFLOW
               ++ list_ascii_of_string " in "
               ++ _mesa_vsnprintf "%s" [arg_str "glPopDebugGroup"]))
  < MAX_DEBUG_MESSAGE_LENGTH ->
  let r := _mesa_PopDebugGroup ctx p in
  r = _mesa_error ctx GL_STACK_UNDERFLOW "%s" [arg_str "glPopDebugGroup"] p /\
  exists log',
    fst r = _mesa_record_error
              (set_Debug (snd (should_output ctx GL_STACK_UNDERFLOW "%s"))
                 (Some (set_Log debug log')))
              GL_STACK_UNDERFLOW /\
    group_heap (snd r) = group_heap p /\
    freed (snd r) = freed p.
Proof.
  intros Hd Hbase Hfit r.
  assert (Hr : r = _mesa_error ctx GL_STACK_UNDERFLOW "%s"
                     [arg_str "glPopDebugGroup"] p).
  { subst r. unfold _mesa_PopDebugGroup, bind.
    unfold _mesa_get_debug_state. rewrite Hd. cbn [ret fst snd].
    by destruct (Z.leb_spec (GroupStackDepth debug) 0) as [_|E]; [|lia]. }
  split; [exact Hr|]. rewrite Hr.
  destruct (mesa_error_raised ctx GL_STACK_UNDERFLOW "%s"
              [arg_str "glPopDebugGroup"] p Hfit)
    as (ctx1 & H1 & _ & H3 & H4 & H5).
  cbv zeta in H1, H4, H5. rewrite Hd in H3. destruct H3 as (log' & ->).
  by exists log'.
Qed.

(** X12. An error raised through [_mesa_error] is logged as a message
    of source API, type ERROR and severity HIGH.  With no callback,
    room in the log, the message enabled, memory for its text, and the
    text (the name of the error, [ in ], the formatted message) shorter
    than the limit, the message is appended to the log under the id of
    the static [error_msg_id], which is assigned at the first error and
    kept afterwards; the error is then recorded with
    [_mesa_record_error]. *)
Theorem error_is_logged (ctx : gl_context) (debug : gl_debug_state)
    (error : GLenum) (fmtString : string) (args : list fmt_arg)
    (p : process) :
  Debug ctx = Some debug -> Callback debug = None ->
  log_wf (Log debug) ->
  NumMessages (Log debug) < MAX_DEBUG_LOGGED_MESSAGES ->
  let id := if error_msg_id p =? 0 then NextDynamicID p else error_msg_id p in
  let text := _mesa_lookup_enum_by_nr error ++ list_ascii_of_string " in "
              ++ _mesa_vsnprintf fmtString args in
  let len := Z.of_nat (length text) in
  len < MAX_DEBUG_MESSAGE_LENGTH ->
  debug_is_message_enabled p debug MESA_DEBUG_SOURCE_API
    MESA_DEBUG_TYPE_ERROR id MESA_DEBUG_SEVERITY_HIGH = true ->
  fst (malloc p) = true ->
  let r := _mesa_error ctx error fmtString args p in
  exists ctx1 log',
    fst r = _mesa_record_error ctx1 error /\
    ErrorValue ctx1 = ErrorValue ctx /\
    Debug ctx1 = Some (set_Log debug log') /\
    log_wf log' /\
    log_contents log'
    = log_contents (Log debug)
      ++ [mk_message MESA_DEBUG_SOURCE_API MESA_DEBUG_TYPE_ERROR id
            MESA_DEBUG_SEVERITY_HIGH (len + 1)
            (malloced (strncpy (Z.to_nat len) text ++ [NUL]))] /\
    error_msg_id (snd r) = id /\
    (id <> 0 ->
     fst (debug_get_id (error_msg_id (snd r)) (snd r)) = id).
Proof.
  intros Hd Hc Hwf Hroom id text len Hlen Hen Hm r. subst r.
  rewrite mesa_error_eq. cbv zeta.
  assert (Hid : fst (debug_get_id (error_msg_id p) p) = id).
  { subst id. unfold debug_get_id. by destruct (error_msg_id p =? 0). }
  rewrite Hid.
  set (q := set_error_msg_id id (snd (debug_get_id (error_msg_id p) p))).
  destruct (debug_get_id_frame (error_msg_id p) p) as (Hq0 & Hq1 & _).
  cbv zeta in Hq0, Hq1.
  assert (Hqm : fst (malloc q) = true).
  { revert Hm. unfold malloc. subst q. cbn [malloc_results set_error_msg_id].
    rewrite Hq0. by destruct (malloc_results p). }
  assert (Hqe : debug_is_message_enabled q debug MESA_DEBUG_SOURCE_API
                  MESA_DEBUG_TYPE_ERROR id MESA_DEBUG_SEVERITY_HIGH = true).
  { rewrite <- Hen, <- (set_Log_same debug) at 1.
    apply debug_is_message_enabled_frame. subst q. by cbn. }
  destruct (should_output_frame ctx error fmtString) as [Hso1 Hso2].
  set (so := should_output ctx error fmtString) in *.
  rewrite Hso1, Hd, Hqe, orb_true_r.
  fold text. fold len.
  assert (Hs : Z.of_nat (length (_mesa_vsnprintf fmtString args)) <= len).
  { subst len text. rewrite !length_app. lia. }
  destruct (Z.leb_spec MAX_DEBUG_MESSAGE_LENGTH
              (Z.of_nat (length (_mesa_vsnprintf fmtString args))));
    [lia|].
  destruct (Z.leb_spec MAX_DEBUG_MESSAGE_LENGTH len); [lia|].
  destruct (log_msg_debug_stored debug MESA_DEBUG_SOURCE_API
              MESA_DEBUG_TYPE_ERROR id MESA_DEBUG_SEVERITY_HIGH len text q)
    as (log' & -> & Hwf' & Hc'); try done.
  cbn [fst snd].
  exists (set_Debug (snd so) (Some (set_Log debug log'))), log'.
  split; [done|]. split; [exact Hso2|]. split; [done|]. split; [done|].
  split; [done|].
  assert (He : error_msg_id (snd (malloc q)) = id).
  { unfold malloc. by destruct (malloc_results q). }
  split; [exact He|]. intros Hne. rewrite He. unfold debug_get_id.
  by destruct (Z.eqb_spec id 0).
Qed.

(** ** Filters set through glDebugMessageControl *)

Lemma namespace_at_set_namespace_at (grp : gl_debug_group) (s t : Z)
    (ns : gl_debug_namespace) (s' t' : Z) :
  0 <= s -> 0 <= t -> 0 <= s' -> 0 <= t' ->
  is_Some (namespace_at grp s t) ->
  namespace_at (set_namespace_at grp s t ns) s' t'
  = if decide (s' = s /\ t' = t) then Some ns else namespace_at grp s' t'.
Proof.
  intros Hs Ht Hs' Ht' [ns0 H0]. unfold namespace_at, set_namespace_at in *.
  cbn [Namespaces].
  destruct (Namespaces grp !! Z.to_nat s) as [row|] eqn:Er; [|done].
  cbn [mbind option_bind] in H0.
  destruct (decide (s' = s)) as [->|Hne].
  - rewrite list_lookup_alter_eq, Er. cbn [fmap option_fmap option_map mbind
      option_bind].
    destruct (decide (t' = t)) as [->|Hnt].
    + rewrite decide_True by done.
      apply list_lookup_insert_eq. by eapply lookup_lt_Some.
    + rewrite decide_False by (intros [_ ?]; done).
      apply list_lookup_insert_ne. lia.
  - rewrite decide_False by (intros [? _]; done).
    rewrite list_lookup_alter_ne by lia. done.
Qed.

Lemma bind_eq {A B} (m : M A) (k : A -> M B) (p : process) :
  bind m k p = k (fst (m p)) (snd (m p)).
Proof. reflexivity. Qed.

Lemma only_heap_trans (q q1 q2 : process) :
  q1 = set_group_heap (group_heap q1) q ->
  q2 = set_group_heap (group_heap q2) q1 ->
  q2 = set_group_heap (group_heap q2) q.
Proof. intros H1 H2. rewrite H2 at 1. by rewrite H1. Qed.

(** One round of the inner loop of [debug_set_message_enable_all]. *)
Lemma set_all_cell (debug : gl_debug_state) (gstack s t severity : Z)
    (enabled : bool) (a : positive) (g : gl_debug_group) (q : process) :
  mjoin (Groups debug !! Z.to_nat gstack) = Some a ->
  group_heap q !! a = Some g -> 0 <= s -> 0 <= t ->
  let q' :=
    snd ((nspace <- load_namespace debug gstack s t ;;
          match nspace with
          | Some nspace =>
              store_namespace debug gstack s t
                (debug_namespace_set_all nspace severity enabled)
          | None => ret tt
          end) q) in
  exists g',
    group_heap q' !! a = Some g' /\
    (forall a0, a0 <> a -> group_heap q' !! a0 = group_heap q !! a0) /\
    q' = set_group_heap (group_heap q') q /\
    forall s' t', 0 <= s' -> 0 <= t' ->
      namespace_at g' s' t'
      = if decide (s' = s /\ t' = t)
        then (fun ns => debug_namespace_set_all ns severity enabled)
               <$> namespace_at g s' t'
        else namespace_at g s' t'.
Proof.
  intros Ha Hg Hs Ht q'. subst q'.
  unfold bind, load_namespace, gets, group_at. cbn [fst snd].
  rewrite Ha. cbn [mbind option_bind]. rewrite Hg. cbn [mbind option_bind].
  destruct (namespace_at g s t) as [ns|] eqn:E.
  - unfold store_namespace, modify. rewrite Ha. cbn [snd group_heap
      set_group_heap].
    exists (set_namespace_at g s t (debug_namespace_set_all ns severity enabled)).
    split; [by rewrite lookup_alter_eq, Hg|].
    split; [intros a0 Hne; by apply lookup_alter_ne|].
    split; [by destruct q|].
    intros s' t' Hs' Ht'.
    rewrite namespace_at_set_namespace_at by (done || by eexists).
    destruct (decide (s' = s /\ t' = t)) as [[-> ->]|]; [|done].
    by rewrite E.
  - cbn [ret snd]. exists g. split; [done|]. split; [done|].
    split; [by destruct q|].
    intros s' t' Hs' Ht'.
    destruct (decide (s' = s /\ t' = t)) as [[-> ->]|]; [|done].
    by rewrite E.
Qed.

(** The inner loop: the namespaces of row [s] at the types [ts]. *)
Lemma set_all_row (debug : gl_debug_state) (gstack s severity : Z)
    (enabled : bool) (a : positive) (ts : list Z) (g : gl_debug_group)
    (q : process) :
  mjoin (Groups debug !! Z.to_nat gstack) = Some a ->
  group_heap q !! a = Some g -> 0 <= s ->
  NoDup ts -> Forall (fun t => 0 <= t) ts ->
  let q' :=
    snd (for_each ts (fun t =>
           nspace <- load_namespace debug gstack s t ;;
           match nspace with
           | Some nspace =>
               store_namespace debug gstack s t
                 (debug_namespace_set_all nspace severity enabled)
           | None => ret tt
           end) q) in
  exists g',
    group_heap q' !! a = Some g' /\
    (forall a0, a0 <> a -> group_heap q' !! a0 = group_heap q !! a0) /\
    q' = set_group_heap (group_heap q') q /\
    forall s' t', 0 <= s' -> 0 <= t' ->
      namespace_at g' s' t'
      = if decide (s' = s /\ t' ∈ ts)
        then (fun ns => debug_namespace_set_all ns severity enabled)
               <$> namespace_at g s' t'
        else namespace_at g s' t'.
Proof.
  intros Ha Hg Hs Hnd Hts. revert g q Hg.
  induction ts as [|t ts IH]; intros g q Hg q'; subst q'.
  - cbn [for_each ret snd]. exists g. split; [done|]. split; [done|].
    split; [by destruct q|]. intros s' t' _ _.
    rewrite decide_False; [done|]. intros [_ H]. by apply elem_of_nil in H.
  - cbn [for_each]. unfold bind at 1. cbn [fst snd].
    apply NoDup_cons in Hnd as [Hnotin Hnd].
    apply Forall_cons in Hts as [Ht Hts].
    destruct (set_all_cell debug gstack s t severity enabled a g q Ha Hg Hs Ht)
      as (g1 & Hg1 & Ho1 & Hq1 & Hc1).
    cbv zeta in Hg1, Ho1, Hq1, Hc1.
    destruct (IH Hnd Hts g1 _ Hg1) as (g2 & Hg2 & Ho2 & Hq2 & Hc2).
    cbv zeta in Hg2, Ho2, Hq2, Hc2.
    exists g2. split; [exact Hg2|].
    split; [intros a0 Hne; by rewrite Ho2, Ho1|].
    split; [by eapply only_heap_trans|].
    intros s' t' Hs' Ht'. rewrite Hc2, !Hc1 by done.
    destruct (decide (s' = s /\ t' ∈ ts)) as [[-> Hin]|Hn1].
    + rewrite decide_False by (intros [_ ->]; done).
      rewrite decide_True; [done|]. split; [done|]. by apply elem_of_cons; right.
    + destruct (decide (s' = s /\ t' = t)) as [[-> ->]|Hn2].
      * rewrite decide_True; [done|]. split; [done|]. by apply elem_of_cons; left.
      * rewrite decide_False; [done|].
        intros [-> [->|Hin]%elem_of_cons]; [by apply Hn2 | by apply Hn1].
Qed.

(** The two loops: the namespaces at the sources [ss] and types [ts]. *)
Lemma set_all_rows (debug : gl_debug_state) (gstack severity : Z)
    (enabled : bool) (a : positive) (ss ts : list Z) (g : gl_debug_group)
    (q : process) :
  mjoin (Groups debug !! Z.to_nat gstack) = Some a ->
  group_heap q !! a = Some g ->
  NoDup ss -> Forall (fun s => 0 <= s) ss ->
  NoDup ts -> Forall (fun t => 0 <= t) ts ->
  let q' :=
    snd (for_each ss (fun s =>
           for_each ts (fun t =>
             nspace <- load_namespace debug gstack s t ;;
             match nspace with
             | Some nspace =>
                 store_namespace debug gstack s t
                   (debug_namespace_set_all nspace severity enabled)
             | None => ret tt
             end)) q) in
  exists g',
    group_heap q' !! a = Some g' /\
    (forall a0, a0 <> a -> group_heap q' !! a0 = group_heap q !! a0) /\
    q' = set_group_heap (group_heap q') q /\
    forall s' t', 0 <= s' -> 0 <= t' ->
      namespace_at g' s' t'
      = if decide (s' ∈ ss /\ t' ∈ ts)
        then (fun ns => debug_namespace_set_all ns severity enabled)
               <$> namespace_at g s' t'
        else namespace_at g s' t'.
Proof.
  intros Ha Hg Hnds Hss Hndt Hts. revert g q Hg.
  induction ss as [|s ss IH]; intros g q Hg q'; subst q'.
  - cbn [for_each ret snd]. exists g. split; [done|]. split; [done|].
    split; [by destruct q|]. intros s' t' _ _.
    rewrite decide_False; [done|]. intros [H _]. by apply elem_of_nil in H.
  - cbn [for_each]. unfold bind at 1. cbn [fst snd].
    apply NoDup_cons in Hnds as [Hnotin Hnds].
    apply Forall_cons in Hss as [Hs Hss].
    destruct (set_all_row debug gstack s severity enabled a ts g q Ha Hg Hs
                Hndt Hts) as (g1 & Hg1 & Ho1 & Hq1 & Hc1).
    cbv zeta in Hg1, Ho1, Hq1, Hc1.
    destruct (IH Hnds Hss g1 _ Hg1) as (g2 & Hg2 & Ho2 & Hq2 & Hc2).
    cbv zeta in Hg2, Ho2, Hq2, Hc2.
    exists g2. split; [exact Hg2|].
    split; [intros a0 Hne; by rewrite Ho2, Ho1|].
    split; [by eapply only_heap_trans|].
    intros s' t' Hs' Ht'. rewrite Hc2, !Hc1 by done.
    destruct (decide (s' ∈ ss /\ t' ∈ ts)) as [[Hin Hint]|Hn1].
    + rewrite decide_False by (intros [-> _]; done).
      rewrite decide_True; [done|]. split; [|done]. by apply elem_of_cons; right.
    + destruct (decide (s' = s /\ t' ∈ ts)) as [[-> Hint]|Hn2].
      * rewrite decide_True; [done|]. split; [|done]. by apply elem_of_cons; left.
      * rewrite decide_False; [done|].
        intros [[->|Hin]%elem_of_cons Hint]; [by apply Hn2 | by apply Hn1].
Qed.

Lemma copy_row_Some (row row' : list gl_debug_namespace) (p : process) :
  fst (copy_row row p) = Some row' -> row' = row.
Proof.
  revert row' p. induction row as [|ns row IH]; intros row' p; cbn [copy_row].
  - by intros [= <-].
  - unfold bind. destruct (fst (debug_namespace_copy ns p)) as [ns'|] eqn:E;
      [|done].
    apply debug_namespace_copy_Some in E as ->. unfold bind, ret.
    cbn [fst snd].
    destruct (fst (copy_row row (snd (debug_namespace_copy ns p))))
      as [r|] eqn:E2; [|done].
    apply IH in E2 as ->. by intros [= <-].
Qed.

Lemma copy_rows_Some (rows rows' : list (list gl_debug_namespace))
    (p : process) :
  fst (copy_rows rows p) = Some rows' -> rows' = rows.
Proof.
  revert rows' p. induction rows as [|row rows IH]; intros rows' p;
    cbn [copy_rows].
  - by intros [= <-].
  - unfold bind. destruct (fst (copy_row row p)) as [row'|] eqn:E; [|done].
    apply copy_row_Some in E as ->. unfold bind, ret. cbn [fst snd].
    destruct (fst (copy_rows rows (snd (copy_row row p)))) as [r|] eqn:E2;
      [|done].
    apply IH in E2 as ->. by intros [= <-].
Qed.

Lemma malloc_freed (q : process) : freed (snd (malloc q)) = freed q.
Proof. unfold malloc. by destruct (malloc_results q). Qed.

Lemma copy_elements_freed (l : list gl_debug_element) (q : process) :
  freed (snd (copy_elements l q)) = freed q.
Proof.
  revert q. induction l as [|e l IH]; intros q; cbn [copy_elements]; [done|].
  unfold bind. destruct (fst (malloc q)); cbn [ret snd]; [|apply malloc_freed].
  unfold bind, ret. cbn [snd]. by rewrite IH, malloc_freed.
Qed.

Lemma copy_row_freed (row : list gl_debug_namespace) (q : process) :
  freed (snd (copy_row row q)) = freed q.
Proof.
  revert q. induction row as [|ns row IH]; intros q; cbn [copy_row]; [done|].
  assert (Hc : freed (snd (debug_namespace_copy ns q)) = freed q).
  { unfold debug_namespace_copy, bind, ret. cbn [snd].
    apply copy_elements_freed. }
  unfold bind. destruct (fst (debug_namespace_copy ns q)); cbn [ret snd];
    [|exact Hc].
  unfold bind, ret. cbn [snd]. by rewrite IH, Hc.
Qed.

Lemma copy_rows_freed (rows : list (list gl_debug_namespace)) (q : process) :
  freed (snd (copy_rows rows q)) = freed q.
Proof.
  revert q. induction rows as [|row rows IH]; intros q; cbn [copy_rows];
    [done|].
  unfold bind. destruct (fst (copy_row row q)); cbn [ret snd];
    [|apply copy_row_freed].
  unfold bind, ret. cbn [snd]. by rewrite IH, copy_row_freed.
Qed.

(** After a [debug_make_group_writable] that returned true the top slot
    points to a group with the contents the top group had; every other
    block is as it was. *)
Lemma debug_make_group_writable_top (debug : gl_debug_state) (p : process)
    (grp : gl_debug_group) :
  group_at p debug (GroupStackDepth debug) = Some grp ->
  fst (fst (debug_make_group_writable debug p)) = true ->
  let r := debug_make_group_writable debug p in
  exists a groups,
    snd (fst r) = set_Groups debug groups /\
    mjoin (groups !! Z.to_nat (GroupStackDepth debug)) = Some a /\
    group_heap (snd r) !! a = Some grp /\
    (forall a0, a0 <> a -> group_heap (snd r) !! a0 = group_heap p !! a0) /\
    freed (snd r) = freed p.
Proof.
  intros Hg. unfold debug_make_group_writable.
  destruct (debug_is_group_read_only debug) eqn:Hro; cbn [negb].
  - unfold bind, gets, ret, new_group. cbn zeta. cbn [fst snd].
    destruct (fst (malloc p)) eqn:Hm; [|done].
    assert (Hsrc : group_at (snd (malloc p)) debug (GroupStackDepth debug)
                   = Some grp).
    { unfold group_at in *. by rewrite malloc_group_heap. }
    rewrite Hsrc. cbn [from_option].
    pose proof (copy_rows_group_heap (Namespaces grp) (snd (malloc p))) as Hc.
    assert (Hf : freed (snd (copy_rows (Namespaces grp) (snd (malloc p))))
                 = freed p) by (by rewrite copy_rows_freed, malloc_freed).
    destruct (fst (copy_rows (Namespaces grp) (snd (malloc p))))
      as [rows'|] eqn:Hcr; [|done].
    apply copy_rows_Some in Hcr as ->.
    intros _. cbn [fst snd]. rewrite Hc, malloc_group_heap.
    exists (fresh (dom (group_heap p))),
      (<[Z.to_nat (GroupStackDepth debug) :=
           Some (fresh (dom (group_heap p)))]> (Groups debug)).
    split; [done|]. split.
    + rewrite list_lookup_insert_eq; [done|].
      unfold group_at in Hg.
      destruct (Groups debug !! Z.to_nat (GroupStackDepth debug)) eqn:E;
        [by eapply lookup_lt_Some | done].
    + cbn [group_heap set_group_heap freed]. split.
      * rewrite lookup_insert_eq. by destruct grp.
      * split; [|exact Hf]. intros a0 Hne. by rewrite lookup_insert_ne.
  - intros _. cbn [ret fst snd]. unfold group_at in Hg.
    destruct (mjoin (Groups debug !! Z.to_nat (GroupStackDepth debug)))
      as [a|] eqn:E; [|done].
    cbn [mbind option_bind] in Hg.
    exists a, (Groups debug). split; [by destruct debug|]. done.
Qed.

(** [debug_set_message_enable_all] on a top group that is, or can be
    made, writable: [debug_namespace_set_all] reaches the namespaces
    the source and the type select, and no other. *)
Lemma debug_set_message_enable_all_cells (debug : gl_debug_state)
    (p : process) (grp : gl_debug_group) (source type severity : Z)
    (enabled : bool) :
  group_at p debug (GroupStackDepth debug) = Some grp ->
  fst (fst (debug_make_group_writable debug p)) = true ->
  0 <= source <= MESA_DEBUG_SOURCE_COUNT ->
  0 <= type <= MESA_DEBUG_TYPE_COUNT ->
  let r := debug_set_message_enable_all debug source type severity enabled p in
  exists groups g',
    fst r = set_Groups debug groups /\
    group_at (snd r) (fst r) (GroupStackDepth debug) = Some g' /\
    freed (snd r) = freed p /\
    forall s t,
      0 <= s < MESA_DEBUG_SOURCE_COUNT -> 0 <= t < MESA_DEBUG_TYPE_COUNT ->
      namespace_at g' s t
      = if decide ((source = MESA_DEBUG_SOURCE_COUNT \/ s = source) /\
                   (type = MESA_DEBUG_TYPE_COUNT \/ t = type))
        then (fun ns => debug_namespace_set_all ns severity enabled)
               <$> namespace_at grp s t
        else namespace_at grp s t.
Proof.
  intros Hg Hw Hs Ht r. subst r.
  destruct (debug_make_group_writable_top debug p grp Hg Hw)
    as (a & groups & Hd & Ha & Hh & _ & Hf).
  cbv zeta in Hd, Hh, Hf.
  unfold debug_set_message_enable_all.
  set (sr := if source =? MESA_DEBUG_SOURCE_COUNT
             then (0, MESA_DEBUG_SOURCE_COUNT) else (source, source + 1)).
  set (tr := if type =? MESA_DEBUG_TYPE_COUNT
             then (0, MESA_DEBUG_TYPE_COUNT) else (type, type + 1)).
  assert (Hsr : forall s, 0 <= s < MESA_DEBUG_SOURCE_COUNT ->
            (s ∈ seqZ (fst sr) (snd sr - fst sr)
             <-> source = MESA_DEBUG_SOURCE_COUNT \/ s = source)).
  { intros s Hr. rewrite elem_of_seqZ. subst sr.
    destruct (Z.eqb_spec source MESA_DEBUG_SOURCE_COUNT); cbn [fst snd]; lia. }
  assert (Htr : forall t, 0 <= t < MESA_DEBUG_TYPE_COUNT ->
            (t ∈ seqZ (fst tr) (snd tr - fst tr)
             <-> type = MESA_DEBUG_TYPE_COUNT \/ t = type)).
  { intros t Hr. rewrite elem_of_seqZ. subst tr.
    destruct (Z.eqb_spec type MESA_DEBUG_TYPE_COUNT); cbn [fst snd]; lia. }
  assert (Hs0 : Forall (fun s => 0 <= s) (seqZ (fst sr) (snd sr - fst sr))).
  { apply Forall_forall. intros s Hin%elem_of_seqZ. subst sr.
    destruct (Z.eqb_spec source MESA_DEBUG_SOURCE_COUNT); cbn [fst snd] in Hin;
      lia. }
  assert (Ht0 : Forall (fun t => 0 <= t) (seqZ (fst tr) (snd tr - fst tr))).
  { apply Forall_forall. intros t Hin%elem_of_seqZ. subst tr.
    destruct (Z.eqb_spec type MESA_DEBUG_TYPE_COUNT); cbn [fst snd] in Hin;
      lia. }
  destruct sr as [s0 smax], tr as [t0 tmax]. cbn [fst snd] in *.
  rewrite !bind_eq. rewrite Hd. cbn [fst snd ret].
  destruct (set_all_rows (set_Groups debug groups) (GroupStackDepth debug)
              severity enabled a (seqZ s0 (smax - s0)) (seqZ t0 (tmax - t0))
              grp (snd (debug_make_group_writable debug p)))
    as (g' & Hg' & _ & Hq' & Hc'); try done; try apply NoDup_seqZ.
  cbv zeta in Hg', Hq', Hc'.
  exists groups, g'. split; [done|]. split.
  - unfold group_at. cbn [Groups set_Groups]. rewrite Ha.
    cbn [mbind option_bind]. exact Hg'.
  - split; [rewrite Hq'; cbn [freed set_group_heap]; exact Hf|].
    intros s t Hsr' Htr'. rewrite Hc' by lia.
    destruct (decide (s ∈ seqZ s0 (smax - s0) /\ t ∈ seqZ t0 (tmax - t0)))
      as [[H1 H2]|Hn].
    + rewrite decide_True; [done|]. split; [by apply Hsr | by apply Htr].
    + rewrite decide_False; [done|]. intros [H1 H2]. apply Hn.
      split; [by apply Hsr | by apply Htr].
Qed.

(** X13. glDebugMessageControl without ids sets the filter of
    exactly the namespaces it names.  With values that pass the
    validation, count 0, and the top group writable (or its copy
    allocated), the call applies [debug_namespace_set_all] with the
    severity and the flag given to the namespace of every source and
    type selected, GL_DONT_CARE selecting all of them, in the group of
    the current depth; the other namespaces of that group are as
    before, the stack depth stays and no text is freed. *)
Theorem control_sets_selected_namespaces (ctx : gl_context)
    (debug : gl_debug_state) (grp : gl_debug_group)
    (gl_source gl_type gl_severity : GLenum) (ids : list Z) (enabled : bool)
    (p : process) :
  Debug ctx = Some debug ->
  fst (fst (validate_params ctx CONTROL "glDebugMessageControl" gl_source
              gl_type gl_severity p)) = true ->
  group_at p debug (GroupStackDepth debug) = Some grp ->
  fst (fst (debug_make_group_writable debug p)) = true ->
  let r := _mesa_DebugMessageControl ctx gl_source gl_type gl_severity 0 ids
             enabled p in
  exists groups g',
    fst r = set_Debug ctx (Some (set_Groups debug groups)) /\
    group_at (snd r) (set_Groups debug groups) (GroupStackDepth debug)
    = Some g' /\
    freed (snd r) = freed p /\
    forall s t,
      0 <= s < MESA_DEBUG_SOURCE_COUNT -> 0 <= t < MESA_DEBUG_TYPE_COUNT ->
      namespace_at g' s t
      = if decide ((gl_source = GL_DONT_CARE
                    \/ s = gl_enum_to_debug_source gl_source) /\
                   (gl_type = GL_DONT_CARE
                    \/ t = gl_enum_to_debug_type gl_type))
        then (fun ns =>
                debug_namespace_set_all ns
                  (gl_enum_to_debug_severity gl_severity) enabled)
               <$> namespace_at grp s t
        else namespace_at grp s t.
Proof.
  intros Hd Hv Hg Hw r. subst r.
  pose proof Hv as Hv'. rewrite validate_params_eq in Hv'.
  destruct (source_ok CONTROL gl_source && type_ok CONTROL gl_type
            && severity_ok CONTROL gl_severity) eqn:Hok; [|discriminate Hv'].
  apply andb_true_iff in Hok as [[Hs Ht]%andb_true_iff Hsv].
  destruct (source_ok_spec _ _ (or_intror eq_refl) Hs) as [Hs1 _].
  destruct (type_ok_spec _ _ (or_intror eq_refl) Ht) as [Ht1 _].
  cbv zeta in Hs1, Ht1.
  unfold _mesa_DebugMessageControl. cbn [Z.ltb Z.compare].
  unfold bind. rewrite validate_params_eq, Hs, Ht, Hsv. cbn [andb fst snd negb].
  cbn [Z.eqb negb andb]. unfold _mesa_get_debug_state. rewrite Hd.
  cbn [ret fst snd].
  destruct (debug_set_message_enable_all_cells debug p grp
              (gl_enum_to_debug_source gl_source)
              (gl_enum_to_debug_type gl_type)
              (gl_enum_to_debug_severity gl_severity) enabled Hg Hw)
    as (groups & g' & Hr & Hg' & Hf & Hc).
  { apply (enum_index_range gl_source debug_source_enums). }
  { apply (enum_index_range gl_type debug_type_enums). }
  cbv zeta in Hr, Hg', Hf, Hc.
  exists groups, g'. rewrite Hr. split; [done|].
  rewrite Hr in Hg'. split; [exact Hg'|]. split; [exact Hf|].
  intros s t Hsr Htr. rewrite Hc by done.
  destruct (decide ((gl_source = GL_DONT_CARE
                     \/ s = gl_enum_to_debug_source gl_source) /\
                    (gl_type = GL_DONT_CARE
                     \/ t = gl_enum_to_debug_type gl_type))) as [[H1 H2]|Hn].
  - rewrite decide_True; [done|]. split.
    + destruct H1 as [H1|H1]; [left; by apply Hs1 | by right].
    + destruct H2 as [H2|H2]; [left; by apply Ht1 | by right].
  - rewrite decide_False; [done|]. intros [H1 H2]. apply Hn. split.
    + destruct H1 as [H1|H1]; [left; by apply Hs1 | by right].
    + destruct H2 as [H2|H2]; [left; by apply Ht1 | by right].
Qed.

(** ** Filters set for single ids *)


Lemma found_cons (id : Z) (e : gl_debug_element) (l : list gl_debug_element) :
  found id (e :: l) = if ID e =? id then Some e else found id l.
Proof.
  unfold found. cbn [find_element]. destruct (ID e =? id); [done|].
  by destruct (find_element id l).
Qed.

Lemma found_delete_other (id id' : Z) (l : list gl_debug_element) (i : nat) :
  find_element id l = Some i -> id' <> id ->
  found id' (delete i l) = found id' l.
Proof.
  revert i. induction l as [|e l IH]; intros i; [done|].
  cbn [find_element]. destruct (Z.eqb_spec (ID e) id) as [E|N].
  - intros [= <-] Hne. change (delete 0%nat (e :: l)) with l.
    rewrite found_cons. by destruct (Z.eqb_spec (ID e) id') as [E'|_]; [lia|].
  - destruct (find_element id l) as [j|] eqn:Ej; [|done].
    intros [= <-] Hne. change (delete (S j) (e :: l)) with (e :: delete j l).
    rewrite !found_cons. destruct (ID e =? id'); [done|]. by apply IH.
Qed.

Lemma found_app_other (id id' st : Z) (l : list gl_debug_element) :
  id' <> id -> found id' (l ++ [mk_element id st]) = found id' l.
Proof.
  intros Hne. induction l as [|e l IH].
  - cbn [app]. rewrite found_cons. cbn [ID].
    by destruct (Z.eqb_spec id id') as [E'|_]; [lia|].
  - change ((e :: l) ++ [mk_element id st])
      with (e :: (l ++ [mk_element id st])).
    rewrite !found_cons. by destruct (ID e =? id').
Qed.

Lemma found_alter_other (id id' st : Z) (l : list gl_debug_element) (i : nat) :
  find_element id l = Some i -> id' <> id ->
  found id' (alter (fun e => mk_element (ID e) st) i l) = found id' l.
Proof.
  revert i. induction l as [|e l IH]; intros i; [done|].
  cbn [find_element]. destruct (Z.eqb_spec (ID e) id) as [E|N].
  - intros [= <-] Hne.
    change (alter (fun e => mk_element (ID e) st) 0%nat (e :: l))
      with (mk_element (ID e) st :: l).
    rewrite !found_cons. cbn [ID].
    by destruct (Z.eqb_spec (ID e) id') as [E'|_]; [lia|].
  - destruct (find_element id l) as [j|] eqn:Ej; [|done].
    intros [= <-] Hne.
    change (alter (fun e => mk_element (ID e) st) (S j) (e :: l))
      with (e :: alter (fun e => mk_element (ID e) st) j l).
    rewrite !found_cons. destruct (ID e =? id'); [done|]. by apply IH.
Qed.

(** What [debug_namespace_get] answers after a [debug_namespace_set]
    that went through: the flag for the id that was set, the answer
    from before for every other id. *)
Lemma debug_namespace_get_after_set (ns : gl_debug_namespace) (id : Z)
    (enabled : bool) (p : process) (id' severity : Z) :
  NoDup (ID <$> Elements ns) ->
  0 <= severity < MESA_DEBUG_SEVERITY_COUNT ->
  fst (fst (debug_namespace_set ns id enabled p)) = true ->
  debug_namespace_get (snd (fst (debug_namespace_set ns id enabled p)))
    id' severity
  = if decide (id' = id) then enabled
    else debug_namespace_get ns id' severity.
Proof.
  intros Hnd Hsev Htrue.
  assert (Hbit : Z.testbit (if enabled then all_severities else 0) severity
                 = enabled).
  { destruct enabled; [by apply all_severities_bits | apply Z.bits_0]. }
  rewrite !debug_namespace_get_spec by lia.
  change (fun i => Elements ?n !! i) with (fun i : nat => Elements n !! i).
  destruct (debug_namespace_set_cases ns id enabled p) as [Hd Hc].
  cbv zeta in Hd, Hc.
  set (r := fst (debug_namespace_set ns id enabled p)) in *.
  fold (found id' (Elements (snd r))). fold (found id' (Elements ns)).
  rewrite Hd.
  destruct (decide (id' = id)) as [->|Hne].
  - destruct Hc as [[Hf _]|[(_ & Hdef & Hnone & ->)|[(_ & Hdef & i & Hi & Hel)|
                    [(_ & _ & Hnone & Hel)|(_ & _ & i & Hi & Hel)]]]].
    + congruence.
    + unfold found. rewrite Hnone. cbn. by rewrite Hdef.
    + unfold found.
      rewrite Hel, (find_element_delete_NoDup id _ i Hnd Hi). cbn.
      by rewrite Hdef.
    + unfold found. rewrite Hel, (find_element_app_new _ _ _ Hnone). cbn.
      by rewrite list_lookup_middle.
    + unfold found. rewrite Hel, find_element_alter, Hi by done. cbn.
      rewrite list_lookup_alter_eq.
      destruct (find_element_Some _ _ _ Hi) as (e & -> & _). by cbn.
  - destruct Hc as [[Hf _]|[(_ & Hdef & Hnone & ->)|[(_ & Hdef & i & Hi & Hel)|
                    [(_ & _ & Hnone & Hel)|(_ & _ & i & Hi & Hel)]]]].
    + congruence.
    + done.
    + by rewrite Hel, (found_delete_other id id' _ i Hi Hne).
    + by rewrite Hel, found_app_other.
    + by rewrite Hel, (found_alter_other id id' _ _ i Hi Hne).
Qed.

(** With memory at hand every allocation succeeds and the allocator is
    left as it is. *)
Lemma malloc_nil (q : process) : malloc_results q = [] -> malloc q = (true, q).
Proof. intros H. unfold malloc. by rewrite H. Qed.

Lemma copy_elements_nil (l : list gl_debug_element) (q : process) :
  malloc_results q = [] -> copy_elements l q = (Some l, q).
Proof.
  intros H. induction l as [|e l IH]; [done|].
  cbn [copy_elements]. rewrite bind_eq, (malloc_nil q H). cbn [fst snd].
  rewrite bind_eq, IH. cbn [fst snd ret fmap option_fmap option_map].
  by destruct e.
Qed.

Lemma copy_row_nil (row : list gl_debug_namespace) (q : process) :
  malloc_results q = [] -> copy_row row q = (Some row, q).
Proof.
  intros H. induction row as [|ns row IH]; [done|].
  cbn [copy_row]. rewrite bind_eq. unfold debug_namespace_copy.
  rewrite bind_eq, (copy_elements_nil _ q H).
  cbn [fst snd ret fmap option_fmap option_map].
  rewrite bind_eq, IH. cbn [fst snd ret fmap option_fmap option_map].
  by destruct ns.
Qed.

Lemma copy_rows_nil (rows : list (list gl_debug_namespace)) (q : process) :
  malloc_results q = [] -> copy_rows rows q = (Some rows, q).
Proof.
  intros H. induction rows as [|row rows IH]; [done|].
  cbn [copy_rows]. rewrite bind_eq, (copy_row_nil row q H). cbn [fst snd].
  by rewrite bind_eq, IH.
Qed.

Lemma debug_make_group_writable_nil (debug : gl_debug_state) (p : process) :
  malloc_results p = [] ->
  fst (fst (debug_make_group_writable debug p)) = true /\
  malloc_results (snd (debug_make_group_writable debug p)) = [].
Proof.
  intros H. unfold debug_make_group_writable.
  destruct (negb (debug_is_group_read_only debug)); [done|].
  rewrite bind_eq, (malloc_nil p H). cbn [fst snd].
  rewrite ?bind_eq. unfold gets. cbn [fst snd].
  rewrite ?bind_eq, (copy_rows_nil _ p H). cbn [fst snd].
  rewrite ?bind_eq. unfold new_group, ret. cbn [fst snd].
  split; [done|]. by cbn.
Qed.

Lemma debug_namespace_set_nil (ns : gl_debug_namespace) (id : Z)
    (enabled : bool) (q : process) :
  malloc_results q = [] ->
  fst (fst (debug_namespace_set ns id enabled q)) = true /\
  snd (debug_namespace_set ns id enabled q) = q.
Proof.
  intros H. unfold debug_namespace_set.
  destruct (DefaultState ns =? _);
    destruct (find_element id (Elements ns)); try done.
  by rewrite bind_eq, (malloc_nil q H).
Qed.

(** [debug_set_message_enable] with memory at hand: the namespace of
    the source and the type in the top group answers with the flag for
    the id and as before for every other id; the other namespaces of the
    group are as they were. *)
Lemma debug_set_message_enable_effect (debug : gl_debug_state) (p : process)
    (grp : gl_debug_group) (ns : gl_debug_namespace) (source type id : Z)
    (enabled : bool) :
  malloc_results p = [] ->
  group_at p debug (GroupStackDepth debug) = Some grp ->
  0 <= source -> 0 <= type ->
  namespace_at grp source type = Some ns ->
  NoDup (ID <$> Elements ns) ->
  let r := debug_set_message_enable debug source type id enabled p in
  exists groups g' ns',
    fst r = set_Groups debug groups /\
    group_at (snd r) (fst r) (GroupStackDepth debug) = Some g' /\
    malloc_results (snd r) = [] /\ freed (snd r) = freed p /\
    (forall s t, 0 <= s -> 0 <= t -> ~ (s = source /\ t = type) ->
       namespace_at g' s t = namespace_at grp s t) /\
    namespace_at g' source type = Some ns' /\
    NoDup (ID <$> Elements ns') /\
    forall id' severity, 0 <= severity < MESA_DEBUG_SEVERITY_COUNT ->
      debug_namespace_get ns' id' severity
      = if decide (id' = id) then enabled
        else debug_namespace_get ns id' severity.
Proof.
  intros Hm Hg Hs Ht Hns Hnd r. subst r.
  destruct (debug_make_group_writable_nil debug p Hm) as [Hw Hm1].
  destruct (debug_make_group_writable_top debug p grp Hg Hw)
    as (a & groups & Hd & Ha & Hh & _ & Hf).
  cbv zeta in Hd, Hh, Hf.
  set (q := snd (debug_make_group_writable debug p)) in *.
  assert (Hga : group_at q (set_Groups debug groups) (GroupStackDepth debug)
                = Some grp).
  { unfold group_at. cbn [Groups set_Groups]. rewrite Ha.
    cbn [mbind option_bind]. exact Hh. }
  destruct (debug_namespace_set_nil ns id enabled q Hm1) as [Hset Hq].
  set (ns' := snd (fst (debug_namespace_set ns id enabled q))).
  assert (Heq : debug_set_message_enable debug source type id enabled p
                = (set_Groups debug groups,
                   set_group_heap
                     (alter (fun grp => set_namespace_at grp source type ns')
                        a (group_heap q)) q)).
  { unfold debug_set_message_enable. rewrite bind_eq, Hd. fold q.
    rewrite bind_eq. unfold load_namespace, gets. cbn [fst snd].
    rewrite Hga. cbn [mbind option_bind]. rewrite Hns.
    rewrite !bind_eq, Hq. cbn [ret fst snd].
    unfold store_namespace, modify. cbn [Groups set_Groups]. by rewrite Ha. }
  rewrite Heq. cbn [fst snd].
  exists groups, (set_namespace_at grp source type ns'), ns'.
  split; [done|]. split.
  { unfold group_at. cbn [Groups set_Groups]. rewrite Ha.
    cbn [mbind option_bind group_heap set_group_heap].
    by rewrite lookup_alter_eq, Hh. }
  split; [exact Hm1|]. split; [exact Hf|]. split.
  { intros s t Hs' Ht' Hne.
    rewrite namespace_at_set_namespace_at by (done || by eexists).
    by rewrite decide_False. }
  split.
  { rewrite namespace_at_set_namespace_at by (done || by eexists).
    by rewrite decide_True. }
  split.
  { pose proof (apply_op_ids (op_set id enabled) ns q) as Hids.
    cbv zeta in Hids. by destruct (Hids Hnd) as [Hnd' _]. }
  intros id' severity Hsev. subst ns'.
  by apply debug_namespace_get_after_set.
Qed.

Lemma set_Groups_set_Groups (debug : gl_debug_state)
    (g1 g2 : list (option positive)) :
  set_Groups (set_Groups debug g1) g2 = set_Groups debug g2.
Proof. done. Qed.

(** The loop of glDebugMessageControl over its ids. *)
Lemma enable_ids_effect (ids : list Z) (debug : gl_debug_state) (p : process)
    (grp : gl_debug_group) (ns : gl_debug_namespace) (source type : Z)
    (enabled : bool) :
  malloc_results p = [] ->
  group_at p debug (GroupStackDepth debug) = Some grp ->
  0 <= source -> 0 <= type ->
  namespace_at grp source type = Some ns ->
  NoDup (ID <$> Elements ns) ->
  let r := enable_ids debug source type ids enabled p in
  exists groups g' ns',
    fst r = set_Groups debug groups /\
    group_at (snd r) (fst r) (GroupStackDepth debug) = Some g' /\
    malloc_results (snd r) = [] /\ freed (snd r) = freed p /\
    (forall s t, 0 <= s -> 0 <= t -> ~ (s = source /\ t = type) ->
       namespace_at g' s t = namespace_at grp s t) /\
    namespace_at g' source type = Some ns' /\
    NoDup (ID <$> Elements ns') /\
    forall id' severity, 0 <= severity < MESA_DEBUG_SEVERITY_COUNT ->
      debug_namespace_get ns' id' severity
      = if decide (id' ∈ ids) then enabled
        else debug_namespace_get ns id' severity.
Proof.
  revert debug p grp ns.
  induction ids as [|id ids IH]; intros debug p grp ns Hm Hg Hs Ht Hns Hnd r;
    subst r.
  - cbn [enable_ids ret fst snd]. exists (Groups debug), grp, ns.
    split; [by destruct debug|]. split; [done|]. split; [done|].
    split; [done|]. split; [done|]. split; [done|]. split; [done|].
    intros id' severity _. rewrite decide_False; [done|].
    by intros ?%elem_of_nil.
  - cbn [enable_ids]. rewrite bind_eq.
    destruct (debug_set_message_enable_effect debug p grp ns source type id
                enabled Hm Hg Hs Ht Hns Hnd)
      as (groups1 & g1 & ns1 & H1 & H2 & H3 & H4 & H5 & H6 & H7 & H8).
    cbv zeta in H1, H2, H3, H4.
    rewrite H1 in H2 |- *.
    set (q := snd (debug_set_message_enable debug source type id enabled p))
      in *.
    destruct (IH (set_Groups debug groups1) q g1 ns1 H3 H2 Hs Ht H6 H7)
      as (groups2 & g2 & ns2 & I1 & I2 & I3 & I4 & I5 & I6 & I7 & I8).
    cbv zeta in I1, I2, I3, I4. cbn [GroupStackDepth set_Groups] in I2.
    exists groups2, g2, ns2.
    split; [by rewrite I1|]. split; [exact I2|]. split; [exact I3|].
    split; [by rewrite I4|]. split.
    { intros s t Hs' Ht' Hne. by rewrite I5, H5. }
    split; [exact I6|]. split; [exact I7|].
    intros id' severity Hsev. rewrite I8, H8 by done.
    destruct (decide (id' ∈ ids)) as [Hin|Hnin].
    + rewrite decide_True; [done|]. by apply elem_of_cons; right.
    + destruct (decide (id' = id)) as [->|Hne].
      * rewrite decide_True; [done|]. by apply elem_of_cons; left.
      * rewrite decide_False; [done|].
        by intros [->|Hin]%elem_of_cons.
Qed.

(** X14. glDebugMessageControl with an array of ids enables or
    disables exactly those ids.  With memory at hand, GL_DEBUG_OUTPUT
    enabled, a source and a type that are not GL_DONT_CARE, severity
    GL_DONT_CARE and a positive count, a message of that source and
    type is afterwards enabled, at every severity, as the flag says
    when its id is among the first [count] ids of the array, and as it
    was before otherwise; messages of every other source or type are
    enabled as they were.  (The ids of the overrides of the namespace
    are pairwise different, as in every namespace built by the
    code.) *)
Theorem control_by_ids_sets_those_ids (ctx : gl_context)
    (debug : gl_debug_state) (grp : gl_debug_group)
    (ns : gl_debug_namespace) (gl_source gl_type : GLenum) (count : Z)
    (ids : list Z) (enabled : bool) (p : process) :
  Debug ctx = Some debug -> DebugOutput debug = true ->
  fst (fst (validate_params ctx CONTROL "glDebugMessageControl" gl_source
              gl_type GL_DONT_CARE p)) = true ->
  gl_source <> GL_DONT_CARE -> gl_type <> GL_DONT_CARE -> 0 < count ->
  malloc_results p = [] ->
  group_at p debug (GroupStackDepth debug) = Some grp ->
  namespace_at grp (gl_enum_to_debug_source gl_source)
    (gl_enum_to_debug_type gl_type) = Some ns ->
  NoDup (ID <$> Elements ns) ->
  let r := _mesa_DebugMessageControl ctx gl_source gl_type GL_DONT_CARE count
             ids enabled p in
  exists debug',
    fst r = set_Debug ctx (Some debug') /\
    GroupStackDepth debug' = GroupStackDepth debug /\
    freed (snd r) = freed p /\
    forall s t id severity,
      0 <= s -> 0 <= t -> 0 <= severity < MESA_DEBUG_SEVERITY_COUNT ->
      debug_is_message_enabled (snd r) debug' s t id severity
      = if decide (s = gl_enum_to_debug_source gl_source /\
                   t = gl_enum_to_debug_type gl_type /\
                   id ∈ take (Z.to_nat count) ids)
        then enabled
        else debug_is_message_enabled p debug s t id severity.
Proof.
  intros Hd Hout Hv Hsrc Hty Hcount Hm Hg Hns Hnd r. subst r.
  pose proof Hv as Hv'. rewrite validate_params_eq in Hv'.
  destruct (source_ok CONTROL gl_source && type_ok CONTROL gl_type
            && severity_ok CONTROL GL_DONT_CARE) eqn:Hok; [|discriminate Hv'].
  unfold _mesa_DebugMessageControl.
  destruct (Z.ltb_spec count 0) as [|_]; [lia|].
  rewrite bind_eq, validate_params_eq, Hok. cbn [fst snd negb].
  destruct (Z.eqb_spec count 0) as [|_]; [lia|]. cbn [negb andb].
  rewrite (bool_decide_eq_true_2 (GL_DONT_CARE = GL_DONT_CARE)) by done.
  rewrite (bool_decide_eq_false_2 (gl_type = GL_DONT_CARE)) by done.
  rewrite (bool_decide_eq_false_2 (gl_source = GL_DONT_CARE)) by done.
  cbn [negb orb]. rewrite bind_eq. unfold _mesa_get_debug_state. rewrite Hd.
  cbn [ret fst snd]. rewrite bind_eq.
  pose proof (enum_index_range gl_source debug_source_enums) as Hsr.
  pose proof (enum_index_range gl_type debug_type_enums) as Htr.
  destruct (enable_ids_effect (take (Z.to_nat count) ids) debug p grp ns
              (gl_enum_to_debug_source gl_source)
              (gl_enum_to_debug_type gl_type) enabled Hm Hg)
    as (groups & g' & ns' & H1 & H2 & H3 & H4 & H5 & H6 & H7 & H8);
    try done; try (unfold gl_enum_to_debug_source, gl_enum_to_debug_type; lia).
  cbv zeta in H1, H2, H3, H4. cbn [ret fst snd].
  rewrite H1 in H2 |- *.
  exists (set_Groups debug groups). split; [done|]. split; [done|].
  split; [exact H4|].
  intros s t id severity Hs Ht Hsev.
  unfold debug_is_message_enabled. cbn [DebugOutput set_Groups GroupStackDepth].
  rewrite Hout. cbn [negb]. cbn [GroupStackDepth set_Groups] in H2.
  rewrite H2, Hg. cbn [mbind option_bind].
  destruct (decide (s = gl_enum_to_debug_source gl_source
                    /\ t = gl_enum_to_debug_type gl_type)) as [[-> ->]|Hne].
  - rewrite H6, Hns, H8 by done.
    destruct (decide (id ∈ take (Z.to_nat count) ids)) as [Hin|Hnin].
    + by rewrite decide_True.
    + rewrite decide_False; [done|]. by intros (_ & _ & ?).
  - rewrite H5 by done. rewrite decide_False; [done|].
    intros (? & ? & _). by apply Hne.
Qed.

(** ** Rejected calls of glDebugMessageControl *)

(** X15. A glDebugMessageControl that is rejected raises its error
    and changes no filter.  With a negative count the call is the call
    of [_mesa_error] with GL_INVALID_VALUE, with a value that does not
    pass the validation the one with GL_INVALID_ENUM, and with an array
    of ids together with a severity other than GL_DONT_CARE, or with
    GL_DONT_CARE as source or type, the one with GL_INVALID_OPERATION;
    with an error text that fits the buffer the call ends with
    [_mesa_record_error] for that error, on a context whose debug
    state, when there is one, differs in its log only; the groups in
    memory and the freed texts are as before. *)
Theorem rejected_control_changes_no_filter (ctx : gl_context)
    (gl_source gl_type gl_severity : GLenum) (count : Z) (ids : list Z)
    (enabled : bool) (p : process) :
  let valid :=
    fst (fst (validate_params ctx CONTROL "glDebugMessageControl" gl_source
                gl_type gl_severity p)) in
  count < 0 \/ valid = false \/
  (count <> 0 /\
   (gl_severity <> GL_DONT_CARE \/ gl_type = GL_DONT_CARE
    \/ gl_source = GL_DONT_CARE)) ->
  let error :=
    if count <? 0 then GL_INVALID_VALUE
    else if valid then GL_INVALID_OPERATION else GL_INVALID_ENUM in
  let fmtString : string :=
    if count <? 0 then "%s(count=%d : count must not be negative)"
    else if valid
    then "%s(When passing an array of ids, severity must be GL_DONT_CARE, and source and type must not be GL_DONT_CARE."
    else "bad values passed to %s(source=0x%x, type=0x%x, severity=0x%x)" in
  let args :=
    if count <? 0 then [arg_str "glDebugMessageControl"; arg_int count]
    else if valid then [arg_str "glDebugMessageControl"]
    else [arg_str "glDebugMessageControl"; arg_enum gl_source;
          arg_enum gl_type; arg_enum gl_severity] in
  Z.of_nat (List.length
              (_mesa_lookup_enum_by_nr error
               ++ list_ascii_of_string " in "
               ++ _mesa_vsnprintf fmtString args))
  < MAX_DEBUG_MESSAGE_LENGTH ->
  let r := _mesa_DebugMessageControl ctx gl_source gl_type gl_severity count
             ids enabled p in
  r = _mesa_error ctx error fmtString args p /\
  exists ctx1,
    fst r = _mesa_record_error ctx1 error /\
    ErrorValue ctx1 = ErrorValue ctx /\
    match Debug ctx with
    | None => ctx1 = snd (should_output ctx error fmtString)
    | Some debug =>
        exists log',
          ctx1 = set_Debug (snd (should_output ctx error fmtString))
                   (Some (set_Log debug log'))
    end /\
    group_heap (snd r) = group_heap p /\
    freed (snd r) = freed p.
Proof.
  intros valid Hrej error fmtString args Hfit r.
  assert (Hr : r = _mesa_error ctx error fmtString args p).
  { subst r error fmtString args. unfold _mesa_DebugMessageControl.
    destruct (Z.ltb_spec count 0) as [Hneg|Hpos]; [done|].
    rewrite bind_eq. subst valid. rewrite validate_params_eq in Hrej |- *.
    destruct (source_ok CONTROL gl_source && type_ok CONTROL gl_type
              && severity_ok CONTROL gl_severity) eqn:Hok;
      cbn [fst snd negb] in Hrej |- *.
    - destruct Hrej as [Hrej|[Hrej|[Hc Hrej]]]; [lia|done|].
      destruct (Z.eqb_spec count 0) as [|_]; [done|]. cbn [negb andb].
      assert (Hb : negb (bool_decide (gl_severity = GL_DONT_CARE))
                   || bool_decide (gl_type = GL_DONT_CARE)
                   || bool_decide (gl_source = GL_DONT_CARE) = true).
      { destruct Hrej as [H|[H|H]].
        - by rewrite (bool_decide_eq_false_2 _ H).
        - rewrite (bool_decide_eq_true_2 _ H). by rewrite orb_true_r.
        - rewrite (bool_decide_eq_true_2 _ H). by rewrite orb_true_r. }
      by rewrite Hb.
    - cbn [ret fst snd]. by destruct (_mesa_error _ _ _ _ _). }
  split; [exact Hr|]. rewrite Hr.
  exact (mesa_error_raised ctx error fmtString args p Hfit).
Qed.

(** ** Tearing the state down *)

Lemma debug_clear_group_effect (debug : gl_debug_state) (q : process) :
  let r := debug_clear_group debug q in
  let gstack := Z.to_nat (GroupStackDepth debug) in
  fst r = set_Groups debug (<[gstack := None]> (Groups debug)) /\
  snd r = set_group_heap (group_heap (snd r)) q /\
  group_heap (snd r)
  = if debug_is_group_read_only debug then group_heap q
    else match mjoin (Groups debug !! gstack) with
         | Some a => delete a (group_heap q)
         | None => group_heap q
         end.
Proof.
  unfold debug_clear_group. rewrite bind_eq. cbn [ret fst snd].
  split; [done|].
  destruct (debug_is_group_read_only debug); cbn [negb ret snd];
    [by destruct q|].
  destruct (mjoin _); [|by destruct q]. unfold free_group, modify.
  by cbn.
Qed.

(** [debug_destroy] from the depth [n]: the blocks the slots 0 to [n]
    point to are gone, the others are as they were. *)
Lemma debug_destroy_effect (n : nat) (debug : gl_debug_state) (q : process) :
  GroupStackDepth debug = Z.of_nat n ->
  (n < length (Groups debug))%nat ->
  let r := debug_destroy debug q in
  snd r = set_group_heap (group_heap (snd r)) q /\
  forall a,
    group_heap (snd r) !! a
    = if decide (Some a ∈ take (S n) (Groups debug)) then None
      else group_heap q !! a.
Proof.
  revert debug q. induction n as [|n IH]; intros debug q Hdepth Hlen r;
    subst r.
  - unfold debug_destroy. rewrite Hdepth, Nat2Z.id. cbn [destroy_loop].
    rewrite !bind_eq. cbn [ret fst snd].
    destruct (debug_clear_group_effect debug q) as (_ & H2 & H3).
    cbv zeta in H2, H3. split; [exact H2|]. intros a. rewrite H3.
    assert (Hro : debug_is_group_read_only debug = false).
    { unfold debug_is_group_read_only. by rewrite Hdepth. }
    rewrite Hro, Hdepth, Nat2Z.id.
    destruct (Groups debug) as [|g0 gs] eqn:Eg; [cbn in Hlen; lia|].
    cbn [lookup list_lookup mjoin option_join take]. rewrite take_0.
    destruct g0 as [a0|].
    + destruct (decide (a = a0)) as [->|Hne].
      * rewrite decide_True by (by apply list_elem_of_singleton).
        cbn. apply lookup_delete_eq.
      * rewrite decide_False
          by (intros [= ?]%list_elem_of_singleton; by apply Hne).
        cbn. by apply lookup_delete_ne.
    + cbn. rewrite decide_False; [done|].
      by intros ?%list_elem_of_singleton.
  - unfold debug_destroy. rewrite Hdepth, Nat2Z.id. cbn [destroy_loop].
    rewrite Hdepth.
    destruct (Z.ltb_spec 0 (Z.of_nat (S n))) as [_|]; [|lia].
    destruct (debug_clear_group_effect debug q) as (H1 & H2 & H3).
    cbv zeta in H1, H2, H3. rewrite Hdepth, Nat2Z.id in H1, H3.
    rewrite !bind_eq. rewrite H1.
    set (q1 := snd (debug_clear_group debug q)) in *.
    set (debug1 := set_GroupStackDepth _ _).
    assert (Hd1 : GroupStackDepth debug1 = Z.of_nat n)
      by (subst debug1; cbn; lia).
    assert (Hl1 : (n < length (Groups debug1))%nat).
    { subst debug1. cbn. rewrite length_insert. lia. }
    pose proof (IH debug1 q1 Hd1 Hl1) as [I1 I2].
    unfold debug_destroy in I1, I2. rewrite Hd1, Nat2Z.id in I1, I2.
    rewrite !bind_eq in I1, I2. cbn [ret fst snd] in I1, I2 |- *.
    split; [by eapply only_heap_trans|].
    intros a. rewrite I2.
    assert (Ht : take (S n) (Groups debug1) = take (S n) (Groups debug)).
    { subst debug1. cbn. apply take_insert_ge. lia. }
    rewrite Ht.
    destruct (Groups debug !! S n) as [top|] eqn:Etop;
      [|apply lookup_ge_None in Etop; lia].
    rewrite (take_S_r _ (S n) top Etop).
    destruct (decide (Some a ∈ take (S n) (Groups debug))) as [Hin|Hnin].
    + rewrite decide_True; [done|]. apply elem_of_app. by left.
    + destruct (decide (top = Some a)) as [->|Hne].
      * rewrite decide_True
          by (apply elem_of_app; right; by apply list_elem_of_singleton).
        rewrite H3.
        assert (Hro : debug_is_group_read_only debug = false).
        { unfold debug_is_group_read_only. rewrite Hdepth, Nat2Z.id.
          apply andb_false_iff. right. apply bool_decide_eq_false_2.
          replace (Z.to_nat (Z.of_nat (S n) - 1)) with n by lia.
          rewrite Etop. intros Heq. apply Hnin.
          apply list_elem_of_lookup. exists n.
          rewrite lookup_take_lt by lia. done. }
        rewrite Hro. cbn. apply lookup_delete_eq.
      * rewrite decide_False.
        2:{ intros [Hin|Hin%list_elem_of_singleton]%elem_of_app;
              [by apply Hnin | by apply Hne]. }
        rewrite H3. destruct (debug_is_group_read_only debug); [done|].
        destruct top as [a'|]; cbn; [|done].
        apply lookup_delete_ne. congruence.
Qed.

(** X16. [_mesa_free_errors_data] frees the groups of the stack and
    nothing else.  For a state whose depth lies within the stack,
    afterwards the context has no debug state, every block that one of
    the slots from 0 to the depth pointed to is gone from memory, every
    other block is as it was, and the rest of the process is untouched:
    no text of a logged or pending message is freed. *)
Theorem free_errors_data_frees_the_groups (ctx : gl_context)
    (debug : gl_debug_state) (p : process) :
  Debug ctx = Some debug ->
  0 <= GroupStackDepth debug ->
  (Z.to_nat (GroupStackDepth debug) < length (Groups debug))%nat ->
  let r := _mesa_free_errors_data ctx p in
  fst r = set_Debug ctx None /\
  freed (snd r) = freed p /\
  snd r = set_group_heap (group_heap (snd r)) p /\
  forall a,
    group_heap (snd r) !! a
    = if decide (Some a ∈ take (S (Z.to_nat (GroupStackDepth debug)))
                            (Groups debug))
      then None else group_heap p !! a.
Proof.
  intros Hd Hdepth Hlen r. subst r. unfold _mesa_free_errors_data.
  rewrite Hd, bind_eq. cbn [ret fst snd]. split; [done|].
  destruct (debug_destroy_effect (Z.to_nat (GroupStackDepth debug)) debug p)
    as [H1 H2]; [lia|done|].
  cbv zeta in H1, H2. split; [by rewrite H1|]. by split.
Qed.

(** ** Queries *)

(** X17. The queries of the log agree with the queue.  For a
    well-formed log GL_DEBUG_LOGGED_MESSAGES is the number of messages
    queued and GL_DEBUG_NEXT_LOGGED_MESSAGE_LENGTH is the length of the
    oldest one (0 when the log is empty); the latter is exactly the
    text capacity a glGetDebugMessageLog for one message needs: with a
    text buffer of [logSize] bytes the call returns 1 when the log is
    not empty and [logSize] is at least that length, and 0
    otherwise. *)
Theorem log_queries_match_the_queue (ctx : gl_context)
    (debug : gl_debug_state) (logSize : Z) (out : log_arrays)
    (text : list ascii) (p : process) :
  Debug ctx = Some debug -> log_wf (Log debug) ->
  messageLog out = Some text -> 0 <= logSize ->
  let queued := log_contents (Log debug) in
  let need := _mesa_get_debug_state_int ctx
                GL_DEBUG_NEXT_LOGGED_MESSAGE_LENGTH in
  _mesa_get_debug_state_int ctx GL_DEBUG_LOGGED_MESSAGES
  = Z.of_nat (length queued) /\
  need = from_option msg_length 0 (head queued) /\
  fst (fst (fst (_mesa_GetDebugMessageLog ctx 1 logSize out p)))
  = if bool_decide (queued = []) || (logSize <? need) then 0 else 1.
Proof.
  intros Hd Hwf Hout Hsize queued need. subst need queued.
  pose proof Hwf as (Hm & Hlen & Hnext & Hnum).
  unfold _mesa_get_debug_state_int. rewrite Hd.
  cbn [decide decide_rel]. split.
  { rewrite decide_False by done. rewrite decide_False by done.
    rewrite decide_True by done. symmetry.
    apply log_contents_length. lia. }
  assert (Hneed : (if NumMessages (Log debug) =? 0 then 0
                   else msg_length
                          (default zero_message
                             (Messages (Log debug)
                              !! Z.to_nat (NextMessage (Log debug)))))
                  = from_option msg_length 0 (head (log_contents (Log debug)))).
  { rewrite <- debug_fetch_message_head by done. unfold debug_fetch_message.
    destruct (NumMessages (Log debug) =? 0); [done|].
    destruct (Messages (Log debug) !! Z.to_nat (NextMessage (Log debug)))
      eqn:E; [done|].
    apply lookup_ge_None in E. lia. }
  rewrite decide_False by done. rewrite decide_False by done.
  rewrite decide_False by done. rewrite decide_True by done.
  rewrite Hneed. split; [done|].
  destruct (GetDebugMessageLog_with_state ctx debug 1 logSize out p Hd Hwf)
    as (_ & log' & Hr & _); [done|].
  cbv zeta in Hr. rewrite Hr. cbn [fst].
  rewrite Hout.
  rewrite (bool_decide_eq_false_2 (Some text = None)) by done.
  rewrite (bool_decide_eq_true_2 (Some text ≠ None)) by done.
  change (Z.to_nat 1) with 1%nat.
  destruct (log_contents (Log debug)) as [|msg rest]; [done|].
  cbn [fitting head from_option]. rewrite andb_true_r.
  rewrite (bool_decide_eq_false_2 (msg :: rest = [])) by done.
  cbn [orb]. by destruct (logSize <? msg_length msg).
Qed.


(** ** Messages of the driver *)

Lemma debug_get_id_value (id : Z) (q : process) :
  fst (debug_get_id id q) = if id =? 0 then NextDynamicID q else id.
Proof. unfold debug_get_id. by destruct (id =? 0). Qed.

(** [log_msg] of an enabled message into a log with room. *)
Lemma log_msg_stored (ctx : gl_context) (debug : gl_debug_state)
    (source type id severity len : Z) (buf : list ascii) (q : process) :
  Debug ctx = Some debug -> Callback debug = None -> log_wf (Log debug) ->
  NumMessages (Log debug) < MAX_DEBUG_LOGGED_MESSAGES ->
  debug_is_message_enabled q debug source type id severity = true ->
  fst (malloc q) = true ->
  exists log',
    log_msg ctx source type id severity len buf q
    = (set_Debug ctx (Some (set_Log debug log')), snd (malloc q)) /\
    log_wf log' /\
    log_contents log'
    = log_contents (Log debug)
      ++ [mk_message source type id severity (len + 1)
            (malloced (strncpy (Z.to_nat len) buf ++ [NUL]))].
Proof.
  intros Hd Hc Hwf Hroom Hen Hm.
  rewrite (log_msg_with_state _ _ _ _ _ _ _ _ _ Hd).
  destruct (log_msg_debug_stored debug source type id severity len buf q)
    as (log' & -> & Hwf' & Hc'); try done.
  by exists log'.
Qed.

(** The state of the process a message is logged in after its id was
    assigned. *)
Lemma after_debug_get_id (id : Z) (debug : gl_debug_state)
    (source type i severity : Z) (p : process) :
  let q := snd (debug_get_id id p) in
  debug_is_message_enabled q debug source type i severity
  = debug_is_message_enabled p debug source type i severity /\
  fst (malloc q) = fst (malloc p) /\
  group_heap q = group_heap p /\ freed q = freed p.
Proof.
  intros q. subst q.
  destruct (debug_get_id_frame id p) as (H1 & H2 & H3 & _).
  cbv zeta in H1, H2, H3. split.
  - rewrite <- (set_Log_same debug) at 1.
    by apply debug_is_message_enabled_frame.
  - split; [|done]. unfold malloc. rewrite H1.
    by destruct (malloc_results p).
Qed.

(** X19. [_mesa_shader_debug] cuts a message that is too long instead
    of rejecting it.  The id slot gets its id from [debug_get_id], the
    length is that of the C string when the argument is negative, and a
    length of [MAX_DEBUG_MESSAGE_LENGTH] or more is cut to
    [MAX_DEBUG_MESSAGE_LENGTH - 1], so the length that reaches the log
    is always within the bound [debug_log_message] asserts.  With no
    callback, room in the log, the message enabled and memory for the
    text, the message is appended to the log with source
    SHADER_COMPILER, severity HIGH, that id, and the first bytes of the
    text up to the cut length. *)
Theorem shader_debug_cuts_long_messages (ctx : gl_context)
    (debug : gl_debug_state) (type id : Z) (msg : list ascii) (len : Z)
    (p : process) :
  0 < MAX_DEBUG_MESSAGE_LENGTH ->
  Debug ctx = Some debug -> Callback debug = None -> log_wf (Log debug) ->
  NumMessages (Log debug) < MAX_DEBUG_LOGGED_MESSAGES ->
  let id' := if id =? 0 then NextDynamicID p else id in
  debug_is_message_enabled p debug MESA_DEBUG_SOURCE_SHADER_COMPILER type id'
    MESA_DEBUG_SEVERITY_HIGH = true ->
  fst (malloc p) = true ->
  let n := Z.min (if len <? 0 then strlen msg else len)
                 (MAX_DEBUG_MESSAGE_LENGTH - 1) in
  let r := _mesa_shader_debug ctx type id msg len p in
  0 <= n < MAX_DEBUG_MESSAGE_LENGTH /\
  exists log',
    fst r = (id', set_Debug ctx (Some (set_Log debug log'))) /\
    log_wf log' /\
    log_contents log'
    = log_contents (Log debug)
      ++ [mk_message MESA_DEBUG_SOURCE_SHADER_COMPILER type id'
            MESA_DEBUG_SEVERITY_HIGH (n + 1)
            (malloced (strncpy (Z.to_nat n) msg ++ [NUL]))].
Proof.
  intros Hmax Hd Hc Hwf Hroom id' Hen Hm n r. subst r.
  assert (Hstr : 0 <= strlen msg).
  { clear. induction msg as [|c b IH]; cbn; [done|].
    destruct (decide (c = NUL)); lia. }
  assert (Hn : 0 <= n < MAX_DEBUG_MESSAGE_LENGTH).
  { subst n. destruct (Z.ltb_spec len 0); lia. }
  split; [exact Hn|].
  unfold _mesa_shader_debug. rewrite bind_eq, debug_get_id_value. fold id'.
  assert (Hcut : (if MAX_DEBUG_MESSAGE_LENGTH
                     <=? (if len <? 0 then strlen msg else len)
                  then MAX_DEBUG_MESSAGE_LENGTH - 1
                  else if len <? 0 then strlen msg else len) = n).
  { subst n. destruct (Z.leb_spec MAX_DEBUG_MESSAGE_LENGTH
                         (if len <? 0 then strlen msg else len)); lia. }
  rewrite Hcut, bind_eq.
  destruct (after_debug_get_id id debug MESA_DEBUG_SOURCE_SHADER_COMPILER
              type id' MESA_DEBUG_SEVERITY_HIGH p) as (He & Hm' & _).
  cbv zeta in He, Hm'.
  destruct (log_msg_stored ctx debug MESA_DEBUG_SOURCE_SHADER_COMPILER type
              id' MESA_DEBUG_SEVERITY_HIGH n msg (snd (debug_get_id id p)))
    as (log' & -> & Hwf' & Hc'); try done; try congruence.
  cbn [ret fst snd]. by exists log'.
Qed.

(** X20. [_mesa_gl_debug] logs the formatted text under source API.
    The id slot gets its id from [debug_get_id]; with no callback, room
    in the log, the message enabled, memory for the text and a
    formatted text shorter than the buffer, the message is appended to
    the log with the type and the severity given, that id, and the
    formatted text. *)
Theorem gl_debug_logs_the_formatted_text (ctx : gl_context)
    (debug : gl_debug_state) (id type severity : Z) (fmtString : string)
    (args : list fmt_arg) (p : process) :
  Debug ctx = Some debug -> Callback debug = None -> log_wf (Log debug) ->
  NumMessages (Log debug) < MAX_DEBUG_LOGGED_MESSAGES ->
  let id' := if id =? 0 then NextDynamicID p else id in
  let text := _mesa_vsnprintf fmtString args in
  let len := Z.of_nat (length text) in
  len < MAX_DEBUG_MESSAGE_LENGTH ->
  debug_is_message_enabled p debug MESA_DEBUG_SOURCE_API type id' severity
  = true ->
  fst (malloc p) = true ->
  let r := _mesa_gl_debug ctx id type severity fmtString args p in
  exists log',
    fst r = (id', set_Debug ctx (Some (set_Log debug log'))) /\
    log_wf log' /\
    log_contents log'
    = log_contents (Log debug)
      ++ [mk_message MESA_DEBUG_SOURCE_API type id' severity (len + 1)
            (malloced (strncpy (Z.to_nat len) text ++ [NUL]))].
Proof.
  intros Hd Hc Hwf Hroom id' text len Hlen Hen Hm r. subst r.
  unfold _mesa_gl_debug. rewrite bind_eq, debug_get_id_value. fold id'.
  fold text. fold len. rewrite bind_eq.
  rewrite take_ge by (subst len; lia).
  destruct (after_debug_get_id id debug MESA_DEBUG_SOURCE_API
              type id' severity p) as (He & Hm' & _).
  cbv zeta in He, Hm'.
  destruct (log_msg_stored ctx debug MESA_DEBUG_SOURCE_API type
              id' severity len text (snd (debug_get_id id p)))
    as (log' & -> & Hwf' & Hc'); try done; try congruence.
  cbn [ret fst snd]. by exists log'.
Qed.

(** ** An invariant of the debug state *)

Lemma debug_ok_heap (p q : process) (debug : gl_debug_state) :
  group_heap q = group_heap p -> debug_ok p debug -> debug_ok q debug.
Proof. unfold debug_ok. by intros ->. Qed.

Lemma debug_inv_heap (p q : process) (debug : gl_debug_state) :
  group_heap q = group_heap p -> debug_inv p debug -> debug_inv q debug.
Proof. intros H [H1 H2]. split; [by apply (debug_ok_heap p) | done]. Qed.

Lemma ctx_ok_heap (p q : process) (ctx : gl_context) :
  group_heap q = group_heap p -> ctx_ok p ctx -> ctx_ok q ctx.
Proof.
  unfold ctx_ok. intros H. destruct (Debug ctx); [|done].
  by apply debug_inv_heap.
Qed.

Lemma debug_ok_set_Log (p : process) (debug : gl_debug_state)
    (log : gl_debug_log) :
  debug_ok p debug -> log_ok log -> debug_ok p (set_Log debug log).
Proof. intros (_ & H2 & H3 & H4) Hl. by split. Qed.

Lemma debug_inv_set_Log (p : process) (debug : gl_debug_state)
    (log : gl_debug_log) :
  debug_inv p debug -> log_ok log -> debug_inv p (set_Log debug log).
Proof. intros [H1 H2] Hl. split; [by apply debug_ok_set_Log | done]. Qed.

Lemma group_shape_init :
  group_shape
    (mk_group
       (replicate (Z.to_nat MESA_DEBUG_SOURCE_COUNT)
          (replicate (Z.to_nat MESA_DEBUG_TYPE_COUNT) debug_namespace_init))).
Proof.
  split; cbn [Namespaces].
  - by rewrite length_replicate.
  - apply Forall_replicate. by rewrite length_replicate.
Qed.

Lemma group_shape_set_namespace_at (grp : gl_debug_group) (s t : Z)
    (ns : gl_debug_namespace) :
  group_shape grp -> group_shape (set_namespace_at grp s t ns).
Proof.
  intros [H1 H2]. split; cbn [Namespaces set_namespace_at].
  - by rewrite length_alter.
  - apply Forall_alter; [done|]. intros row _ Hrow.
    by rewrite length_insert.
Qed.

(** The state [debug_create] returns. *)
Lemma debug_create_ok_state (p : process) (debug : gl_debug_state) :
  0 < MAX_DEBUG_LOGGED_MESSAGES -> 0 < MAX_DEBUG_GROUP_STACK_DEPTH ->
  fst (debug_create p) = Some debug ->
  debug_inv (snd (debug_create p)) debug.
Proof.
  intros Hl Hs. unfold debug_create. rewrite bind_eq.
  destruct (fst (malloc p)) eqn:H1; [|done]. rewrite bind_eq.
  destruct (fst (malloc (snd (malloc p)))) eqn:H2; [|done].
  rewrite bind_eq. unfold new_group. cbn [ret fst snd].
  intros [= <-]. set (q := snd (malloc (snd (malloc p)))).
  split; [split|].
  { split.
    - repeat split; cbn; rewrite ?length_replicate; lia.
    - intros k Hk. unfold queued_at. cbn [Log Messages].
      destruct (replicate _ _ !! _) as [msg|] eqn:E; [|done].
      by apply lookup_replicate_1 in E as [-> _]. }
  { cbn [Groups GroupMessages GroupStackDepth group_heap set_group_heap].
    split; [rewrite length_insert, length_replicate; lia|].
    split; [rewrite length_replicate; lia|].
    split; [rewrite length_insert, length_replicate; lia|].
    split; [|split].
    - intros i Hi. assert (i = 0%nat) as -> by lia.
      eexists (fresh (dom (group_heap q))), _.
      split; [apply list_lookup_insert_eq; rewrite length_replicate; lia|].
      split; [apply lookup_insert_eq | apply group_shape_init].
    - intros i Hi Hlen. rewrite length_insert, length_replicate in Hlen.
      rewrite list_lookup_insert_ne by lia. by apply lookup_replicate_2.
    - intros i j k Hik Hkj Hj _.
      assert (j = 0%nat) as -> by lia. assert (k = 0%nat) as -> by lia.
      by assert (i = 0%nat) as -> by lia. }
  intros i msg _ E. cbn [GroupMessages] in E.
  by apply lookup_replicate_1 in E as [-> _].
Qed.

Lemma stack_ok_alter (f : gl_debug_group -> gl_debug_group) (a : positive)
    (h : gmap positive gl_debug_group) (groups : list (option positive))
    (depth : Z) :
  (forall grp, group_shape grp -> group_shape (f grp)) ->
  stack_ok h groups depth -> stack_ok (alter f a h) groups depth.
Proof.
  intros Hf (H1 & H2 & H3 & H4). split; [done|]. split; [|done].
  intros i Hi. destruct (H2 i Hi) as (b & grp & Hb & Hg & Hs).
  destruct (decide (b = a)) as [->|Hne].
  - exists a, (f grp). split; [done|]. split; [|by apply Hf].
    by rewrite lookup_alter_eq, Hg.
  - exists b, grp. split; [done|]. split; [|done].
    by rewrite lookup_alter_ne.
Qed.

(** [debug_push_group] on a stack with a free slot. *)
Lemma stack_ok_push (h : gmap positive gl_debug_group)
    (groups : list (option positive)) (depth : Z) :
  stack_ok h groups depth -> depth + 1 < Z.of_nat (length groups) ->
  stack_ok h
    (<[Z.to_nat (depth + 1) := mjoin (groups !! Z.to_nat depth)]> groups)
    (depth + 1).
Proof.
  intros (H1 & H2 & H3 & H4) Hroom.
  destruct (H2 (Z.to_nat depth)) as (a & grp & Ha & Hg & Hs); [lia|].
  rewrite Ha. cbn [mjoin option_join mbind option_bind].
  replace (Z.to_nat (depth + 1)) with (S (Z.to_nat depth)) by lia.
  set (d := Z.to_nat depth) in *.
  split; [rewrite length_insert; lia|]. split; [|split].
  - intros i Hi. destruct (decide (i = S d)) as [->|Hne].
    + exists a, grp. split; [|done]. apply list_lookup_insert_eq. lia.
    + rewrite list_lookup_insert_ne by lia. apply H2. lia.
  - intros i Hi Hlen. rewrite length_insert in Hlen.
    rewrite list_lookup_insert_ne by lia. apply H3; lia.
  - intros i j k Hik Hkj Hj.
    destruct (decide (j = S d)) as [->|Hnj].
    + rewrite (list_lookup_insert_eq _ (S d)) by lia.
      destruct (decide (i = S d)) as [->|Hni].
      { by assert (k = S d) as -> by lia. }
      rewrite (list_lookup_insert_ne _ (S d) i) by lia. intros Hij.
      destruct (decide (k = S d)) as [->|Hnk].
      * by rewrite list_lookup_insert_eq by lia.
      * rewrite list_lookup_insert_ne by lia.
        apply (H4 i d k); try lia. by rewrite Hij, Ha.
    + rewrite !list_lookup_insert_ne by lia. apply H4; lia.
Qed.

(** [debug_clear_group] followed by the decrement of the depth, as in
    [debug_pop_group] and [debug_destroy]. *)
Lemma stack_ok_pop (debug : gl_debug_state) (q : process) :
  stack_ok (group_heap q) (Groups debug) (GroupStackDepth debug) ->
  0 < GroupStackDepth debug ->
  let r := debug_clear_group debug q in
  stack_ok (group_heap (snd r)) (Groups (fst r)) (GroupStackDepth debug - 1).
Proof.
  intros (H1 & H2 & H3 & H4) Hpos r. subst r.
  destruct (debug_clear_group_effect debug q) as (E1 & _ & E3).
  cbv zeta in E1, E3. rewrite E1, E3. cbn [Groups set_Groups].
  set (d := Z.to_nat (GroupStackDepth debug)) in *.
  assert (Hd : Z.to_nat (GroupStackDepth debug - 1) = (d - 1)%nat) by lia.
  destruct (H2 d) as (a & grp & Ha & Hg & Hs); [lia|].
  split; [rewrite length_insert; lia|]. rewrite Hd. split; [|split].
  - intros i Hi. destruct (H2 i) as (b & grpb & Hb & Hgb & Hsb); [lia|].
    exists b, grpb. split; [by rewrite list_lookup_insert_ne by lia|].
    split; [|done].
    destruct (debug_is_group_read_only debug) eqn:Hro; [done|].
    rewrite Ha. cbn [mjoin option_join mbind option_bind].
    rewrite lookup_delete_ne; [done|]. intros ->.
    assert (Heq : Groups debug !! (d - 1)%nat = Groups debug !! i).
    { apply (H4 i d (d - 1)%nat); try lia. by rewrite Ha, Hb. }
    unfold debug_is_group_read_only in Hro.
    apply andb_false_iff in Hro as [Hro|Hro].
    + apply Z.ltb_ge in Hro. lia.
    + apply bool_decide_eq_false_1 in Hro. apply Hro.
      fold d. rewrite Hd. by rewrite Heq, Ha, Hb.
  - intros i Hi Hlen. rewrite length_insert in Hlen.
    destruct (decide (i = d)) as [->|Hne].
    + apply list_lookup_insert_eq. lia.
    + rewrite list_lookup_insert_ne by lia. apply H3; lia.
  - intros i j k Hik Hkj Hj. rewrite !list_lookup_insert_ne by lia.
    apply H4; lia.
Qed.

(** [debug_make_group_writable], step by step. *)
Lemma debug_make_group_writable_eq (debug : gl_debug_state) (p : process) :
  debug_make_group_writable debug p
  = if negb (debug_is_group_read_only debug) then (true, debug, p)
    else if fst (malloc p) then
      let q := snd (malloc p) in
      let rows0 := from_option Namespaces []
                     (group_at q debug (GroupStackDepth debug)) in
      let q2 := snd (copy_rows rows0 q) in
      match fst (copy_rows rows0 q) with
      | Some rows =>
          let a := fresh (dom (group_heap q2)) in
          (true,
           set_Groups debug
             (<[Z.to_nat (GroupStackDepth debug) := Some a]> (Groups debug)),
           set_group_heap (<[a := mk_group rows]> (group_heap q2)) q2)
      | None => (false, debug, q2)
      end
    else (false, debug, snd (malloc p)).
Proof.
  unfold debug_make_group_writable.
  destruct (negb (debug_is_group_read_only debug)); [done|].
  rewrite bind_eq. destruct (fst (malloc p)); [|done].
  rewrite bind_eq. unfold gets. cbn [fst snd]. rewrite bind_eq. cbv zeta.
  by destruct (fst (copy_rows _ _)).
Qed.

(** [debug_make_group_writable], whether it copies, fails or has
    nothing to do. *)
Lemma debug_make_group_writable_ok (debug : gl_debug_state) (p : process) :
  stack_ok (group_heap p) (Groups debug) (GroupStackDepth debug) ->
  let r := debug_make_group_writable debug p in
  exists groups,
    snd (fst r) = set_Groups debug groups /\
    length groups = length (Groups debug) /\
    stack_ok (group_heap (snd r)) groups (GroupStackDepth debug).
Proof.
  intros Hok r. subst r. rewrite debug_make_group_writable_eq.
  destruct (debug_is_group_read_only debug) eqn:Hro; cbn [negb];
    [|exists (Groups debug); cbn [fst snd]; by destruct debug].
  pose proof (malloc_group_heap p) as Hmh.
  destruct (fst (malloc p));
    [|exists (Groups debug); cbn [fst snd]; rewrite Hmh; by destruct debug].
  cbv zeta.
  pose proof Hok as (H1 & H2 & H3 & H4).
  set (d := Z.to_nat (GroupStackDepth debug)) in *.
  destruct (H2 d) as (a & grp & Ha & Hg & Hs); [lia|].
  assert (Hsrc : group_at (snd (malloc p)) debug (GroupStackDepth debug)
                 = Some grp).
  { unfold group_at. fold d. rewrite Ha, Hmh. cbn. exact Hg. }
  rewrite Hsrc. cbn [from_option].
  pose proof (copy_rows_group_heap (Namespaces grp) (snd (malloc p))) as Hc.
  rewrite Hmh in Hc.
  destruct (fst (copy_rows (Namespaces grp) (snd (malloc p))))
    as [rows|] eqn:Hcr;
    [|exists (Groups debug); cbn [fst snd]; rewrite Hc; by destruct debug].
  apply copy_rows_Some in Hcr as ->.
  cbn [fst snd group_heap set_group_heap]. rewrite Hc.
  set (a' := fresh (dom (group_heap p))).
  assert (Hfresh : group_heap p !! a' = None)
    by apply not_elem_of_dom, is_fresh.
  exists (<[d := Some a']> (Groups debug)). split; [done|].
  split; [by rewrite length_insert|].
  split; [rewrite length_insert; lia|]. fold d. split; [|split].
  - intros i Hi. destruct (decide (i = d)) as [->|Hne].
    + exists a', (mk_group (Namespaces grp)).
      split; [apply list_lookup_insert_eq; lia|].
      split; [apply lookup_insert_eq | by destruct grp].
    + destruct (H2 i Hi) as (b & grpb & Hb & Hgb & Hsb).
      exists b, grpb. split; [by rewrite list_lookup_insert_ne by lia|].
      split; [|done]. rewrite lookup_insert_ne; [done|]. intros <-.
      congruence.
  - intros i Hi Hlen. rewrite length_insert in Hlen.
    rewrite list_lookup_insert_ne by lia. by apply H3.
  - intros i j k Hik Hkj Hj.
    destruct (decide (j = d)) as [->|Hnj].
    + rewrite (list_lookup_insert_eq _ d) by lia.
      destruct (decide (i = d)) as [->|Hni].
      { by assert (k = d) as -> by lia. }
      rewrite (list_lookup_insert_ne _ d i) by lia. intros Hij.
      destruct (H2 i) as (b & grpb & Hb & Hgb & _); [lia|].
      rewrite Hb in Hij. congruence.
    + rewrite !list_lookup_insert_ne by lia. apply H4; lia.
Qed.

Lemma debug_ok_set_Groups (p0 p : process) (debug : gl_debug_state)
    (groups : list (option positive)) :
  debug_ok p0 debug -> length groups = length (Groups debug) ->
  stack_ok (group_heap p) groups (GroupStackDepth debug) ->
  debug_ok p (set_Groups debug groups).
Proof.
  intros (H1 & H2 & H3 & _) Hlen Hs. split; [done|].
  cbn [Groups set_Groups GroupMessages GroupStackDepth].
  split; [by rewrite Hlen|]. by split.
Qed.

Lemma store_namespace_ok (debug : gl_debug_state) (gstack s t : Z)
    (ns : gl_debug_namespace) (q : process)
    (groups : list (option positive)) (depth : Z) :
  stack_ok (group_heap q) groups depth ->
  stack_ok (group_heap (snd (store_namespace debug gstack s t ns q)))
    groups depth.
Proof.
  intros H. unfold store_namespace, modify. cbn [snd].
  destruct (mjoin _); [|done]. cbn [group_heap set_group_heap].
  apply stack_ok_alter; [|done].
  intros grp. apply group_shape_set_namespace_at.
Qed.

Lemma debug_set_message_enable_ok (debug : gl_debug_state)
    (source type id : Z) (enabled : bool) (p : process) :
  debug_ok p debug ->
  let r := debug_set_message_enable debug source type id enabled p in
  exists groups,
    fst r = set_Groups debug groups /\ debug_ok (snd r) (fst r).
Proof.
  intros Hok r. subst r. pose proof Hok as (_ & _ & _ & Hs).
  destruct (debug_make_group_writable_ok debug p Hs)
    as (groups & Hd & Hlen & Hs').
  cbv zeta in Hd, Hs'.
  unfold debug_set_message_enable. rewrite bind_eq, Hd.
  set (q := snd (debug_make_group_writable debug p)) in *.
  rewrite bind_eq. unfold load_namespace, gets. cbn [fst snd].
  exists groups.
  destruct (group_at q (set_Groups debug groups) (GroupStackDepth debug)
            ≫= _) as [ns|]; cbn [ret fst snd].
  - rewrite !bind_eq. cbn [ret fst snd]. split; [done|].
    apply (debug_ok_set_Groups p); [done|done|].
    apply store_namespace_ok.
    by rewrite debug_namespace_set_group_heap.
  - split; [done|]. by apply (debug_ok_set_Groups p).
Qed.

Lemma enable_ids_ok (ids : list Z) (debug : gl_debug_state)
    (source type : Z) (enabled : bool) (p : process) :
  debug_ok p debug ->
  let r := enable_ids debug source type ids enabled p in
  exists groups,
    fst r = set_Groups debug groups /\ debug_ok (snd r) (fst r).
Proof.
  revert debug p. induction ids as [|id ids IH]; intros debug p Hok r;
    subst r.
  - exists (Groups debug). split; [by destruct debug | done].
  - cbn [enable_ids]. rewrite bind_eq.
    destruct (debug_set_message_enable_ok debug source type id enabled p Hok)
      as (groups1 & E1 & Hok1).
    cbv zeta in E1, Hok1.
    destruct (IH _ _ Hok1) as (groups2 & E2 & Hok2).
    cbv zeta in E2, Hok2. exists groups2. split; [|done].
    by rewrite E2, E1.
Qed.

Lemma debug_set_message_enable_all_ok (debug : gl_debug_state)
    (source type severity : Z) (enabled : bool) (p : process) :
  debug_ok p debug ->
  let r := debug_set_message_enable_all debug source type severity enabled p in
  exists groups,
    fst r = set_Groups debug groups /\ debug_ok (snd r) (fst r).
Proof.
  intros Hok r. subst r. pose proof Hok as (_ & _ & _ & Hs).
  destruct (debug_make_group_writable_ok debug p Hs)
    as (groups & Hd & Hlen & Hs').
  cbv zeta in Hd, Hs'.
  unfold debug_set_message_enable_all.
  destruct (if source =? MESA_DEBUG_SOURCE_COUNT then _ else _) as [s0 smax].
  destruct (if type =? MESA_DEBUG_TYPE_COUNT then _ else _) as [t0 tmax].
  rewrite !bind_eq, Hd. cbn [ret fst snd].
  set (q := snd (debug_make_group_writable debug p)) in *.
  exists groups. split; [done|].
  apply (debug_ok_set_Groups p); [done|done|].
  apply (for_each_invariant
           (fun q' => stack_ok (group_heap q') groups
                        (GroupStackDepth debug))); [|done].
  intros s q1 H1.
  apply (for_each_invariant
           (fun q' => stack_ok (group_heap q') groups
                        (GroupStackDepth debug))); [|done].
  intros t q2 H2. rewrite bind_eq. unfold load_namespace, gets.
  cbn [fst snd]. destruct (_ ≫= _); [|done].
  by apply store_namespace_ok.
Qed.

Lemma ctx_ok_set_Debug (p : process) (ctx : gl_context)
    (debug : gl_debug_state) :
  debug_inv p debug -> ctx_ok p (set_Debug ctx (Some debug)).
Proof. done. Qed.

Lemma mesa_error_ok (ctx : gl_context) (error : GLenum) (fmtString : string)
    (args : list fmt_arg) (p : process) :
  record_error_keeps_debug -> ctx_ok p ctx ->
  let r := _mesa_error ctx error fmtString args p in
  ctx_ok (snd r) (fst r).
Proof.
  intros Hrec Hok r. subst r.
  destruct (mesa_error_effect ctx error fmtString args p)
    as (ctx1 & H1 & _ & H3 & H4 & _).
  cbv zeta in H1, H4. unfold ctx_ok in *.
  assert (Hd : Debug (fst (_mesa_error ctx error fmtString args p))
               = Debug ctx1).
  { destruct H1 as [-> | ->]; [apply Hrec | done]. }
  rewrite Hd. destruct (Debug ctx) as [debug|].
  - destruct H3 as (log' & -> & Hwf).
    apply debug_inv_set_Log.
    + by apply (debug_inv_heap p).
    + apply Hwf. by destruct Hok as [[? _] _].
  - by rewrite H3.
Qed.

(** [_mesa_get_debug_state]: the state it returns is the one of the
    context, in shape. *)
Lemma get_debug_state_ok (ctx : gl_context) (p : process) :
  record_error_keeps_debug ->
  0 < MAX_DEBUG_LOGGED_MESSAGES -> 0 < MAX_DEBUG_GROUP_STACK_DEPTH ->
  ctx_ok p ctx ->
  let r := _mesa_get_debug_state ctx p in
  match fst (fst r) with
  | Some debug =>
      Debug (snd (fst r)) = Some debug /\ debug_inv (snd r) debug
  | None => ctx_ok (snd r) (snd (fst r))
  end.
Proof.
  intros Hrec Hl Hs Hok r. subst r. unfold _mesa_get_debug_state.
  unfold ctx_ok in Hok. destruct (Debug ctx) as [debug|] eqn:Hd.
  - cbn [ret fst snd]. by rewrite Hd.
  - rewrite bind_eq.
    pose proof (debug_create_ok_state p) as Hc.
    destruct (fst (debug_create p)) as [debug|]; cbn [ret fst snd].
    + split; [done|]. by apply Hc.
    + rewrite bind_eq. cbn [ret fst snd]. apply mesa_error_ok; [done|].
      unfold ctx_ok. by rewrite Hd.
Qed.

Lemma log_msg_debug_ok (debug : gl_debug_state)
    (source type id severity len : Z) (buf : list ascii) (q : process) :
  debug_ok q debug ->
  let r := log_msg_debug debug source type id severity len buf q in
  debug_ok (snd r) (fst r) /\
  exists log', fst r = set_Log debug log'.
Proof.
  intros Hok r. subst r.
  destruct (log_msg_debug_effect debug source type id severity len buf q)
    as (log' & H1 & H2 & H3 & _).
  cbv zeta in H1, H3. rewrite H1. split; [|by exists log'].
  apply debug_ok_set_Log.
  - by apply (debug_ok_heap q).
  - apply H2. by destruct Hok.
Qed.

Lemma log_msg_debug_inv (debug : gl_debug_state)
    (source type id severity len : Z) (buf : list ascii) (q : process) :
  debug_inv q debug ->
  let r := log_msg_debug debug source type id severity len buf q in
  debug_inv (snd r) (fst r).
Proof.
  intros [Hok Hp] r. subst r.
  destruct (log_msg_debug_ok debug source type id severity len buf q Hok)
    as [H1 [log' E]].
  cbv zeta in H1, E. split; [done|]. by rewrite E.
Qed.

Lemma log_msg_ok (ctx : gl_context) (source type id severity len : Z)
    (buf : list ascii) (p : process) :
  record_error_keeps_debug ->
  0 < MAX_DEBUG_LOGGED_MESSAGES -> 0 < MAX_DEBUG_GROUP_STACK_DEPTH ->
  ctx_ok p ctx ->
  let r := log_msg ctx source type id severity len buf p in
  ctx_ok (snd r) (fst r).
Proof.
  intros Hrec Hl Hs Hok r. subst r. unfold log_msg. rewrite bind_eq.
  pose proof (get_debug_state_ok ctx p Hrec Hl Hs Hok) as Hg.
  cbv zeta in Hg.
  destruct (fst (fst (_mesa_get_debug_state ctx p))) as [debug|];
    [|done].
  destruct Hg as [_ Hg]. rewrite bind_eq. cbn [ret fst snd].
  apply ctx_ok_set_Debug. by apply log_msg_debug_inv.
Qed.

Lemma validate_params_ok (ctx : gl_context) (caller : Z) (callerstr : string)
    (source type severity : GLenum) (p : process) :
  record_error_keeps_debug -> ctx_ok p ctx ->
  let r := validate_params ctx caller callerstr source type severity p in
  ctx_ok (snd r) (snd (fst r)).
Proof.
  intros Hrec Hok r. subst r. rewrite validate_params_eq.
  destruct (_ && _); [done|]. cbv zeta. cbn [fst snd].
  by apply mesa_error_ok.
Qed.

Lemma validate_length_ok (ctx : gl_context) (callerstr : string) (len : Z)
    (p : process) :
  record_error_keeps_debug -> ctx_ok p ctx ->
  let r := validate_length ctx callerstr len p in
  ctx_ok (snd r) (snd (fst r)).
Proof.
  intros Hrec Hok r. subst r. unfold validate_length.
  destruct (_ <=? _); [|done]. rewrite bind_eq. cbn [ret fst snd].
  by apply mesa_error_ok.
Qed.

Lemma DebugMessageInsert_ok (ctx : gl_context) (source type : GLenum)
    (id : Z) (severity : GLenum) (length : Z) (buf : list ascii)
    (p : process) :
  record_error_keeps_debug ->
  0 < MAX_DEBUG_LOGGED_MESSAGES -> 0 < MAX_DEBUG_GROUP_STACK_DEPTH ->
  ctx_ok p ctx ->
  let r := _mesa_DebugMessageInsert ctx source type id severity length buf p in
  ctx_ok (snd r) (fst r).
Proof.
  intros Hrec Hl Hs Hok r. subst r. unfold _mesa_DebugMessageInsert.
  rewrite bind_eq.
  pose proof (validate_params_ok ctx INSERT "glDebugMessageInsert" source
                type severity p Hrec Hok) as Hv.
  cbv zeta in Hv.
  destruct (negb _); [done|]. rewrite bind_eq.
  match goal with
  | |- context [validate_length ?c ?s ?l ?q] =>
      pose proof (validate_length_ok c s l q Hrec Hv) as Hv2
  end.
  cbv zeta in Hv2. destruct (negb _); [done|].
  by apply log_msg_ok.
Qed.

Lemma set_Log_set_Log (debug : gl_debug_state) (l1 l2 : gl_debug_log) :
  set_Log (set_Log debug l1) l2 = set_Log debug l2.
Proof. done. Qed.

(** The loop of glGetDebugMessageLog touches the log only and leaves
    it in shape. *)
Lemma get_log_loop_log_ok (n : nat) (retv logSize : Z) (out : log_arrays)
    (debug : gl_debug_state) (q : process) :
  log_ok (Log debug) ->
  let r := get_log_loop n retv logSize out debug q in
  exists log',
    snd (fst r) = set_Log debug log' /\ log_ok log' /\
    group_heap (snd r) = group_heap q.
Proof.
  revert retv logSize out debug q.
  induction n as [|n IH]; intros retv logSize out debug q Hok r; subst r.
  - exists (Log debug). by rewrite set_Log_same.
  - cbn [get_log_loop].
    destruct (debug_fetch_message debug) as [msg|];
      [|exists (Log debug); by rewrite set_Log_same].
    destruct (_ && _); [exists (Log debug); by rewrite set_Log_same|].
    destruct (messageLog out) as [l|].
    all: rewrite bind_eq.
    all: pose proof (debug_delete_messages_log_ok debug 1 q Hok) as Hok1.
    all: pose proof (debug_delete_messages_only_freed debug 1 q) as Hf.
    all: assert (E1 : exists log1,
           fst (debug_delete_messages debug 1 q) = set_Log debug log1)
      by (unfold debug_delete_messages; rewrite bind_eq; by eexists).
    all: destruct E1 as [log1 E1].
    all: match goal with
         | |- context [get_log_loop _ ?a ?b ?c ?d ?e] =>
             destruct (IH a b c d e Hok1) as (log' & I1 & I2 & I3)
         end.
    all: cbv zeta in I1, I3; exists log'.
    all: split; [by rewrite I1, E1|]; split; [done|].
    all: rewrite I3; unfold only_freed in Hf; by rewrite Hf.
Qed.

Lemma GetDebugMessageLog_ok (ctx : gl_context) (count logSize : Z)
    (out : log_arrays) (p : process) :
  record_error_keeps_debug ->
  0 < MAX_DEBUG_LOGGED_MESSAGES -> 0 < MAX_DEBUG_GROUP_STACK_DEPTH ->
  ctx_ok p ctx ->
  let r := _mesa_GetDebugMessageLog ctx count logSize out p in
  ctx_ok (snd r) (snd (fst r)).
Proof.
  intros Hrec Hl Hs Hok r. subst r. unfold _mesa_GetDebugMessageLog.
  destruct (_ <? 0).
  { rewrite bind_eq. cbn [ret fst snd]. by apply mesa_error_ok. }
  rewrite bind_eq.
  pose proof (get_debug_state_ok ctx p Hrec Hl Hs Hok) as Hg.
  cbv zeta in Hg.
  destruct (fst (fst (_mesa_get_debug_state ctx p))) as [debug|];
    [|done].
  destruct Hg as [_ Hg]. rewrite bind_eq.
  match goal with
  | |- context [get_log_loop ?n ?r ?s ?o debug ?q] =>
      destruct (get_log_loop_log_ok n r s o debug q) as (log' & H1 & H2 & H3);
        [by destruct Hg as [[? _] _]|];
      cbv zeta in H1, H3;
      destruct (get_log_loop n r s o debug q) as [[[retv out'] debug'] q']
  end.
  cbn [fst snd] in *. subst debug'. cbn [ret fst snd].
  apply ctx_ok_set_Debug, debug_inv_set_Log; [|done].
  by apply (debug_inv_heap (snd (_mesa_get_debug_state ctx p))).
Qed.

Lemma debug_inv_set_Groups (p : process) (debug : gl_debug_state)
    (groups : list (option positive)) :
  pending_empty debug -> debug_ok p (set_Groups debug groups) ->
  debug_inv p (set_Groups debug groups).
Proof. intros Hp Hok. by split. Qed.

Lemma DebugMessageControl_ok (ctx : gl_context)
    (gl_source gl_type gl_severity : GLenum) (count : Z) (ids : list Z)
    (enabled : bool) (p : process) :
  record_error_keeps_debug ->
  0 < MAX_DEBUG_LOGGED_MESSAGES -> 0 < MAX_DEBUG_GROUP_STACK_DEPTH ->
  ctx_ok p ctx ->
  let r := _mesa_DebugMessageControl ctx gl_source gl_type gl_severity count
             ids enabled p in
  ctx_ok (snd r) (fst r).
Proof.
  intros Hrec Hl Hs Hok r. subst r. unfold _mesa_DebugMessageControl.
  destruct (count <? 0); [by apply mesa_error_ok|].
  rewrite bind_eq.
  pose proof (validate_params_ok ctx CONTROL "glDebugMessageControl"
                gl_source gl_type gl_severity p Hrec Hok) as Hv.
  cbv zeta in Hv.
  destruct (negb (fst (fst _))); [done|].
  destruct (negb (count =? 0) && _); [by apply mesa_error_ok|].
  rewrite bind_eq.
  match goal with
  | |- context [_mesa_get_debug_state ?c ?q] =>
      pose proof (get_debug_state_ok c q Hrec Hl Hs Hv) as Hg;
      cbv zeta in Hg;
      destruct (fst (fst (_mesa_get_debug_state c q))) as [debug|]; [|done]
  end.
  destruct Hg as [_ [Hg Hp]]. rewrite bind_eq. cbn [ret fst snd].
  apply ctx_ok_set_Debug.
  destruct (negb (count =? 0)).
  - match goal with
    | |- context [enable_ids debug ?s ?t ?l ?e ?q] =>
        destruct (enable_ids_ok l debug s t e q Hg) as (groups & E & Hok')
    end.
    cbv zeta in E, Hok'. rewrite E in Hok' |- *.
    by apply debug_inv_set_Groups.
  - match goal with
    | |- context [debug_set_message_enable_all debug ?s ?t ?v ?e ?q] =>
        destruct (debug_set_message_enable_all_ok debug s t v e q Hg)
          as (groups & E & Hok')
    end.
    cbv zeta in E, Hok'. rewrite E in Hok' |- *.
    by apply debug_inv_set_Groups.
Qed.

Lemma DebugMessageCallback_ok (ctx : gl_context) (callback : option Z)
    (userParam : Z) (p : process) :
  record_error_keeps_debug ->
  0 < MAX_DEBUG_LOGGED_MESSAGES -> 0 < MAX_DEBUG_GROUP_STACK_DEPTH ->
  ctx_ok p ctx ->
  let r := _mesa_DebugMessageCallback ctx callback userParam p in
  ctx_ok (snd r) (fst r).
Proof.
  intros Hrec Hl Hs Hok r. subst r. unfold _mesa_DebugMessageCallback.
  rewrite bind_eq.
  pose proof (get_debug_state_ok ctx p Hrec Hl Hs Hok) as Hg.
  cbv zeta in Hg.
  destruct (fst (fst (_mesa_get_debug_state ctx p))) as [debug|];
    [|done].
  by destruct Hg as [_ Hg].
Qed.

Lemma set_debug_state_int_ok (ctx : gl_context) (pname : GLenum) (val : Z)
    (p : process) :
  record_error_keeps_debug ->
  0 < MAX_DEBUG_LOGGED_MESSAGES -> 0 < MAX_DEBUG_GROUP_STACK_DEPTH ->
  ctx_ok p ctx ->
  let r := _mesa_set_debug_state_int ctx pname val p in
  ctx_ok (snd r) (snd (fst r)).
Proof.
  intros Hrec Hl Hs Hok r. subst r. unfold _mesa_set_debug_state_int.
  rewrite bind_eq.
  pose proof (get_debug_state_ok ctx p Hrec Hl Hs Hok) as Hg.
  cbv zeta in Hg.
  destruct (fst (fst (_mesa_get_debug_state ctx p))) as [debug|];
    [|done].
  destruct Hg as [_ Hg]. cbn [ret fst snd]. apply ctx_ok_set_Debug.
  by destruct pname.
Qed.

Lemma debug_ok_set_GroupMessages (p : process) (debug : gl_debug_state)
    (msgs : list gl_debug_message) :
  debug_ok p debug -> length msgs = length (GroupMessages debug) ->
  debug_ok p (set_GroupMessages debug msgs).
Proof.
  intros (H1 & H2 & H3 & H4) Hlen. split; [done|]. split; [done|].
  split; [|done]. cbn [GroupMessages set_GroupMessages]. by rewrite Hlen.
Qed.

Lemma debug_ok_push (p : process) (debug : gl_debug_state) :
  debug_ok p debug ->
  GroupStackDepth debug < MAX_DEBUG_GROUP_STACK_DEPTH - 1 ->
  debug_ok p (debug_push_group debug).
Proof.
  intros (H1 & H2 & H3 & H4) Hroom. split; [done|].
  unfold debug_push_group.
  cbn [Groups GroupMessages GroupStackDepth set_GroupStackDepth set_Groups].
  split; [by rewrite length_insert|]. split; [done|].
  apply stack_ok_push; [done|]. lia.
Qed.

Lemma debug_ok_pop (debug : gl_debug_state) (q : process) :
  debug_ok q debug -> 0 < GroupStackDepth debug ->
  let r := debug_pop_group debug q in
  debug_ok (snd r) (fst r).
Proof.
  intros (H1 & H2 & H3 & H4) Hpos r. subst r. unfold debug_pop_group.
  rewrite bind_eq. cbn [ret fst snd].
  pose proof (stack_ok_pop debug q H4 Hpos) as Hs. cbv zeta in Hs.
  destruct (debug_clear_group_effect debug q) as (E1 & _ & _).
  cbv zeta in E1. rewrite E1 in Hs |- *.
  split; [done|].
  cbn [Groups GroupMessages GroupStackDepth set_GroupStackDepth set_Groups]
    in Hs |- *.
  split; [by rewrite length_insert|]. by split.
Qed.

Lemma PushDebugGroup_ok (ctx : gl_context) (source : GLenum) (id length : Z)
    (message : list ascii) (p : process) :
  record_error_keeps_debug ->
  0 < MAX_DEBUG_LOGGED_MESSAGES -> 0 < MAX_DEBUG_GROUP_STACK_DEPTH ->
  ctx_ok p ctx ->
  let r := _mesa_PushDebugGroup ctx source id length message p in
  ctx_ok (snd r) (fst r).
Proof.
  intros Hrec Hl Hs Hok r. subst r. unfold _mesa_PushDebugGroup.
  rewrite bind_eq.
  pose proof (get_debug_state_ok ctx p Hrec Hl Hs Hok) as Hg.
  cbv zeta in Hg.
  destruct (fst (fst (_mesa_get_debug_state ctx p))) as [debug|];
    [|done].
  destruct Hg as [Hd Hg].
  set (ctx1 := snd (fst (_mesa_get_debug_state ctx p))) in *.
  set (q := snd (_mesa_get_debug_state ctx p)) in *.
  assert (Hok1 : ctx_ok q ctx1) by (unfold ctx_ok; by rewrite Hd).
  destruct (Z.leb_spec (MAX_DEBUG_GROUP_STACK_DEPTH - 1)
              (GroupStackDepth debug)) as [|Hroom];
    [by apply mesa_error_ok|].
  destruct Hg as [Hg Hp].
  assert (Hdepth : 0 <= GroupStackDepth debug)
    by (destruct Hg as (_ & _ & _ & [? _]); lia).
  destruct source; try (by apply mesa_error_ok).
  all: rewrite bind_eq; unfold validate_length.
  all: destruct (MAX_DEBUG_MESSAGE_LENGTH <=? _);
    [rewrite bind_eq; cbn [ret fst snd negb]; by apply mesa_error_ok|].
  all: cbn [ret fst snd negb]; rewrite bind_eq.
  all: rewrite (log_msg_with_state _ _ _ _ _ _ _ _ _ Hd); cbv zeta.
  all: match goal with
       | |- context [log_msg_debug ?d ?s ?t ?i ?v ?l ?b ?q0] =>
           destruct (log_msg_debug_ok d s t i v l b q0 Hg)
             as [Hok2 [log' E]];
           cbv zeta in Hok2, E;
           set (r2 := log_msg_debug d s t i v l b q0) in *
       end.
  all: cbn [fst snd Debug set_Debug]; rewrite bind_eq; cbn [ret fst snd].
  all: apply ctx_ok_set_Debug.
  all: match goal with
       | |- context [debug_message_store ?s ?t ?i ?v ?l ?b ?q0] =>
           destruct (debug_message_store_frame s t i v l b q0) as (Hh & _);
           cbv zeta in Hh;
           set (st := debug_message_store s t i v l b q0) in *
       end.
  all: apply (debug_inv_heap (snd r2)); [done|].
  all: split;
    [apply debug_ok_push;
       [apply debug_ok_set_GroupMessages; [done|]; by rewrite length_insert
       |rewrite E; cbn; lia]|].
  all: rewrite E; intros i msg Hi Hmsg.
  all: cbn [debug_push_group GroupMessages GroupStackDepth set_GroupMessages
            set_GroupStackDepth set_Groups set_Log] in Hi, Hmsg.
  all: rewrite list_lookup_insert_ne in Hmsg by lia.
  all: apply (Hp i msg); [lia | done].
Qed.

Lemma debug_pop_group_fields (debug : gl_debug_state) (q : process) :
  GroupMessages (fst (debug_pop_group debug q)) = GroupMessages debug /\
  GroupStackDepth (fst (debug_pop_group debug q)) = GroupStackDepth debug - 1.
Proof.
  unfold debug_pop_group. rewrite bind_eq. cbn [ret fst snd].
  destruct (debug_clear_group_effect debug q) as (E1 & _ & _).
  cbv zeta in E1. by rewrite E1.
Qed.

Lemma PopDebugGroup_ok (ctx : gl_context) (p : process) :
  record_error_keeps_debug ->
  0 < MAX_DEBUG_LOGGED_MESSAGES -> 0 < MAX_DEBUG_GROUP_STACK_DEPTH ->
  ctx_ok p ctx ->
  let r := _mesa_PopDebugGroup ctx p in
  ctx_ok (snd r) (fst r).
Proof.
  intros Hrec Hl Hs Hok r. subst r. unfold _mesa_PopDebugGroup.
  rewrite bind_eq.
  pose proof (get_debug_state_ok ctx p Hrec Hl Hs Hok) as Hg.
  cbv zeta in Hg.
  destruct (fst (fst (_mesa_get_debug_state ctx p))) as [debug|];
    [|done].
  destruct Hg as [Hd Hg].
  set (ctx1 := snd (fst (_mesa_get_debug_state ctx p))) in *.
  set (q := snd (_mesa_get_debug_state ctx p)) in *.
  assert (Hok1 : ctx_ok q ctx1) by (unfold ctx_ok; by rewrite Hd).
  destruct (Z.leb_spec (GroupStackDepth debug) 0) as [|Hpos];
    [by apply mesa_error_ok|].
  destruct Hg as [Hg Hpend].
  rewrite bind_eq. cbv zeta.
  pose proof (debug_ok_pop debug q Hg Hpos) as Hp. cbv zeta in Hp.
  destruct (debug_pop_group_fields debug q) as [Hgm Hdep].
  set (rp := debug_pop_group debug q) in *.
  rewrite bind_eq.
  rewrite (log_msg_with_state (set_Debug ctx1 (Some (fst rp))) (fst rp))
    by done.
  cbv zeta.
  match goal with
  | |- context [log_msg_debug (fst rp) ?s ?t ?i ?v ?l ?b (snd rp)] =>
      destruct (log_msg_debug_ok (fst rp) s t i v l b (snd rp) Hp)
        as [Hok2 [log' E]];
      cbv zeta in Hok2, E;
      set (r2 := log_msg_debug (fst rp) s t i v l b (snd rp)) in *
  end.
  cbn [fst snd Debug set_Debug]. rewrite bind_eq. cbn [ret fst snd].
  apply ctx_ok_set_Debug.
  pose proof (debug_message_clear_only_freed
                (debug_get_group_message (fst r2)) (snd r2)) as Hf.
  apply (debug_inv_heap (snd r2)).
  { unfold only_freed in Hf. by rewrite Hf. }
  split.
  { apply debug_ok_set_GroupMessages; [done|]. by rewrite length_insert. }
  intros i msg Hi Hmsg.
  rewrite E in Hi, Hmsg.
  cbn [GroupMessages GroupStackDepth set_GroupMessages set_Log] in Hi, Hmsg.
  rewrite Hdep in Hi, Hmsg. rewrite Hgm in Hmsg.
  destruct (decide (i = Z.to_nat (GroupStackDepth debug - 1))) as [->|Hne].
  - apply list_lookup_insert_Some in Hmsg as [(_ & <- & _)|[? _]]; [|done].
    by rewrite debug_message_clear_value.
  - rewrite list_lookup_insert_ne in Hmsg by done.
    apply (Hpend i msg); [lia | done].
Qed.

Lemma shader_debug_ok (ctx : gl_context) (type id : Z) (msg : list ascii)
    (len : Z) (p : process) :
  record_error_keeps_debug ->
  0 < MAX_DEBUG_LOGGED_MESSAGES -> 0 < MAX_DEBUG_GROUP_STACK_DEPTH ->
  ctx_ok p ctx ->
  let r := _mesa_shader_debug ctx type id msg len p in
  ctx_ok (snd r) (snd (fst r)).
Proof.
  intros Hrec Hl Hs Hok r. subst r. unfold _mesa_shader_debug.
  rewrite !bind_eq. cbn [ret fst snd]. apply log_msg_ok; try done.
  apply (ctx_ok_heap p); [|done].
  by destruct (debug_get_id_frame id p) as (_ & ? & _).
Qed.

Lemma gl_debug_ok (ctx : gl_context) (id type severity : Z)
    (fmtString : string) (args : list fmt_arg) (p : process) :
  record_error_keeps_debug ->
  0 < MAX_DEBUG_LOGGED_MESSAGES -> 0 < MAX_DEBUG_GROUP_STACK_DEPTH ->
  ctx_ok p ctx ->
  let r := _mesa_gl_debug ctx id type severity fmtString args p in
  ctx_ok (snd r) (snd (fst r)).
Proof.
  intros Hrec Hl Hs Hok r. subst r. unfold _mesa_gl_debug.
  rewrite !bind_eq. cbn [ret fst snd]. apply log_msg_ok; try done.
  apply (ctx_ok_heap p); [|done].
  by destruct (debug_get_id_frame id p) as (_ & ? & _).
Qed.

Lemma run_call_ok (c : api_call) (ctx : gl_context) (p : process) :
  record_error_keeps_debug ->
  0 < MAX_DEBUG_LOGGED_MESSAGES -> 0 < MAX_DEBUG_GROUP_STACK_DEPTH ->
  ctx_ok p ctx ->
  let r := run_call c ctx p in
  ctx_ok (snd r) (fst r).
Proof.
  intros Hrec Hl Hs Hok r. subst r.
  destruct c; cbn [run_call]; rewrite ?bind_eq; cbn [ret fst snd].
  - by apply DebugMessageInsert_ok.
  - by apply GetDebugMessageLog_ok.
  - by apply DebugMessageControl_ok.
  - by apply DebugMessageCallback_ok.
  - by apply PushDebugGroup_ok.
  - by apply PopDebugGroup_ok.
  - by apply set_debug_state_int_ok.
  - by apply mesa_error_ok.
  - by apply shader_debug_ok.
  - by apply gl_debug_ok.
Qed.

(** X21. The shape of the debug state is an invariant of the calls.
    Provided [_mesa_record_error] leaves [ctx->Debug] alone and the
    limits are positive, after any sequence of glDebugMessageInsert,
    glGetDebugMessageLog, glDebugMessageControl, glDebugMessageCallback,
    glPushDebugGroup, glPopDebugGroup, [_mesa_set_debug_state_int],
    [_mesa_error], [_mesa_shader_debug] and [_mesa_gl_debug], with
    arbitrary arguments and however the allocations go, a context that
    started without debug state (or with one in shape) has none or one
    in shape: the log is well-formed and its slots outside the queue
    are empty; the depth lies within the stack; every slot up to the
    depth points to an allocated group with a namespace per source and
    type (no NULL or dangling pointer); the slots above the depth are
    NULL; a group is shared by neighbouring slots only; and the
    pending group messages from the depth upward are empty (so
    [debug_message_store] finds the empty slot it asserts). *)
Theorem calls_keep_the_state_in_shape (cs : list api_call)
    (ctx : gl_context) (p : process) :
  record_error_keeps_debug ->
  0 < MAX_DEBUG_LOGGED_MESSAGES -> 0 < MAX_DEBUG_GROUP_STACK_DEPTH ->
  ctx_ok p ctx ->
  let r := run_calls cs ctx p in
  ctx_ok (snd r) (fst r).
Proof.
  intros Hrec Hl Hs. revert ctx p.
  induction cs as [|c cs IH]; intros ctx p Hok r; subst r; [done|].
  cbn [run_calls]. rewrite bind_eq. apply IH. by apply run_call_ok.
Qed.

(** ** Errors that leave no trace, and no memory for the state *)

(** X22. An error whose text does not fit the buffer is dropped.
    When the error is to be logged (the debug state enables it) and the
    text, the name of the error, [ in ] and the formatted message, has
    [MAX_DEBUG_MESSAGE_LENGTH] bytes or more, [_mesa_error] returns
    before [_mesa_record_error]: the error value of the context is as
    before, nothing is logged or allocated, and only the bookkeeping of
    repeated errors and the id of the errors may have changed. *)
Theorem overlong_error_is_dropped (ctx : gl_context) (debug : gl_debug_state)
    (error : GLenum) (fmtString : string) (args : list fmt_arg)
    (p : process) :
  Debug ctx = Some debug ->
  let id := if error_msg_id p =? 0 then NextDynamicID p else error_msg_id p in
  debug_is_message_enabled p debug MESA_DEBUG_SOURCE_API
    MESA_DEBUG_TYPE_ERROR id MESA_DEBUG_SEVERITY_HIGH = true ->
  MAX_DEBUG_MESSAGE_LENGTH
  <= Z.of_nat (length (_mesa_lookup_enum_by_nr error
                       ++ list_ascii_of_string " in "
                       ++ _mesa_vsnprintf fmtString args)) ->
  let r := _mesa_error ctx error fmtString args p in
  fst r = snd (should_output ctx error fmtString) /\
  ErrorValue (fst r) = ErrorValue ctx /\
  Debug (fst r) = Some debug /\
  malloc_results (snd r) = malloc_results p /\
  group_heap (snd r) = group_heap p /\
  freed (snd r) = freed p /\
  callback_calls (snd r) = callback_calls p.
Proof.
  intros Hd id Hen Hlong r. subst r.
  rewrite mesa_error_eq. cbv zeta.
  rewrite debug_get_id_value. fold id.
  set (q := set_error_msg_id id (snd (debug_get_id (error_msg_id p) p))).
  destruct (debug_get_id_frame (error_msg_id p) p) as (Hq0 & Hq1 & Hq2 & Hq3).
  cbv zeta in Hq0, Hq1, Hq2, Hq3.
  assert (Hqe : debug_is_message_enabled q debug MESA_DEBUG_SOURCE_API
                  MESA_DEBUG_TYPE_ERROR id MESA_DEBUG_SEVERITY_HIGH = true).
  { rewrite <- Hen, <- (set_Log_same debug) at 1.
    apply debug_is_message_enabled_frame. subst q. by cbn. }
  destruct (should_output_frame ctx error fmtString) as [Hso1 Hso2].
  rewrite Hso1, Hd, Hqe, orb_true_r.
  assert (Hres : (if MAX_DEBUG_MESSAGE_LENGTH
                     <=? Z.of_nat (length (_mesa_vsnprintf fmtString args))
                  then (snd (should_output ctx error fmtString), q)
                  else if MAX_DEBUG_MESSAGE_LENGTH
                          <=? Z.of_nat
                                (length (_mesa_lookup_enum_by_nr error
                                         ++ list_ascii_of_string " in "
                                         ++ _mesa_vsnprintf fmtString args))
                  then (snd (should_output ctx error fmtString), q)
                  else
                    (_mesa_record_error
                       (set_Debug (snd (should_output ctx error fmtString))
                          (Some (fst (log_msg_debug debug
                                        MESA_DEBUG_SOURCE_API
                                        MESA_DEBUG_TYPE_ERROR id
                                        MESA_DEBUG_SEVERITY_HIGH
                                        (Z.of_nat
                                           (length
                                              (_mesa_lookup_enum_by_nr error
                                               ++ list_ascii_of_string " in "
                                               ++ _mesa_vsnprintf fmtString
                                                    args)))
                                        (_mesa_lookup_enum_by_nr error
                                         ++ list_ascii_of_string " in "
                                         ++ _mesa_vsnprintf fmtString args)
                                        q)))) error,
                     snd (log_msg_debug debug MESA_DEBUG_SOURCE_API
                            MESA_DEBUG_TYPE_ERROR id MESA_DEBUG_SEVERITY_HIGH
                            (Z.of_nat
                               (length
                                  (_mesa_lookup_enum_by_nr error
                                   ++ list_ascii_of_string " in "
                                   ++ _mesa_vsnprintf fmtString args)))
                            (_mesa_lookup_enum_by_nr error
                             ++ list_ascii_of_string " in "
                             ++ _mesa_vsnprintf fmtString args) q)))
                 = (snd (should_output ctx error fmtString), q)).
  { destruct (_ <=? Z.of_nat (length (_mesa_vsnprintf fmtString args)));
      [done|].
    by destruct (Z.leb_spec MAX_DEBUG_MESSAGE_LENGTH
                   (Z.of_nat (length (_mesa_lookup_enum_by_nr error
                                      ++ list_ascii_of_string " in "
                                      ++ _mesa_vsnprintf fmtString args))));
      [|lia]. }
  rewrite Hres. cbn [fst snd]. split; [done|]. split; [done|].
  split; [by rewrite Hso1|]. subst q. by cbn.
Qed.

Lemma debug_create_fails (p : process) :
  fst (malloc p) = false \/ fst (malloc (snd (malloc p))) = false ->
  fst (debug_create p) = None /\
  group_heap (snd (debug_create p)) = group_heap p /\
  freed (snd (debug_create p)) = freed p.
Proof.
  intros H. unfold debug_create. rewrite !bind_eq.
  destruct (fst (malloc p)) eqn:H1.
  - rewrite !bind_eq.
    destruct (fst (malloc (snd (malloc p)))) eqn:H2;
      [by destruct H|].
    cbn [ret fst snd]. by rewrite !malloc_group_heap, !malloc_freed.
  - cbn [ret fst snd]. by rewrite malloc_group_heap, malloc_freed.
Qed.

(** X23. Without memory for the debug state the entry points raise
    GL_OUT_OF_MEMORY and do nothing else.  On a context that has no
    debug state yet, when one of the two allocations of [debug_create]
    fails, [log_msg], glPushDebugGroup, glPopDebugGroup and
    glDebugMessageCallback come down to the call of [_mesa_error] with
    GL_OUT_OF_MEMORY, [_mesa_set_debug_state_int] returns false and
    glGetDebugMessageLog returns 0 and writes nothing; the context
    still has no debug state afterwards and no group was allocated. *)
Theorem no_memory_for_the_state (ctx : gl_context) (p : process) :
  record_error_keeps_debug ->
  Debug ctx = None ->
  fst (malloc p) = false \/ fst (malloc (snd (malloc p))) = false ->
  let e := _mesa_error ctx GL_OUT_OF_MEMORY "allocating debug state" []
             (snd (debug_create p)) in
  (forall source type id severity len buf,
     log_msg ctx source type id severity len buf p = e) /\
  (forall source id length message,
     _mesa_PushDebugGroup ctx source id length message p = e) /\
  _mesa_PopDebugGroup ctx p = e /\
  (forall callback userParam,
     _mesa_DebugMessageCallback ctx callback userParam p = e) /\
  (forall pname val,
     _mesa_set_debug_state_int ctx pname val p = (false, fst e, snd e)) /\
  (forall count logSize out,
     (messageLog out <> None -> 0 <= logSize) ->
     _mesa_GetDebugMessageLog ctx count logSize out p
     = (0, out, fst e, snd e)) /\
  Debug (fst e) = None /\
  group_heap (snd e) = group_heap p /\
  freed (snd e) = freed p.
Proof.
  intros Hrec Hd Hm e.
  destruct (debug_create_fails p Hm) as (Hc & Hh & Hf).
  assert (Hg : _mesa_get_debug_state ctx p = (None, fst e, snd e)).
  { unfold _mesa_get_debug_state. rewrite Hd, bind_eq, Hc.
    by rewrite bind_eq. }
  split; [|split; [|split; [|split; [|split; [|split]]]]].
  - intros. unfold log_msg. rewrite bind_eq, Hg. cbn [fst snd ret].
    by destruct e.
  - intros. unfold _mesa_PushDebugGroup. rewrite bind_eq, Hg.
    cbn [fst snd ret]. by destruct e.
  - unfold _mesa_PopDebugGroup. rewrite bind_eq, Hg. cbn [fst snd ret].
    by destruct e.
  - intros. unfold _mesa_DebugMessageCallback. rewrite bind_eq, Hg.
    cbn [fst snd ret]. by destruct e.
  - intros. unfold _mesa_set_debug_state_int. by rewrite bind_eq, Hg.
  - intros count logSize out Hsize. unfold _mesa_GetDebugMessageLog.
    assert (Hl : ((if bool_decide (messageLog out = None) then 0 else logSize)
                  <? 0) = false).
    { apply Z.ltb_ge. case_bool_decide; [lia|]. by apply Hsize. }
    rewrite Hl. by rewrite bind_eq, Hg.
  - destruct (mesa_error_effect ctx GL_OUT_OF_MEMORY "allocating debug state"
                [] (snd (debug_create p)))
      as (ctx1 & H1 & _ & H3 & H4 & H5).
    rewrite Hd in H3. fold e in H1, H4, H5.
    split; [|split; [by rewrite H4 | by rewrite H5]].
    destruct H1 as [-> | ->]; [by rewrite Hrec | done].
Qed.

(** ** Debug groups as scopes of the filters *)

Lemma enclosing_kept_same (debug : gl_debug_state) (p : process)
    (debug' : gl_debug_state) (p' : process) :
  Groups debug' = Groups debug -> group_heap p' = group_heap p ->
  enclosing_kept debug p debug' p'.
Proof. intros E1 E2 i _. by rewrite E1, E2. Qed.

Lemma enclosing_kept_trans (debug0 debug1 debug2 : gl_debug_state)
    (p0 p1 p2 : process) :
  GroupStackDepth debug1 = GroupStackDepth debug0 ->
  enclosing_kept debug0 p0 debug1 p1 -> enclosing_kept debug1 p1 debug2 p2 ->
  enclosing_kept debug0 p0 debug2 p2.
Proof.
  intros Hd H01 H12 i Hi.
  destruct (H01 i Hi) as [E1 F1].
  destruct (H12 i) as [E2 F2]; [by rewrite Hd|].
  split; [by rewrite E2|]. intros a Ha. rewrite F2 by by rewrite E1.
  by apply F1.
Qed.

Lemma enclosing_kept_group_at (debug : gl_debug_state) (p : process)
    (debug' : gl_debug_state) (p' : process) (i : Z) :
  enclosing_kept debug p debug' p' -> 0 <= i < GroupStackDepth debug ->
  group_at p' debug' i = group_at p debug i.
Proof.
  intros H Hi. unfold group_at.
  destruct (H (Z.to_nat i)) as [E F]; [lia|]. rewrite E.
  destruct (Groups debug !! Z.to_nat i) as [[a|]|]; cbn; [|done|done].
  by apply F.
Qed.

(** After [debug_make_group_writable] has succeeded the top slot points
    to a block no enclosing level uses. *)
Lemma debug_make_group_writable_enclosing (debug : gl_debug_state)
    (p : process) :
  stack_ok (group_heap p) (Groups debug) (GroupStackDepth debug) ->
  fst (fst (debug_make_group_writable debug p)) = true ->
  let r := debug_make_group_writable debug p in
  enclosing_kept debug p (snd (fst r)) (snd r) /\
  forall i a, (i < Z.to_nat (GroupStackDepth debug))%nat ->
    Groups debug !! i = Some (Some a) ->
    mjoin (Groups (snd (fst r)) !! Z.to_nat (GroupStackDepth debug))
    <> Some a.
Proof.
  intros (H1 & H2 & H3 & H4) Hw r. subst r. revert Hw.
  rewrite debug_make_group_writable_eq.
  set (d := Z.to_nat (GroupStackDepth debug)) in *.
  destruct (debug_is_group_read_only debug) eqn:Hro; cbn [negb].
  - pose proof (malloc_group_heap p) as Hmh.
    destruct (fst (malloc p)); [|done]. cbv zeta.
    set (rows0 := from_option _ _ _).
    pose proof (copy_rows_group_heap rows0 (snd (malloc p))) as Hc.
    rewrite Hmh in Hc.
    destruct (fst (copy_rows rows0 (snd (malloc p)))) as [rows|]; [|done].
    intros _. cbn [fst snd Groups set_Groups group_heap set_group_heap].
    rewrite Hc.
    set (a' := fresh (dom (group_heap p))).
    assert (Hfresh : group_heap p !! a' = None)
      by apply not_elem_of_dom, is_fresh.
    assert (Hne : forall i a, (i < d)%nat ->
                    Groups debug !! i = Some (Some a) -> a <> a').
    { intros i a Hi Ha E.
      destruct (H2 i) as (b & grp & Hb & Hg & _); [lia|].
      rewrite Ha in Hb. injection Hb as <-. congruence. }
    split.
    + intros i Hi. cbn [Groups set_Groups].
      split; [by rewrite list_lookup_insert_ne by lia|].
      intros a Ha. cbn [group_heap set_group_heap].
      rewrite lookup_insert_ne; [done|].
      intros E. by apply (Hne i a Hi Ha).
    + intros i a Hi Ha. cbn [Groups set_Groups].
      rewrite list_lookup_insert_eq by lia. cbn.
      intros [= E]. by apply (Hne i a Hi Ha).
  - intros _. cbn [fst snd]. split; [by apply enclosing_kept_same|].
    intros i a Hi Ha Heq.
    destruct (H2 d) as (b & grp & Hb & _); [lia|].
    rewrite Hb in Heq. cbn in Heq. injection Heq as ->.
    assert (Hrun : Groups debug !! (d - 1)%nat = Groups debug !! i).
    { apply (H4 i d (d - 1)%nat); try lia. by rewrite Ha, Hb. }
    unfold debug_is_group_read_only in Hro.
    apply andb_false_iff in Hro as [Hro|Hro].
    + apply Z.ltb_ge in Hro. lia.
    + apply bool_decide_eq_false_1 in Hro. apply Hro. fold d.
      replace (Z.to_nat (GroupStackDepth debug - 1)) with (d - 1)%nat by lia.
      by rewrite Hrun, Ha, Hb.
Qed.

Lemma store_namespace_malloc_results (debug : gl_debug_state)
    (gstack s t : Z) (ns : gl_debug_namespace) (q : process) :
  malloc_results (snd (store_namespace debug gstack s t ns q))
  = malloc_results q.
Proof.
  unfold store_namespace, modify. cbn [snd]. by destruct (mjoin _).
Qed.

Lemma debug_set_message_enable_enclosing (debug : gl_debug_state)
    (source type id : Z) (enabled : bool) (p : process) :
  debug_ok p debug -> malloc_results p = [] ->
  let r := debug_set_message_enable debug source type id enabled p in
  enclosing_kept debug p (fst r) (snd r) /\ malloc_results (snd r) = [].
Proof.
  intros Hok Hm r. subst r. pose proof Hok as (_ & _ & _ & Hs).
  destruct (debug_make_group_writable_nil debug p Hm) as [Hw Hm1].
  destruct (debug_make_group_writable_enclosing debug p Hs Hw) as [Hk Hp].
  cbv zeta in Hk, Hp.
  unfold debug_set_message_enable. rewrite bind_eq.
  set (q := snd (debug_make_group_writable debug p)) in *.
  set (debug1 := snd (fst (debug_make_group_writable debug p))) in *.
  cbv zeta. rewrite bind_eq. unfold load_namespace, gets. cbn [fst snd].
  destruct (group_at q debug1 (GroupStackDepth debug) ≫= _) as [ns|];
    cbn [ret fst snd]; [|done].
  rewrite !bind_eq. cbn [ret fst snd].
  destruct (debug_namespace_set_nil ns id enabled q Hm1) as [_ Hq].
  rewrite Hq. split; [|by rewrite store_namespace_malloc_results].
  intros i Hi. destruct (Hk i Hi) as [E F]. split; [done|]. intros a Ha.
  rewrite store_namespace_other; [by apply F|]. by apply (Hp i).
Qed.

Lemma enable_ids_enclosing (ids : list Z) (debug : gl_debug_state)
    (source type : Z) (enabled : bool) (p : process) :
  debug_ok p debug -> malloc_results p = [] ->
  let r := enable_ids debug source type ids enabled p in
  enclosing_kept debug p (fst r) (snd r) /\ malloc_results (snd r) = [].
Proof.
  revert debug p. induction ids as [|id ids IH]; intros debug p Hok Hm r;
    subst r.
  - split; [by apply enclosing_kept_same | done].
  - cbn [enable_ids]. rewrite bind_eq.
    destruct (debug_set_message_enable_ok debug source type id enabled p Hok)
      as (groups1 & E1 & Hok1).
    destruct (debug_set_message_enable_enclosing debug source type id enabled
                p Hok Hm) as [Hk1 Hm1].
    cbv zeta in E1, Hok1, Hk1, Hm1.
    destruct (IH _ _ Hok1 Hm1) as [Hk2 Hm2]. cbv zeta in Hk2, Hm2.
    split; [|done].
    refine (enclosing_kept_trans debug _ _ p _ _ _ Hk1 Hk2).
    by rewrite E1.
Qed.

Lemma debug_set_message_enable_all_enclosing (debug : gl_debug_state)
    (source type severity : Z) (enabled : bool) (p : process) :
  debug_ok p debug -> malloc_results p = [] ->
  let r := debug_set_message_enable_all debug source type severity enabled p in
  enclosing_kept debug p (fst r) (snd r) /\ malloc_results (snd r) = [].
Proof.
  intros Hok Hm r. subst r. pose proof Hok as (_ & _ & _ & Hs).
  destruct (debug_make_group_writable_nil debug p Hm) as [Hw Hm1].
  destruct (debug_make_group_writable_enclosing debug p Hs Hw) as [Hk Hp].
  cbv zeta in Hk, Hp.
  unfold debug_set_message_enable_all.
  destruct (if source =? MESA_DEBUG_SOURCE_COUNT then _ else _) as [s0 smax].
  destruct (if type =? MESA_DEBUG_TYPE_COUNT then _ else _) as [t0 tmax].
  rewrite !bind_eq. cbn [ret fst snd].
  set (q := snd (debug_make_group_writable debug p)) in *.
  set (debug1 := snd (fst (debug_make_group_writable debug p))) in *.
  set (P := fun q' : process =>
              (forall i a, (i < Z.to_nat (GroupStackDepth debug))%nat ->
                 Groups debug !! i = Some (Some a) ->
                 group_heap q' !! a = group_heap p !! a) /\
              malloc_results q' = []).
  assert (HP : P q).
  { split; [|done]. intros i a Hi Ha. destruct (Hk i Hi) as [_ F].
    by apply F. }
  assert (Hend : P (snd (for_each (seqZ s0 (smax - s0))
                           (fun s =>
                              for_each (seqZ t0 (tmax - t0))
                                (fun t =>
                                   nspace <- load_namespace debug1
                                               (GroupStackDepth debug) s t ;;
                                   match nspace with
                                   | Some nspace =>
                                       store_namespace debug1
                                         (GroupStackDepth debug) s t
                                         (debug_namespace_set_all nspace
                                            severity enabled)
                                   | None => ret tt
                                   end)) q))).
  { apply (for_each_invariant P); [|done]. intros s q1 Hq1.
    apply (for_each_invariant P); [|done]. intros t q2 [Hq2 Hm2].
    rewrite bind_eq. unfold load_namespace, gets. cbn [fst snd].
    destruct (_ ≫= _); [|done]. split.
    - intros i a Hi Ha.
      rewrite store_namespace_other; [by apply (Hq2 i) | by apply (Hp i)].
    - by rewrite store_namespace_malloc_results. }
  destruct Hend as [Hend1 Hend2]. split; [|done].
  intros i Hi. destruct (Hk i Hi) as [E F]. split; [done|].
  intros a Ha. by apply Hend1 with i.
Qed.

Lemma debug_message_store_nil (source type id severity len : Z)
    (buf : list ascii) (q : process) :
  malloc_results q = [] ->
  malloc_results (snd (debug_message_store source type id severity len buf q))
  = [].
Proof.
  intros H. unfold debug_message_store. by rewrite bind_eq, (malloc_nil q H).
Qed.

Lemma log_msg_debug_nil (debug : gl_debug_state)
    (source type id severity len : Z) (buf : list ascii) (q : process) :
  malloc_results q = [] ->
  malloc_results (snd (log_msg_debug debug source type id severity len buf q))
  = [].
Proof.
  intros H. unfold log_msg_debug. rewrite bind_eq. unfold gets.
  cbn [fst snd]. destruct (negb _); [done|].
  destruct (Callback debug); [by cbn|].
  unfold debug_log_message. destruct (_ =? _); [done|].
  rewrite bind_eq. cbn [ret snd]. by apply debug_message_store_nil.
Qed.

Lemma mesa_error_nil (ctx : gl_context) (error : GLenum)
    (fmtString : string) (args : list fmt_arg) (p : process) :
  malloc_results p = [] ->
  malloc_results (snd (_mesa_error ctx error fmtString args p)) = [].
Proof.
  intros H. rewrite mesa_error_eq. cbv zeta.
  set (q := set_error_msg_id _ _).
  assert (Hq : malloc_results q = []).
  { subst q. cbn.
    destruct (debug_get_id_frame (error_msg_id p) p) as (H0 & _).
    cbv zeta in H0. by rewrite H0. }
  repeat case_match; try done; by apply log_msg_debug_nil.
Qed.

(** [_mesa_error] on a context with a debug state: the state changes in
    its log only and no group is touched. *)
Lemma mesa_error_keeps_groups (ctx : gl_context) (debug : gl_debug_state)
    (error : GLenum) (fmtString : string) (args : list fmt_arg)
    (p : process) :
  record_error_keeps_debug -> Debug ctx = Some debug ->
  let r := _mesa_error ctx error fmtString args p in
  exists log',
    Debug (fst r) = Some (set_Log debug log') /\
    group_heap (snd r) = group_heap p.
Proof.
  intros Hrec Hd r. subst r.
  destruct (mesa_error_effect ctx error fmtString args p)
    as (ctx1 & H1 & _ & H3 & H4 & _).
  rewrite Hd in H3. destruct H3 as (log' & H3 & _).
  exists log'. split; [|done].
  destruct H1 as [-> | ->]; [by rewrite Hrec | done].
Qed.

(** glDebugMessageControl, accepted or not, with memory at hand. *)
Lemma DebugMessageControl_enclosing (ctx : gl_context)
    (debug : gl_debug_state) (gl_source gl_type gl_severity : GLenum)
    (count : Z) (ids : list Z) (enabled : bool) (p : process) :
  record_error_keeps_debug ->
  Debug ctx = Some debug -> debug_ok p debug -> malloc_results p = [] ->
  let r := _mesa_DebugMessageControl ctx gl_source gl_type gl_severity count
             ids enabled p in
  exists debug',
    Debug (fst r) = Some debug' /\
    GroupStackDepth debug' = GroupStackDepth debug /\
    DebugOutput debug' = DebugOutput debug /\
    enclosing_kept debug p debug' (snd r) /\
    malloc_results (snd r) = [].
Proof.
  intros Hrec Hd Hok Hm r. subst r.
  assert (Herr : forall ctx0 error fmtString args,
            Debug ctx0 = Some debug ->
            let r := _mesa_error ctx0 error fmtString args p in
            exists debug',
              Debug (fst r) = Some debug' /\
              GroupStackDepth debug' = GroupStackDepth debug /\
              DebugOutput debug' = DebugOutput debug /\
              enclosing_kept debug p debug' (snd r) /\
              malloc_results (snd r) = []).
  { intros ctx0 error fmtString args Hd0 r.
    destruct (mesa_error_keeps_groups ctx0 debug error fmtString args p Hrec
                Hd0) as (log' & E1 & E2).
    exists (set_Log debug log'). split; [done|]. split; [done|].
    split; [done|]. split; [by apply enclosing_kept_same|].
    by apply mesa_error_nil. }
  unfold _mesa_DebugMessageControl.
  destruct (count <? 0); [by apply Herr|].
  rewrite bind_eq, validate_params_eq.
  destruct (source_ok CONTROL gl_source && type_ok CONTROL gl_type
            && severity_ok CONTROL gl_severity); cbn [fst snd negb];
    [|by apply Herr].
  destruct (negb (count =? 0) && _) eqn:Hc; [by apply Herr|].
  rewrite bind_eq. unfold _mesa_get_debug_state. rewrite Hd.
  cbn [ret fst snd]. rewrite bind_eq. cbn [ret fst snd Debug set_Debug].
  destruct (negb (count =? 0)).
  - match goal with
    | |- context [enable_ids debug ?s ?t ?l ?e p] =>
        destruct (enable_ids_ok l debug s t e p Hok) as (groups & E & _);
        destruct (enable_ids_enclosing l debug s t e p Hok Hm) as [Hk Hm']
    end.
    cbv zeta in E, Hk, Hm'. eexists. split; [reflexivity|].
    rewrite E at 1 2. by cbn.
  - match goal with
    | |- context [debug_set_message_enable_all debug ?s ?t ?v ?e p] =>
        destruct (debug_set_message_enable_all_ok debug s t v e p Hok)
          as (groups & E & _);
        destruct (debug_set_message_enable_all_enclosing debug s t v e p Hok
                    Hm) as [Hk Hm']
    end.
    cbv zeta in E, Hk, Hm'. eexists. split; [reflexivity|].
    rewrite E at 1 2. by cbn.
Qed.

(** glPushDebugGroup when it is accepted: what it leaves in the group
    stack. *)
Lemma PushDebugGroup_pushed (ctx : gl_context) (debug : gl_debug_state)
    (p : process) (source : GLenum) (id len_arg : Z) (message : list ascii) :
  Debug ctx = Some debug -> scoping_source source ->
  GroupStackDepth debug < MAX_DEBUG_GROUP_STACK_DEPTH - 1 ->
  (if len_arg <? 0 then strlen message else len_arg)
  < MAX_DEBUG_MESSAGE_LENGTH ->
  let r := _mesa_PushDebugGroup ctx source id len_arg message p in
  exists debug',
    Debug (fst r) = Some debug' /\
    GroupStackDepth debug' = GroupStackDepth debug + 1 /\
    DebugOutput debug' = DebugOutput debug /\
    Groups debug'
    = <[Z.to_nat (GroupStackDepth debug + 1) :=
          mjoin (Groups debug !! Z.to_nat (GroupStackDepth debug))]>
        (Groups debug) /\
    group_heap (snd r) = group_heap p /\
    (malloc_results p = [] -> malloc_results (snd r) = []).
Proof.
  intros Hd Hsrc Hroom Hlen r. subst r.
  rewrite (PushDebugGroup_accepted ctx debug p source id len_arg message Hd
             Hsrc Hroom Hlen).
  cbv zeta.
  set (len := if len_arg <? 0 then strlen message else len_arg) in *.
  destruct (log_msg_debug_effect debug (gl_enum_to_debug_source source)
              MESA_DEBUG_TYPE_PUSH_GROUP id MESA_DEBUG_SEVERITY_NOTIFICATION
              len message p) as (log' & E & _ & Hh & _).
  cbv zeta in E, Hh.
  set (a := log_msg_debug debug (gl_enum_to_debug_source source)
              MESA_DEBUG_TYPE_PUSH_GROUP id MESA_DEBUG_SEVERITY_NOTIFICATION
              len message p) in *.
  destruct (debug_message_store_frame (gl_enum_to_debug_source source)
              MESA_DEBUG_TYPE_PUSH_GROUP id MESA_DEBUG_SEVERITY_NOTIFICATION
              len message (snd a)) as (Hs & _).
  cbv zeta in Hs.
  eexists. split; [reflexivity|]. rewrite E. unfold debug_push_group.
  cbn [GroupStackDepth DebugOutput Groups set_GroupStackDepth set_Groups
       set_GroupMessages set_Log fst snd].
  split; [done|]. split; [done|]. split; [done|].
  split; [by rewrite Hs, Hh|].
  intros Hm. apply debug_message_store_nil. by apply log_msg_debug_nil.
Qed.

(** [debug_clear_group] above the base level frees at most the block of
    the top slot, and only when no enclosing level uses it. *)
Lemma debug_clear_group_enclosing (debug : gl_debug_state) (q : process) :
  stack_ok (group_heap q) (Groups debug) (GroupStackDepth debug) ->
  let r := debug_clear_group debug q in
  enclosing_kept debug q (fst r) (snd r).
Proof.
  intros (H1 & H2 & H3 & H4) r. subst r.
  destruct (debug_clear_group_effect debug q) as (E1 & _ & E3).
  cbv zeta in E1, E3. intros i Hi. rewrite E1, E3. cbn [Groups set_Groups].
  set (d := Z.to_nat (GroupStackDepth debug)) in *.
  split; [by rewrite list_lookup_insert_ne by lia|].
  intros b Hb.
  destruct (debug_is_group_read_only debug) eqn:Hro; [done|].
  destruct (H2 d) as (a & grp & Ha & _); [lia|].
  rewrite Ha. cbn [mjoin option_join mbind option_bind].
  rewrite lookup_delete_ne; [done|]. intros ->.
  assert (Heq : Groups debug !! (d - 1)%nat = Groups debug !! i).
  { apply (H4 i d (d - 1)%nat); try lia. by rewrite Ha, Hb. }
  unfold debug_is_group_read_only in Hro.
  apply andb_false_iff in Hro as [Hro|Hro].
  - apply Z.ltb_ge in Hro. lia.
  - apply bool_decide_eq_false_1 in Hro. apply Hro. fold d.
    replace (Z.to_nat (GroupStackDepth debug - 1)) with (d - 1)%nat by lia.
    by rewrite Heq, Ha, Hb.
Qed.

(** glPopDebugGroup above the base level: what it leaves in the group
    stack. *)
Lemma PopDebugGroup_popped (ctx : gl_context) (debug : gl_debug_state)
    (p : process) :
  Debug ctx = Some debug ->
  stack_ok (group_heap p) (Groups debug) (GroupStackDepth debug) ->
  0 < GroupStackDepth debug ->
  let r := _mesa_PopDebugGroup ctx p in
  exists debug',
    Debug (fst r) = Some debug' /\
    GroupStackDepth debug' = GroupStackDepth debug - 1 /\
    DebugOutput debug' = DebugOutput debug /\
    Groups debug'
    = <[Z.to_nat (GroupStackDepth debug) := None]> (Groups debug) /\
    enclosing_kept debug p debug' (snd r).
Proof.
  intros Hd Hs Hpos r. subst r.
  unfold _mesa_PopDebugGroup, _mesa_get_debug_state. rewrite Hd.
  rewrite bind_eq. cbn [ret fst snd].
  destruct (Z.leb_spec (GroupStackDepth debug) 0) as [|_]; [lia|].
  rewrite bind_eq. cbv zeta.
  pose proof (debug_clear_group_enclosing debug p Hs) as Hk.
  destruct (debug_clear_group_effect debug p) as (E1 & _ & _).
  cbv zeta in Hk, E1.
  assert (Hpop : debug_pop_group debug p
                 = (set_GroupStackDepth (fst (debug_clear_group debug p))
                      (GroupStackDepth debug - 1),
                    snd (debug_clear_group debug p))).
  { unfold debug_pop_group. rewrite bind_eq. cbn [ret]. by rewrite E1. }
  rewrite Hpop. cbn [fst snd].
  set (q := snd (debug_clear_group debug p)) in *.
  set (debug1 := set_GroupStackDepth (fst (debug_clear_group debug p))
                   (GroupStackDepth debug - 1)).
  rewrite bind_eq.
  rewrite (log_msg_with_state (set_Debug ctx (Some debug1)) debug1) by done.
  cbv zeta.
  match goal with
  | |- context [log_msg_debug debug1 ?s ?t ?i ?v ?l ?b q] =>
      destruct (log_msg_debug_effect debug1 s t i v l b q)
        as (log' & E & _ & Hh & _);
      cbv zeta in E, Hh;
      set (r2 := log_msg_debug debug1 s t i v l b q) in *
  end.
  cbn [fst snd Debug set_Debug]. rewrite bind_eq. cbn [ret fst snd].
  pose proof (debug_message_clear_only_freed
                (debug_get_group_message (fst r2)) (snd r2)) as Hf.
  set (q3 := snd (debug_message_clear (debug_get_group_message (fst r2))
                    (snd r2))) in *.
  assert (Hq3 : group_heap q3 = group_heap q).
  { unfold only_freed in Hf. rewrite Hf. cbn [group_heap set_freed].
    exact Hh. }
  clearbody q3.
  eexists. cbn [Debug set_Debug]. split; [reflexivity|]. rewrite E.
  subst debug1. rewrite E1.
  cbn [GroupStackDepth DebugOutput Groups set_GroupStackDepth set_Groups
       set_GroupMessages set_Log].
  split; [done|]. split; [done|]. split; [done|].
  intros i Hi. destruct (Hk i Hi) as [F1 F2].
  cbn [Groups set_GroupMessages set_Log set_GroupStackDepth set_Groups].
  rewrite E1 in F1. cbn [Groups set_Groups] in F1. split; [done|].
  intros a Ha. rewrite Hq3. by apply F2.
Qed.

Lemma run_calls_app (cs cs' : list api_call) (ctx : gl_context)
    (p : process) :
  run_calls (cs ++ cs') ctx p
  = run_calls cs' (fst (run_calls cs ctx p)) (snd (run_calls cs ctx p)).
Proof.
  revert ctx p. induction cs as [|c cs IH]; intros ctx p; [done|].
  cbn [app run_calls]. by rewrite !bind_eq, IH.
Qed.

(** A run of glDebugMessageControl calls, with memory at hand. *)
Lemma controls_enclosing (cs : list api_call) :
  record_error_keeps_debug ->
  0 < MAX_DEBUG_LOGGED_MESSAGES -> 0 < MAX_DEBUG_GROUP_STACK_DEPTH ->
  Forall (fun c => is_control c = true) cs ->
  forall (ctx : gl_context) (debug : gl_debug_state) (p : process),
    Debug ctx = Some debug -> debug_inv p debug -> malloc_results p = [] ->
    let r := run_calls cs ctx p in
    exists debug',
      Debug (fst r) = Some debug' /\
      GroupStackDepth debug' = GroupStackDepth debug /\
      DebugOutput debug' = DebugOutput debug /\
      enclosing_kept debug p debug' (snd r) /\
      debug_inv (snd r) debug'.
Proof.
  intros Hrec Hl Hs Hcs. induction Hcs as [|c cs Hc _ IH];
    intros ctx debug p Hd Hinv Hm r; subst r.
  - exists debug. cbn [run_calls ret fst snd]. split; [done|].
    split; [done|]. split; [done|]. split; [|done].
    by apply enclosing_kept_same.
  - destruct c as [| |gl_source gl_type gl_severity count ids enabled
                   | | | | | | |]; try discriminate Hc.
    cbn [run_calls run_call]. rewrite bind_eq.
    destruct (DebugMessageControl_enclosing ctx debug gl_source gl_type
                gl_severity count ids enabled p Hrec Hd (proj1 Hinv) Hm)
      as (debug1 & Hd1 & Hdep1 & Hout1 & Hk1 & Hm1).
    assert (Hok : ctx_ok p ctx) by (unfold ctx_ok; by rewrite Hd).
    pose proof (DebugMessageControl_ok ctx gl_source gl_type gl_severity
                  count ids enabled p Hrec Hl Hs Hok) as Hok1.
    cbv zeta in Hd1, Hk1, Hm1, Hok1.
    unfold ctx_ok in Hok1. rewrite Hd1 in Hok1.
    destruct (IH _ debug1 _ Hd1 Hok1 Hm1)
      as (debug2 & Hd2 & Hdep2 & Hout2 & Hk2 & Hinv2).
    cbv zeta in Hd2, Hk2, Hinv2.
    exists debug2. split; [done|]. split; [by rewrite Hdep2|].
    split; [by rewrite Hout2|]. split; [|done].
    exact (enclosing_kept_trans debug debug1 debug2 p _ _ Hdep1 Hk1 Hk2).
Qed.

(** X24. A debug group starts with the filters of the group it is
    opened in.  When glPushDebugGroup is accepted (a stack with room, an
    application or third-party source, a text below the limit) the new
    top slot shares the group of the slot below, so that the stack is
    one deeper, the top group is read-only, every enclosing level has
    the group it had, and every message is enabled exactly as it was
    before the call. *)
Theorem push_inherits_filters (ctx : gl_context) (debug : gl_debug_state)
    (p : process) (source : GLenum) (id len_arg : Z) (message : list ascii) :
  Debug ctx = Some debug -> scoping_source source ->
  0 <= GroupStackDepth debug < MAX_DEBUG_GROUP_STACK_DEPTH - 1 ->
  Z.of_nat (length (Groups debug)) = MAX_DEBUG_GROUP_STACK_DEPTH ->
  (if len_arg <? 0 then strlen message else len_arg)
  < MAX_DEBUG_MESSAGE_LENGTH ->
  let r := _mesa_PushDebugGroup ctx source id len_arg message p in
  exists debug',
    Debug (fst r) = Some debug' /\
    GroupStackDepth debug' = GroupStackDepth debug + 1 /\
    debug_is_group_read_only debug' = true /\
    (forall i, 0 <= i <= GroupStackDepth debug ->
       group_at (snd r) debug' i = group_at p debug i) /\
    group_at (snd r) debug' (GroupStackDepth debug + 1)
    = group_at p debug (GroupStackDepth debug) /\
    forall s t id' severity,
      debug_is_message_enabled (snd r) debug' s t id' severity
      = debug_is_message_enabled p debug s t id' severity.
Proof.
  intros Hd Hsrc [Hd0 Hroom] Hlen Htext r. subst r.
  destruct (PushDebugGroup_pushed ctx debug p source id len_arg message Hd
              Hsrc Hroom Htext) as (debug' & E1 & E2 & E3 & E4 & E5 & _).
  cbv zeta in E1, E5. exists debug'. split; [done|]. split; [done|].
  set (d := GroupStackDepth debug) in *.
  assert (Htop : Groups debug' !! Z.to_nat (d + 1)
                 = Some (mjoin (Groups debug !! Z.to_nat d))).
  { rewrite E4. apply list_lookup_insert_eq. lia. }
  assert (Hlow : forall i, 0 <= i <= d ->
            Groups debug' !! Z.to_nat i = Groups debug !! Z.to_nat i).
  { intros i Hi. rewrite E4. apply list_lookup_insert_ne. lia. }
  destruct (Groups debug !! Z.to_nat d) as [x|] eqn:Hx;
    [|apply lookup_ge_None in Hx; lia].
  assert (Hnew : group_at (snd (_mesa_PushDebugGroup ctx source id len_arg
                                  message p)) debug' (d + 1)
                 = group_at p debug d).
  { unfold group_at. by rewrite Htop, E5, Hx. }
  split; [|split; [|split]].
  - unfold debug_is_group_read_only. rewrite E2. fold d.
    apply andb_true_intro. split; [lia|]. apply bool_decide_eq_true.
    replace (d + 1 - 1) with d by lia.
    rewrite Htop, (Hlow d), Hx by lia. by destruct x.
  - intros i Hi. unfold group_at. by rewrite (Hlow i Hi), E5.
  - exact Hnew.
  - intros s t id' severity. unfold debug_is_message_enabled.
    rewrite E2, E3. fold d. by rewrite Hnew.
Qed.

(** X25. glPopDebugGroup returns to the group of the enclosing level
    and never frees it.  On a stack in shape above the base level the
    call lowers the depth by one and clears the slot it leaves; it frees
    the group of that slot only when no enclosing level uses it, so
    that every enclosing level has the group it had and every message
    is afterwards enabled as the filters of the enclosing level said
    before the call. *)
Theorem pop_returns_to_the_enclosing_group (ctx : gl_context)
    (debug : gl_debug_state) (p : process) :
  Debug ctx = Some debug ->
  stack_ok (group_heap p) (Groups debug) (GroupStackDepth debug) ->
  0 < GroupStackDepth debug ->
  let r := _mesa_PopDebugGroup ctx p in
  exists debug',
    Debug (fst r) = Some debug' /\
    GroupStackDepth debug' = GroupStackDepth debug - 1 /\
    Groups debug' !! Z.to_nat (GroupStackDepth debug) = Some None /\
    (forall i, 0 <= i < GroupStackDepth debug ->
       group_at (snd r) debug' i = group_at p debug i) /\
    forall s t id severity,
      debug_is_message_enabled (snd r) debug' s t id severity
      = debug_is_message_enabled p
          (set_GroupStackDepth debug (GroupStackDepth debug - 1))
          s t id severity.
Proof.
  intros Hd Hs Hpos r. subst r.
  destruct (PopDebugGroup_popped ctx debug p Hd Hs Hpos)
    as (debug' & E1 & E2 & E3 & E4 & Hk).
  cbv zeta in E1, Hk. exists debug'. split; [done|]. split; [done|].
  assert (Hat : forall i, 0 <= i < GroupStackDepth debug ->
            group_at (snd (_mesa_PopDebugGroup ctx p)) debug' i
            = group_at p debug i).
  { intros i Hi. by apply enclosing_kept_group_at. }
  split; [|split; [exact Hat|]].
  - rewrite E4. apply list_lookup_insert_eq. destruct Hs as [? _]. lia.
  - intros s t id severity. unfold debug_is_message_enabled.
    rewrite E2, E3.
    cbn [DebugOutput GroupStackDepth set_GroupStackDepth].
    rewrite Hat by lia. done.
Qed.

(** X26. glDebugMessageControl changes the filters of the current
    group only.  On a state in shape and with memory at hand, whatever
    the arguments, accepted or rejected, with ids or without, the call
    keeps the stack depth and leaves the group of every enclosing level
    as it was: the group is copied before the first write when an
    enclosing level shares it. *)
Theorem control_keeps_enclosing_groups (ctx : gl_context)
    (debug : gl_debug_state) (gl_source gl_type gl_severity : GLenum)
    (count : Z) (ids : list Z) (enabled : bool) (p : process) :
  record_error_keeps_debug ->
  Debug ctx = Some debug -> debug_ok p debug -> malloc_results p = [] ->
  let r := _mesa_DebugMessageControl ctx gl_source gl_type gl_severity count
             ids enabled p in
  exists debug',
    Debug (fst r) = Some debug' /\
    GroupStackDepth debug' = GroupStackDepth debug /\
    forall i, 0 <= i < GroupStackDepth debug ->
      group_at (snd r) debug' i = group_at p debug i.
Proof.
  intros Hrec Hd Hok Hm r. subst r.
  destruct (DebugMessageControl_enclosing ctx debug gl_source gl_type
              gl_severity count ids enabled p Hrec Hd Hok Hm)
    as (debug' & E1 & E2 & _ & Hk & _).
  cbv zeta in E1, Hk. exists debug'. split; [done|]. split; [done|].
  intros i Hi. by apply enclosing_kept_group_at.
Qed.

(** X27. Filters changed inside a debug group end with the group.
    With memory at hand, on a state in shape: after a glPushDebugGroup
    that is accepted, any number of glDebugMessageControl calls and a
    glPopDebugGroup, the stack has the depth it had and every message
    is enabled exactly as it was before the push. *)
Theorem group_scopes_filter_changes (ctx : gl_context)
    (debug : gl_debug_state) (p : process) (source : GLenum)
    (id len_arg : Z) (message : list ascii) (cs : list api_call) :
  record_error_keeps_debug ->
  0 < MAX_DEBUG_LOGGED_MESSAGES ->
  Debug ctx = Some debug -> debug_inv p debug -> malloc_results p = [] ->
  scoping_source source ->
  GroupStackDepth debug < MAX_DEBUG_GROUP_STACK_DEPTH - 1 ->
  (if len_arg <? 0 then strlen message else len_arg)
  < MAX_DEBUG_MESSAGE_LENGTH ->
  Forall (fun c => is_control c = true) cs ->
  let r := run_calls (call_PushDebugGroup source id len_arg message
                      :: cs ++ [call_PopDebugGroup]) ctx p in
  exists debug',
    Debug (fst r) = Some debug' /\
    GroupStackDepth debug' = GroupStackDepth debug /\
    forall s t id' severity,
      debug_is_message_enabled (snd r) debug' s t id' severity
      = debug_is_message_enabled p debug s t id' severity.
Proof.
  intros Hrec Hl Hd Hinv Hm Hsrc Hroom Htext Hcs r. subst r.
  pose proof Hinv as [(_ & Hlen & _ & Hs) _].
  pose proof Hs as [[Hd0 _] _].
  assert (Hmax : 0 < MAX_DEBUG_GROUP_STACK_DEPTH) by lia.
  assert (Hok : ctx_ok p ctx) by (unfold ctx_ok; by rewrite Hd).
  cbn [run_calls run_call]. rewrite bind_eq.
  destruct (PushDebugGroup_pushed ctx debug p source id len_arg message Hd
              Hsrc Hroom Htext) as (debug1 & E1 & D1 & O1 & G1 & H1 & M1).
  pose proof (PushDebugGroup_ok ctx source id len_arg message p Hrec Hl Hmax
                Hok) as Hok1.
  cbv zeta in E1, H1, M1, Hok1. unfold ctx_ok in Hok1. rewrite E1 in Hok1.
  set (r1 := _mesa_PushDebugGroup ctx source id len_arg message p) in *.
  rewrite run_calls_app.
  destruct (controls_enclosing cs Hrec Hl Hmax Hcs (fst r1) debug1 (snd r1)
              E1 Hok1 (M1 Hm)) as (debug2 & E2 & D2 & O2 & K2 & Hinv2).
  cbv zeta in E2, K2, Hinv2.
  set (r2 := run_calls cs (fst r1) (snd r1)) in *.
  cbn [run_calls run_call]. rewrite bind_eq. cbn [ret fst snd].
  destruct Hinv2 as [(_ & _ & _ & Hs2) _].
  destruct (PopDebugGroup_popped (fst r2) debug2 (snd r2) E2 Hs2)
    as (debug3 & E3 & D3 & O3 & G3 & K3); [lia|].
  cbv zeta in E3, K3.
  exists debug3. split; [done|]. split; [lia|].
  intros s t id' severity. unfold debug_is_message_enabled.
  rewrite O3, O2, O1.
  replace (GroupStackDepth debug3) with (GroupStackDepth debug) by lia.
  rewrite (enclosing_kept_group_at debug2 (snd r2) debug3 _ _ K3) by lia.
  rewrite (enclosing_kept_group_at debug1 (snd r1) debug2 _ _ K2) by lia.
  unfold group_at at 1. rewrite G1, list_lookup_insert_ne, H1 by lia.
  done.
Qed.

End Debug.

(** * Runs on concrete inputs *)

(** [sample_debug] is what [debug_create] builds, GL_DEBUG_OUTPUT
    apart. *)
Lemma sample_debug_created :
  debug_create 10 64 (mk_process 1 0 0 [] ∅ [] [])
  = (Some (mk_state None 0 false false (Groups sample_debug)
             (GroupMessages sample_debug) 0 (Log sample_debug)),
     sample_process).
Proof. vm_compute. reflexivity. Qed.

(** C1. The copy fails, the write goes through.  On the sample state
    after one [debug_push_group] the top slot shares the base group.
    With the next [malloc] failing, [debug_make_group_writable] returns
    false and leaves the stack as it is; [debug_set_message_enable] (id
    7, enable) and [debug_set_message_enable_all] (every source, type
    and severity, disable) go on all the same and write to the shared
    group: the namespace seen through slot 0 gets the override for id
    7, respectively the empty default mask. *)
Theorem failed_copy_writes_shared_group :
  let debug := debug_push_group sample_debug in
  let p1 := set_malloc_results [false; true] sample_process in
  let p2 := set_malloc_results [false] sample_process in
  let r1 := debug_set_message_enable debug MESA_DEBUG_SOURCE_API
              MESA_DEBUG_TYPE_ERROR 7 true p1 in
  let r2 := debug_set_message_enable_all debug MESA_DEBUG_SOURCE_COUNT
              MESA_DEBUG_TYPE_COUNT MESA_DEBUG_SEVERITY_COUNT false p2 in
  debug_is_group_read_only debug = true /\
  fst (debug_make_group_writable debug p1) = (false, debug) /\
  fst r1 = debug /\ fst r2 = debug /\
  namespace_of sample_process debug 0 MESA_DEBUG_SOURCE_API
    MESA_DEBUG_TYPE_ERROR = Some (mk_namespace [] 6) /\
  namespace_of (snd r1) (fst r1) 0 MESA_DEBUG_SOURCE_API
    MESA_DEBUG_TYPE_ERROR = Some (mk_namespace [mk_element 7 15] 6) /\
  namespace_of (snd r2) (fst r2) 0 MESA_DEBUG_SOURCE_API
    MESA_DEBUG_TYPE_ERROR = Some (mk_namespace [] 0) /\
  group_heap (snd r1) ≠ group_heap sample_process /\
  group_heap (snd r2) ≠ group_heap sample_process.
Proof.
  cbv zeta. repeat split; try (vm_compute; reflexivity).
  - intros H.
    assert (E : group_heap (snd (debug_set_message_enable
                  (debug_push_group sample_debug) MESA_DEBUG_SOURCE_API
                  MESA_DEBUG_TYPE_ERROR 7 true
                  (set_malloc_results [false; true] sample_process)))
                !! 1%positive
                = group_heap sample_process !! 1%positive) by (by rewrite H).
    vm_compute in E. discriminate.
  - intros H.
    assert (E : group_heap (snd (debug_set_message_enable_all
                  (debug_push_group sample_debug) MESA_DEBUG_SOURCE_COUNT
                  MESA_DEBUG_TYPE_COUNT MESA_DEBUG_SEVERITY_COUNT false
                  (set_malloc_results [false] sample_process)))
                !! 1%positive
                = group_heap sample_process !! 1%positive) by (by rewrite H).
    vm_compute in E. discriminate.
Qed.

(** C5. A mutation after a push reaches the slot below when the copy
    cannot be allocated.  On the sample state after one
    [debug_push_group], with the next [malloc] failing,
    [debug_set_message_enable_all] (every source and type, severity
    HIGH, disable) changes what [debug_namespace_get] answers for the
    group of slot 0: id 1 at severity HIGH is enabled before and
    disabled after. *)
Theorem mutation_after_push_reaches_lower_slot :
  let debug := debug_push_group sample_debug in
  let p := set_malloc_results [false] sample_process in
  let r := debug_set_message_enable_all debug MESA_DEBUG_SOURCE_COUNT
             MESA_DEBUG_TYPE_COUNT MESA_DEBUG_SEVERITY_HIGH false p in
  GroupStackDepth debug = 1 /\ GroupStackDepth (fst r) = 1 /\
  (ns ← namespace_of p debug 0 MESA_DEBUG_SOURCE_API MESA_DEBUG_TYPE_ERROR;
   Some (debug_namespace_get ns 1 MESA_DEBUG_SEVERITY_HIGH)) = Some true /\
  (ns ← namespace_of (snd r) (fst r) 0 MESA_DEBUG_SOURCE_API
         MESA_DEBUG_TYPE_ERROR;
   Some (debug_namespace_get ns 1 MESA_DEBUG_SEVERITY_HIGH)) = Some false.
Proof. cbv zeta. repeat split; vm_compute; reflexivity. Qed.

(** C2, as stated, fails: with the limit at 10, eleven enabled
    messages with ids 1 to 11 go to the empty log of the sample context;
    a consumer then receives the ids 1 to 10.  The first message is
    there, the eleventh is the one lost. *)
Lemma full_log_loses_newest_not_oldest :
  let r := log_all 10 64 4096 sample_record_error sample_vsnprintf
             sample_lookup_enum false sample_submissions sample_ctx
             sample_process in
  exists debug',
    Debug (fst r) = Some debug' /\
    let got := msg_id <$> fst (fst (drain 10 20 debug' (snd r))) in
    got = [1; 2; 3; 4; 5; 6; 7; 8; 9; 10] /\ 1 ∈ got /\ 11 ∉ got.
Proof.
  cbv zeta. eexists. split; [vm_compute; reflexivity|].
  vm_compute. split; [reflexivity|]. split.
  - apply list_elem_of_here.
  - intros H. repeat (apply elem_of_cons in H as [H|H]; [discriminate|]).
    by apply elem_of_nil in H.
Qed.

(** The statement about the full log at the limit 10, for the eleven
    sample messages on the sample context. *)
Lemma full_log_keeps_oldest_witness :
  (Debug sample_ctx = Some sample_debug /\
   Callback sample_debug = None /\
   log_wf 10 (Log sample_debug) /\
   NumMessages (Log sample_debug) = 0 /\
   1 <= 1 /\
   Z.of_nat (length sample_submissions) = 10 + 1 /\
   Forall (sub_enabled sample_process sample_debug) sample_submissions) /\
  let kept := take (Z.to_nat 10) sample_submissions in
  let r := log_all 10 64 4096 sample_record_error sample_vsnprintf
             sample_lookup_enum false sample_submissions sample_ctx
             sample_process in
  r = log_all 10 64 4096 sample_record_error sample_vsnprintf
        sample_lookup_enum false kept sample_ctx sample_process /\
  exists debug',
    Debug (fst r) = Some debug' /\
    NumMessages (Log debug') = 10 /\
    forall (n : nat) (q : process),
      (Z.to_nat 10 <= n)%nat ->
      let d := fst (drain 10 n debug' q) in
      Forall2 stored_as kept (fst d) /\
      Z.of_nat (length (fst d)) = 10 /\
      NumMessages (Log (snd d)) = 0 /\
      debug_fetch_message (snd d) = None.
Proof.
  assert (H1 : Debug sample_ctx = Some sample_debug) by reflexivity.
  assert (H2 : Callback sample_debug = None) by reflexivity.
  assert (H3 : log_wf 10 (Log sample_debug))
    by (repeat split; vm_compute; congruence).
  assert (H4 : NumMessages (Log sample_debug) = 0) by reflexivity.
  assert (H5 : 1 <= 1) by lia.
  assert (H6 : Z.of_nat (length sample_submissions) = 10 + 1) by reflexivity.
  assert (H7 : Forall (sub_enabled sample_process sample_debug)
                 sample_submissions)
    by (repeat (constructor; [vm_compute; reflexivity|]); constructor).
  split; [by repeat split|].
  exact (full_log_keeps_oldest 10 64 4096 sample_record_error sample_vsnprintf
           sample_lookup_enum false sample_ctx sample_debug sample_process
           sample_submissions 1 H1 H2 H3 H4 H5 H6 H7).
Defined.

(** C4, as stated, fails: one message of stored length 3 is queued in
    the sample context; a call with a text buffer whose capacity is 0
    takes nothing (the return value is 0, no array is written, the
    message stays queued), while the same call without a text buffer
    takes the message. *)
Lemma zero_capacity_buffer_blocks_drain :
  let r0 := log_all 10 64 4096 sample_record_error sample_vsnprintf
              sample_lookup_enum false [sample_submission 1] sample_ctx
              sample_process in
  let with_buffer :=
    _mesa_GetDebugMessageLog 10 64 4096 sample_record_error sample_vsnprintf
      sample_lookup_enum false (fst r0) 1 0 empty_arrays (snd r0) in
  let without_buffer :=
    _mesa_GetDebugMessageLog 10 64 4096 sample_record_error sample_vsnprintf
      sample_lookup_enum false (fst r0) 1 0 arrays_without_text (snd r0) in
  (NumMessages ∘ Log <$> Debug (fst r0)) = Some 1 /\
  fst with_buffer = (0, empty_arrays, fst r0) /\
  fst (fst (fst without_buffer)) = 1 /\
  lengths (snd (fst (fst without_buffer))) = Some [3].
Proof. cbv zeta. repeat split; vm_compute; reflexivity. Qed.

(** The example of the partial fit: stored lengths 5, 10 and 3 and a
    buffer of 12 bytes.  The first call returns the first message only
    (5 + 10 exceeds 12), the second call the other two. *)
Lemma partial_fit_example :
  let r0 := log_all 10 64 4096 sample_record_error sample_vsnprintf
              sample_lookup_enum false
              [sized_submission 1 4; sized_submission 2 9;
               sized_submission 3 2] sample_ctx sample_process in
  let r1 :=
    _mesa_GetDebugMessageLog 10 64 4096 sample_record_error sample_vsnprintf
      sample_lookup_enum false (fst r0) 3 12 empty_arrays (snd r0) in
  let r2 :=
    _mesa_GetDebugMessageLog 10 64 4096 sample_record_error sample_vsnprintf
      sample_lookup_enum false (snd (fst r1)) 3 15 empty_arrays (snd r1) in
  fst (fst (fst r1)) = 1 /\ lengths (snd (fst (fst r1))) = Some [5] /\
  fst (fst (fst r2)) = 2 /\ lengths (snd (fst (fst r2))) = Some [10; 3].
Proof. cbv zeta. repeat split; vm_compute; reflexivity. Qed.

(** The fit rule for three queued messages of stored lengths 5, 10 and
    3, a call for 3 messages and a buffer of 12 bytes. *)
Lemma drain_takes_what_fits_witness :
  let r0 := log_all 10 64 4096 sample_record_error sample_vsnprintf
              sample_lookup_enum false
              [sized_submission 1 4; sized_submission 2 9;
               sized_submission 3 2] sample_ctx sample_process in
  let ctx := fst r0 in
  let debug := default sample_debug (Debug ctx) in
  let p := snd r0 in
  (Debug ctx = Some debug /\ log_wf 10 (Log debug) /\ 0 <= 3 /\
   (messageLog empty_arrays ≠ None -> 0 <= 12)) /\
  let queued := log_contents 10 (Log debug) in
  let r := fst (_mesa_GetDebugMessageLog 10 64 4096 sample_record_error
                  sample_vsnprintf sample_lookup_enum false ctx 3 12
                  empty_arrays p) in
  exists taken log',
    r = (Z.of_nat (length taken), written empty_arrays taken,
         set_Debug ctx (Some (set_Log debug log'))) /\
    taken = take (length taken) queued /\
    Z.of_nat (length taken) <= 3 /\
    log_contents 10 log' = drop (length taken) queued /\
    (forall l, messageLog empty_arrays = Some l ->
       messageLog (written empty_arrays taken)
       = Some (l ++ (taken ≫= copied_text)) /\
       sum_lengths taken <= 12 /\
       (Z.of_nat (length taken) = 3 \/
        length taken = length queued \/
        exists msg, queued !! length taken = Some msg /\
                    12 - sum_lengths taken < msg_length msg)) /\
    (messageLog empty_arrays = None ->
       messageLog (written empty_arrays taken) = None /\
       taken = take (Z.to_nat 3) queued).
Proof.
  cbv zeta.
  set (r0 := log_all 10 64 4096 sample_record_error sample_vsnprintf
               sample_lookup_enum false
               [sized_submission 1 4; sized_submission 2 9;
                sized_submission 3 2] sample_ctx sample_process).
  assert (H1 : Debug (fst r0) = Some (default sample_debug (Debug (fst r0))))
    by (vm_compute; reflexivity).
  assert (H2 : log_wf 10 (Log (default sample_debug (Debug (fst r0)))))
    by (repeat split; vm_compute; congruence).
  assert (H3 : 0 <= 3) by lia.
  assert (H4 : messageLog empty_arrays ≠ None -> 0 <= 12) by (intros _; lia).
  split; [by repeat split|].
  exact (drain_takes_what_fits 10 64 4096 sample_record_error sample_vsnprintf
           sample_lookup_enum false (fst r0)
           (default sample_debug (Debug (fst r0))) (snd r0) 3 12 empty_arrays
           H1 H2 H3 H4).
Defined.

(** The same three messages, a call for 2 of them with no text buffer
    and the capacity -5. *)
Lemma null_buffer_skips_size_checks_witness :
  let r0 := log_all 10 64 4096 sample_record_error sample_vsnprintf
              sample_lookup_enum false
              [sized_submission 1 4; sized_submission 2 9;
               sized_submission 3 2] sample_ctx sample_process in
  let ctx := fst r0 in
  let debug := default sample_debug (Debug ctx) in
  let p := snd r0 in
  messageLog arrays_without_text = None /\
  _mesa_GetDebugMessageLog 10 64 4096 sample_record_error sample_vsnprintf
    sample_lookup_enum false ctx 2 (-5) arrays_without_text p
  = _mesa_GetDebugMessageLog 10 64 4096 sample_record_error sample_vsnprintf
      sample_lookup_enum false ctx 2 0 arrays_without_text p /\
  (Debug ctx = Some debug /\ log_wf 10 (Log debug) /\ 0 <= 2) /\
  let queued := log_contents 10 (Log debug) in
  let taken := take (Z.to_nat 2) queued in
  let r := _mesa_GetDebugMessageLog 10 64 4096 sample_record_error
             sample_vsnprintf sample_lookup_enum false ctx 2 (-5)
             arrays_without_text p in
  exists log',
    fst r = (Z.of_nat (length taken), written arrays_without_text taken,
             set_Debug ctx (Some (set_Log debug log'))) /\
    Z.of_nat (length taken) = Z.min 2 (Z.of_nat (length queued)) /\
    messageLog (written arrays_without_text taken) = None /\
    log_contents 10 log' = drop (Z.to_nat 2) queued /\
    only_freed p (snd r).
Proof.
  cbv zeta.
  set (r0 := log_all 10 64 4096 sample_record_error sample_vsnprintf
               sample_lookup_enum false
               [sized_submission 1 4; sized_submission 2 9;
                sized_submission 3 2] sample_ctx sample_process).
  assert (H0 : messageLog arrays_without_text = None) by reflexivity.
  assert (H1 : Debug (fst r0) = Some (default sample_debug (Debug (fst r0))))
    by (vm_compute; reflexivity).
  assert (H2 : log_wf 10 (Log (default sample_debug (Debug (fst r0)))))
    by (repeat split; vm_compute; congruence).
  assert (H3 : 0 <= 2) by lia.
  destruct (null_buffer_skips_size_checks 10 64 4096 sample_record_error
              sample_vsnprintf sample_lookup_enum false (fst r0) (snd r0) 2 (-5)
              arrays_without_text H0) as [Hsame Hrest].
  split; [done|]. split; [exact Hsame|]. split; [by repeat split|].
  exact (Hrest (default sample_debug (Debug (fst r0))) H1 H2 H3).
Defined.

(** A namespace with default mask 6 and overrides for the ids 7 and 8:
    the wild card with enable, and severity HIGH with disable. *)
Lemma set_all_wildcard_and_single_witness :
  let ns := mk_namespace [mk_element 7 15; mk_element 8 2] 6 in
  (let ns' := debug_namespace_set_all ns MESA_DEBUG_SEVERITY_COUNT true in
   Elements ns' = [] /\ DefaultState ns' = 15 /\
   forall sev, 0 <= sev < MESA_DEBUG_SEVERITY_COUNT ->
               Z.testbit (DefaultState ns') sev = true) /\
  0 <= MESA_DEBUG_SEVERITY_HIGH < MESA_DEBUG_SEVERITY_COUNT /\
  let ns' := debug_namespace_set_all ns MESA_DEBUG_SEVERITY_HIGH false in
  (forall i, 0 <= i < 32 ->
     Z.testbit (DefaultState ns') i
     = if i =? MESA_DEBUG_SEVERITY_HIGH then false
       else Z.testbit (DefaultState ns) i) /\
  exists upd : gl_debug_element -> gl_debug_element,
    (forall e, ID (upd e) = ID e /\
       forall i, 0 <= i < 32 ->
         Z.testbit (State (upd e)) i
         = if i =? MESA_DEBUG_SEVERITY_HIGH then false
           else Z.testbit (State e) i) /\
    Elements ns'
    = filter (fun e => State e ≠ DefaultState ns') (upd <$> Elements ns).
Proof.
  cbv zeta.
  destruct (set_all_wildcard_and_single
              (mk_namespace [mk_element 7 15; mk_element 8 2] 6) true)
    as [Hwild _].
  destruct (set_all_wildcard_and_single
              (mk_namespace [mk_element 7 15; mk_element 8 2] 6) false)
    as [_ Hone].
  assert (Hsev : 0 <= MESA_DEBUG_SEVERITY_HIGH < MESA_DEBUG_SEVERITY_COUNT)
    by (vm_compute; split; congruence).
  split; [exact Hwild|]. split; [exact Hsev|].
  exact (Hone MESA_DEBUG_SEVERITY_HIGH Hsev).
Defined.

(** A namespace after a set, a set_all and a copy: id 9 is read right
    after it is set, id 3 was never set. *)
Lemma get_after_set_and_for_unset_ids_witness :
  let ops := [op_set 5 true; op_set_all MESA_DEBUG_SEVERITY_HIGH false;
              op_copy] in
  let ns := fst (run_ops ops debug_namespace_init sample_process) in
  (0 <= MESA_DEBUG_SEVERITY_LOW < MESA_DEBUG_SEVERITY_COUNT /\
   fst (fst (debug_namespace_set ns 9 true sample_process)) = true /\
   debug_namespace_get
     (snd (fst (debug_namespace_set ns 9 true sample_process))) 9
     MESA_DEBUG_SEVERITY_LOW = true) /\
  (0 <= MESA_DEBUG_SEVERITY_MEDIUM /\
   (forall enabled, op_set 3 enabled ∉ ops) /\
   debug_namespace_get ns 3 MESA_DEBUG_SEVERITY_MEDIUM
   = Z.testbit (DefaultState ns) MESA_DEBUG_SEVERITY_MEDIUM).
Proof.
  cbv zeta.
  destruct (get_after_set_and_for_unset_ids
              [op_set 5 true; op_set_all MESA_DEBUG_SEVERITY_HIGH false; op_copy]
              sample_process) as [Hset Hunset].
  assert (H1 : 0 <= MESA_DEBUG_SEVERITY_LOW < MESA_DEBUG_SEVERITY_COUNT)
    by (vm_compute; split; congruence).
  assert (H2 : 0 <= MESA_DEBUG_SEVERITY_MEDIUM) by (vm_compute; congruence).
  assert (H3 : forall enabled,
             op_set 3 enabled
             ∉ [op_set 5 true; op_set_all MESA_DEBUG_SEVERITY_HIGH false;
                op_copy]).
  { intros enabled H.
    repeat (apply elem_of_cons in H as [H|H]; [discriminate|]).
    by apply elem_of_nil in H. }
  split.
  - split; [exact H1|]. split; [reflexivity|].
    exact (Hset 9 true MESA_DEBUG_SEVERITY_LOW sample_process H1 eq_refl).
  - split; [exact H2|]. split; [exact H3|].
    exact (Hunset 3 MESA_DEBUG_SEVERITY_MEDIUM H2 H3).
Defined.




(** The same run with every allocation succeeding: the callback gets
    the push event with length 7 and the pop event with the stored
    length 8, the terminator counted, as
    [gdmessage->length] is what glPopDebugGroup hands to [log_msg]. *)
Lemma pop_event_length_counts_terminator :
  let registered :=
    _mesa_DebugMessageCallback 10 64 4096 sample_record_error
      sample_vsnprintf sample_lookup_enum false sample_ctx (Some 99) 0
      sample_process in
  let enabled :=
    debug_set_message_enable_all
      (default sample_debug (Debug (fst registered)))
      MESA_DEBUG_SOURCE_COUNT MESA_DEBUG_TYPE_COUNT
      MESA_DEBUG_SEVERITY_NOTIFICATION true (snd registered) in
  let pushed :=
    _mesa_PushDebugGroup 10 64 4096 sample_record_error sample_vsnprintf
      sample_lookup_enum false
      (set_Debug (fst registered) (Some (fst enabled)))
      GL_DEBUG_SOURCE_APPLICATION 7 7 scope_A (snd enabled) in
  let popped :=
    _mesa_PopDebugGroup 10 64 4096 sample_record_error sample_vsnprintf
      sample_lookup_enum false (fst pushed) (snd pushed) in
  callback_calls (snd popped)
  = [mk_call 99 GL_DEBUG_SOURCE_APPLICATION GL_DEBUG_TYPE_PUSH_GROUP 7
       GL_DEBUG_SEVERITY_NOTIFICATION 7 scope_A 0;
     mk_call 99 GL_DEBUG_SOURCE_APPLICATION GL_DEBUG_TYPE_POP_GROUP 7
       GL_DEBUG_SEVERITY_NOTIFICATION 8 (scope_A ++ [NUL]) 0].
Proof. cbv zeta. vm_compute. reflexivity. Qed.


(** ** The further properties on concrete inputs *)

(** An empty id slot on the sample process, whose counter is 1. *)
Lemma dynamic_id_is_assigned_once_witness :
  0 < NextDynamicID sample_process < 2 ^ 32 /\
  let r := debug_get_id 0 sample_process in
  (0 <> 0 -> r = (0, sample_process)) /\
  (0 = 0 ->
   fst r = NextDynamicID sample_process /\
   fst (debug_get_id 0 (snd r)) <> fst r) /\
  debug_get_id (fst r) (snd r) = r.
Proof.
  assert (H : 0 < NextDynamicID sample_process < 2 ^ 32) by (cbn; lia).
  exact (conj H (dynamic_id_is_assigned_once 0 sample_process H)).
Defined.

(** A stored text of two bytes. *)
Lemma stored_text_is_terminated_witness :
  0 <= 2 /\
  let msg := fst (debug_message_store MESA_DEBUG_SOURCE_APPLICATION
                    MESA_DEBUG_TYPE_OTHER 7 MESA_DEBUG_SEVERITY_LOW 2
                    (list_ascii_of_string "hi") sample_process) in
  msg_length msg = Z.of_nat (length (text_of (msg_message msg))) /\
  last (text_of (msg_message msg)) = Some NUL /\
  copied_text msg = text_of (msg_message msg) /\
  (fst (malloc sample_process) = true ->
   msg_length msg = 2 + 1 /\
   c_string (text_of (msg_message msg))
   = c_string (take (Z.to_nat 2) (list_ascii_of_string "hi"))).
Proof.
  assert (H : 0 <= 2) by lia.
  exact (conj H (stored_text_is_terminated MESA_DEBUG_SOURCE_APPLICATION
                   MESA_DEBUG_TYPE_OTHER 7 MESA_DEBUG_SEVERITY_LOW 2
                   (list_ascii_of_string "hi") sample_process H)).
Defined.

(** The validation of the values of a message an application
    inserts. *)
Lemma validated_enumerants_are_in_the_tables_witness :
  (INSERT = INSERT \/ INSERT = CONTROL) /\
  fst (fst (validate_params 10 4096 sample_record_error sample_vsnprintf sample_lookup_enum false sample_ctx INSERT "glDebugMessageInsert"
              GL_DEBUG_SOURCE_APPLICATION GL_DEBUG_TYPE_OTHER
              GL_DEBUG_SEVERITY_HIGH sample_process)) = true /\
  let s := gl_enum_to_debug_source GL_DEBUG_SOURCE_APPLICATION in
  let t := gl_enum_to_debug_type GL_DEBUG_TYPE_OTHER in
  let v := gl_enum_to_debug_severity GL_DEBUG_SEVERITY_HIGH in
  validate_params 10 4096 sample_record_error sample_vsnprintf sample_lookup_enum false sample_ctx INSERT "glDebugMessageInsert"
    GL_DEBUG_SOURCE_APPLICATION GL_DEBUG_TYPE_OTHER GL_DEBUG_SEVERITY_HIGH
    sample_process
  = (true, sample_ctx, sample_process) /\
  0 <= s <= MESA_DEBUG_SOURCE_COUNT /\
  0 <= t <= MESA_DEBUG_TYPE_COUNT /\
  0 <= v <= MESA_DEBUG_SEVERITY_COUNT /\
  (s = MESA_DEBUG_SOURCE_COUNT <-> GL_DEBUG_SOURCE_APPLICATION = GL_DONT_CARE) /\
  (t = MESA_DEBUG_TYPE_COUNT <-> GL_DEBUG_TYPE_OTHER = GL_DONT_CARE) /\
  (v = MESA_DEBUG_SEVERITY_COUNT <-> GL_DEBUG_SEVERITY_HIGH = GL_DONT_CARE) /\
  (s < MESA_DEBUG_SOURCE_COUNT ->
   table_at debug_source_enums s = GL_DEBUG_SOURCE_APPLICATION) /\
  (t < MESA_DEBUG_TYPE_COUNT ->
   table_at debug_type_enums t = GL_DEBUG_TYPE_OTHER) /\
  (v < MESA_DEBUG_SEVERITY_COUNT ->
   table_at debug_severity_enums v = GL_DEBUG_SEVERITY_HIGH) /\
  (INSERT = INSERT ->
   (s = MESA_DEBUG_SOURCE_APPLICATION \/ s = MESA_DEBUG_SOURCE_THIRD_PARTY) /\
   t <= MESA_DEBUG_TYPE_MARKER /\ v < MESA_DEBUG_SEVERITY_COUNT).
Proof.
  assert (H1 : INSERT = INSERT \/ INSERT = CONTROL) by (by left).
  assert (H2 : fst (fst (validate_params 10 4096 sample_record_error sample_vsnprintf sample_lookup_enum false sample_ctx INSERT
                           "glDebugMessageInsert"
                           GL_DEBUG_SOURCE_APPLICATION GL_DEBUG_TYPE_OTHER
                           GL_DEBUG_SEVERITY_HIGH sample_process)) = true)
    by reflexivity.
  exact (conj H1 (conj H2
    (validated_enumerants_are_in_the_tables 10 4096 sample_record_error sample_vsnprintf sample_lookup_enum false sample_ctx INSERT
       "glDebugMessageInsert" GL_DEBUG_SOURCE_APPLICATION GL_DEBUG_TYPE_OTHER
       GL_DEBUG_SEVERITY_HIGH sample_process H1 H2))).
Defined.


(** An insertion on the sample state with the callback 99 and the
    user parameter 5 installed. *)
Lemma insert_reaches_callback_witness :
  let debug :=
    mk_state (Some 99) 5 false true (Groups sample_debug)
      (GroupMessages sample_debug) 0 (Log sample_debug) in
  let ctx := set_Debug sample_ctx (Some debug) in
  let len := if 2 <? 0 then strlen (list_ascii_of_string "hi") else 2 in
  (Debug ctx = Some debug /\ Callback debug = Some 99 /\
   fst (fst (validate_params 10 4096 sample_record_error sample_vsnprintf sample_lookup_enum false ctx INSERT "glDebugMessageInsert"
               GL_DEBUG_SOURCE_APPLICATION GL_DEBUG_TYPE_OTHER
               GL_DEBUG_SEVERITY_HIGH sample_process)) = true /\
   len < 4096 /\
   debug_is_message_enabled sample_process debug
     (gl_enum_to_debug_source GL_DEBUG_SOURCE_APPLICATION)
     (gl_enum_to_debug_type GL_DEBUG_TYPE_OTHER) 7
     (gl_enum_to_debug_severity GL_DEBUG_SEVERITY_HIGH) = true) /\
  _mesa_DebugMessageInsert 10 64 4096 sample_record_error sample_vsnprintf sample_lookup_enum false ctx GL_DEBUG_SOURCE_APPLICATION
    GL_DEBUG_TYPE_OTHER 7 GL_DEBUG_SEVERITY_HIGH 2
    (list_ascii_of_string "hi") sample_process
  = (ctx,
     set_callback_calls
       (callback_calls sample_process
        ++ [mk_call 99 GL_DEBUG_SOURCE_APPLICATION GL_DEBUG_TYPE_OTHER 7
              GL_DEBUG_SEVERITY_HIGH len (list_ascii_of_string "hi")
              (CallbackData debug)]) sample_process).
Proof.
  cbv zeta.
  set (debug := mk_state (Some 99) 5 false true (Groups sample_debug)
                  (GroupMessages sample_debug) 0 (Log sample_debug)).
  set (ctx := set_Debug sample_ctx (Some debug)).
  assert (H1 : Debug ctx = Some debug) by reflexivity.
  assert (H2 : Callback debug = Some 99) by reflexivity.
  assert (H3 : fst (fst (validate_params 10 4096 sample_record_error sample_vsnprintf sample_lookup_enum false ctx INSERT "glDebugMessageInsert"
                           GL_DEBUG_SOURCE_APPLICATION GL_DEBUG_TYPE_OTHER
                           GL_DEBUG_SEVERITY_HIGH sample_process)) = true)
    by reflexivity.
  assert (H4 : (if 2 <? 0 then strlen (list_ascii_of_string "hi") else 2)
               < 4096) by (vm_compute; reflexivity).
  assert (H5 : debug_is_message_enabled sample_process debug
                 (gl_enum_to_debug_source GL_DEBUG_SOURCE_APPLICATION)
                 (gl_enum_to_debug_type GL_DEBUG_TYPE_OTHER) 7
                 (gl_enum_to_debug_severity GL_DEBUG_SEVERITY_HIGH) = true)
    by (vm_compute; reflexivity).
  exact (conj (conj H1 (conj H2 (conj H3 (conj H4 H5))))
           (insert_reaches_callback 10 64 4096 sample_record_error sample_vsnprintf sample_lookup_enum false ctx debug 99
              GL_DEBUG_SOURCE_APPLICATION GL_DEBUG_TYPE_OTHER 7
              GL_DEBUG_SEVERITY_HIGH 2 (list_ascii_of_string "hi")
              sample_process H1 H2 H3 H4 H5)).
Defined.

(** On the sample state a message of two bytes is inserted and
    fetched into buffers with room for three bytes. *)
Lemma insert_then_get_log_witness :
  let len := if 2 <? 0 then strlen (list_ascii_of_string "hi") else 2 in
  (Debug sample_ctx = Some sample_debug /\
   Callback sample_debug = None /\
   log_wf 10 (Log sample_debug) /\ NumMessages (Log sample_debug) = 0 /\
   fst (fst (validate_params 10 4096 sample_record_error sample_vsnprintf sample_lookup_enum false sample_ctx INSERT "glDebugMessageInsert"
               GL_DEBUG_SOURCE_APPLICATION GL_DEBUG_TYPE_OTHER
               GL_DEBUG_SEVERITY_HIGH sample_process)) = true /\
   len < 4096 /\
   debug_is_message_enabled sample_process sample_debug
     (gl_enum_to_debug_source GL_DEBUG_SOURCE_APPLICATION)
     (gl_enum_to_debug_type GL_DEBUG_TYPE_OTHER) 7
     (gl_enum_to_debug_severity GL_DEBUG_SEVERITY_HIGH) = true /\
   fst (malloc sample_process) = true /\
   1 <= 1 /\ messageLog empty_arrays = Some [] /\ len + 1 <= 3) /\
  let r1 := _mesa_DebugMessageInsert 10 64 4096 sample_record_error sample_vsnprintf sample_lookup_enum false sample_ctx GL_DEBUG_SOURCE_APPLICATION
              GL_DEBUG_TYPE_OTHER 7 GL_DEBUG_SEVERITY_HIGH 2
              (list_ascii_of_string "hi") sample_process in
  let r2 := _mesa_GetDebugMessageLog 10 64 4096 sample_record_error sample_vsnprintf sample_lookup_enum false (fst r1) 1 3 empty_arrays (snd r1) in
  exists log',
    fst r2
    = (1,
       mk_arrays (write (sources empty_arrays) GL_DEBUG_SOURCE_APPLICATION)
         (write (types empty_arrays) GL_DEBUG_TYPE_OTHER)
         (write (ids empty_arrays) 7)
         (write (severities empty_arrays) GL_DEBUG_SEVERITY_HIGH)
         (write (lengths empty_arrays) (len + 1))
         (Some ([] ++ strncpy (Z.to_nat len) (list_ascii_of_string "hi")
                ++ [NUL])),
       set_Debug sample_ctx (Some (set_Log sample_debug log'))) /\
    log_wf 10 log' /\ log_contents 10 log' = [].
Proof.
  cbv zeta.
  assert (H1 : Debug sample_ctx = Some sample_debug) by reflexivity.
  assert (H2 : Callback sample_debug = None) by reflexivity.
  assert (H3 : log_wf 10 (Log sample_debug))
    by (repeat split; vm_compute; congruence).
  assert (H4 : NumMessages (Log sample_debug) = 0) by reflexivity.
  assert (H5 : fst (fst (validate_params 10 4096 sample_record_error sample_vsnprintf sample_lookup_enum false sample_ctx INSERT
                           "glDebugMessageInsert"
                           GL_DEBUG_SOURCE_APPLICATION GL_DEBUG_TYPE_OTHER
                           GL_DEBUG_SEVERITY_HIGH sample_process)) = true)
    by reflexivity.
  assert (H6 : (if 2 <? 0 then strlen (list_ascii_of_string "hi") else 2)
               < 4096) by (vm_compute; reflexivity).
  assert (H7 : debug_is_message_enabled sample_process sample_debug
                 (gl_enum_to_debug_source GL_DEBUG_SOURCE_APPLICATION)
                 (gl_enum_to_debug_type GL_DEBUG_TYPE_OTHER) 7
                 (gl_enum_to_debug_severity GL_DEBUG_SEVERITY_HIGH) = true)
    by (vm_compute; reflexivity).
  assert (H8 : fst (malloc sample_process) = true) by reflexivity.
  assert (H9 : 1 <= 1) by lia.
  assert (H10 : messageLog empty_arrays = Some []) by reflexivity.
  assert (H11 : (if 2 <? 0 then strlen (list_ascii_of_string "hi") else 2)
                + 1 <= 3) by (vm_compute; congruence).
  exact (conj (conj H1 (conj H2 (conj H3 (conj H4 (conj H5 (conj H6
           (conj H7 (conj H8 (conj H9 (conj H10 H11))))))))))
           (insert_then_get_log 10 64 4096 sample_record_error sample_vsnprintf sample_lookup_enum false sample_ctx sample_debug
              GL_DEBUG_SOURCE_APPLICATION GL_DEBUG_TYPE_OTHER 7
              GL_DEBUG_SEVERITY_HIGH 2 (list_ascii_of_string "hi")
              sample_process 1 3 empty_arrays [] H1 H2 H3 H4 H5 H6 H7 H8 H9
              H10 H11)).
Defined.

(** GL_DEBUG_OUTPUT is enabled on a context without debug state and
    a process without groups. *)
Lemma fresh_state_has_default_filter_witness :
  let ctx := mk_context None GL_NO_ERROR None 0 in
  let p := mk_process 1 0 0 [] ∅ [] [] in
  (0 < 64 /\ Debug ctx = None /\
   fst (malloc p) = true /\ fst (malloc (snd (malloc p))) = true) /\
  let r := _mesa_set_debug_state_int 10 64 4096 sample_record_error sample_vsnprintf sample_lookup_enum false ctx GL_DEBUG_OUTPUT 1 p in
  fst (fst r) = true /\
  exists debug,
    Debug (snd (fst r)) = Some debug /\
    Callback debug = None /\ DebugOutput debug = true /\
    GroupStackDepth debug = 0 /\ NumMessages (Log debug) = 0 /\
    forall source type id severity,
      0 <= source < MESA_DEBUG_SOURCE_COUNT ->
      0 <= type < MESA_DEBUG_TYPE_COUNT ->
      0 <= severity < MESA_DEBUG_SEVERITY_COUNT ->
      debug_is_message_enabled (snd r) debug source type id severity
      = (severity =? MESA_DEBUG_SEVERITY_HIGH)
        || (severity =? MESA_DEBUG_SEVERITY_MEDIUM).
Proof.
  cbv zeta.
  assert (H1 : 0 < 64) by lia.
  assert (H2 : Debug (mk_context None GL_NO_ERROR None 0) = None)
    by reflexivity.
  assert (H3 : fst (malloc (mk_process 1 0 0 [] ∅ [] [])) = true)
    by reflexivity.
  assert (H4 : fst (malloc (snd (malloc (mk_process 1 0 0 [] ∅ [] []))))
               = true) by reflexivity.
  exact (conj (conj H1 (conj H2 (conj H3 H4)))
           (fresh_state_has_default_filter 10 64 4096 sample_record_error sample_vsnprintf sample_lookup_enum false
              (mk_context None GL_NO_ERROR None 0)
              (mk_process 1 0 0 [] ∅ [] []) H1 H2 H3 H4)).
Defined.

(** Of the log that holds the first ten sample messages two are
    removed. *)
Lemma delete_messages_drops_oldest_witness :
  let r0 := log_all 10 64 4096 sample_record_error sample_vsnprintf sample_lookup_enum false sample_submissions sample_ctx sample_process in
  let debug := default sample_debug (Debug (fst r0)) in
  (log_wf 10 (Log debug) /\ 0 <= 2) /\
  let r := debug_delete_messages 10 debug 2 (snd r0) in
  let queued := log_contents 10 (Log debug) in
  exists log',
    fst r = set_Log debug log' /\ log_wf 10 log' /\
    log_contents 10 log' = drop (Z.to_nat 2) queued /\
    snd r
    = set_freed
        (freed (snd r0)
         ++ filter (fun t => t <> out_of_memory)
              (msg_message <$> take (Z.to_nat 2) queued)) (snd r0).
Proof.
  cbv zeta.
  set (r0 := log_all 10 64 4096 sample_record_error sample_vsnprintf sample_lookup_enum false sample_submissions sample_ctx sample_process).
  assert (H1 : log_wf 10 (Log (default sample_debug (Debug (fst r0)))))
    by (repeat split; vm_compute; congruence).
  assert (H2 : 0 <= 2) by lia.
  exact (conj (conj H1 H2)
           (delete_messages_drops_oldest 10
              (default sample_debug (Debug (fst r0))) 2 (snd r0) H1 H2)).
Defined.

(** A push on the sample state with the depth at its limit. *)
Lemma push_on_full_stack_overflows_witness :
  let debug := set_GroupStackDepth sample_debug 63 in
  let ctx := set_Debug sample_ctx (Some debug) in
  (Debug ctx = Some debug /\
   64 - 1 <= GroupStackDepth debug /\
   Z.of_nat (List.length
               (sample_lookup_enum GL_STACK_OVERFLOW
                ++ list_ascii_of_string " in "
                ++ sample_vsnprintf "%s" [arg_str "glPushDebugGroup"]))
   < 4096) /\
  let r := _mesa_PushDebugGroup 10 64 4096 sample_record_error sample_vsnprintf sample_lookup_enum false ctx GL_DEBUG_SOURCE_APPLICATION 7 (-1)
             scope_A sample_process in
  r = _mesa_error 10 4096 sample_record_error sample_vsnprintf sample_lookup_enum false ctx GL_STACK_OVERFLOW "%s" [arg_str "glPushDebugGroup"]
        sample_process /\
  exists log',
    fst r = sample_record_error
              (set_Debug (snd (should_output false ctx GL_STACK_OVERFLOW "%s"))
                 (Some (set_Log debug log')))
              GL_STACK_OVERFLOW /\
    group_heap (snd r) = group_heap sample_process /\
    freed (snd r) = freed sample_process.
Proof.
  cbv zeta.
  set (debug := set_GroupStackDepth sample_debug 63).
  set (ctx := set_Debug sample_ctx (Some debug)).
  assert (H1 : Debug ctx = Some debug) by reflexivity.
  assert (H2 : 64 - 1 <= GroupStackDepth debug)
    by (vm_compute; congruence).
  assert (H3 : Z.of_nat (List.length
                           (sample_lookup_enum GL_STACK_OVERFLOW
                            ++ list_ascii_of_string " in "
                            ++ sample_vsnprintf "%s"
                                 [arg_str "glPushDebugGroup"]))
               < 4096) by (vm_compute; reflexivity).
  exact (conj (conj H1 (conj H2 H3))
           (push_on_full_stack_overflows 10 64 4096 sample_record_error sample_vsnprintf sample_lookup_enum false ctx debug
              GL_DEBUG_SOURCE_APPLICATION 7 (-1) scope_A sample_process
              H1 H2 H3)).
Defined.

(** A pop on the sample state, whose stack holds the base group only. *)
Lemma pop_on_base_group_underflows_witness :
  (Debug sample_ctx = Some sample_debug /\
   GroupStackDepth sample_debug <= 0 /\
   Z.of_nat (List.length
               (sample_lookup_enum GL_STACK_UNDERFLOW
                ++ list_ascii_of_string " in "
                ++ sample_vsnprintf "%s" [arg_str "glPopDebugGroup"]))
   < 4096) /\
  let r := _mesa_PopDebugGroup 10 64 4096 sample_record_error sample_vsnprintf sample_lookup_enum false sample_ctx sample_process in
  r = _mesa_error 10 4096 sample_record_error sample_vsnprintf sample_lookup_enum false sample_ctx GL_STACK_UNDERFLOW "%s"
        [arg_str "glPopDebugGroup"] sample_process /\
  exists log',
    fst r = sample_record_error
              (set_Debug
                 (snd (should_output false sample_ctx GL_STACK_UNDERFLOW "%s"))
                 (Some (set_Log sample_debug log')))
              GL_STACK_UNDERFLOW /\
    group_heap (snd r) = group_heap sample_process /\
    freed (snd r) = freed sample_process.
Proof.
  assert (H1 : Debug sample_ctx = Some sample_debug) by reflexivity.
  assert (H2 : GroupStackDepth sample_debug <= 0) by (vm_compute; congruence).
  assert (H3 : Z.of_nat (List.length
                           (sample_lookup_enum GL_STACK_UNDERFLOW
                            ++ list_ascii_of_string " in "
                            ++ sample_vsnprintf "%s"
                                 [arg_str "glPopDebugGroup"]))
               < 4096) by (vm_compute; reflexivity).
  exact (conj (conj H1 (conj H2 H3))
           (pop_on_base_group_underflows 10 64 4096 sample_record_error sample_vsnprintf sample_lookup_enum false sample_ctx sample_debug
              sample_process H1 H2 H3)).
Defined.

(** The first error of the process, on the sample state. *)
Lemma error_is_logged_witness :
  let id := if error_msg_id sample_process =? 0
            then NextDynamicID sample_process
            else error_msg_id sample_process in
  let text := sample_lookup_enum GL_INVALID_VALUE
              ++ list_ascii_of_string " in "
              ++ sample_vsnprintf "bad value" [] in
  let len := Z.of_nat (length text) in
  (Debug sample_ctx = Some sample_debug /\ Callback sample_debug = None /\
   log_wf 10 (Log sample_debug) /\
   NumMessages (Log sample_debug) < 10 /\
   len < 4096 /\
   debug_is_message_enabled sample_process sample_debug
     MESA_DEBUG_SOURCE_API MESA_DEBUG_TYPE_ERROR id
     MESA_DEBUG_SEVERITY_HIGH = true /\
   fst (malloc sample_process) = true) /\
  let r := _mesa_error 10 4096 sample_record_error sample_vsnprintf sample_lookup_enum false sample_ctx GL_INVALID_VALUE "bad value" []
             sample_process in
  exists ctx1 log',
    fst r = sample_record_error ctx1 GL_INVALID_VALUE /\
    ErrorValue ctx1 = ErrorValue sample_ctx /\
    Debug ctx1 = Some (set_Log sample_debug log') /\
    log_wf 10 log' /\
    log_contents 10 log'
    = log_contents 10 (Log sample_debug)
      ++ [mk_message MESA_DEBUG_SOURCE_API MESA_DEBUG_TYPE_ERROR id
            MESA_DEBUG_SEVERITY_HIGH (len + 1)
            (malloced (strncpy (Z.to_nat len) text ++ [NUL]))] /\
    error_msg_id (snd r) = id /\
    (id <> 0 ->
     fst (debug_get_id (error_msg_id (snd r)) (snd r)) = id).
Proof.
  cbv zeta.
  assert (H1 : Debug sample_ctx = Some sample_debug) by reflexivity.
  assert (H2 : Callback sample_debug = None) by reflexivity.
  assert (H3 : log_wf 10 (Log sample_debug))
    by (repeat split; vm_compute; congruence).
  assert (H4 : NumMessages (Log sample_debug) < 10)
    by (vm_compute; reflexivity).
  assert (H5 : Z.of_nat (length (sample_lookup_enum GL_INVALID_VALUE
                                 ++ list_ascii_of_string " in "
                                 ++ sample_vsnprintf "bad value" []))
               < 4096) by (vm_compute; reflexivity).
  assert (H6 : debug_is_message_enabled sample_process sample_debug
                 MESA_DEBUG_SOURCE_API MESA_DEBUG_TYPE_ERROR
                 (if error_msg_id sample_process =? 0
                  then NextDynamicID sample_process
                  else error_msg_id sample_process)
                 MESA_DEBUG_SEVERITY_HIGH = true) by (vm_compute; reflexivity).
  assert (H7 : fst (malloc sample_process) = true) by reflexivity.
  exact (conj (conj H1 (conj H2 (conj H3 (conj H4 (conj H5 (conj H6 H7))))))
           (error_is_logged 10 4096 sample_record_error sample_vsnprintf sample_lookup_enum false sample_ctx sample_debug GL_INVALID_VALUE
              "bad value" [] sample_process H1 H2 H3 H4 H5 H6 H7)).
Defined.

(** A control call on the sample state: every source and type,
    severity LOW, enabled. *)
Lemma control_sets_selected_namespaces_witness :
  (Debug sample_ctx = Some sample_debug /\
   fst (fst (validate_params 10 4096 sample_record_error sample_vsnprintf sample_lookup_enum false sample_ctx CONTROL "glDebugMessageControl"
               GL_DONT_CARE GL_DONT_CARE GL_DEBUG_SEVERITY_LOW
               sample_process)) = true /\
   group_at sample_process sample_debug (GroupStackDepth sample_debug)
   = Some sample_group /\
   fst (fst (debug_make_group_writable sample_debug sample_process)) = true) /\
  let r := _mesa_DebugMessageControl 10 64 4096 sample_record_error sample_vsnprintf sample_lookup_enum false sample_ctx GL_DONT_CARE GL_DONT_CARE
             GL_DEBUG_SEVERITY_LOW 0 [] true sample_process in
  exists groups g',
    fst r = set_Debug sample_ctx (Some (set_Groups sample_debug groups)) /\
    group_at (snd r) (set_Groups sample_debug groups)
      (GroupStackDepth sample_debug) = Some g' /\
    freed (snd r) = freed sample_process /\
    forall s t,
      0 <= s < MESA_DEBUG_SOURCE_COUNT -> 0 <= t < MESA_DEBUG_TYPE_COUNT ->
      namespace_at g' s t
      = if decide ((GL_DONT_CARE = GL_DONT_CARE
                    \/ s = gl_enum_to_debug_source GL_DONT_CARE) /\
                   (GL_DONT_CARE = GL_DONT_CARE
                    \/ t = gl_enum_to_debug_type GL_DONT_CARE))
        then (fun ns =>
                debug_namespace_set_all ns
                  (gl_enum_to_debug_severity GL_DEBUG_SEVERITY_LOW) true)
               <$> namespace_at sample_group s t
        else namespace_at sample_group s t.
Proof.
  assert (H1 : Debug sample_ctx = Some sample_debug) by reflexivity.
  assert (H2 : fst (fst (validate_params 10 4096 sample_record_error sample_vsnprintf sample_lookup_enum false sample_ctx CONTROL
                           "glDebugMessageControl" GL_DONT_CARE GL_DONT_CARE
                           GL_DEBUG_SEVERITY_LOW sample_process)) = true)
    by reflexivity.
  assert (H3 : group_at sample_process sample_debug
                 (GroupStackDepth sample_debug) = Some sample_group)
    by reflexivity.
  assert (H4 : fst (fst (debug_make_group_writable sample_debug
                           sample_process)) = true) by reflexivity.
  exact (conj (conj H1 (conj H2 (conj H3 H4)))
           (control_sets_selected_namespaces 10 64 4096 sample_record_error sample_vsnprintf sample_lookup_enum false sample_ctx sample_debug
              sample_group GL_DONT_CARE GL_DONT_CARE GL_DEBUG_SEVERITY_LOW
              [] true sample_process H1 H2 H3 H4)).
Defined.

(** A control call on the sample state: the ids 7 and 9 of source
    APPLICATION and type OTHER are disabled. *)
Lemma control_by_ids_sets_those_ids_witness :
  (Debug sample_ctx = Some sample_debug /\ DebugOutput sample_debug = true /\
   fst (fst (validate_params 10 4096 sample_record_error sample_vsnprintf sample_lookup_enum false sample_ctx CONTROL "glDebugMessageControl"
               GL_DEBUG_SOURCE_APPLICATION GL_DEBUG_TYPE_OTHER GL_DONT_CARE
               sample_process)) = true /\
   GL_DEBUG_SOURCE_APPLICATION <> GL_DONT_CARE /\
   GL_DEBUG_TYPE_OTHER <> GL_DONT_CARE /\ 0 < 2 /\
   malloc_results sample_process = [] /\
   group_at sample_process sample_debug (GroupStackDepth sample_debug)
   = Some sample_group /\
   namespace_at sample_group
     (gl_enum_to_debug_source GL_DEBUG_SOURCE_APPLICATION)
     (gl_enum_to_debug_type GL_DEBUG_TYPE_OTHER) = Some debug_namespace_init /\
   NoDup (ID <$> Elements debug_namespace_init)) /\
  let r := _mesa_DebugMessageControl 10 64 4096 sample_record_error sample_vsnprintf sample_lookup_enum false sample_ctx GL_DEBUG_SOURCE_APPLICATION
             GL_DEBUG_TYPE_OTHER GL_DONT_CARE 2 [7; 9] false
             sample_process in
  exists debug',
    fst r = set_Debug sample_ctx (Some debug') /\
    GroupStackDepth debug' = GroupStackDepth sample_debug /\
    freed (snd r) = freed sample_process /\
    forall s t id severity,
      0 <= s -> 0 <= t -> 0 <= severity < MESA_DEBUG_SEVERITY_COUNT ->
      debug_is_message_enabled (snd r) debug' s t id severity
      = if decide (s = gl_enum_to_debug_source GL_DEBUG_SOURCE_APPLICATION /\
                   t = gl_enum_to_debug_type GL_DEBUG_TYPE_OTHER /\
                   id ∈ take (Z.to_nat 2) [7; 9])
        then false
        else debug_is_message_enabled sample_process sample_debug s t id
               severity.
Proof.
  assert (H1 : Debug sample_ctx = Some sample_debug) by reflexivity.
  assert (H2 : DebugOutput sample_debug = true) by reflexivity.
  assert (H3 : fst (fst (validate_params 10 4096 sample_record_error sample_vsnprintf sample_lookup_enum false sample_ctx CONTROL
                           "glDebugMessageControl"
                           GL_DEBUG_SOURCE_APPLICATION GL_DEBUG_TYPE_OTHER
                           GL_DONT_CARE sample_process)) = true)
    by reflexivity.
  assert (H4 : GL_DEBUG_SOURCE_APPLICATION <> GL_DONT_CARE) by discriminate.
  assert (H5 : GL_DEBUG_TYPE_OTHER <> GL_DONT_CARE) by discriminate.
  assert (H6 : 0 < 2) by lia.
  assert (H7 : malloc_results sample_process = []) by reflexivity.
  assert (H8 : group_at sample_process sample_debug
                 (GroupStackDepth sample_debug) = Some sample_group)
    by reflexivity.
  assert (H9 : namespace_at sample_group
                 (gl_enum_to_debug_source GL_DEBUG_SOURCE_APPLICATION)
                 (gl_enum_to_debug_type GL_DEBUG_TYPE_OTHER)
               = Some debug_namespace_init) by reflexivity.
  assert (H10 : NoDup (ID <$> Elements debug_namespace_init))
    by apply NoDup_nil_2.
  exact (conj (conj H1 (conj H2 (conj H3 (conj H4 (conj H5 (conj H6
           (conj H7 (conj H8 (conj H9 H10)))))))))
           (control_by_ids_sets_those_ids 10 64 4096 sample_record_error sample_vsnprintf sample_lookup_enum false sample_ctx sample_debug
              sample_group debug_namespace_init GL_DEBUG_SOURCE_APPLICATION
              GL_DEBUG_TYPE_OTHER 2 [7; 9] false sample_process
              H1 H2 H3 H4 H5 H6 H7 H8 H9 H10)).
Defined.

(** An array of ids together with a severity, on the sample state. *)
Lemma rejected_control_changes_no_filter_witness :
  let valid :=
    fst (fst (validate_params 10 4096 sample_record_error sample_vsnprintf sample_lookup_enum false sample_ctx CONTROL "glDebugMessageControl"
                GL_DEBUG_SOURCE_APPLICATION GL_DEBUG_TYPE_OTHER
                GL_DEBUG_SEVERITY_HIGH sample_process)) in
  let error :=
    if 1 <? 0 then GL_INVALID_VALUE
    else if valid then GL_INVALID_OPERATION else GL_INVALID_ENUM in
  let fmtString : string :=
    if 1 <? 0 then "%s(count=%d : count must not be negative)"
    else if valid
    then "%s(When passing an array of ids, severity must be GL_DONT_CARE, and source and type must not be GL_DONT_CARE."
    else "bad values passed to %s(source=0x%x, type=0x%x, severity=0x%x)" in
  let args :=
    if 1 <? 0 then [arg_str "glDebugMessageControl"; arg_int 1]
    else if valid then [arg_str "glDebugMessageControl"]
    else [arg_str "glDebugMessageControl";
          arg_enum GL_DEBUG_SOURCE_APPLICATION; arg_enum GL_DEBUG_TYPE_OTHER;
          arg_enum GL_DEBUG_SEVERITY_HIGH] in
  ((1 < 0 \/ valid = false \/
    (1 <> 0 /\
     (GL_DEBUG_SEVERITY_HIGH <> GL_DONT_CARE
      \/ GL_DEBUG_TYPE_OTHER = GL_DONT_CARE
      \/ GL_DEBUG_SOURCE_APPLICATION = GL_DONT_CARE))) /\
   Z.of_nat (List.length
               (sample_lookup_enum error
                ++ list_ascii_of_string " in "
                ++ sample_vsnprintf fmtString args))
   < 4096) /\
  let r := _mesa_DebugMessageControl 10 64 4096 sample_record_error sample_vsnprintf sample_lookup_enum false sample_ctx GL_DEBUG_SOURCE_APPLICATION
             GL_DEBUG_TYPE_OTHER GL_DEBUG_SEVERITY_HIGH 1 [7] true
             sample_process in
  r = _mesa_error 10 4096 sample_record_error sample_vsnprintf sample_lookup_enum false sample_ctx error fmtString args sample_process /\
  exists ctx1,
    fst r = sample_record_error ctx1 error /\
    ErrorValue ctx1 = ErrorValue sample_ctx /\
    match Debug sample_ctx with
    | None => ctx1 = snd (should_output false sample_ctx error fmtString)
    | Some debug =>
        exists log',
          ctx1 = set_Debug (snd (should_output false sample_ctx error fmtString))
                   (Some (set_Log debug log'))
    end /\
    group_heap (snd r) = group_heap sample_process /\
    freed (snd r) = freed sample_process.
Proof.
  cbv zeta.
  set (valid := fst (fst (validate_params 10 4096 sample_record_error sample_vsnprintf sample_lookup_enum false sample_ctx CONTROL
                            "glDebugMessageControl"
                            GL_DEBUG_SOURCE_APPLICATION GL_DEBUG_TYPE_OTHER
                            GL_DEBUG_SEVERITY_HIGH sample_process))).
  assert (H1 : 1 < 0 \/ valid = false \/
               (1 <> 0 /\
                (GL_DEBUG_SEVERITY_HIGH <> GL_DONT_CARE
                 \/ GL_DEBUG_TYPE_OTHER = GL_DONT_CARE
                 \/ GL_DEBUG_SOURCE_APPLICATION = GL_DONT_CARE)))
    by (right; right; split; [lia | left; discriminate]).
  assert (H2 : Z.of_nat
                 (List.length
                    (sample_lookup_enum
                       (if 1 <? 0 then GL_INVALID_VALUE
                        else if valid then GL_INVALID_OPERATION
                             else GL_INVALID_ENUM)
                     ++ list_ascii_of_string " in "
                     ++ sample_vsnprintf
                          (if 1 <? 0
                           then "%s(count=%d : count must not be negative)"
                           else if valid
                           then "%s(When passing an array of ids, severity must be GL_DONT_CARE, and source and type must not be GL_DONT_CARE."
                           else "bad values passed to %s(source=0x%x, type=0x%x, severity=0x%x)")
                          (if 1 <? 0
                           then [arg_str "glDebugMessageControl"; arg_int 1]
                           else if valid
                           then [arg_str "glDebugMessageControl"]
                           else [arg_str "glDebugMessageControl";
                                 arg_enum GL_DEBUG_SOURCE_APPLICATION;
                                 arg_enum GL_DEBUG_TYPE_OTHER;
                                 arg_enum GL_DEBUG_SEVERITY_HIGH])))
               < 4096) by (vm_compute; reflexivity).
  exact (conj (conj H1 H2)
           (rejected_control_changes_no_filter 10 64 4096 sample_record_error sample_vsnprintf sample_lookup_enum false sample_ctx
              GL_DEBUG_SOURCE_APPLICATION GL_DEBUG_TYPE_OTHER
              GL_DEBUG_SEVERITY_HIGH 1 [7] true sample_process H1 H2)).
Defined.

(** The teardown of the sample state after one [debug_push_group]:
    the two slots share the base group. *)
Lemma free_errors_data_frees_the_groups_witness :
  let debug := debug_push_group sample_debug in
  let ctx := set_Debug sample_ctx (Some debug) in
  (Debug ctx = Some debug /\ 0 <= GroupStackDepth debug /\
   (Z.to_nat (GroupStackDepth debug) < length (Groups debug))%nat) /\
  let r := _mesa_free_errors_data ctx sample_process in
  fst r = set_Debug ctx None /\
  freed (snd r) = freed sample_process /\
  snd r = set_group_heap (group_heap (snd r)) sample_process /\
  forall a,
    group_heap (snd r) !! a
    = if decide (Some a ∈ take (S (Z.to_nat (GroupStackDepth debug)))
                            (Groups debug))
      then None else group_heap sample_process !! a.
Proof.
  cbv zeta.
  set (debug := debug_push_group sample_debug).
  set (ctx := set_Debug sample_ctx (Some debug)).
  assert (H1 : Debug ctx = Some debug) by reflexivity.
  assert (H2 : 0 <= GroupStackDepth debug) by (vm_compute; congruence).
  assert (H3 : (Z.to_nat (GroupStackDepth debug) < length (Groups debug))%nat)
    by (vm_compute; lia).
  exact (conj (conj H1 (conj H2 H3))
           (free_errors_data_frees_the_groups ctx debug sample_process
              H1 H2 H3)).
Defined.

(** The queries on the log that holds the first ten sample messages,
    for a text buffer of three bytes. *)
Lemma log_queries_match_the_queue_witness :
  let r0 := log_all 10 64 4096 sample_record_error sample_vsnprintf sample_lookup_enum false sample_submissions sample_ctx sample_process in
  let ctx := fst r0 in
  let debug := default sample_debug (Debug ctx) in
  (Debug ctx = Some debug /\ log_wf 10 (Log debug) /\
   messageLog empty_arrays = Some [] /\ 0 <= 3) /\
  let queued := log_contents 10 (Log debug) in
  let need := _mesa_get_debug_state_int ctx
                GL_DEBUG_NEXT_LOGGED_MESSAGE_LENGTH in
  _mesa_get_debug_state_int ctx GL_DEBUG_LOGGED_MESSAGES
  = Z.of_nat (length queued) /\
  need = from_option msg_length 0 (head queued) /\
  fst (fst (fst (_mesa_GetDebugMessageLog 10 64 4096 sample_record_error sample_vsnprintf sample_lookup_enum false ctx 1 3 empty_arrays (snd r0))))
  = if bool_decide (queued = []) || (3 <? need) then 0 else 1.
Proof.
  cbv zeta.
  set (r0 := log_all 10 64 4096 sample_record_error sample_vsnprintf sample_lookup_enum false sample_submissions sample_ctx sample_process).
  assert (H1 : Debug (fst r0) = Some (default sample_debug (Debug (fst r0))))
    by (vm_compute; reflexivity).
  assert (H2 : log_wf 10 (Log (default sample_debug (Debug (fst r0)))))
    by (repeat split; vm_compute; congruence).
  assert (H3 : messageLog empty_arrays = Some []) by reflexivity.
  assert (H4 : 0 <= 3) by lia.
  exact (conj (conj H1 (conj H2 (conj H3 H4)))
           (log_queries_match_the_queue 10 64 4096 sample_record_error sample_vsnprintf sample_lookup_enum false (fst r0)
              (default sample_debug (Debug (fst r0))) 3 empty_arrays []
              (snd r0) H1 H2 H3 H4)).
Defined.


(** A shader message of 5000 bytes on the sample state. *)
Lemma shader_debug_cuts_long_messages_witness :
  let msg := replicate 5000 "x"%char in
  let id' := if 0 =? 0 then NextDynamicID sample_process else 0 in
  (0 < 4096 /\
   Debug sample_ctx = Some sample_debug /\ Callback sample_debug = None /\
   log_wf 10 (Log sample_debug) /\
   NumMessages (Log sample_debug) < 10 /\
   debug_is_message_enabled sample_process sample_debug
     MESA_DEBUG_SOURCE_SHADER_COMPILER MESA_DEBUG_TYPE_ERROR id'
     MESA_DEBUG_SEVERITY_HIGH = true /\
   fst (malloc sample_process) = true) /\
  let n := Z.min (if 5000 <? 0 then strlen msg else 5000)
                 (4096 - 1) in
  let r := _mesa_shader_debug 10 64 4096 sample_record_error sample_vsnprintf sample_lookup_enum false sample_ctx MESA_DEBUG_TYPE_ERROR 0 msg 5000
             sample_process in
  0 <= n < 4096 /\
  exists log',
    fst r = (id', set_Debug sample_ctx (Some (set_Log sample_debug log'))) /\
    log_wf 10 log' /\
    log_contents 10 log'
    = log_contents 10 (Log sample_debug)
      ++ [mk_message MESA_DEBUG_SOURCE_SHADER_COMPILER MESA_DEBUG_TYPE_ERROR
            id' MESA_DEBUG_SEVERITY_HIGH (n + 1)
            (malloced (strncpy (Z.to_nat n) msg ++ [NUL]))].
Proof.
  cbv zeta.
  assert (H1 : 0 < 4096) by lia.
  assert (H2 : Debug sample_ctx = Some sample_debug) by reflexivity.
  assert (H3 : Callback sample_debug = None) by reflexivity.
  assert (H4 : log_wf 10 (Log sample_debug))
    by (repeat split; vm_compute; congruence).
  assert (H5 : NumMessages (Log sample_debug) < 10)
    by (vm_compute; reflexivity).
  assert (H6 : debug_is_message_enabled sample_process sample_debug
                 MESA_DEBUG_SOURCE_SHADER_COMPILER MESA_DEBUG_TYPE_ERROR
                 (if 0 =? 0 then NextDynamicID sample_process else 0)
                 MESA_DEBUG_SEVERITY_HIGH = true) by (vm_compute; reflexivity).
  assert (H7 : fst (malloc sample_process) = true) by reflexivity.
  exact (conj (conj H1 (conj H2 (conj H3 (conj H4 (conj H5 (conj H6 H7))))))
           (shader_debug_cuts_long_messages 10 64 4096 sample_record_error sample_vsnprintf sample_lookup_enum false sample_ctx sample_debug
              MESA_DEBUG_TYPE_ERROR 0 (replicate 5000 "x"%char) 5000
              sample_process H1 H2 H3 H4 H5 H6 H7)).
Defined.

(** A driver message on the sample state. *)
Lemma gl_debug_logs_the_formatted_text_witness :
  let id' := if 0 =? 0 then NextDynamicID sample_process else 0 in
  let text := sample_vsnprintf "driver note" [] in
  let len := Z.of_nat (length text) in
  (Debug sample_ctx = Some sample_debug /\ Callback sample_debug = None /\
   log_wf 10 (Log sample_debug) /\
   NumMessages (Log sample_debug) < 10 /\
   len < 4096 /\
   debug_is_message_enabled sample_process sample_debug
     MESA_DEBUG_SOURCE_API MESA_DEBUG_TYPE_PERFORMANCE id'
     MESA_DEBUG_SEVERITY_MEDIUM = true /\
   fst (malloc sample_process) = true) /\
  let r := _mesa_gl_debug 10 64 4096 sample_record_error sample_vsnprintf sample_lookup_enum false sample_ctx 0 MESA_DEBUG_TYPE_PERFORMANCE
             MESA_DEBUG_SEVERITY_MEDIUM "driver note" [] sample_process in
  exists log',
    fst r = (id', set_Debug sample_ctx (Some (set_Log sample_debug log'))) /\
    log_wf 10 log' /\
    log_contents 10 log'
    = log_contents 10 (Log sample_debug)
      ++ [mk_message MESA_DEBUG_SOURCE_API MESA_DEBUG_TYPE_PERFORMANCE id'
            MESA_DEBUG_SEVERITY_MEDIUM (len + 1)
            (malloced (strncpy (Z.to_nat len) text ++ [NUL]))].
Proof.
  cbv zeta.
  assert (H1 : Debug sample_ctx = Some sample_debug) by reflexivity.
  assert (H2 : Callback sample_debug = None) by reflexivity.
  assert (H3 : log_wf 10 (Log sample_debug))
    by (repeat split; vm_compute; congruence).
  assert (H4 : NumMessages (Log sample_debug) < 10)
    by (vm_compute; reflexivity).
  assert (H5 : Z.of_nat (length (sample_vsnprintf "driver note" []))
               < 4096) by (vm_compute; reflexivity).
  assert (H6 : debug_is_message_enabled sample_process sample_debug
                 MESA_DEBUG_SOURCE_API MESA_DEBUG_TYPE_PERFORMANCE
                 (if 0 =? 0 then NextDynamicID sample_process else 0)
                 MESA_DEBUG_SEVERITY_MEDIUM = true)
    by (vm_compute; reflexivity).
  assert (H7 : fst (malloc sample_process) = true) by reflexivity.
  exact (conj (conj H1 (conj H2 (conj H3 (conj H4 (conj H5 (conj H6 H7))))))
           (gl_debug_logs_the_formatted_text 10 64 4096 sample_record_error sample_vsnprintf sample_lookup_enum false sample_ctx sample_debug 0
              MESA_DEBUG_TYPE_PERFORMANCE MESA_DEBUG_SEVERITY_MEDIUM
              "driver note" [] sample_process H1 H2 H3 H4 H5 H6 H7)).
Defined.

(** A run from a context without debug state: the application enables
    the output, opens a group, disables an id inside it with no memory
    for the copy of the group, inserts a message and closes the
    group. *)
Lemma calls_keep_the_state_in_shape_witness :
  let ctx := mk_context None GL_NO_ERROR None 0 in
  let p := mk_process 1 0 0 [true; true; true; false] ∅ [] [] in
  let cs :=
    [call_set_debug_state_int GL_DEBUG_OUTPUT 1;
     call_PushDebugGroup GL_DEBUG_SOURCE_APPLICATION 1 (-1) scope_A;
     call_DebugMessageControl GL_DEBUG_SOURCE_APPLICATION GL_DEBUG_TYPE_OTHER
       GL_DONT_CARE 1 [7] false;
     call_DebugMessageInsert GL_DEBUG_SOURCE_APPLICATION GL_DEBUG_TYPE_OTHER
       7 GL_DEBUG_SEVERITY_HIGH (-1) scope_A;
     call_PopDebugGroup] in
  (record_error_keeps_debug sample_record_error /\
   0 < 10 /\ 0 < 64 /\
   ctx_ok 10 64 p ctx) /\
  let r := run_calls 10 64 4096 sample_record_error sample_vsnprintf sample_lookup_enum false cs ctx p in
  ctx_ok 10 64 (snd r) (fst r).
Proof.
  cbv zeta.
  assert (H1 : record_error_keeps_debug sample_record_error) by (intros c e; reflexivity).
  assert (H2 : 0 < 10) by lia.
  assert (H3 : 0 < 64) by lia.
  assert (H4 : ctx_ok 10 64 (mk_process 1 0 0 [true; true; true; false] ∅ [] [])
                 (mk_context None GL_NO_ERROR None 0)) by exact I.
  exact (conj (conj H1 (conj H2 (conj H3 H4)))
           (calls_keep_the_state_in_shape 10 64 4096 sample_record_error sample_vsnprintf sample_lookup_enum false
              [call_set_debug_state_int GL_DEBUG_OUTPUT 1;
               call_PushDebugGroup GL_DEBUG_SOURCE_APPLICATION 1 (-1) scope_A;
               call_DebugMessageControl GL_DEBUG_SOURCE_APPLICATION
                 GL_DEBUG_TYPE_OTHER GL_DONT_CARE 1 [7] false;
               call_DebugMessageInsert GL_DEBUG_SOURCE_APPLICATION
                 GL_DEBUG_TYPE_OTHER 7 GL_DEBUG_SEVERITY_HIGH (-1) scope_A;
               call_PopDebugGroup]
              (mk_context None GL_NO_ERROR None 0)
              (mk_process 1 0 0 [true; true; true; false] ∅ [] [])
              H1 H2 H3 H4)).
Defined.

(** The sample state is in shape: it is the state [debug_create]
    builds. *)
Lemma sample_debug_in_shape : debug_inv 10 64 sample_process sample_debug.
Proof.
  assert (Hl : 0 < 10) by lia.
  assert (Hs : 0 < 64) by lia.
  pose proof (debug_create_ok_state 10 64 (mk_process 1 0 0 [] ∅ [] []) _ Hl Hs
                (f_equal fst sample_debug_created)) as H.
  rewrite sample_debug_created in H. exact H.
Qed.

(** The sample state one group deep. *)
Lemma sample_pushed_in_shape :
  debug_ok 10 64 sample_process (debug_push_group sample_debug).
Proof.
  apply (debug_ok_push 10 64); [exact (proj1 sample_debug_in_shape)|].
  vm_compute. reflexivity.
Qed.

(** An error with a text of 4096 bytes on the sample state. *)
Lemma overlong_error_is_dropped_witness :
  let fmtString := string_of_list_ascii (replicate 4096 "x"%char) in
  let id := if error_msg_id sample_process =? 0
            then NextDynamicID sample_process
            else error_msg_id sample_process in
  (Debug sample_ctx = Some sample_debug /\
   debug_is_message_enabled sample_process sample_debug
     MESA_DEBUG_SOURCE_API MESA_DEBUG_TYPE_ERROR id
     MESA_DEBUG_SEVERITY_HIGH = true /\
   4096
   <= Z.of_nat (length (sample_lookup_enum GL_INVALID_VALUE
                        ++ list_ascii_of_string " in "
                        ++ sample_vsnprintf fmtString []))) /\
  let r := _mesa_error 10 4096 sample_record_error sample_vsnprintf sample_lookup_enum false sample_ctx GL_INVALID_VALUE fmtString []
             sample_process in
  fst r = snd (should_output false sample_ctx GL_INVALID_VALUE fmtString) /\
  ErrorValue (fst r) = ErrorValue sample_ctx /\
  Debug (fst r) = Some sample_debug /\
  malloc_results (snd r) = malloc_results sample_process /\
  group_heap (snd r) = group_heap sample_process /\
  freed (snd r) = freed sample_process /\
  callback_calls (snd r) = callback_calls sample_process.
Proof.
  cbv zeta.
  set (fmtString := string_of_list_ascii (replicate 4096 "x"%char)).
  assert (H1 : Debug sample_ctx = Some sample_debug) by reflexivity.
  assert (H2 : debug_is_message_enabled sample_process sample_debug
                 MESA_DEBUG_SOURCE_API MESA_DEBUG_TYPE_ERROR
                 (if error_msg_id sample_process =? 0
                  then NextDynamicID sample_process
                  else error_msg_id sample_process)
                 MESA_DEBUG_SEVERITY_HIGH = true)
    by (vm_compute; reflexivity).
  assert (H3 : 4096
               <= Z.of_nat (length (sample_lookup_enum GL_INVALID_VALUE
                                    ++ list_ascii_of_string " in "
                                    ++ sample_vsnprintf fmtString [])))
    by (apply Z.leb_le; vm_compute; reflexivity).
  exact (conj (conj H1 (conj H2 H3))
           (overlong_error_is_dropped 10 4096 sample_record_error sample_vsnprintf sample_lookup_enum false sample_ctx sample_debug
              GL_INVALID_VALUE fmtString [] sample_process H1 H2 H3)).
Defined.

(** A context without debug state and an allocator that fails at
    once. *)
Lemma no_memory_for_the_state_witness :
  let ctx := mk_context None GL_NO_ERROR None 0 in
  let p := mk_process 1 0 0 [false] ∅ [] [] in
  (record_error_keeps_debug sample_record_error /\ Debug ctx = None /\
   (fst (malloc p) = false \/ fst (malloc (snd (malloc p))) = false)) /\
  let e := _mesa_error 10 4096 sample_record_error sample_vsnprintf sample_lookup_enum false ctx GL_OUT_OF_MEMORY "allocating debug state" []
             (snd (debug_create 10 64 p)) in
  (forall source type id severity len buf,
     log_msg 10 64 4096 sample_record_error sample_vsnprintf sample_lookup_enum false ctx source type id severity len buf p = e) /\
  (forall source id length message,
     _mesa_PushDebugGroup 10 64 4096 sample_record_error sample_vsnprintf sample_lookup_enum false ctx source id length message p = e) /\
  _mesa_PopDebugGroup 10 64 4096 sample_record_error sample_vsnprintf sample_lookup_enum false ctx p = e /\
  (forall callback userParam,
     _mesa_DebugMessageCallback 10 64 4096 sample_record_error sample_vsnprintf sample_lookup_enum false ctx callback userParam p = e) /\
  (forall pname val,
     _mesa_set_debug_state_int 10 64 4096 sample_record_error sample_vsnprintf sample_lookup_enum false ctx pname val p = (false, fst e, snd e)) /\
  (forall count logSize out,
     (messageLog out <> None -> 0 <= logSize) ->
     _mesa_GetDebugMessageLog 10 64 4096 sample_record_error sample_vsnprintf sample_lookup_enum false ctx count logSize out p
     = (0, out, fst e, snd e)) /\
  Debug (fst e) = None /\
  group_heap (snd e) = group_heap p /\
  freed (snd e) = freed p.
Proof.
  cbv zeta.
  set (ctx := mk_context None GL_NO_ERROR None 0).
  set (p := mk_process 1 0 0 [false] ∅ [] []).
  assert (H1 : record_error_keeps_debug sample_record_error) by (intros c e; reflexivity).
  assert (H2 : Debug ctx = None) by reflexivity.
  assert (H3 : fst (malloc p) = false
               \/ fst (malloc (snd (malloc p))) = false)
    by (left; reflexivity).
  exact (conj (conj H1 (conj H2 H3)) (no_memory_for_the_state 10 64 4096 sample_record_error sample_vsnprintf sample_lookup_enum false ctx p H1 H2 H3)).
Defined.

(** A group opened on the sample state. *)
Lemma push_inherits_filters_witness :
  (Debug sample_ctx = Some sample_debug /\
   scoping_source GL_DEBUG_SOURCE_APPLICATION /\
   0 <= GroupStackDepth sample_debug < 64 - 1 /\
   Z.of_nat (length (Groups sample_debug)) = 64 /\
   (if -1 <? 0 then strlen scope_A else -1) < 4096) /\
  let r := _mesa_PushDebugGroup 10 64 4096 sample_record_error sample_vsnprintf sample_lookup_enum false sample_ctx GL_DEBUG_SOURCE_APPLICATION 1 (-1)
             scope_A sample_process in
  exists debug',
    Debug (fst r) = Some debug' /\
    GroupStackDepth debug' = GroupStackDepth sample_debug + 1 /\
    debug_is_group_read_only debug' = true /\
    (forall i, 0 <= i <= GroupStackDepth sample_debug ->
       group_at (snd r) debug' i = group_at sample_process sample_debug i) /\
    group_at (snd r) debug' (GroupStackDepth sample_debug + 1)
    = group_at sample_process sample_debug (GroupStackDepth sample_debug) /\
    forall s t id' severity,
      debug_is_message_enabled (snd r) debug' s t id' severity
      = debug_is_message_enabled sample_process sample_debug s t id'
          severity.
Proof.
  assert (H1 : Debug sample_ctx = Some sample_debug) by reflexivity.
  assert (H2 : scoping_source GL_DEBUG_SOURCE_APPLICATION)
    by (left; reflexivity).
  assert (H3 : 0 <= GroupStackDepth sample_debug
               < 64 - 1) by (cbn; lia).
  assert (H4 : Z.of_nat (length (Groups sample_debug))
               = 64) by reflexivity.
  assert (H5 : (if -1 <? 0 then strlen scope_A else -1)
               < 4096) by (vm_compute; reflexivity).
  exact (conj (conj H1 (conj H2 (conj H3 (conj H4 H5))))
           (push_inherits_filters 10 64 4096 sample_record_error sample_vsnprintf sample_lookup_enum false sample_ctx sample_debug sample_process
              GL_DEBUG_SOURCE_APPLICATION 1 (-1) scope_A H1 H2 H3 H4 H5)).
Defined.

(** A pop on the sample state one group deep. *)
Lemma pop_returns_to_the_enclosing_group_witness :
  let debug := debug_push_group sample_debug in
  let ctx := set_Debug sample_ctx (Some debug) in
  (Debug ctx = Some debug /\
   stack_ok (group_heap sample_process) (Groups debug)
     (GroupStackDepth debug) /\
   0 < GroupStackDepth debug) /\
  let r := _mesa_PopDebugGroup 10 64 4096 sample_record_error sample_vsnprintf sample_lookup_enum false ctx sample_process in
  exists debug',
    Debug (fst r) = Some debug' /\
    GroupStackDepth debug' = GroupStackDepth debug - 1 /\
    Groups debug' !! Z.to_nat (GroupStackDepth debug) = Some None /\
    (forall i, 0 <= i < GroupStackDepth debug ->
       group_at (snd r) debug' i = group_at sample_process debug i) /\
    forall s t id severity,
      debug_is_message_enabled (snd r) debug' s t id severity
      = debug_is_message_enabled sample_process
          (set_GroupStackDepth debug (GroupStackDepth debug - 1))
          s t id severity.
Proof.
  cbv zeta.
  set (debug := debug_push_group sample_debug).
  set (ctx := set_Debug sample_ctx (Some debug)).
  assert (H1 : Debug ctx = Some debug) by reflexivity.
  assert (H2 : stack_ok (group_heap sample_process) (Groups debug)
                 (GroupStackDepth debug))
    by exact (proj2 (proj2 (proj2 sample_pushed_in_shape))).
  assert (H3 : 0 < GroupStackDepth debug) by (vm_compute; reflexivity).
  exact (conj (conj H1 (conj H2 H3))
           (pop_returns_to_the_enclosing_group 10 64 4096 sample_record_error sample_vsnprintf sample_lookup_enum false ctx debug sample_process
              H1 H2 H3)).
Defined.

(** An id disabled on the sample state one group deep. *)
Lemma control_keeps_enclosing_groups_witness :
  let debug := debug_push_group sample_debug in
  let ctx := set_Debug sample_ctx (Some debug) in
  (record_error_keeps_debug sample_record_error /\ Debug ctx = Some debug /\
   debug_ok 10 64 sample_process debug /\ malloc_results sample_process = []) /\
  let r := _mesa_DebugMessageControl 10 64 4096 sample_record_error sample_vsnprintf sample_lookup_enum false ctx GL_DEBUG_SOURCE_APPLICATION
             GL_DEBUG_TYPE_OTHER GL_DONT_CARE 1 [7] false sample_process in
  exists debug',
    Debug (fst r) = Some debug' /\
    GroupStackDepth debug' = GroupStackDepth debug /\
    forall i, 0 <= i < GroupStackDepth debug ->
      group_at (snd r) debug' i = group_at sample_process debug i.
Proof.
  cbv zeta.
  set (debug := debug_push_group sample_debug).
  set (ctx := set_Debug sample_ctx (Some debug)).
  assert (H1 : record_error_keeps_debug sample_record_error) by (intros c e; reflexivity).
  assert (H2 : Debug ctx = Some debug) by reflexivity.
  assert (H3 : debug_ok 10 64 sample_process debug)
    by exact sample_pushed_in_shape.
  assert (H4 : malloc_results sample_process = []) by reflexivity.
  exact (conj (conj H1 (conj H2 (conj H3 H4)))
           (control_keeps_enclosing_groups 10 64 4096 sample_record_error sample_vsnprintf sample_lookup_enum false ctx debug
              GL_DEBUG_SOURCE_APPLICATION GL_DEBUG_TYPE_OTHER GL_DONT_CARE 1
              [7] false sample_process H1 H2 H3 H4)).
Defined.

(** On the sample state: a group is opened, an id is disabled and every
    message of high severity is disabled inside it, the group is
    closed. *)
Lemma group_scopes_filter_changes_witness :
  let cs :=
    [call_DebugMessageControl GL_DEBUG_SOURCE_APPLICATION GL_DEBUG_TYPE_OTHER
       GL_DONT_CARE 1 [7] false;
     call_DebugMessageControl GL_DONT_CARE GL_DONT_CARE
       GL_DEBUG_SEVERITY_HIGH 0 [] false] in
  (record_error_keeps_debug sample_record_error /\
   0 < 10 /\
   Debug sample_ctx = Some sample_debug /\
   debug_inv 10 64 sample_process sample_debug /\
   malloc_results sample_process = [] /\
   scoping_source GL_DEBUG_SOURCE_APPLICATION /\
   GroupStackDepth sample_debug < 64 - 1 /\
   (if -1 <? 0 then strlen scope_A else -1) < 4096 /\
   Forall (fun c => is_control c = true) cs) /\
  let r := run_calls 10 64 4096 sample_record_error sample_vsnprintf sample_lookup_enum false (call_PushDebugGroup GL_DEBUG_SOURCE_APPLICATION 1 (-1)
                        scope_A :: cs ++ [call_PopDebugGroup])
             sample_ctx sample_process in
  exists debug',
    Debug (fst r) = Some debug' /\
    GroupStackDepth debug' = GroupStackDepth sample_debug /\
    forall s t id' severity,
      debug_is_message_enabled (snd r) debug' s t id' severity
      = debug_is_message_enabled sample_process sample_debug s t id'
          severity.
Proof.
  cbv zeta.
  set (cs := [call_DebugMessageControl GL_DEBUG_SOURCE_APPLICATION
                GL_DEBUG_TYPE_OTHER GL_DONT_CARE 1 [7] false;
              call_DebugMessageControl GL_DONT_CARE GL_DONT_CARE
                GL_DEBUG_SEVERITY_HIGH 0 [] false]).
  assert (H1 : record_error_keeps_debug sample_record_error) by (intros c e; reflexivity).
  assert (H2 : 0 < 10) by lia.
  assert (H3 : Debug sample_ctx = Some sample_debug) by reflexivity.
  assert (H4 : debug_inv 10 64 sample_process sample_debug)
    by exact sample_debug_in_shape.
  assert (H5 : malloc_results sample_process = []) by reflexivity.
  assert (H6 : scoping_source GL_DEBUG_SOURCE_APPLICATION)
    by (left; reflexivity).
  assert (H7 : GroupStackDepth sample_debug
               < 64 - 1) by (cbn; lia).
  assert (H8 : (if -1 <? 0 then strlen scope_A else -1)
               < 4096) by (vm_compute; reflexivity).
  assert (H9 : Forall (fun c => is_control c = true) cs)
    by (repeat constructor).
  exact (conj (conj H1 (conj H2 (conj H3 (conj H4 (conj H5 (conj H6
                 (conj H7 (conj H8 H9))))))))
           (group_scopes_filter_changes 10 64 4096 sample_record_error sample_vsnprintf sample_lookup_enum false sample_ctx sample_debug
              sample_process GL_DEBUG_SOURCE_APPLICATION 1 (-1) scope_A cs
              H1 H2 H3 H4 H5 H6 H7 H8 H9)).
Defined.
